(** * Wind-loss engine of IDA2021_WindDamage: a shallow embedding

    The definitions below follow [src/modules/building_losses.py]
    ([characterize_buildings], [calculate_building_losses],
    [aggregate_county_losses]) and the constants of [src/config.py].

    Numbers.  A Python float is a rational ([Q]).  The interpolation, the
    products of the loss calculator and the figures it logs are idealised
    as exact; NaN is outside the model.  The sums of the aggregation are
    not idealised: they go through [float_sum], the builtin [sum] over
    floats, which the environment provides, and [Float64] gives the
    binary64 sum for the closed examples.  The closed examples of the other
    stages use dyadic rationals on which float and rational arithmetic
    agree. *)

From Stdlib Require Import List Sorted String Ascii ZArith QArith Qround Qabs Lia Lqa Bool.
From Stdlib Require DecimalString.
Import ListNotations.

Local Open Scope Q_scope.

(** ** config.py *)

Definition RANDOM_SEED : Z := 121.
Definition BUILDING_DAMAGE_ID : Z := 5.
Definition CONTENTS_DAMAGE_ID : Z := 6.
Definition BUILDING_INVENTORY_CHECKPOINT : string := "nsi_wbId_sr.csv".
Definition TOTAL_LOSS_OUTPUT : string := "TotalLoss.csv".
Definition BUILDING_LOSSES_PATTERN : string := "Losses.csv".
Definition HAZUS_FILES_mapping : string := "Mapping.xlsx".
Definition HAZUS_FILES_damage_functions : string := "huDamLossFunc.csv".
Definition HAZUS_SHEETS_county_mapping : string := "huMappingSchemesByCountyFips".
Definition HAZUS_SHEETS_occ_mapping : string := "huGbsOccMapping".
Definition HAZUS_SHEETS_bldg_mapping : string := "huBldgMapping".
Definition HAZUS_SHEETS_bldg_char : string := "huListofBldgChar".
Definition HAZUS_SHEETS_wind_types : string := "huListOfWindBldgTypes".

(** ** Terrain classification (characterize_buildings, lines 334-345) *)

Module Terrain.

(** The [if]/[elif] chain on [rows['nsi_val.SURFACEROU']], test by test.
    The chained comparison [a < t <= b] is [a < t and t <= b]. *)
Definition terrain_ID (terrain : Q) : Z :=
  if Qle_bool terrain (3 # 100) then 1%Z
  else if negb (Qle_bool terrain (3 # 100)) && Qle_bool terrain (15 # 100) then 2%Z
  else if negb (Qle_bool terrain (15 # 100)) && Qle_bool terrain (35 # 100) then 3%Z
  else if negb (Qle_bool terrain (35 # 100)) && Qle_bool terrain (7 # 10) then 4%Z
  else 5%Z.

Lemma Qle_bool_true (a b : Q) : a <= b -> Qle_bool a b = true.
Proof. intro H. now apply Qle_bool_iff. Qed.

Lemma Qle_bool_false (a b : Q) : b < a -> Qle_bool a b = false.
Proof.
  intro H. destruct (Qle_bool a b) eqn:E; [|reflexivity].
  apply Qle_bool_iff in E. lra.
Qed.

Lemma Qle_bool_spec (a b : Q) : BoolSpec (a <= b) (b < a) (Qle_bool a b).
Proof.
  destruct (Qlt_le_dec b a) as [H|H].
  - rewrite (Qle_bool_false _ _ H). now constructor.
  - rewrite (Qle_bool_true _ _ H). now constructor.
Qed.

Ltac split_terrain r :=
  unfold terrain_ID;
  destruct (Qle_bool_spec r (3 # 100));
  destruct (Qle_bool_spec r (15 # 100));
  destruct (Qle_bool_spec r (35 # 100));
  destruct (Qle_bool_spec r (7 # 10));
  cbn [negb andb].

Lemma terrain_ID_1 (r : Q) : r <= 3 # 100 -> terrain_ID r = 1%Z.
Proof. intro H. split_terrain r; try reflexivity; lra. Qed.

Lemma terrain_ID_2 (r : Q) : 3 # 100 < r -> r <= 15 # 100 -> terrain_ID r = 2%Z.
Proof. intros H1 H2. split_terrain r; try reflexivity; lra. Qed.

Lemma terrain_ID_3 (r : Q) : 15 # 100 < r -> r <= 35 # 100 -> terrain_ID r = 3%Z.
Proof. intros H1 H2. split_terrain r; try reflexivity; lra. Qed.

Lemma terrain_ID_4 (r : Q) : 35 # 100 < r -> r <= 7 # 10 -> terrain_ID r = 4%Z.
Proof. intros H1 H2. split_terrain r; try reflexivity; lra. Qed.

Lemma terrain_ID_5 (r : Q) : 7 # 10 < r -> terrain_ID r = 5%Z.
Proof. intro H. split_terrain r; try reflexivity; lra. Qed.

Lemma terrain_ID_range (r : Q) : (1 <= terrain_ID r <= 5)%Z.
Proof. split_terrain r; lia. Qed.

Lemma terrain_ID_mono (r s : Q) : r <= s -> (terrain_ID r <= terrain_ID s)%Z.
Proof.
  intro H. unfold terrain_ID.
  destruct (Qle_bool_spec r (3 # 100)); destruct (Qle_bool_spec r (15 # 100));
  destruct (Qle_bool_spec r (35 # 100)); destruct (Qle_bool_spec r (7 # 10));
  destruct (Qle_bool_spec s (3 # 100)); destruct (Qle_bool_spec s (15 # 100));
  destruct (Qle_bool_spec s (35 # 100)); destruct (Qle_bool_spec s (7 # 10));
  cbn [negb andb]; try lia; lra.
Qed.

Lemma terrain_ID_compat (r s : Q) : r == s -> terrain_ID r = terrain_ID s.
Proof.
  intro H. apply Z.le_antisymm; apply terrain_ID_mono; lra.
Qed.

End Terrain.


(** ** Python values, exceptions and string primitives *)

Module Py.

Inductive exn : Type :=
| NameError | UnboundLocalError | KeyError | IndexError
| ValueError | TypeError | FileNotFoundError | ParserError
| ReError
| OutsideModel.
(** [ReError] is [re.error], raised for a pattern that is not a regular
    expression.  [OutsideModel] is not a Python exception: it marks a run
    that would compute with NaN, or add up a column of integers, which the
    model does not follow. *)

Inductive result (A : Type) : Type :=
| Ok (a : A)
| Raise (e : exn).
Arguments Ok {A} a.
Arguments Raise {A} e.

Definition rbind {A B : Type} (r : result A) (k : A -> result B) : result B :=
  match r with
  | Ok a => k a
  | Raise e => Raise e
  end.

Fixpoint rmap {A B : Type} (f : A -> result B) (l : list A) : result (list B) :=
  match l with
  | [] => Ok []
  | a :: l' => rbind (f a) (fun b => rbind (rmap f l') (fun bs => Ok (b :: bs)))
  end.

Declare Scope result_scope.
Delimit Scope result_scope with result.
Notation "'let?' x ':=' r 'in' k" := (rbind r (fun x => k))
  (at level 10, x name, r at level 100, k at level 200) : result_scope.

(** A value held in a DataFrame cell: a missing value read from a file
    (NaN), [pd.NA], a string, an integer or a float. *)
Inductive cell : Type :=
| NaN
| NA
| Str (s : string)
| Int (z : Z)
| Float (q : Q).

Definition isna (c : cell) : bool :=
  match c with NaN | NA => true | _ => false end.

(** Elementwise [==] of pandas: numbers compare by value, strings by
    content, a missing value equals nothing. *)
Definition cell_eqb (a b : cell) : bool :=
  match a, b with
  | Str s, Str t => String.eqb s t
  | Int x, Int y => Z.eqb x y
  | Int x, Float q | Float q, Int x => Qeq_bool (inject_Z x) q
  | Float p, Float q => Qeq_bool p q
  | _, _ => false
  end.

(** Sameness in the hash table behind [pandas.unique]: [==], except that a
    missing value is the same as another of its kind. *)
Definition cell_same (a b : cell) : bool :=
  match a, b with
  | NaN, NaN | NA, NA => true
  | _, _ => cell_eqb a b
  end.

(** Python indexing [l[i]] with a possibly negative index. *)
Definition iloc {A : Type} (l : list A) (i : Z) : result A :=
  let n := Z.of_nat (List.length l) in
  let j := if (i <? 0)%Z then (n + i)%Z else i in
  if ((j <? 0) || (n <=? j))%Z then Raise IndexError
  else match nth_error l (Z.to_nat j) with
       | Some a => Ok a
       | None => Raise IndexError
       end.

(** [s[n:]] and [s[:n]] for [n >= 0]. *)
Fixpoint drop (n : nat) (s : string) : string :=
  match n, s with
  | O, _ => s
  | S n', EmptyString => EmptyString
  | S n', String _ s' => drop n' s'
  end.

Fixpoint take (n : nat) (s : string) : string :=
  match n, s with
  | O, _ => EmptyString
  | S n', EmptyString => EmptyString
  | S n', String c s' => String c (take n' s')
  end.

(** [sub in s] for strings. *)
Fixpoint contains (sub s : string) : bool :=
  if String.prefix sub s then true
  else match s with
       | EmptyString => false
       | String _ s' => contains sub s'
       end.

(** [s.find(c)] for a one-character needle: index of the first occurrence,
    or -1. *)
Fixpoint find_char (c : ascii) (s : string) : Z :=
  match s with
  | EmptyString => (-1)%Z
  | String d s' =>
      if Ascii.eqb c d then 0%Z
      else let r := find_char c s' in
           if (r <? 0)%Z then (-1)%Z else (r + 1)%Z
  end.

(** [s[:i]] with [i] as Python takes it: a negative [i] counts from the
    end. *)
Definition take_z (i : Z) (s : string) : string :=
  if (i <? 0)%Z then take (Z.to_nat (Z.of_nat (String.length s) + i)) s
  else take (Z.to_nat i) s.

Definition digit_of (c : ascii) : option Z :=
  let n := Z.of_nat (nat_of_ascii c) in
  if ((48 <=? n) && (n <=? 57))%Z then Some (n - 48)%Z else None.

Fixpoint digits (acc : Z) (s : string) : option Z :=
  match s with
  | EmptyString => Some acc
  | String c s' =>
      match digit_of c with
      | Some d => digits (10 * acc + d)%Z s'
      | None => None
      end
  end.

(** [int(s)] on a string: an optional sign followed by at least one decimal
    digit; anything else raises ValueError.  (Blanks around the number and
    underscores between digits, which Python also accepts, are not
    modelled.) *)
Definition int_of_string (s : string) : result Z :=
  let body sgn t :=
    match t with
    | EmptyString => Raise ValueError
    | _ => match digits 0 t with
           | Some z => Ok (sgn * z)%Z
           | None => Raise ValueError
           end
    end in
  match s with
  | String "-"%char t => body (-1)%Z t
  | String "+"%char t => body 1%Z t
  | _ => body 1%Z s
  end.

(** Truncation toward zero, as [int(x)] does on a float. *)
Definition trunc (q : Q) : Z := Z.quot (Qnum q) (Zpos (Qden q)).

(** [int(c)] on a cell. *)
Definition int_of_cell (c : cell) : result Z :=
  match c with
  | NaN => Raise ValueError
  | NA => Raise TypeError
  | Str s => int_of_string s
  | Int z => Ok z
  | Float q => Ok (trunc q)
  end.

(** The number held by a cell, for arithmetic with a number: a string or
    [pd.NA] has none, and a NaN leaves the model. *)
Definition num_of_cell (c : cell) : result Q :=
  match c with
  | Int z => Ok (inject_Z z)
  | Float q => Ok q
  | Str _ | NA => Raise TypeError
  | NaN => Raise OutsideModel
  end.

(** The float an array conversion makes of a cell. *)
Definition float_of_cell (c : cell) : result Q :=
  match c with
  | Int z => Ok (inject_Z z)
  | Float q => Ok q
  | Str _ => Raise ValueError
  | NA => Raise TypeError
  | NaN => Raise OutsideModel
  end.

(** [d[k] = v] on a dict kept in insertion order. *)
Fixpoint dict_set (k v : string) (d : list (string * string)) : list (string * string) :=
  match d with
  | [] => [(k, v)]
  | (k', v') :: d' =>
      if String.eqb k' k then (k', v) :: d' else (k', v') :: dict_set k v d'
  end.

(** [os.path.join(a, b)] for two components. *)
Fixpoint ends_with_slash (a : string) : bool :=
  match a with
  | EmptyString => false
  | String c EmptyString => Ascii.eqb c "/"%char
  | String _ a' => ends_with_slash a'
  end.

Definition path_join (a b : string) : string :=
  match b with
  | String "/"%char _ => b
  | _ => match a with
         | EmptyString => b
         | _ => if ends_with_slash a then (a ++ b)%string
                else (a ++ "/" ++ b)%string
         end
  end.

(** The characters that are special in a regular expression of [re]; a
    pattern that holds none of them matches as the literal text it is. *)
Definition special (c : ascii) : bool :=
  existsb (Ascii.eqb c)
          ["."; "^"; "$"; "*"; "+"; "?"; "{"; "}"; "["; "]"; "\"; "|"; "("; ")"]%char.

Fixpoint plain_pattern (p : string) : bool :=
  match p with
  | EmptyString => true
  | String c p' => negb (special c) && plain_pattern p'
  end.

(** The float held by a cell of a float column.  A column of integers is
    added up as integers: the model leaves it out, with the NaN. *)
Definition float_cell (c : cell) : result Q :=
  match c with
  | Float q => Ok q
  | Str _ | NA => Raise TypeError
  | Int _ | NaN => Raise OutsideModel
  end.

(** [round(x, 0)] on a float: to the nearest whole number, a tie going to
    the even neighbour. *)
Definition round0 (q : Q) : Z :=
  let f := Qfloor q in
  let d := q - inject_Z f in
  if Qle_bool d (1 # 2) then
    if Qle_bool (1 # 2) d then (if Z.even f then f else f + 1)%Z else f
  else (f + 1)%Z.

(** [pandas.unique]: values in order of first appearance. *)
Fixpoint unique {A : Type} (eqb : A -> A -> bool) (l : list A) : list A :=
  match l with
  | [] => []
  | a :: l' => a :: filter (fun b => negb (eqb a b)) (unique eqb l')
  end.

(** The exact sum [0 + q1 + q2 + ...]. *)
Definition sum (l : list Q) : Q := fold_left Qplus l 0.

End Py.

(** ** numpy.interp on a scalar

    [np.interp(x, xp, fp)] as numpy computes it (arr_interp in
    compiled_base.c) with the default [left = fp[0]] and [right = fp[-1]].
    The index search is numpy's left-to-right scan; numpy switches to
    bisection on longer arrays, which returns the same index whenever [xp]
    is non-decreasing, the only case numpy documents. *)

Module Interp.

Import Py.

Definition Qlt_bool (a b : Q) : bool := negb (Qle_bool b a).

Lemma Qlt_bool_spec (a b : Q) : BoolSpec (a < b) (b <= a) (Qlt_bool a b).
Proof.
  unfold Qlt_bool. destruct (Terrain.Qle_bool_spec b a); now constructor.
Qed.

(** [while (i < len && key >= arr[i]) ++i;] over the entries from [i] on. *)
Fixpoint scan (key : Q) (rest : list Q) (i : nat) : nat :=
  match rest with
  | [] => i
  | a :: rest' => if Qle_bool a key then scan key rest' (S i) else i
  end.

(** [binary_search_with_guess]: [len] above the last entry, -1 below the
    first, otherwise the index [scan] stops at, minus one. *)
Definition binary_search (key : Q) (arr : list Q) : Z :=
  match arr with
  | [] => (-1)%Z
  | a0 :: rest =>
      if Qlt_bool (last arr a0) key then Z.of_nat (List.length arr)
      else if Qlt_bool key a0 then (-1)%Z
      else (Z.of_nat (scan key rest 1) - 1)%Z
  end.

Definition interp_at (x : Q) (xp fp : list Q) : Q :=
  let lval := hd 0 fp in
  let rval := last fp 0 in
  match xp with
  | [xp_val] =>
      if Qlt_bool x xp_val then lval
      else if Qlt_bool xp_val x then rval
      else hd 0 fp
  | _ =>
      let lenxp := Z.of_nat (List.length xp) in
      let j := binary_search x xp in
      if (j =? -1)%Z then lval
      else if (j =? lenxp)%Z then rval
      else if (j =? lenxp - 1)%Z then nth (Z.to_nat j) fp 0
      else if Qeq_bool (nth (Z.to_nat j) xp 0) x then nth (Z.to_nat j) fp 0
      else
        let slope :=
          (nth (S (Z.to_nat j)) fp 0 - nth (Z.to_nat j) fp 0) /
          (nth (S (Z.to_nat j)) xp 0 - nth (Z.to_nat j) xp 0) in
        slope * (x - nth (Z.to_nat j) xp 0) + nth (Z.to_nat j) fp 0
  end.

(** The Python entry point: an empty [xp] and an [fp] of another length are
    rejected with ValueError. *)
Definition np_interp (x : Q) (xp fp : list Q) : result Q :=
  if Nat.eqb (List.length xp) 0 then Raise ValueError
  else if negb (Nat.eqb (List.length fp) (List.length xp)) then Raise ValueError
  else Ok (interp_at x xp fp).















End Interp.

(** ** DataFrames *)

Module Frame.

Import Py.

(** A DataFrame: column labels and rows of cells, one cell per column. *)
Record frame : Type := mkFrame {
  columns : list string;
  rows : list (list cell)
}.

Fixpoint index_of (name : string) (cols : list string) : option nat :=
  match cols with
  | [] => None
  | c :: cols' =>
      if String.eqb c name then Some O
      else match index_of name cols' with
           | Some i => Some (S i)
           | None => None
           end
  end.

(** [row[name]] for a row Series with index [cols]. *)
Definition row_get (cols : list string) (name : string) (r : list cell) : result cell :=
  match index_of name cols with
  | Some i => Ok (nth i r NaN)
  | None => Raise KeyError
  end.

(** [df[name]] as the list of the column's values. *)
Definition column (f : frame) (name : string) : result (list cell) :=
  match index_of name (columns f) with
  | Some i => Ok (map (fun r => nth i r NaN) (rows f))
  | None => Raise KeyError
  end.

(** [df.loc[df[name] == v]]. *)
Definition loc_eq (f : frame) (name : string) (v : cell) : result frame :=
  match index_of name (columns f) with
  | Some i =>
      Ok (mkFrame (columns f) (filter (fun r => cell_eqb (nth i r NaN) v) (rows f)))
  | None => Raise KeyError
  end.

(** A row brought to [n] cells.  The rows of a pandas frame always have one
    cell per label; [fit] only fixes what the definitions below do on a
    record that is not of that shape. *)
Definition fit (n : nat) (r : list cell) : list cell :=
  firstn n r ++ repeat NaN (n - List.length r).

Definition set_nth (i : nat) (a : cell) (r : list cell) : list cell :=
  fit i r ++ a :: skipn (S i) r.

(** [df[name] = values]: an existing column is overwritten in place, a new
    one is added on the right.  [values] has one entry per row. *)
Definition set_column (f : frame) (name : string) (values : list cell) : frame :=
  match index_of name (columns f) with
  | Some i =>
      mkFrame (columns f)
        (map (fun rv => set_nth i (snd rv) (fst rv)) (combine (rows f) values))
  | None =>
      mkFrame (columns f ++ [name])
        (map (fun rv => fit (List.length (columns f)) (fst rv) ++ [snd rv])
             (combine (rows f) values))
  end.

Definition mem (name : string) (names : list string) : bool :=
  existsb (String.eqb name) names.

(** [df.drop(names, axis=1)]: every label must exist. *)
Definition drop_columns (f : frame) (names : list string) : result frame :=
  if forallb (fun n => mem n (columns f)) names then
    Ok (mkFrame
          (filter (fun c => negb (mem c names)) (columns f))
          (map (fun r =>
                  map snd (filter (fun cr => negb (mem (fst cr) names))
                                  (combine (columns f) r)))
               (rows f)))
  else Raise KeyError.

(** [df.values.flatten().tolist()]. *)
Definition flatten (f : frame) : list cell := List.concat (rows f).

Definition len (f : frame) : nat := List.length (rows f).

(** [row.dropna()] on a row Series. *)
Definition dropna (r : list cell) : list cell :=
  filter (fun c => negb (isna c)) r.

End Frame.

(** ** The world the stages run in: files, the log and numpy's generator *)

(** What the engine takes from its libraries: numpy's global generator
    (state after [np.random.seed], one uniform draw in [0, 1)), Python's
    [str] of a float, pandas' readers and writer on file contents, the
    regular expressions of [re], and the builtin [sum] over floats.
    The readers of pandas give NaN for an empty field, not [pd.NA]; the
    membership tests on the values of the mapping workbook are modelled
    for such tables.

    [re_search pat] is [re.compile(pat)] as [str.contains] uses it: the
    exception [re.error] for a pattern that does not compile, or else the
    test [fun s => compiled.search(s) is not None].  The model asks it
    only about patterns that hold a special character.

    [float_sum l] is what the builtin [sum] returns for the floats [l],
    each a binary64 number: the sum with the roundings the interpreter
    makes on the way (one after each addition from left to right before
    Python 3.12, those of a compensated summation since). *)
Class Env : Type := {
  rng_state : Type;
  np_random_seed : Z -> rng_state;
  random_sample : rng_state -> Q * rng_state;
  float_repr : Q -> string;
  read_csv_bytes : string -> Py.result Frame.frame;
  to_csv_bytes : Frame.frame -> string;
  read_excel_bytes : string -> string -> Py.result Frame.frame;
  re_search : string -> Py.result (string -> bool);
  float_sum : list Q -> Q
}.

(** The logger calls that carry data or mark a branch; separator lines and
    fixed headings are left out. *)
Inductive event : Type :=
| LoadingCheckpoint (path : string)
| LoadedCheckpoint (n : nat) (cols : list string)
| UsingCachedCharacterization
| WarnCheckpointError (e : Py.exn)
| RunningFullCharacterization
| LoadingNSI (path : string)
| LoadedBuildings (n : nat)
| LoadingMappingSchemes (file : string)
| LoadedMappingTables
| ErrorLoadingMappings (e : Py.exn)
| CharTypesCount (n : nat)
| CountiesToProcess (n : nat)
| UsingSeed (seed : Z)
| CountyProgress (done total : nat)
| WarnNoScheme (cfip : string)
| ProcessedAllCounties (n : nat)
| CreatedDataFrame (n : nat)
| SavingCheckpoint (path : string)
| CheckpointSaved
| LoadingDamageFunctions (file : string)
| CalculatingScenario (scenario : string)
| OutputExists (path : string)
| LoadedJoined (n : nat)
| ProcessedBuildings (n : nat)
| ProcessedTotal (n : nat)
| LossStatistics (building contents total : Q)
| SavingLosses (path : string)
| LossesDone (scenario : string)
| ErrorCalculating (scenario : string) (e : Py.exn)
| AggOutputExists (path : string)
| AggregatingScenario (scenario : string)
| ErrorLossFileNotFound (path : string)
| LoadingLosses (path : string)
| LoadedLossRecords (n : nat)
| CountiesCount (n : nat)
| ScenarioTotals (building contents total : Q)
| SavingAggregated (path : string)
| FinalSummaryRow (year : Py.cell) (building contents total : Py.cell).

Section World.

Context {E : Env}.

Import Py Frame.

Record world : Type := mkWorld {
  fs : string -> option string;
  log : list event;
  rng : rng_state
}.

(** A computation: it may raise, and what it did to the world stays done.
    Directories are not part of the world: each stage creates the one it
    writes to ([os.makedirs] with [exist_ok]) before anything else. *)
Definition M (A : Type) : Type := world -> result A * world.

Definition ret {A : Type} (a : A) : M A := fun w => (Ok a, w).

Definition bind {A B : Type} (m : M A) (k : A -> M B) : M B :=
  fun w => match m w with
           | (Ok a, w') => k a w'
           | (Raise e, w') => (Raise e, w')
           end.

Definition raise {A : Type} (e : exn) : M A := fun w => (Raise e, w).

(** [try: m except Exception as e: h e]. *)
Definition catch {A : Type} (m : M A) (h : exn -> M A) : M A :=
  fun w => match m w with
           | (Ok a, w') => (Ok a, w')
           | (Raise e, w') => h e w'
           end.

Definition lift {A : Type} (r : result A) : M A := fun w => (r, w).

Definition logger (ev : event) : M unit :=
  fun w => (Ok tt, mkWorld (fs w) (log w ++ [ev]) (rng w)).

Definition path_exists (p : string) : M bool :=
  fun w => (Ok (match fs w p with Some _ => true | None => false end), w).

Definition write_file (p : string) (bytes : string) : M unit :=
  fun w => (Ok tt,
            mkWorld (fun q => if String.eqb q p then Some bytes else fs w q)
                    (log w) (rng w)).

(** [pd.read_csv(p)]. *)
Definition pd_read_csv (p : string) : M frame :=
  fun w => match fs w p with
           | Some bytes => (read_csv_bytes bytes, w)
           | None => (Raise FileNotFoundError, w)
           end.

(** [pd.read_excel(p, sheet_name=sheet)]. *)
Definition pd_read_excel (p sheet : string) : M frame :=
  fun w => match fs w p with
           | Some bytes => (read_excel_bytes bytes sheet, w)
           | None => (Raise FileNotFoundError, w)
           end.

(** [df.to_csv(p, index=False)]. *)
Definition to_csv (f : frame) (p : string) : M unit :=
  write_file p (to_csv_bytes f).

(** [np.random.seed(seed)]. *)
Definition seed_rng (seed : Z) : M unit :=
  fun w => (Ok tt, mkWorld (fs w) (log w) (np_random_seed seed)).

Definition draw_uniform : M Q :=
  fun w => let (u, r) := random_sample (rng w) in
           (Ok u, mkWorld (fs w) (log w) r).

End World.

Declare Scope py_scope.
Delimit Scope py_scope with py.
Notation "x <- m ;; k" := (bind m (fun x => k))
  (at level 61, m at next level, right associativity) : py_scope.
Notation "m ;;; k" := (bind m (fun _ => k))
  (at level 61, right associativity) : py_scope.

(** ** Stage 3B: calculate_building_losses *)

Section Losses.

Context {E : Env}.

Import Py Frame.
Local Open Scope result_scope.
Local Open Scope py_scope.

Definition damage_keys : list string := ["wbID"; "TERRAINID"; "DamLossDescID"]%string.

Definition loss_columns : list string :=
  ["fd_id"; "countyFIPS"; "wbID"; "terrainID"; "Wind_Speed";
   "Building_Loss"; "Contents_Loss"]%string.

(** [huDamLossFunc.loc[(huDamLossFunc['wbID']==wbID) &
    (huDamLossFunc['TERRAINID']==terrain_ID) &
    (huDamLossFunc['DamLossDescID']==desc)]]. *)
Definition loss_func (huDamLossFunc : frame) (wbID terrain_ID desc : Z) : result frame :=
  let cols := columns huDamLossFunc in
  match index_of "wbID" cols, index_of "TERRAINID" cols,
        index_of "DamLossDescID" cols with
  | Some i, Some j, Some k =>
      Ok (mkFrame cols
            (filter (fun r => cell_eqb (nth i r NaN) (Int wbID)
                              && cell_eqb (nth j r NaN) (Int terrain_ID)
                              && cell_eqb (nth k r NaN) (Int desc))
                    (rows huDamLossFunc)))
  | _, _, _ => Raise KeyError
  end.

(** [[int(i[2:]) for i in bldgLossFunc.columns]]. *)
Definition wind_speeds_of (cols : list string) : result (list Z) :=
  rmap (fun i => int_of_string (drop 2 i)) cols.

(** [np.interp(wind_speed, wind_speeds, values) * val]. *)
Definition interp_loss (wind_speed : cell) (wind_speeds : list Z)
           (values : list cell) (val : cell) : result Q :=
  let? x := float_of_cell wind_speed in
  let? fp := rmap float_of_cell values in
  let? ratio := Interp.np_interp x (map inject_Z wind_speeds) fp in
  let? v := num_of_cell val in
  Ok (ratio * v).

(** One pass of the building loop (lines 493-537): [None] is a [continue],
    [Some r] the row appended to [losses]. *)
Definition process_building (nsi_wrf huDamLossFunc : frame) (row : list cell)
  : result (option (list cell)) :=
  let row1 := dropna row in
  let? fdid := iloc row1 1 in
  let? cbfip := iloc row1 3 in
  let? c2 := iloc row1 (-2) in
  let? wbID := int_of_cell c2 in
  let? c1 := iloc row1 (-1) in
  let? terrain_ID := int_of_cell c1 in
  let? wind_df := loc_eq nsi_wrf "fd_id" fdid in
  if Nat.eqb (len wind_df) 0 then Ok None
  else
    let? gusts := column wind_df "Gust_Wind_Speed" in
    let? wind_speed := iloc gusts 0 in
    let? bldgLossFunc := loss_func huDamLossFunc wbID terrain_ID BUILDING_DAMAGE_ID in
    let? contLossFunc := loss_func huDamLossFunc wbID terrain_ID CONTENTS_DAMAGE_ID in
    if Nat.eqb (len bldgLossFunc) 0 || Nat.eqb (len contLossFunc) 0 then Ok None
    else
      let? bldgLossFunc := drop_columns bldgLossFunc damage_keys in
      let? contLossFunc := drop_columns contLossFunc damage_keys in
      let? val_struct := iloc row1 12 in
      let? val_cont := iloc row1 13 in
      let values_str := flatten bldgLossFunc in
      let values_cont := flatten contLossFunc in
      let? wind_speeds := wind_speeds_of (columns bldgLossFunc) in
      let? building_loss := interp_loss wind_speed wind_speeds values_str val_struct in
      let? contents_loss := interp_loss wind_speed wind_speeds values_cont val_cont in
      Ok (Some [fdid; cbfip; Int wbID; Int terrain_ID; wind_speed;
                Float building_loss; Float contents_loss]).

(** The loop over [range(0, len(building_inventory))], with the progress
    line every 10000 buildings processed. *)
Fixpoint loss_loop (nsi_wrf huDamLossFunc : frame) (inventory : list (list cell))
         (losses : list (list cell)) (buildings_processed : nat)
  : M (list (list cell) * nat) :=
  match inventory with
  | [] => ret (losses, buildings_processed)
  | row :: rest =>
      o <- lift (process_building nsi_wrf huDamLossFunc row) ;;
      match o with
      | None => loss_loop nsi_wrf huDamLossFunc rest losses buildings_processed
      | Some r =>
          let n := S buildings_processed in
          (if (Z.of_nat n mod 10000 =? 0)%Z then logger (ProcessedBuildings n)
           else ret tt) ;;;
          loss_loop nsi_wrf huDamLossFunc rest (losses ++ [r]) n
      end
  end.

(** Sum of a numeric column, as [Series.sum()]. *)
Definition column_total (f : frame) (name : string) : Q :=
  match column f name with
  | Ok cs => Py.sum (map (fun c => match num_of_cell c with
                                    | Ok q => q
                                    | Raise _ => 0
                                    end) cs)
  | Raise _ => 0
  end.

(** [pd.DataFrame(losses)] followed by the assignment of seven column
    labels: an empty list gives a frame without columns, and the assignment
    raises ValueError. *)
Definition losses_frame (losses : list (list cell)) : result frame :=
  match losses with
  | [] => Raise ValueError
  | _ => Ok (mkFrame loss_columns losses)
  end.

(** The body of the [try] for one scenario. *)
Definition calculate_scenario_body (building_inventory huDamLossFunc : frame)
           (scenario joined_csv output_csv : string) : M unit :=
  nsi_wrf <- pd_read_csv joined_csv ;;
  logger (LoadedJoined (len nsi_wrf)) ;;;
  r <- loss_loop nsi_wrf huDamLossFunc (rows building_inventory) [] 0 ;;
  logger (ProcessedTotal (snd r)) ;;;
  wind_losses <- lift (losses_frame (fst r)) ;;
  logger (LossStatistics (column_total wind_losses "Building_Loss")
                         (column_total wind_losses "Contents_Loss")
                         (column_total wind_losses "Building_Loss"
                          + column_total wind_losses "Contents_Loss")) ;;;
  logger (SavingLosses output_csv) ;;;
  to_csv wind_losses output_csv ;;;
  logger (LossesDone scenario).

Definition scenario_output (output_dir scenario : string) : string :=
  path_join (path_join output_dir scenario) BUILDING_LOSSES_PATTERN.

#[global] Arguments scenario_output : simpl never.
#[global] Arguments Py.path_join : simpl never.

(** One pass of the scenario loop (lines 465-566). *)
Definition calculate_scenario (building_inventory huDamLossFunc : frame)
           (output_dir : string) (force_rerun : bool)
           (loss_files : list (string * string)) (item : string * string)
  : M (list (string * string)) :=
  let (scenario, joined_csv) := item in
  logger (CalculatingScenario scenario) ;;;
  let output_csv := scenario_output output_dir scenario in
  ex <- path_exists output_csv ;;
  if ex && negb force_rerun then
    logger (OutputExists output_csv) ;;;
    ret (dict_set scenario output_csv loss_files)
  else
    catch (calculate_scenario_body building_inventory huDamLossFunc
                                   scenario joined_csv output_csv)
          (fun e => logger (ErrorCalculating scenario e) ;;; raise e) ;;;
    ret (dict_set scenario output_csv loss_files).

Fixpoint foldM {A B : Type} (f : B -> A -> M B) (l : list A) (b : B) : M B :=
  match l with
  | [] => ret b
  | a :: l' => b' <- f b a ;; foldM f l' b'
  end.

Definition calculate_building_losses (building_inventory : frame)
           (joined_data_paths : list (string * string))
           (hazus_dir output_dir : string) (force_rerun : bool)
  : M (list (string * string)) :=
  let damage_func_file := path_join hazus_dir HAZUS_FILES_damage_functions in
  ex <- path_exists damage_func_file ;;
  if negb ex then raise FileNotFoundError
  else
    logger (LoadingDamageFunctions damage_func_file) ;;;
    huDamLossFunc <- pd_read_csv damage_func_file ;;
    foldM (calculate_scenario building_inventory huDamLossFunc output_dir force_rerun)
          joined_data_paths [].

End Losses.

(** ** Facts about the loss calculator *)

Section LossFacts.

Context {E : Env}.

Import Py Frame.
Local Open Scope result_scope.
Local Open Scope py_scope.

Ltac rstep H :=
  match type of H with
  | rbind ?r _ = _ =>
      let x := fresh "x" in
      let Hx := fresh "Hx" in
      destruct r as [x|] eqn:Hx; cbn [rbind] in H; [|discriminate H]
  | (if ?b then _ else _) = _ =>
      let Hb := fresh "Hb" in
      destruct b eqn:Hb; [discriminate H|]
  end.

(** A present cell of a row sits, once the missing cells are dropped, at
    the position that counts the present cells before it. *)
Lemma dropna_position (pre post : list cell) (c : cell) :
  isna c = false ->
  iloc (dropna (pre ++ c :: post)) (Z.of_nat (List.length (dropna pre))) = Ok c.
Proof.
  intro Hc. unfold dropna. rewrite filter_app. cbn [filter]. rewrite Hc. cbn [negb].
  set (l1 := filter (fun c0 => negb (isna c0)) pre).
  set (l2 := filter (fun c0 => negb (isna c0)) post).
  unfold iloc. cbv zeta. rewrite length_app. cbn [List.length].
  assert (H1 : (Z.of_nat (List.length l1) <? 0)%Z = false) by (apply Z.ltb_ge; lia).
  assert (H2 : (Z.of_nat (List.length l1 + S (List.length l2))
                <=? Z.of_nat (List.length l1))%Z = false) by (apply Z.leb_gt; lia).
  rewrite H1. cbv iota. rewrite H1, H2. cbn [orb].
  rewrite Nat2Z.id, nth_error_app2 by apply Nat.le_refl.
  rewrite Nat.sub_diag. reflexivity.
Qed.

(** What an appended row is made of: the fields read off the building row,
    the two curves selected in the damage table, one list of breakpoints,
    and the two products. *)
Lemma process_building_emit (nsi_wrf huDamLossFunc : frame) (row r : list cell) :
  process_building nsi_wrf huDamLossFunc row = Ok (Some r) ->
  exists fdid cbfip c2 c1 wbID terrain_ID wind_df gusts wind_speed
         bf cf bcurve ccurve val_struct val_cont wind_speeds
         building_loss contents_loss,
    iloc (dropna row) 1 = Ok fdid /\
    iloc (dropna row) 3 = Ok cbfip /\
    iloc (dropna row) (-2) = Ok c2 /\ int_of_cell c2 = Ok wbID /\
    iloc (dropna row) (-1) = Ok c1 /\ int_of_cell c1 = Ok terrain_ID /\
    loc_eq nsi_wrf "fd_id" fdid = Ok wind_df /\
    column wind_df "Gust_Wind_Speed" = Ok gusts /\
    iloc gusts 0 = Ok wind_speed /\
    loss_func huDamLossFunc wbID terrain_ID BUILDING_DAMAGE_ID = Ok bf /\
    loss_func huDamLossFunc wbID terrain_ID CONTENTS_DAMAGE_ID = Ok cf /\
    drop_columns bf damage_keys = Ok bcurve /\
    drop_columns cf damage_keys = Ok ccurve /\
    iloc (dropna row) 12 = Ok val_struct /\
    iloc (dropna row) 13 = Ok val_cont /\
    wind_speeds_of (columns bcurve) = Ok wind_speeds /\
    interp_loss wind_speed wind_speeds (flatten bcurve) val_struct = Ok building_loss /\
    interp_loss wind_speed wind_speeds (flatten ccurve) val_cont = Ok contents_loss /\
    r = [fdid; cbfip; Int wbID; Int terrain_ID; wind_speed;
         Float building_loss; Float contents_loss].
Proof.
  unfold process_building. intro H.
  do 7 rstep H. rstep H. do 4 rstep H. rstep H. do 6 rstep H. rstep H.
  injection H as <-.
  repeat eexists; eauto.
Qed.

(** The two curves of a building are rows of one table: after the key
    columns are dropped they carry the same column labels. *)
Lemma loss_func_columns (huDamLossFunc f : frame) (wbID terrain_ID desc : Z) :
  loss_func huDamLossFunc wbID terrain_ID desc = Ok f ->
  columns f = columns huDamLossFunc.
Proof.
  unfold loss_func. intro H.
  destruct (index_of "wbID" _); [|discriminate].
  destruct (index_of "TERRAINID" _); [|discriminate].
  destruct (index_of "DamLossDescID" _); [|discriminate].
  now injection H as <-.
Qed.

Lemma drop_columns_columns (f g : frame) (names : list string) :
  drop_columns f names = Ok g ->
  columns g = filter (fun c => negb (mem c names)) (columns f).
Proof.
  unfold drop_columns. intro H.
  destruct (forallb _ names); [|discriminate]. now injection H as <-.
Qed.

(** The product inside [interp_loss]. *)
Lemma interp_loss_product (wind_speed : cell) (ws : list Z) (values : list cell)
      (val : cell) (loss : Q) :
  interp_loss wind_speed ws values val = Ok loss ->
  exists x fp ratio v,
    float_of_cell wind_speed = Ok x /\
    rmap float_of_cell values = Ok fp /\
    Interp.np_interp x (map inject_Z ws) fp = Ok ratio /\
    num_of_cell val = Ok v /\
    loss = ratio * v.
Proof.
  unfold interp_loss. intro H. do 4 rstep H. injection H as <-.
  repeat eexists; eauto.
Qed.

(** The rows the loop appends, as a function of the inventory alone. *)
Fixpoint emitted (nsi_wrf huDamLossFunc : frame) (inventory : list (list cell))
  : result (list (list cell)) :=
  match inventory with
  | [] => Ok []
  | row :: rest =>
      let? o := process_building nsi_wrf huDamLossFunc row in
      let? l := emitted nsi_wrf huDamLossFunc rest in
      Ok (match o with Some r => r :: l | None => l end)
  end.

Lemma loss_loop_value (nsi_wrf huDamLossFunc : frame) (inventory : list (list cell)) :
  forall losses n w,
    fst (loss_loop nsi_wrf huDamLossFunc inventory losses n w) =
    let? l := emitted nsi_wrf huDamLossFunc inventory in
    Ok (losses ++ l, (n + List.length l)%nat).
Proof.
  induction inventory as [|row rest IH]; intros losses n w.
  - cbn. now rewrite app_nil_r, Nat.add_0_r.
  - cbn [loss_loop emitted]. unfold bind at 1, lift.
    destruct (process_building nsi_wrf huDamLossFunc row) as [[r|]|e]; cbn [rbind].
    + unfold bind at 1.
      destruct ((Z.of_nat (S n) mod 10000 =? 0)%Z); cbn; rewrite IH;
        destruct (emitted nsi_wrf huDamLossFunc rest); cbn [rbind];
        try reflexivity;
        rewrite <- app_assoc; cbn [app List.length]; f_equal; f_equal; lia.
    + rewrite IH. destruct (emitted nsi_wrf huDamLossFunc rest); reflexivity.
    + reflexivity.
Qed.

Lemma emitted_In (nsi_wrf huDamLossFunc : frame) (inventory : list (list cell)) :
  forall l r,
    emitted nsi_wrf huDamLossFunc inventory = Ok l -> In r l ->
    exists row, In row inventory /\
                process_building nsi_wrf huDamLossFunc row = Ok (Some r).
Proof.
  induction inventory as [|row rest IH]; intros l r H Hin.
  - injection H as <-. destruct Hin.
  - cbn [emitted] in H. rstep H. rstep H. injection H as <-.
    destruct x as [r0|].
    + destruct Hin as [<-|Hin].
      * exists row. split; [now left|assumption].
      * destruct (IH _ _ eq_refl Hin) as (row' & H1 & H2).
        exists row'. split; [now right|assumption].
    + destruct (IH _ _ eq_refl Hin) as (row' & H1 & H2).
      exists row'. split; [now right|assumption].
Qed.

(** A building the loop skips leaves no trace in the rows appended. *)
Lemma emitted_skip (nsi_wrf huDamLossFunc : frame) (before after : list (list cell))
      (row : list cell) :
  process_building nsi_wrf huDamLossFunc row = Ok None ->
  emitted nsi_wrf huDamLossFunc (before ++ row :: after) =
  emitted nsi_wrf huDamLossFunc (before ++ after).
Proof.
  intro H. induction before as [|b before IH]; cbn [app emitted].
  - rewrite H. cbn [rbind]. now destruct (emitted nsi_wrf huDamLossFunc after).
  - now rewrite IH.
Qed.

End LossFacts.

(** ** Stage 3C: aggregate_county_losses *)

Section Aggregate.

Context {E : Env}.

Import Py Frame.
Local Open Scope result_scope.
Local Open Scope py_scope.

(** [str(c)] of a cell value, which is also what [astype(str)] produces. *)
Definition py_str (c : cell) : string :=
  match c with
  | NaN => "nan"
  | NA => "<NA>"
  | Str s => s
  | Int z => DecimalString.NilZero.string_of_int (Z.to_int z)
  | Float q => float_repr q
  end.

(** [df[name].astype(str).str[:5]]. *)
Definition county_codes (f : frame) (name : string) : result (list cell) :=
  let? cs := column f name in
  Ok (map (fun c => Str (take 5 (py_str c))) cs).

Definition county_columns : list string :=
  ["cfips"; "Building_Loss"; "Contents_Loss"]%string.

Definition summary_columns : list string :=
  ["Year"; "Building"; "Contents"; "Total"]%string.

(** Builtin [sum] over floats: the integer [0] for none, and else the
    floats added as the interpreter adds them. *)
Definition py_sum (qs : list Q) : Q :=
  match qs with
  | [] => 0
  | _ => float_sum qs
  end.

(** [sum(df[name])] over the values of a float column. *)
Definition sum_column (l : list cell) : result Q :=
  let? qs := rmap float_cell l in
  Ok (py_sum qs).

(** One pass of the county loop (lines 676-680). *)
Definition county_losses (df_indiv : frame) (cfip : cell) : result (list cell) :=
  let? df := loc_eq df_indiv "UcountyFIPS" cfip in
  let? bs := column df "Building_Loss" in
  let? bldg_loss := sum_column bs in
  let? cs := column df "Contents_Loss" in
  let? cnt_loss := sum_column cs in
  Ok [cfip; Float bldg_loss; Float cnt_loss].

(** [pd.DataFrame(rows)] followed by the assignment of [labels]: no row
    gives no column, and the assignment raises ValueError. *)
Definition labelled_frame (labels : list string) (rs : list (list cell)) : result frame :=
  match rs with
  | [] => Raise ValueError
  | _ => Ok (mkFrame labels rs)
  end.

(** Lines 669-688 for one loaded loss table: the county table and the three
    totals. *)
Definition scenario_totals (df_indiv : frame) : result (frame * (Q * Q * Q)) :=
  let? codes := county_codes df_indiv "countyFIPS" in
  let df_indiv := set_column df_indiv "UcountyFIPS" codes in
  let cfips := map (fun c => Str (py_str c)) (unique cell_same codes) in
  let? losses_county := rmap (county_losses df_indiv) cfips in
  let? df_county_losses := labelled_frame county_columns losses_county in
  let? bs := column df_county_losses "Building_Loss" in
  let? sb := sum_column bs in
  let total_bldg := inject_Z (round0 sb) in
  let? cs := column df_county_losses "Contents_Loss" in
  let? sc := sum_column cs in
  let total_cont := inject_Z (round0 sc) in
  let total_all := total_bldg + total_cont in
  Ok (df_county_losses, (total_bldg, total_cont, total_all)).

(** One pass of the scenario loop (lines 657-695). *)
Definition aggregate_scenario (total_losses : list (list cell)) (item : string * string)
  : M (list (list cell)) :=
  let (scenario, losses_csv) := item in
  logger (AggregatingScenario scenario) ;;;
  ex <- path_exists losses_csv ;;
  if negb ex then
    logger (ErrorLossFileNotFound losses_csv) ;;; raise FileNotFoundError
  else
    logger (LoadingLosses losses_csv) ;;;
    df_indiv <- pd_read_csv losses_csv ;;
    logger (LoadedLossRecords (len df_indiv)) ;;;
    codes <- lift (county_codes df_indiv "countyFIPS") ;;
    logger (CountiesCount (List.length (unique cell_same codes))) ;;;
    t <- lift (scenario_totals df_indiv) ;;
    let '(_, (total_bldg, total_cont, total_all)) := t in
    logger (ScenarioTotals total_bldg total_cont total_all) ;;;
    ret (total_losses ++
         [[Str scenario; Float total_bldg; Float total_cont; Float total_all]]).

Definition log_summary_row (row : list cell) : M unit :=
  logger (FinalSummaryRow (nth 0 row NA) (nth 1 row NA) (nth 2 row NA) (nth 3 row NA)).

Definition aggregate_county_losses (loss_data_paths : list (string * string))
           (output_dir : string) (force_rerun : bool) : M string :=
  let output_csv := path_join output_dir TOTAL_LOSS_OUTPUT in
  ex <- path_exists output_csv ;;
  if ex && negb force_rerun then
    logger (AggOutputExists output_csv) ;;;
    ret output_csv
  else
    total_losses <- foldM aggregate_scenario loss_data_paths [] ;;
    df <- lift (labelled_frame summary_columns total_losses) ;;
    logger (SavingAggregated output_csv) ;;;
    to_csv df output_csv ;;;
    foldM (fun _ row => log_summary_row row) (rows df) tt ;;;
    ret output_csv.

End Aggregate.

(** ** Stage 3A: characterize_buildings *)

Section Characterize.

Context {E : Env}.

Import Py Frame.
Local Open Scope result_scope.
Local Open Scope py_scope.

Fixpoint mapM {A B : Type} (f : A -> M B) (l : list A) : M (list B) :=
  match l with
  | [] => ret []
  | a :: l' => b <- f a ;; bs <- mapM f l' ;; ret (b :: bs)
  end.

(** [x in l] on a Python list of cell values. *)
Definition cell_in (x : cell) (l : list cell) : bool := existsb (cell_eqb x) l.

(** [l.remove(x)]: the first entry equal to [x] goes (the code calls it
    only after [x in l]). *)
Fixpoint list_remove (x : cell) (l : list cell) : list cell :=
  match l with
  | [] => []
  | a :: l' => if cell_eqb a x then l' else a :: list_remove x l'
  end.

(** [i/100] on a table value: a missing value stays what it is. *)
Definition percent (c : cell) : result cell :=
  match c with
  | Int z => Ok (Float (inject_Z z / 100))
  | Float q => Ok (Float (q / 100))
  | NaN => Ok NaN
  | NA => Ok NA
  | Str _ => Raise TypeError
  end.

(** The double an array conversion makes of an entry of [p]; [None] stands
    for a NaN. *)
Definition double_of_cell (c : cell) : result (option Q) :=
  match c with
  | Int z => Ok (Some (inject_Z z))
  | Float q => Ok (Some q)
  | NaN => Ok None
  | NA => Raise TypeError
  | Str _ => Raise ValueError
  end.

Fixpoint all_some (l : list (option Q)) : option (list Q) :=
  match l with
  | [] => Some []
  | Some q :: l' => match all_some l' with
                    | Some qs => Some (q :: qs)
                    | None => None
                    end
  | None :: _ => None
  end.

Fixpoint cumsum (acc : Q) (p : list Q) : list Q :=
  match p with
  | [] => []
  | q :: p' => (acc + q) :: cumsum (acc + q) p'
  end.

(** The tolerance of the sum test in [choice]: the square root of the
    double-precision epsilon, 2^-26. *)
Definition choice_atol : Q := 1 # 67108864.

(** [np.random.choice(a, p=p)] for one sample: the argument checks, one
    uniform draw, and the inverse of the normalised cumulative sums
    ([searchsorted] on the right side). *)
Definition np_random_choice (a : list cell) (p : list cell) : M cell :=
  if Nat.eqb (List.length a) 0 then raise ValueError
  else
    p <- lift (rmap double_of_cell p) ;;
    if negb (Nat.eqb (List.length p) (List.length a)) then raise ValueError
    else
      match all_some p with
      | None => raise ValueError
      | Some ps =>
          if existsb (fun q => Interp.Qlt_bool q 0) ps then raise ValueError
          else if Interp.Qlt_bool choice_atol (Qabs (Py.sum ps - 1)) then raise ValueError
          else
            u <- draw_uniform ;;
            let cdf := cumsum 0 ps in
            let total := last cdf 0 in
            let idx := List.length
                         (filter (fun c => Qle_bool (c / total) u) cdf) in
            lift (iloc a (Z.of_nat idx))
      end.

(** [df[name].apply(lambda x: np.random.choice(a, p=p))]: one draw per row,
    top to bottom. *)
Definition apply_choice (df : frame) (a : list cell) (p : list cell) : M (list cell) :=
  mapM (fun _ => np_random_choice a p) (rows df).

(** [df[names]] for a list of labels. *)
Definition select_columns (f : frame) (names : list string) : result frame :=
  let? idx := rmap (fun n => match index_of n (columns f) with
                              | Some i => Ok i
                              | None => Raise KeyError
                              end) names in
  Ok (mkFrame names (map (fun r => map (fun i => nth i r NaN) idx) (rows f))).

(** The slice of the subtype columns a building type selects (lines
    239-250); [None] is the [continue].  A comparison with [pd.NA] has no
    truth value, and the first [if] raises TypeError. *)
Definition subtype_names (bldgType : cell) (Occschemes : list string)
  : result (option (list string)) :=
  match bldgType with
  | NA => Raise TypeError
  | _ =>
      Ok (if cell_eqb bldgType (Str "W") then Some (firstn 5 Occschemes)
          else if cell_eqb bldgType (Str "M") then Some (firstn 14 (skipn 5 Occschemes))
          else if cell_eqb bldgType (Str "C") then Some (firstn 6 (skipn 19 Occschemes))
          else if cell_eqb bldgType (Str "S") then Some (firstn 9 (skipn 25 Occschemes))
          else if cell_eqb bldgType (Str "H") then Some (skipn 34 Occschemes)
          else None)
  end.

(** Order on cell values used by [sort_values]. *)
Definition cell_leb (a b : cell) : bool :=
  match num_of_cell a, num_of_cell b with
  | Ok x, Ok y => Qle_bool x y
  | Ok _, Raise _ => true
  | Raise _, Ok _ => false
  | Raise _, Raise _ =>
      match a, b with
      | Str s, Str t => String.leb s t
      | Str _, _ => true
      | _, _ => false
      end
  end.

Fixpoint insert_row (i : nat) (r : list cell) (sorted : list (list cell)) : list (list cell) :=
  match sorted with
  | [] => [r]
  | r' :: rest =>
      if cell_leb (nth i r' NaN) (nth i r NaN) then r' :: insert_row i r rest
      else r :: r' :: rest
  end.

(** [df.sort_values(by=[name])]; rows with equal keys keep their order
    here, where pandas' default sort leaves it open. *)
Definition sort_values (f : frame) (name : string) : result frame :=
  match index_of name (columns f) with
  | Some i => Ok (mkFrame (columns f)
                    (fold_left (fun acc r => insert_row i r acc) (rows f) []))
  | None => Raise KeyError
  end.

(** [df[df[name].isin(values)]]. *)
Definition loc_isin (f : frame) (name : string) (values : list cell) : result frame :=
  match index_of name (columns f) with
  | Some i => Ok (mkFrame (columns f)
                    (filter (fun r => cell_in (nth i r NaN) values) (rows f)))
  | None => Raise KeyError
  end.

(** The test [str.contains(pat)] applies to each string, [regex=True]
    being the default: the pattern is compiled as a regular expression
    before any string is looked at, and searched for in the string.  A
    pattern without special characters is searched for as it stands. *)
Definition str_contains (pat : string) : result (string -> bool) :=
  if plain_pattern pat then Ok (contains pat) else re_search pat.

(** [df[df[name].str.contains(pat, na=False)]].  The pattern must be a
    string; a cell that is not a string does not match. *)
Definition loc_contains (f : frame) (name : string) (pat : cell) : result frame :=
  match index_of name (columns f) with
  | Some i =>
      match pat with
      | Str p =>
          let? found := str_contains p in
          Ok (mkFrame (columns f)
                (filter (fun r => match nth i r NaN with
                                  | Str d => found d
                                  | _ => false
                                  end) (rows f)))
      | _ => Raise TypeError
      end
  | None => Raise KeyError
  end.

(** The label a characteristic type gives its column. *)
Definition label (charType : cell) : string := py_str charType.

(** Lines 308-317: the copy of [char_desc] with the garage characteristic
    that does not fit the sampled shutters taken out. *)
Definition shutter_rule (cols : list string) (rows_ : list cell) (char_desc : list cell)
  : result (list cell) :=
  if cell_in (Str "Shutters") char_desc then
    let? sh := row_get cols "Shutters" rows_ in
    if cell_eqb sh (Str "shtys") then
      if cell_in (Str "Garage, Houses w/out Shutters") char_desc
      then Ok (list_remove (Str "Garage, Houses w/out Shutters") char_desc)
      else Ok char_desc
    else
      if cell_in (Str "Garage, Houses with Shutters") char_desc
      then Ok (list_remove (Str "Garage, Houses with Shutters") char_desc)
      else Ok char_desc
  else Ok char_desc.

(** Lines 320-323: one filter per characteristic, kept only when it leaves
    a candidate. *)
Fixpoint match_characteristics (cols : list string) (rows_ : list cell)
         (char_desc1 : list cell) (wbId_df : frame) : result frame :=
  match char_desc1 with
  | [] => Ok wbId_df
  | char :: rest =>
      let? v := row_get cols (label char) rows_ in
      let? sample1 := loc_contains wbId_df "charDescription" v in
      if negb (Nat.eqb (len sample1) 0)
      then match_characteristics cols rows_ rest sample1
      else match_characteristics cols rows_ rest wbId_df
  end.

(** Lines 325-332. *)
Definition first_wbID (wbID : list cell) : cell :=
  match wbID with
  | [] => NA
  | w :: _ => w
  end.

(** Lines 306-332 for one building row. *)
Definition resolve_wbID (huListOfWindBldgTypes : frame) (sbt : cell)
           (cols : list string) (rows_ : list cell) (char_desc : list cell)
  : result cell :=
  let? wbId_df := loc_eq huListOfWindBldgTypes "sbtName" sbt in
  let? char_desc1 := shutter_rule cols rows_ char_desc in
  let? wbId_df := match_characteristics cols rows_ char_desc1 wbId_df in
  let? wbID := column wbId_df "wbID" in
  Ok (first_wbID wbID).

(** Lines 335-345 on the cell read from the row: a NaN fails every
    comparison and falls to the last branch, a string cannot be compared. *)
Definition terrain_of_cell (terrain : cell) : result Z :=
  match terrain with
  | Int z => Ok (Terrain.terrain_ID (inject_Z z))
  | Float q => Ok (Terrain.terrain_ID q)
  | NaN => Ok 5%Z
  | Str _ | NA => Raise TypeError
  end.

(** Lines 305-351 for one row of [df3]: the list appended to
    [building_list]. *)
Definition characterize_row (huListOfWindBldgTypes : frame) (sbt : cell)
           (cols : list string) (char_desc : list cell) (rows_ : list cell)
  : result (list cell) :=
  let? wbID := resolve_wbID huListOfWindBldgTypes sbt cols rows_ char_desc in
  let? terrain := row_get cols "nsi_val.SURFACEROU" rows_ in
  let? terrain_ID := terrain_of_cell terrain in
  let datas := map (fun i => Str (py_str i)) rows_ in
  Ok (datas ++ [wbID] ++ [Str (py_str (Int terrain_ID))]).

(** The tables read from the mapping workbook. *)
Record hazus : Type := mkHazus {
  huMappingSchemesByCountyFips : frame;
  huGbsOccMapping : frame;
  huBldgMapping : frame;
  huListofBldgChar : frame;
  huListOfWindBldgTypes : frame
}.

(** What the loops carry: [building_list], and the index of the variable
    [rows] once a building row has been visited. *)
Definition acc : Type := (list (list cell) * option (list string))%type.

(** The loop of lines 304-351 over the rows of [df3]: every row visited is
    appended, and [rows] is bound to it. *)
Fixpoint append_rows (huListOfWindBldgTypes : frame) (sbt : cell)
         (cols : list string) (char_desc : list cell)
         (df3_rows : list (list cell)) (st : acc) : result acc :=
  match df3_rows with
  | [] => Ok st
  | rows_ :: rest =>
      let? datas := characterize_row huListOfWindBldgTypes sbt cols char_desc rows_ in
      append_rows huListOfWindBldgTypes sbt cols char_desc rest
                  (fst st ++ [datas], Some cols)
  end.

(** Lines 277-301 for one characteristic type: the frame with the column
    added, and [char_desc]. *)
Definition assign_characteristic (seed : Z) (hz : hazus) (huBldg : frame)
           (bldgCharId : list cell) (st : frame * list cell) (charType : cell)
  : M (frame * list cell) :=
  let (df3, char_desc) := st in
  main <- lift (loc_eq (huListofBldgChar hz) "CharType" charType) ;;
  main_list <- lift (column main "BldgCharID") ;;
  if existsb (fun item => cell_in item bldgCharId) main_list then
    bldgChar <- lift (column main "BldgChar") ;;
    probs_df <- lift (loc_isin huBldg "BLDGCHARID" main_list) ;;
    probs_df <- lift (sort_values probs_df "BLDGCHARID") ;;
    pd <- lift (column probs_df "PercentDist") ;;
    probs <- lift (rmap percent pd) ;;
    let bldgChar1 :=
      if Nat.ltb (List.length probs) (List.length bldgChar)
      then firstn (List.length probs) bldgChar else bldgChar in
    let df3 := set_column df3 (label charType) (map (fun _ => NA) (rows df3)) in
    seed_rng seed ;;;
    vs <- apply_choice df3 bldgChar1 probs ;;
    ret (set_column df3 (label charType) vs, char_desc ++ [charType])
  else
    ret (set_column df3 (label charType) (map (fun _ => NA) (rows df3)), char_desc).

(** Lines 262-351 for one sampled subtype. *)
Definition characterize_subtype (seed : Z) (hz : hazus) (charTypes : list cell)
           (huBldgSchemeName : cell) (df2 : frame) (st : acc) (sbt : cell) : M acc :=
  df3 <- lift (loc_eq df2 "sbtName" sbt) ;;
  hb <- lift (loc_eq (huBldgMapping hz) "huBldgSchemeName" huBldgSchemeName) ;;
  huBldg <- lift (loc_eq hb "sbtName" sbt) ;;
  if Nat.eqb (len huBldg) 0 then ret st
  else
    bldgCharId <- lift (column huBldg "BLDGCHARID") ;;
    r <- foldM (assign_characteristic seed hz huBldg bldgCharId) charTypes (df3, []) ;;
    let (df3, char_desc) := r in
    lift (append_rows (huListOfWindBldgTypes hz) sbt (columns df3) char_desc
                      (rows df3) st).

(** Lines 235-351 for one building type. *)
Definition characterize_bldgtype (seed : Z) (hz : hazus) (charTypes : list cell)
           (huBldgSchemeName : cell) (huOcc : frame) (df1 : frame) (st : acc)
           (bldgType : cell) : M acc :=
  df2 <- lift (loc_eq df1 "bldgtype" bldgType) ;;
  names <- lift (subtype_names bldgType (skipn 2 (columns huOcc))) ;;
  match names with
  | None => ret st
  | Some sbtNames =>
      sel <- lift (select_columns huOcc sbtNames) ;;
      OccMapProb <- lift (rmap percent (flatten sel)) ;;
      let df2 := set_column df2 "sbtName" (map (fun _ => NA) (rows df2)) in
      seed_rng seed ;;;
      vs <- apply_choice df2 (map Str sbtNames) OccMapProb ;;
      let df2 := set_column df2 "sbtName" vs in
      foldM (characterize_subtype seed hz charTypes huBldgSchemeName df2)
            (unique cell_same vs) st
  end.

(** Lines 223-225: the occupancy code cut at its first hyphen. *)
Definition base_occupancy (occ : cell) : result cell :=
  match occ with
  | Str s =>
      if contains "-" s then Ok (Str (take_z (find_char "-" s) s)) else Ok occ
  | _ => Raise TypeError
  end.

(** Lines 219-351 for one occupancy type. *)
Definition characterize_occtype (seed : Z) (hz : hazus) (charTypes : list cell)
           (huBldgSchemeName : cell) (huOccMap : frame) (df0 : frame) (st : acc)
           (occ : cell) : M acc :=
  df1 <- lift (loc_eq df0 "occtype" occ) ;;
  occ <- lift (base_occupancy occ) ;;
  huOcc <- lift (loc_eq huOccMap "Occupancy" occ) ;;
  if Nat.eqb (len huOcc) 0 then ret st
  else
    bts <- lift (column df1 "bldgtype") ;;
    foldM (characterize_bldgtype seed hz charTypes huBldgSchemeName huOcc df1)
          (unique cell_same bts) st.

(** Lines 207-210: the scheme of a county, any failure included. *)
Definition county_scheme (hz : hazus) (cfip : string) : result cell :=
  let? n := int_of_string cfip in
  let? m := loc_eq (huMappingSchemesByCountyFips hz) "CountyFIPS" (Int n) in
  let? r := iloc (rows m) 0 in
  row_get (columns m) "huBldgSchemeName" r.

(** Lines 200-202: the progress line every tenth county. *)
Definition county_progress (county_count total : nat) : M unit :=
  if Nat.eqb (county_count mod 10) 0
  then logger (CountyProgress county_count total) else ret tt.

(** Lines 215-351 for one county that has a scheme. *)
Definition characterize_occtypes (seed : Z) (hz : hazus) (charTypes : list cell)
           (huBldgSchemeName : cell) (df0 : frame) (a : acc) : M acc :=
  huOccMap <- lift (loc_eq (huGbsOccMapping hz) "huOccMapSchemeName"
                           huBldgSchemeName) ;;
  occs <- lift (column df0 "occtype") ;;
  foldM (characterize_occtype seed hz charTypes huBldgSchemeName huOccMap df0)
        (unique cell_same occs) a.

(** Lines 197-351 for one county; [county_count] is incremented first. *)
Definition characterize_county (seed : Z) (hz : hazus) (charTypes : list cell)
           (nsi_cb : frame) (total : nat) (st : acc * nat) (cfip : string)
  : M (acc * nat) :=
  let county_count := S (snd st) in
  county_progress county_count total ;;;
  df0 <- lift (loc_eq nsi_cb "countyFIPS" (Str cfip)) ;;
  match county_scheme hz cfip with
  | Raise _ =>
      logger (WarnNoScheme cfip) ;;; ret (fst st, county_count)
  | Ok huBldgSchemeName =>
      a <- characterize_occtypes seed hz charTypes huBldgSchemeName df0 (fst st) ;;
      ret (a, county_count)
  end.

(** Lines 186-353: the seeding and the loop over the counties. *)
Definition characterize_loop (hz : hazus) (charTypes : list cell) (nsi_cb : frame)
           (cfips : list string) : M (acc * nat) :=
  let seed := RANDOM_SEED in
  seed_rng seed ;;;
  logger (UsingSeed seed) ;;;
  r <- foldM (characterize_county seed hz charTypes nsi_cb (List.length cfips))
             cfips (([], None), O) ;;
  logger (ProcessedAllCounties (snd r)) ;;;
  ret r.

(** Line 182, [[str(io) for i in nsi_cb['countyFIPS'].unique()]]: the
    element expression names [io], which is bound nowhere in the function
    or the module, so the first element evaluated raises NameError. *)
Definition cfips_comprehension (uniq : list cell) : result (list string) :=
  match uniq with
  | [] => Ok []
  | _ :: _ => Raise NameError
  end.

(** Lines 357-358: [rows] is assigned only inside the loop over building
    rows; read before that it raises UnboundLocalError. *)
Definition final_frame (st : acc) : result frame :=
  match snd st with
  | None => Raise UnboundLocalError
  | Some index => Ok (mkFrame (index ++ ["wbID"; "terrainID"]%string) (fst st))
  end.

Definition read_hazus (mapping_file : string) : M hazus :=
  t1 <- pd_read_excel mapping_file HAZUS_SHEETS_county_mapping ;;
  t2 <- pd_read_excel mapping_file HAZUS_SHEETS_occ_mapping ;;
  t3 <- pd_read_excel mapping_file HAZUS_SHEETS_bldg_mapping ;;
  t4 <- pd_read_excel mapping_file HAZUS_SHEETS_bldg_char ;;
  t5 <- pd_read_excel mapping_file HAZUS_SHEETS_wind_types ;;
  logger LoadedMappingTables ;;;
  ret (mkHazus t1 t2 t3 t4 t5).

(** Lines 136-359: the classification pass, from the inventory to the
    frame that is about to be saved. *)
Definition build_inventory (nsi_data : string + frame) (hazus_dir : string) : M frame :=
  logger RunningFullCharacterization ;;;
  nsi_cb <- match nsi_data with
            | inl path => logger (LoadingNSI path) ;;; pd_read_csv path
            | inr df => ret df
            end ;;
  logger (LoadedBuildings (len nsi_cb)) ;;;
  let mapping_file := path_join hazus_dir HAZUS_FILES_mapping in
  ex <- path_exists mapping_file ;;
  if negb ex then raise FileNotFoundError
  else
    logger (LoadingMappingSchemes mapping_file) ;;;
    hz <- catch (read_hazus mapping_file)
                (fun e => logger (ErrorLoadingMappings e) ;;; raise e) ;;
    cts <- lift (column (huListofBldgChar hz) "CharType") ;;
    let charTypes := unique cell_same cts in
    logger (CharTypesCount (List.length charTypes)) ;;;
    codes <- lift (county_codes nsi_cb "cbfips") ;;
    let nsi_cb := set_column nsi_cb "countyFIPS" codes in
    cfips <- lift (cfips_comprehension (unique cell_same codes)) ;;
    logger (CountiesToProcess (List.length cfips)) ;;;
    r <- characterize_loop hz charTypes nsi_cb cfips ;;
    building_data <- lift (final_frame (fst r)) ;;
    logger (CreatedDataFrame (len building_data)) ;;;
    ret building_data.

(** Lines 136-371: the classification pass [builder], then the save. *)
Definition build_and_save (checkpoint_path : string) (builder : M frame) : M frame :=
  building_data <- builder ;;
  logger (SavingCheckpoint checkpoint_path) ;;;
  to_csv building_data checkpoint_path ;;;
  logger CheckpointSaved ;;;
  ret building_data.

(** Lines 119-135 and 361-371, around any classification pass [builder]:
    the checkpoint is loaded when it is there, readable and not overridden;
    otherwise the pass runs and its frame is saved. *)
Definition load_or_build (checkpoint_path : string) (builder : M frame)
           (force_rerun : bool) : M frame :=
  ex <- path_exists checkpoint_path ;;
  loaded <- (if ex && negb force_rerun then
               logger (LoadingCheckpoint checkpoint_path) ;;;
               catch (building_data <- pd_read_csv checkpoint_path ;;
                      logger (LoadedCheckpoint (len building_data)
                                               (columns building_data)) ;;;
                      logger UsingCachedCharacterization ;;;
                      ret (Some building_data))
                     (fun e => logger (WarnCheckpointError e) ;;; ret None)
             else ret None) ;;
  match loaded with
  | Some building_data => ret building_data
  | None => build_and_save checkpoint_path builder
  end.

Definition characterize_buildings (nsi_data : string + frame)
           (hazus_dir output_dir : string) (force_rerun : bool) : M frame :=
  load_or_build (path_join output_dir BUILDING_INVENTORY_CHECKPOINT)
                (build_inventory nsi_data hazus_dir) force_rerun.

End Characterize.

(** ** What the stages do to the files *)

Section FileFacts.

Context {E : Env}.

Import Py Frame.
Local Open Scope result_scope.
Local Open Scope py_scope.

(** [touches P m]: running [m] leaves every file as it was, except that a
    path in [P] may have been written, and then it exists. *)
Definition touches (P : string -> Prop) {A : Type} (m : M A) : Prop :=
  forall w p,
    fs (snd (m w)) p = fs w p \/ (P p /\ fs (snd (m w)) p <> None).

Lemma touches_weaken (P Q : string -> Prop) {A : Type} (m : M A) :
  (forall p, P p -> Q p) -> touches P m -> touches Q m.
Proof.
  intros HPQ H w p. destruct (H w p) as [H1|[H1 H2]]; [now left|right; auto].
Qed.

Lemma touches_ret (P : string -> Prop) {A : Type} (a : A) : touches P (ret a).
Proof. intros w p. now left. Qed.

Lemma touches_raise (P : string -> Prop) {A : Type} (e : exn) :
  touches P (raise (A := A) e).
Proof. intros w p. now left. Qed.

Lemma touches_lift (P : string -> Prop) {A : Type} (r : result A) : touches P (lift r).
Proof. intros w p. now left. Qed.

Lemma touches_logger (P : string -> Prop) (ev : event) : touches P (logger ev).
Proof. intros w p. now left. Qed.

Lemma touches_path_exists (P : string -> Prop) (q : string) : touches P (path_exists q).
Proof. intros w p. now left. Qed.

Lemma touches_seed_rng (P : string -> Prop) (seed : Z) : touches P (seed_rng seed).
Proof. intros w p. now left. Qed.

Lemma touches_draw_uniform (P : string -> Prop) : touches P draw_uniform.
Proof. intros w p. unfold draw_uniform. destruct (random_sample (rng w)). now left. Qed.

Lemma touches_read_csv (P : string -> Prop) (q : string) : touches P (pd_read_csv q).
Proof. intros w p. unfold pd_read_csv. destruct (fs w q); now left. Qed.

Lemma touches_read_excel (P : string -> Prop) (q sheet : string) :
  touches P (pd_read_excel q sheet).
Proof. intros w p. unfold pd_read_excel. destruct (fs w q); now left. Qed.

Lemma touches_to_csv (P : string -> Prop) (f : frame) (q : string) :
  P q -> touches P (to_csv f q).
Proof.
  intros HP w p. unfold to_csv, write_file. cbn.
  destruct (String.eqb_spec p q) as [->|Hne]; [right|now left].
  split; [assumption|discriminate].
Qed.

Lemma touches_bind (P : string -> Prop) {A B : Type} (m : M A) (k : A -> M B) :
  touches P m -> (forall a, touches P (k a)) -> touches P (bind m k).
Proof.
  intros Hm Hk w p. unfold bind. specialize (Hm w p).
  destruct (m w) as [[a|e] w1]; cbn [snd] in *.
  - destruct (Hk a w1 p) as [H|[H1 H2]].
    + rewrite H. exact Hm.
    + right. now split.
  - exact Hm.
Qed.

Lemma touches_catch (P : string -> Prop) {A : Type} (m : M A) (h : exn -> M A) :
  touches P m -> (forall e, touches P (h e)) -> touches P (catch m h).
Proof.
  intros Hm Hh w p. unfold catch. specialize (Hm w p).
  destruct (m w) as [[a|e] w1]; cbn [snd] in *.
  - exact Hm.
  - destruct (Hh e w1 p) as [H|[H1 H2]].
    + rewrite H. exact Hm.
    + right. now split.
Qed.

Lemma touches_foldM (P : string -> Prop) {A B : Type} (f : B -> A -> M B) (l : list A) :
  (forall b a, touches P (f b a)) -> forall b, touches P (foldM f l b).
Proof.
  intro Hf. induction l as [|a l IH]; intro b; cbn [foldM].
  - apply touches_ret.
  - apply touches_bind; auto.
Qed.

Lemma touches_mapM (P : string -> Prop) {A B : Type} (f : A -> M B) (l : list A) :
  (forall a, touches P (f a)) -> touches P (mapM f l).
Proof.
  intro Hf. induction l as [|a l IH]; cbn [mapM].
  - apply touches_ret.
  - apply touches_bind; auto. intro b. apply touches_bind; auto.
    intro bs. apply touches_ret.
Qed.

Lemma touches_if (P : string -> Prop) {A : Type} (b : bool) (m1 m2 : M A) :
  touches P m1 -> touches P m2 -> touches P (if b then m1 else m2).
Proof. now destruct b. Qed.

(** A file that exists still exists afterwards. *)
Lemma touches_kept (P : string -> Prop) {A : Type} (m : M A) (w : world) (p : string) :
  touches P m -> fs w p <> None -> fs (snd (m w)) p <> None.
Proof.
  intros H Hp. destruct (H w p) as [H1|[_ H1]]; [now rewrite H1|assumption].
Qed.

End FileFacts.

Create HintDb touches.

#[global] Hint Resolve touches_ret touches_raise touches_lift touches_logger
  touches_path_exists touches_seed_rng touches_draw_uniform touches_read_csv
  touches_read_excel touches_to_csv : touches.

Ltac touches_tac :=
  repeat first
    [ apply touches_bind; [|intro]
    | apply touches_catch; [|intro]
    | apply touches_foldM; intros
    | apply touches_mapM; intros
    | apply touches_if
    | solve [auto with touches]
    | match goal with
      | |- touches _ (match ?x with _ => _ end) => destruct x
      | |- touches _ (let (_, _) := ?x in _) => destruct x
      end ].

(** ** The checkpoint of stage 3A *)

Section CheckpointFacts.

Context {E : Env}.

Import Py Frame.
Local Open Scope result_scope.
Local Open Scope py_scope.

Definition with_log (w : world) (evs : list event) : world :=
  mkWorld (fs w) (log w ++ evs) (rng w).

(** A readable checkpoint, not overridden: it is returned as read, whatever
    the pass. *)
Lemma load_or_build_cached (path : string) (builder : M frame) (w : world)
      (bytes : string) (df : frame) :
  fs w path = Some bytes ->
  read_csv_bytes bytes = Ok df ->
  load_or_build path builder false w =
  (Ok df, with_log w [LoadingCheckpoint path;
                      LoadedCheckpoint (len df) (columns df);
                      UsingCachedCharacterization]).
Proof.
  intros Hfs Hread. unfold load_or_build, bind, path_exists, catch, logger,
    pd_read_csv, ret, with_log. cbn. rewrite Hfs. cbn. rewrite Hfs, Hread. cbn.
  now rewrite <- !app_assoc.
Qed.

(** No checkpoint, or the override: the pass runs and is saved. *)
Lemma load_or_build_fresh (path : string) (builder : M frame) (force_rerun : bool)
      (w : world) :
  fs w path = None \/ force_rerun = true ->
  load_or_build path builder force_rerun w = build_and_save path builder w.
Proof.
  intros H. unfold load_or_build, bind at 1 2, path_exists. cbn.
  destruct H as [H| ->].
  - rewrite H. reflexivity.
  - rewrite andb_false_r. reflexivity.
Qed.

(** A checkpoint that cannot be read: a warning, then the pass and the
    save. *)
Lemma load_or_build_corrupt (path : string) (builder : M frame) (w : world)
      (bytes : string) (e : exn) :
  fs w path = Some bytes ->
  read_csv_bytes bytes = Raise e ->
  load_or_build path builder false w =
  build_and_save path builder
    (with_log w [LoadingCheckpoint path; WarnCheckpointError e]).
Proof.
  intros Hfs Hread. unfold load_or_build, bind at 1 2, path_exists. cbn.
  rewrite Hfs. cbn.
  unfold bind at 1, logger at 1, catch, bind at 1, pd_read_csv. cbn.
  rewrite Hfs, Hread. cbn. unfold with_log. cbn. now rewrite <- !app_assoc.
Qed.

(** What the save does with the frame of the pass. *)
Lemma build_and_save_ok (path : string) (builder : M frame) (w w1 : world) (df : frame) :
  builder w = (Ok df, w1) ->
  build_and_save path builder w =
  (Ok df, mkWorld (fun q => if String.eqb q path then Some (to_csv_bytes df)
                            else fs w1 q)
                  (log w1 ++ [SavingCheckpoint path; CheckpointSaved]) (rng w1)).
Proof.
  intro H. unfold build_and_save, bind, logger, to_csv, write_file, ret.
  rewrite H. cbn. now rewrite <- !app_assoc.
Qed.

Lemma build_and_save_raise (path : string) (builder : M frame) (w w1 : world) (e : exn) :
  builder w = (Raise e, w1) ->
  build_and_save path builder w = (Raise e, w1).
Proof. intro H. unfold build_and_save, bind. now rewrite H. Qed.

(** When the stage returns, the checkpoint is on disk: either it was
    loaded, or the pass has returned the frame and it has just been
    written. *)
Lemma load_or_build_returns (path : string) (builder : M frame) (force_rerun : bool)
      (w w1 : world) (df : frame) :
  load_or_build path builder force_rerun w = (Ok df, w1) ->
  (exists bytes, fs w path = Some bytes /\ read_csv_bytes bytes = Ok df /\
                 fs w1 = fs w /\ rng w1 = rng w) \/
  ((exists w0 w0', builder w0 = (Ok df, w0')) /\
   fs w1 path = Some (to_csv_bytes df)).
Proof.
  intro H.
  assert (Hsave : forall w0, build_and_save path builder w0 = (Ok df, w1) ->
                             (exists w0 w0', builder w0 = (Ok df, w0')) /\
                             fs w1 path = Some (to_csv_bytes df)).
  { intros w0 Hs. destruct (builder w0) as [[d|e] w'] eqn:Hb.
    - rewrite (build_and_save_ok _ _ _ _ _ Hb) in Hs. injection Hs as <- <-.
      split; [now exists w0, w'|]. cbn. now rewrite String.eqb_refl.
    - rewrite (build_and_save_raise _ _ _ _ _ Hb) in Hs. discriminate. }
  destruct (fs w path) as [bytes|] eqn:Hfs.
  - destruct force_rerun.
    + rewrite load_or_build_fresh in H by now right. right. eapply Hsave; eauto.
    + destruct (read_csv_bytes bytes) as [d|e] eqn:Hr.
      * rewrite (load_or_build_cached _ _ _ _ _ Hfs Hr) in H. injection H as <- <-.
        left. exists bytes. repeat split; auto.
      * rewrite (load_or_build_corrupt _ _ _ _ _ Hfs Hr) in H.
        right. eapply Hsave; eauto.
  - rewrite load_or_build_fresh in H by now left. right. eapply Hsave; eauto.
Qed.

(** Line 182 stops the pass on any inventory that has a building, and line
    358 stops it on an inventory that has none: the pass never returns a
    frame. *)
Lemma build_inventory_never_returns (nsi_data : string + frame) (hazus_dir : string)
      (w w1 : world) (df : frame) :
  build_inventory nsi_data hazus_dir w <> (Ok df, w1).
Proof.
  unfold build_inventory. intro H.
  repeat match type of H with
  | bind ?m ?k ?w = _ =>
      let r := fresh "r" in
      let w' := fresh "w" in
      let Hm := fresh "Hm" in
      unfold bind at 1 in H;
      destruct (m w) as [[r|?] w'] eqn:Hm; [|discriminate H]
  | (if ?b then _ else _) ?w = _ => destruct b; [discriminate H|]
  | (if ?b then _ else _) ?w = _ => destruct b
  end.
  match goal with
  | Hc : lift (cfips_comprehension ?u) _ = (Ok ?l, _) |- _ =>
      unfold lift in Hc; injection Hc as Hc _;
      destruct u as [|c cs]; [|discriminate Hc];
      cbn in Hc; injection Hc as <-
  end.
  (* no county: the loop visits no row, and [rows] is unbound *)
  match goal with
  | Hl : characterize_loop _ _ _ [] _ = (Ok ?r, _) |- _ =>
      unfold characterize_loop in Hl; cbn [List.length foldM] in Hl;
      unfold bind, seed_rng, logger, ret in Hl; cbn in Hl;
      injection Hl as <- _
  end.
  match goal with
  | Hf : lift (final_frame _) _ = _ |- _ => unfold lift in Hf; cbn in Hf; discriminate Hf
  end.
Qed.

End CheckpointFacts.

(** ** Second runs of stages 3B and 3C *)

Section RerunFacts.

Context {E : Env}.

Import Py Frame.
Local Open Scope result_scope.
Local Open Scope py_scope.

Lemma bind_ok_inv {A B : Type} (m : M A) (k : A -> M B) (w w' : world) (b : B) :
  bind m k w = (Ok b, w') ->
  exists a w1, m w = (Ok a, w1) /\ k a w1 = (Ok b, w').
Proof.
  unfold bind. destruct (m w) as [[a|e] w1]; [|discriminate].
  intro H. now exists a, w1.
Qed.

Lemma bind_run_ok {A B : Type} (m : M A) (k : A -> M B) (w w' : world) (a : A) :
  m w = (Ok a, w') -> bind m k w = k a w'.
Proof. intro H. unfold bind. now rewrite H. Qed.

Lemma with_log_nil (w : world) : with_log w [] = w.
Proof. destruct w. unfold with_log. cbn. now rewrite app_nil_r. Qed.

Lemma with_log_app (w : world) (l1 l2 : list event) :
  with_log (with_log w l1) l2 = with_log w (l1 ++ l2).
Proof. unfold with_log. cbn. now rewrite app_assoc. Qed.

Lemma logger_run (ev : event) (w : world) : logger ev w = (Ok tt, with_log w [ev]).
Proof. reflexivity. Qed.

(** Paths: [os.path.join] ends with its last component. *)
Lemma string_app_assoc (a b c : string) : ((a ++ b) ++ c = a ++ b ++ c)%string.
Proof. induction a as [|x a IH]; cbn; [reflexivity|now rewrite IH]. Qed.

Lemma path_join_suffix (a b : string) : exists pre, path_join a b = (pre ++ b)%string.
Proof.
  unfold path_join.
  assert (H0 : exists pre, b = (pre ++ b)%string) by now exists ""%string.
  assert (H1 : exists pre,
             match a with
             | ""%string => b
             | String _ _ =>
                 if ends_with_slash a then (a ++ b)%string else (a ++ "/" ++ b)%string
             end = (pre ++ b)%string).
  { destruct a as [|x a]; [exact H0|].
    destruct (ends_with_slash (String x a)).
    - now exists (String x a).
    - exists (String x a ++ "/")%string. now rewrite string_app_assoc. }
  destruct b as [|c b]; [exact H1|].
  destruct c as [[] [] [] [] [] [] [] []]; try exact H1; exact H0.
Qed.

(** The last [n] characters, as a reversed list. *)
Definition rev_tail (n : nat) (s : string) : list ascii :=
  firstn n (rev (list_ascii_of_string s)).

Lemma list_ascii_app (a b : string) :
  list_ascii_of_string (a ++ b) = list_ascii_of_string a ++ list_ascii_of_string b.
Proof. induction a as [|x a IH]; cbn; [reflexivity|now rewrite IH]. Qed.

Lemma rev_tail_app (n : nat) (pre b : string) :
  (n <= String.length b)%nat ->
  rev_tail n (pre ++ b) = rev_tail n b.
Proof.
  intro H. unfold rev_tail. rewrite list_ascii_app, rev_app_distr.
  rewrite firstn_app.
  assert (Hl : List.length (rev (list_ascii_of_string b)) = String.length b).
  { rewrite length_rev. clear. induction b; cbn; auto. }
  replace (n - List.length (rev (list_ascii_of_string b)))%nat with 0%nat by lia.
  cbn. now rewrite app_nil_r.
Qed.

Lemma output_not_damage_file (output_dir scenario hazus_dir : string) :
  scenario_output output_dir scenario <>
  path_join hazus_dir HAZUS_FILES_damage_functions.
Proof.
  unfold scenario_output. intro H.
  destruct (path_join_suffix (path_join output_dir scenario) BUILDING_LOSSES_PATTERN)
    as [p1 H1].
  destruct (path_join_suffix hazus_dir HAZUS_FILES_damage_functions) as [p2 H2].
  rewrite H1, H2 in H. apply (f_equal (rev_tail 10)) in H.
  rewrite !rev_tail_app in H by (cbn; lia).
  vm_compute in H. discriminate H.
Qed.

(** *** Stage 3B *)

Lemma touches_loss_loop (P : string -> Prop) (nsi_wrf dmg : frame)
      (inventory : list (list cell)) :
  forall losses n, touches P (loss_loop nsi_wrf dmg inventory losses n).
Proof.
  induction inventory as [|row rest IH]; intros losses n; cbn [loss_loop].
  - apply touches_ret.
  - apply touches_bind; [apply touches_lift|]. intros [r|]; [|apply IH].
    apply touches_bind; [|intro; apply IH].
    apply touches_if; auto with touches.
Qed.

Lemma touches_scenario_body (inv dmg : frame) (scenario joined_csv output_csv : string) :
  touches (eq output_csv)
          (calculate_scenario_body inv dmg scenario joined_csv output_csv).
Proof.
  unfold calculate_scenario_body.
  apply touches_bind; [auto with touches|intro].
  apply touches_bind; [auto with touches|intro].
  apply touches_bind; [apply touches_loss_loop|intro].
  touches_tac.
Qed.

Definition is_output (output_dir : string) (paths : list (string * string))
           (p : string) : Prop :=
  exists item, In item paths /\ p = scenario_output output_dir (fst item).

Lemma touches_calculate_scenario (inv dmg : frame) (output_dir : string)
      (force_rerun : bool) (loss_files : list (string * string))
      (item : string * string) :
  touches (eq (scenario_output output_dir (fst item)))
          (calculate_scenario inv dmg output_dir force_rerun loss_files item).
Proof.
  unfold calculate_scenario. destruct item as [scenario joined_csv]. cbn [fst].
  apply touches_bind; [auto with touches|intro].
  apply touches_bind; [auto with touches|intro ex].
  apply touches_if.
  - touches_tac.
  - apply touches_bind; [|intro; apply touches_ret].
    apply touches_catch; [apply touches_scenario_body|intro; touches_tac].
Qed.

Lemma touches_calculate_fold (inv dmg : frame) (output_dir : string)
      (force_rerun : bool) (paths : list (string * string)) :
  forall loss_files,
    touches (is_output output_dir paths)
            (foldM (calculate_scenario inv dmg output_dir force_rerun) paths loss_files).
Proof.
  induction paths as [|item rest IH]; intro d; cbn [foldM].
  - apply touches_ret.
  - apply touches_bind.
    + eapply touches_weaken; [|apply touches_calculate_scenario].
      intros p <-. exists item. split; [now left|reflexivity].
    + intro d'. eapply touches_weaken; [|apply IH].
      intros p (it & Hin & ->). exists it. split; [now right|reflexivity].
Qed.

(** The dictionary a complete run returns. *)
Definition expected_files (output_dir : string) (paths loss_files : list (string * string))
  : list (string * string) :=
  fold_left (fun d (item : string * string) =>
               dict_set (fst item) (scenario_output output_dir (fst item)) d)
            paths loss_files.

(** The log of a run that finds every output in place. *)
Definition skip_log (output_dir : string) (paths : list (string * string)) : list event :=
  List.concat (map (fun item : string * string =>
                      [CalculatingScenario (fst item);
                       OutputExists (scenario_output output_dir (fst item))])
                   paths).

Lemma scenario_body_writes (inv dmg : frame) (scenario joined_csv output_csv : string)
      (w w' : world) (u : unit) :
  calculate_scenario_body inv dmg scenario joined_csv output_csv w = (Ok u, w') ->
  fs w' output_csv <> None.
Proof.
  unfold calculate_scenario_body. intro H.
  repeat match type of H with
         | bind ?m ?k ?w = (Ok _, _) =>
             let a := fresh "a" in
             let w1 := fresh "w" in
             let Hm := fresh "Hm" in
             apply bind_ok_inv in H; destruct H as (a & w1 & Hm & H)
         end.
  unfold logger in H. injection H as _ <-. cbn.
  match goal with
  | Hw : to_csv _ _ _ = (Ok _, _) |- _ =>
      unfold to_csv, write_file in Hw; injection Hw as _ <-
  end.
  cbn. rewrite String.eqb_refl. discriminate.
Qed.

Lemma calculate_scenario_ok (inv dmg : frame) (output_dir : string)
      (force_rerun : bool) (d d' : list (string * string)) (item : string * string)
      (w w' : world) :
  calculate_scenario inv dmg output_dir force_rerun d item w = (Ok d', w') ->
  d' = dict_set (fst item) (scenario_output output_dir (fst item)) d /\
  fs w' (scenario_output output_dir (fst item)) <> None.
Proof.
  unfold calculate_scenario. destruct item as [scenario joined_csv]. cbn [fst].
  intro H.
  apply bind_ok_inv in H. destruct H as ([] & w1 & H1 & H).
  apply bind_ok_inv in H. destruct H as (ex & w2 & H2 & H).
  unfold path_exists in H2. injection H2 as <- <-.
  unfold logger in H1. injection H1 as <-. cbn [fs] in H.
  destruct (fs w (scenario_output output_dir scenario)) as [bytes|] eqn:Hfs;
    cbn [andb] in H.
  - destruct force_rerun; cbn [negb] in H.
    + apply bind_ok_inv in H. destruct H as ([] & w3 & H3 & H).
      unfold ret in H. injection H as <- <-. split; [reflexivity|].
      unfold catch in H3.
      destruct (calculate_scenario_body _ _ _ _ _ _) as [[u|e] w4] eqn:Hb.
      * assert (w4 = w3) by congruence. subst w4. eapply scenario_body_writes; eauto.
      * unfold bind, logger, raise in H3. discriminate.
    + apply bind_ok_inv in H. destruct H as ([] & w3 & H3 & H).
      unfold ret in H. injection H as <- <-. unfold logger in H3.
      injection H3 as <-. cbn. rewrite Hfs. split; [reflexivity|discriminate].
  - apply bind_ok_inv in H. destruct H as ([] & w3 & H3 & H).
    unfold ret in H. injection H as <- <-. split; [reflexivity|].
    unfold catch in H3.
    destruct (calculate_scenario_body _ _ _ _ _ _) as [[u|e] w4] eqn:Hb.
    * assert (w4 = w3) by congruence. subst w4. eapply scenario_body_writes; eauto.
    * unfold bind, logger, raise in H3. discriminate.
Qed.

Lemma calculate_fold_ok (inv dmg : frame) (output_dir : string) (force_rerun : bool)
      (paths : list (string * string)) :
  forall d d' w w',
    foldM (calculate_scenario inv dmg output_dir force_rerun) paths d w = (Ok d', w') ->
    d' = expected_files output_dir paths d /\
    forall item, In item paths ->
                 fs w' (scenario_output output_dir (fst item)) <> None.
Proof.
  induction paths as [|item rest IH]; intros d d' w w' H; cbn [foldM] in H.
  - unfold ret in H. injection H as <- <-. split; [reflexivity|intros ? []].
  - apply bind_ok_inv in H. destruct H as (d1 & w1 & H1 & H).
    destruct (calculate_scenario_ok _ _ _ _ _ _ _ _ _ H1) as [-> Hex].
    destruct (IH _ _ _ _ H) as [-> Hrest]. split; [reflexivity|].
    intros it [<-|Hin]; [|now apply Hrest].
    pose proof (touches_kept _ _ w1 (scenario_output output_dir (fst item))
                  (touches_calculate_fold inv dmg output_dir force_rerun rest
                     (dict_set (fst item) (scenario_output output_dir (fst item)) d))
                  Hex) as Hk.
    now rewrite H in Hk.
Qed.

Lemma calculate_fold_skip (inv dmg : frame) (output_dir : string)
      (paths : list (string * string)) :
  forall d w,
    (forall item, In item paths ->
                  fs w (scenario_output output_dir (fst item)) <> None) ->
    foldM (calculate_scenario inv dmg output_dir false) paths d w =
    (Ok (expected_files output_dir paths d), with_log w (skip_log output_dir paths)).
Proof.
  induction paths as [|item rest IH]; intros d w Hall; cbn [foldM].
  - cbn. unfold ret. now rewrite with_log_nil.
  - unfold bind at 1.
    assert (Hstep : calculate_scenario inv dmg output_dir false d item w =
                    (Ok (dict_set (fst item) (scenario_output output_dir (fst item)) d),
                     with_log w [CalculatingScenario (fst item);
                                 OutputExists (scenario_output output_dir (fst item))])).
    { unfold calculate_scenario. destruct item as [scenario joined_csv]. cbn [fst].
      unfold bind, logger, path_exists, ret. cbn.
      specialize (Hall (scenario, joined_csv) (or_introl eq_refl)). cbn [fst] in Hall.
      destruct (fs w (scenario_output output_dir scenario)); [|congruence].
      cbn. unfold with_log. cbn. now rewrite <- app_assoc. }
    rewrite Hstep. rewrite IH.
    + rewrite with_log_app. reflexivity.
    + intros it Hin. cbn. apply Hall. now right.
Qed.

(** A second call of stage 3B: the same dictionary, no file touched, and a
    log that only records the skips. *)
Lemma calculate_second_run (inv inv' : frame) (paths : list (string * string))
      (hazus_dir output_dir : string) (force_rerun : bool)
      (w w1 : world) (d : list (string * string)) :
  calculate_building_losses inv paths hazus_dir output_dir force_rerun w = (Ok d, w1) ->
  calculate_building_losses inv' paths hazus_dir output_dir false w1 =
  (Ok d, with_log w1
           (LoadingDamageFunctions (path_join hazus_dir HAZUS_FILES_damage_functions)
            :: skip_log output_dir paths)).
Proof.
  unfold calculate_building_losses. intro H.
  set (file := path_join hazus_dir HAZUS_FILES_damage_functions) in *.
  apply bind_ok_inv in H. destruct H as (ex & w2 & H2 & H).
  unfold path_exists in H2. injection H2 as <- <-.
  destruct (fs w file) as [bytes|] eqn:Hfs; cbn [negb] in H; [|discriminate].
  apply bind_ok_inv in H. destruct H as ([] & w3 & H3 & H).
  unfold logger in H3. injection H3 as <-.
  apply bind_ok_inv in H. destruct H as (dmg & w4 & H4 & H).
  unfold pd_read_csv in H4. cbn [fs] in H4. rewrite Hfs in H4.
  injection H4 as Hread <-.
  destruct (calculate_fold_ok _ _ _ _ _ _ _ _ _ H) as [-> Hex].
  assert (Hfile : fs w1 file = Some bytes).
  { pose proof (touches_calculate_fold inv dmg output_dir force_rerun paths []
                  (mkWorld (fs w) (log w ++ [LoadingDamageFunctions file]) (rng w))
                  file) as Ht.
    rewrite H in Ht. cbn [snd fs] in Ht.
    destruct Ht as [Ht|[(it & _ & Hp) _]]; [now rewrite Ht|].
    exfalso. symmetry in Hp. revert Hp. apply output_not_damage_file. }
  unfold bind at 1, path_exists. rewrite Hfile. cbn [negb].
  unfold bind at 1, logger at 1. unfold bind at 1, pd_read_csv. cbn [fs].
  rewrite Hfile, Hread.
  rewrite calculate_fold_skip by (cbn [fs]; exact Hex).
  unfold with_log. cbn. now rewrite <- app_assoc.
Qed.

(** *** Stage 3C *)

Lemma touches_log_rows (P : string -> Prop) (rs : list (list cell)) :
  touches P (foldM (fun (_ : unit) row => log_summary_row row) rs tt).
Proof. apply touches_foldM. intros. apply touches_logger. Qed.

(** A second call of stage 3C: the same path, no file touched, one line in
    the log. *)
Lemma aggregate_second_run (paths : list (string * string)) (output_dir : string)
      (force_rerun : bool) (w w1 : world) (p : string) :
  aggregate_county_losses paths output_dir force_rerun w = (Ok p, w1) ->
  p = path_join output_dir TOTAL_LOSS_OUTPUT /\
  aggregate_county_losses paths output_dir false w1 =
  (Ok p, with_log w1 [AggOutputExists p]).
Proof.
  unfold aggregate_county_losses. intro H.
  set (out := path_join output_dir TOTAL_LOSS_OUTPUT) in *.
  assert (Hgoal : p = out /\ fs w1 out <> None).
  { apply bind_ok_inv in H. destruct H as (ex & w2 & H2 & H).
    unfold path_exists in H2. injection H2 as <- <-.
    destruct (match fs w out with Some _ => true | None => false end
              && negb force_rerun) eqn:Hc.
    - unfold bind, logger, ret in H. injection H as <- <-. split; [reflexivity|].
      cbn. destruct (fs w out); [discriminate|discriminate Hc].
    - repeat match type of H with
             | bind ?m ?k ?w = (Ok _, _) =>
                 let a := fresh "a" in
                 let w1 := fresh "w" in
                 let Hm := fresh "Hm" in
                 apply bind_ok_inv in H; destruct H as (a & w1 & Hm & H)
             end.
      unfold ret in H. injection H as <- <-. split; [reflexivity|].
      match goal with
      | Hl : foldM (fun _ row => log_summary_row row) ?rs tt ?w0 = _ |- _ =>
          pose proof (touches_kept (fun _ => False) _ w0 out
                        (touches_log_rows _ rs)) as Hk;
          rewrite Hl in Hk; apply Hk
      end.
      match goal with
      | Hw : to_csv _ _ _ = (Ok _, _) |- _ =>
          unfold to_csv, write_file in Hw; injection Hw as _ <-
      end.
      cbn. rewrite String.eqb_refl. discriminate. }
  destruct Hgoal as [-> Hex]. split; [reflexivity|].
  unfold bind, path_exists, logger, ret. cbn.
  destruct (fs w1 out); [reflexivity|congruence].
Qed.

End RerunFacts.

(** ** The generator state a stage starts in *)

Section SeedFacts.

Context {E : Env}.

Import Py Frame.
Local Open Scope result_scope.
Local Open Scope py_scope.

(** Two worlds with the same files and the same log; the generators may
    differ. *)
Definition same_files (w1 w2 : world) : Prop :=
  fs w1 = fs w2 /\ log w1 = log w2.

(** [insensitive m]: what [m] returns, writes and logs does not depend on
    the state the generator is in when [m] starts. *)
Definition insensitive {A : Type} (m : M A) : Prop :=
  forall w1 w2, same_files w1 w2 ->
                fst (m w1) = fst (m w2) /\ same_files (snd (m w1)) (snd (m w2)).

Lemma insensitive_ret {A : Type} (a : A) : insensitive (ret a).
Proof. intros w1 w2 H. now split. Qed.

Lemma insensitive_raise {A : Type} (e : exn) : insensitive (raise (A := A) e).
Proof. intros w1 w2 H. now split. Qed.

Lemma insensitive_lift {A : Type} (r : result A) : insensitive (lift r).
Proof. intros w1 w2 H. now split. Qed.

Lemma insensitive_logger (ev : event) : insensitive (logger ev).
Proof.
  intros w1 w2 [H1 H2]. unfold logger, same_files. cbn. rewrite H1, H2. now repeat split.
Qed.

Lemma insensitive_path_exists (p : string) : insensitive (path_exists p).
Proof.
  intros w1 w2 [H1 H2]. unfold path_exists. cbn. rewrite H1. now repeat split.
Qed.

Lemma insensitive_read_csv (p : string) : insensitive (pd_read_csv p).
Proof.
  intros w1 w2 [H1 H2]. unfold pd_read_csv. rewrite H1.
  destruct (fs w2 p); now repeat split.
Qed.

Lemma insensitive_read_excel (p sheet : string) : insensitive (pd_read_excel p sheet).
Proof.
  intros w1 w2 [H1 H2]. unfold pd_read_excel. rewrite H1.
  destruct (fs w2 p); now repeat split.
Qed.

Lemma insensitive_to_csv (f : frame) (p : string) : insensitive (to_csv f p).
Proof.
  intros w1 w2 [H1 H2]. unfold to_csv, write_file, same_files. cbn.
  rewrite H1, H2. now repeat split.
Qed.

Lemma insensitive_bind {A B : Type} (m : M A) (k : A -> M B) :
  insensitive m -> (forall a, insensitive (k a)) -> insensitive (bind m k).
Proof.
  intros Hm Hk w1 w2 H. unfold bind. destruct (Hm w1 w2 H) as [Hr Hw].
  destruct (m w1) as [r1 w1'], (m w2) as [r2 w2']. cbn [fst snd] in *. subst r2.
  destruct r1 as [a|e]; [now apply Hk|now split].
Qed.

Lemma insensitive_catch {A : Type} (m : M A) (h : exn -> M A) :
  insensitive m -> (forall e, insensitive (h e)) -> insensitive (catch m h).
Proof.
  intros Hm Hh w1 w2 H. unfold catch. destruct (Hm w1 w2 H) as [Hr Hw].
  destruct (m w1) as [r1 w1'], (m w2) as [r2 w2']. cbn [fst snd] in *. subst r2.
  destruct r1 as [a|e]; [now split|now apply Hh].
Qed.

(** Once the generator is seeded, the two runs are in the same world:
    whatever follows does the same in both. *)
Lemma insensitive_seeded {A : Type} (seed : Z) (k : M A) :
  insensitive (bind (seed_rng seed) (fun _ => k)).
Proof.
  intros w1 w2 [H1 H2]. unfold bind, seed_rng. rewrite H1, H2. now repeat split.
Qed.

Lemma characterize_loop_seeded (hz : hazus) (charTypes : list cell) (nsi_cb : frame)
      (cfips : list string) (w1 w2 : world) :
  same_files w1 w2 ->
  characterize_loop hz charTypes nsi_cb cfips w1 =
  characterize_loop hz charTypes nsi_cb cfips w2.
Proof.
  intros [H1 H2]. unfold characterize_loop, bind at 1, seed_rng.
  unfold bind at 2, seed_rng. now rewrite H1, H2.
Qed.

Lemma insensitive_characterize_loop (hz : hazus) (charTypes : list cell)
      (nsi_cb : frame) (cfips : list string) :
  insensitive (characterize_loop hz charTypes nsi_cb cfips).
Proof.
  intros w1 w2 H. rewrite (characterize_loop_seeded _ _ _ _ _ _ H).
  split; [reflexivity|]. now split.
Qed.

Ltac insensitive_tac :=
  repeat first
    [ apply insensitive_characterize_loop
    | apply insensitive_bind; [|intro]
    | apply insensitive_catch; [|intro]
    | apply insensitive_ret
    | apply insensitive_raise
    | apply insensitive_lift
    | apply insensitive_logger
    | apply insensitive_path_exists
    | apply insensitive_read_csv
    | apply insensitive_read_excel
    | apply insensitive_to_csv
    | match goal with
      | |- insensitive (if ?b then _ else _) => destruct b
      | |- insensitive (match ?x with _ => _ end) => destruct x
      end ].

Lemma insensitive_build_inventory (nsi_data : string + frame) (hazus_dir : string) :
  insensitive (build_inventory nsi_data hazus_dir).
Proof. unfold build_inventory, read_hazus. insensitive_tac. Qed.

Lemma insensitive_load_or_build (path : string) (builder : M frame) (force_rerun : bool) :
  insensitive builder -> insensitive (load_or_build path builder force_rerun).
Proof.
  intro Hb. unfold load_or_build, build_and_save. insensitive_tac; exact Hb.
Qed.

End SeedFacts.

(** ** Vulnerability-type resolution against its description *)

Section ResolutionFacts.

Context {E : Env}.

Import Py Frame.
Local Open Scope result_scope.

(** *** The resolution as the specification words it

    A candidate is a vulnerability-type id with its free-text description;
    the profile gives the value sampled for a characteristic type. *)

Record candidate : Type := mkCandidate {
  cand_id : cell;
  cand_description : cell
}.

Definition describes (value : string) (c : candidate) : bool :=
  match cand_description c with
  | Str d => contains value d
  | _ => false
  end.

(** Drop a characteristic type from those to match. *)
Definition spec_drop (name : string) (applicable : list cell) : list cell :=
  filter (fun c => negb (cell_eqb c (Str name))) applicable.

(** Shutters present: "garage without shutters" is not matched; shutters
    absent: "garage with shutters" is not matched. *)
Definition spec_exclusion (profile : cell -> string) (applicable : list cell) : list cell :=
  if cell_in (Str "Shutters") applicable then
    if String.eqb (profile (Str "Shutters")) "shtys"
    then spec_drop "Garage, Houses w/out Shutters" applicable
    else spec_drop "Garage, Houses with Shutters" applicable
  else applicable.

(** One filter step: keep the candidates whose description contains the
    value, unless none does. *)
Definition spec_narrow (cands : list candidate) (value : string) : list candidate :=
  match filter (describes value) cands with
  | [] => cands
  | kept => kept
  end.

(** The id assigned: the first candidate left after all steps. *)
Definition spec_vulnerability_type (profile : cell -> string) (applicable : list cell)
           (cands : list candidate) : cell :=
  match fold_left spec_narrow (map profile (spec_exclusion profile applicable)) cands with
  | [] => NA
  | c :: _ => cand_id c
  end.

(** *** From the frames to the candidates *)

(** The value sampled for a characteristic type, read off the row. *)
Definition profile_of (cols : list string) (rows_ : list cell) (charType : cell) : string :=
  match row_get cols (label charType) rows_ with
  | Ok (Str v) => v
  | _ => ""
  end.

(** The candidates registered for a subtype. *)
Definition candidates_of (huListOfWindBldgTypes : frame) (i j k : nat) (sbt : cell)
  : list candidate :=
  map (fun r => mkCandidate (nth j r NaN) (nth k r NaN))
      (filter (fun r => cell_eqb (nth i r NaN) sbt) (rows huListOfWindBldgTypes)).

Definition sampled (cols : list string) (rows_ : list cell) (chars : list cell) : Prop :=
  forall c, In c chars -> exists v, row_get cols (label c) rows_ = Ok (Str v).

(** The sampled values are patterns the search accepts: each compiles as
    a regular expression. *)
Definition searchable (cols : list string) (rows_ : list cell) (chars : list cell) : Prop :=
  forall c v, In c chars -> row_get cols (label c) rows_ = Ok (Str v) ->
              exists found, str_contains v = Ok found.

(** The sampled values hold no character that is special in a regular
    expression: searching for one is looking for it as it stands. *)
Definition plain_sample (cols : list string) (rows_ : list cell) (chars : list cell) : Prop :=
  forall c v, In c chars -> row_get cols (label c) rows_ = Ok (Str v) ->
              plain_pattern v = true.

Lemma str_contains_plain (v : string) :
  plain_pattern v = true -> str_contains v = Ok (contains v).
Proof. intro H. unfold str_contains. now rewrite H. Qed.

Lemma plain_searchable (cols : list string) (rows_ : list cell) (chars : list cell) :
  plain_sample cols rows_ chars -> searchable cols rows_ chars.
Proof.
  intros H c v Hc Hv. exists (contains v). apply str_contains_plain. now apply (H c).
Qed.

Lemma cell_eqb_Str (a : cell) (s : string) : cell_eqb a (Str s) = true <-> a = Str s.
Proof.
  destruct a; cbn; split; intro H; try discriminate.
  - apply String.eqb_eq in H. now subst.
  - injection H as ->. apply String.eqb_refl.
Qed.

Lemma cell_in_Str (s : string) (l : list cell) : cell_in (Str s) l = true <-> In (Str s) l.
Proof.
  unfold cell_in. rewrite existsb_exists. split.
  - intros (x & Hin & Hx). destruct x; cbn in Hx; try discriminate.
    apply String.eqb_eq in Hx. now subst.
  - intro Hin. exists (Str s). split; [assumption|]. cbn. apply String.eqb_refl.
Qed.

Lemma filter_all {A : Type} (p : A -> bool) (l : list A) :
  (forall b, In b l -> p b = true) -> filter p l = l.
Proof.
  induction l as [|a l IH]; intro H; [reflexivity|]. cbn.
  rewrite (H a (or_introl eq_refl)). f_equal. apply IH. intros b Hb. apply H. now right.
Qed.

Lemma list_remove_drop (s : string) (l : list cell) :
  NoDup l -> list_remove (Str s) l = spec_drop s l.
Proof.
  unfold spec_drop. induction l as [|a l IH]; intro Hnd; [reflexivity|].
  inversion Hnd as [|? ? Hnotin Hnd']; subst. cbn [list_remove filter].
  destruct (cell_eqb a (Str s)) eqn:Ha; cbn [negb].
  - apply cell_eqb_Str in Ha. subst a.
    symmetry. apply filter_all. intros b Hb.
    destruct (cell_eqb b (Str s)) eqn:Hbs; [|reflexivity].
    apply cell_eqb_Str in Hbs. now subst b.
  - now rewrite IH.
Qed.

Lemma spec_drop_absent (s : string) (l : list cell) :
  cell_in (Str s) l = false -> spec_drop s l = l.
Proof.
  intro H. unfold spec_drop. apply filter_all. intros b Hb.
  destruct (cell_eqb b (Str s)) eqn:Hbs; [|reflexivity].
  apply cell_eqb_Str in Hbs. subst b.
  apply cell_in_Str in Hb. congruence.
Qed.

Lemma spec_exclusion_incl (profile : cell -> string) (l : list cell) (c : cell) :
  In c (spec_exclusion profile l) -> In c l.
Proof.
  unfold spec_exclusion, spec_drop.
  destruct (cell_in _ l); [|auto].
  destruct (String.eqb _ _); intro H; apply filter_In in H; tauto.
Qed.

(** Lines 308-317 compute the exclusion. *)
Lemma shutter_rule_spec (cols : list string) (rows_ : list cell) (char_desc : list cell) :
  NoDup char_desc -> sampled cols rows_ char_desc ->
  shutter_rule cols rows_ char_desc =
  Ok (spec_exclusion (profile_of cols rows_) char_desc).
Proof.
  intros Hnd Hs. unfold shutter_rule, spec_exclusion.
  destruct (cell_in (Str "Shutters") char_desc) eqn:Hin; [|reflexivity].
  apply cell_in_Str in Hin. destruct (Hs _ Hin) as [v Hv].
  unfold profile_of. cbn [label py_str] in *. rewrite Hv. cbn [rbind cell_eqb].
  destruct (String.eqb v "shtys").
  - destruct (cell_in (Str "Garage, Houses w/out Shutters") char_desc) eqn:Hg.
    + now rewrite list_remove_drop.
    + now rewrite spec_drop_absent.
  - destruct (cell_in (Str "Garage, Houses with Shutters") char_desc) eqn:Hg.
    + now rewrite list_remove_drop.
    + now rewrite spec_drop_absent.
Qed.

Definition cand_of (j k : nat) (r : list cell) : candidate :=
  mkCandidate (nth j r NaN) (nth k r NaN).

Lemma filter_describes (j k : nat) (v : string) (rs : list (list cell)) :
  map (cand_of j k)
      (filter (fun r => match nth k r NaN with
                        | Str d => contains v d
                        | _ => false
                        end) rs)
  = filter (describes v) (map (cand_of j k) rs).
Proof.
  induction rs as [|r rs IH]; [reflexivity|]. cbn [filter map].
  change (describes v (cand_of j k r))
    with (match nth k r NaN with Str d => contains v d | _ => false end).
  destruct (match nth k r NaN with Str d => contains v d | _ => false end);
    cbn [map]; now rewrite IH.
Qed.

(** Lines 320-323 are the fold of the filter steps. *)
Lemma match_characteristics_spec (cols : list string) (rows_ : list cell)
      (wcols : list string) (j k : nat) (chars : list cell) :
  index_of "charDescription" wcols = Some k ->
  sampled cols rows_ chars ->
  plain_sample cols rows_ chars ->
  forall rs,
  exists rs',
    match_characteristics cols rows_ chars (mkFrame wcols rs) = Ok (mkFrame wcols rs') /\
    map (cand_of j k) rs' =
    fold_left spec_narrow (map (profile_of cols rows_) chars) (map (cand_of j k) rs).
Proof.
  intros Hk. induction chars as [|c chars IH]; intros Hs Hpl rs.
  - exists rs. now split.
  - destruct (Hs c (or_introl eq_refl)) as [v Hv].
    assert (Hs' : sampled cols rows_ chars) by (intros x Hx; apply Hs; now right).
    assert (Hpl' : plain_sample cols rows_ chars)
      by (intros x w Hx Hw; apply (Hpl x w); [now right|assumption]).
    cbn [match_characteristics map fold_left]. rewrite Hv. cbn [rbind].
    unfold loc_contains. cbn [columns rows]. rewrite Hk.
    rewrite (str_contains_plain v (Hpl c v (or_introl eq_refl) Hv)).
    cbn [rbind len rows].
    assert (Hp : profile_of cols rows_ c = v) by (unfold profile_of; now rewrite Hv).
    rewrite Hp. unfold spec_narrow at 2. rewrite <- filter_describes.
    set (kept := filter _ rs).
    destruct kept as [|r kept'] eqn:Hkept; cbn [List.length Nat.eqb negb map].
    + apply IH; assumption.
    + destruct (IH Hs' Hpl' (r :: kept')) as (rs' & H1 & H2). exists rs'. now split.
Qed.

(** Lines 320-323 with any patterns the search accepts: the filters keep
    rows of the frame they start from, and never empty it. *)
Lemma match_characteristics_sub (cols : list string) (rows_ : list cell)
      (wcols : list string) (k : nat) (chars : list cell) :
  index_of "charDescription" wcols = Some k ->
  sampled cols rows_ chars ->
  searchable cols rows_ chars ->
  forall rs,
  exists rs',
    match_characteristics cols rows_ chars (mkFrame wcols rs) = Ok (mkFrame wcols rs') /\
    incl rs' rs /\ (rs <> [] -> rs' <> []).
Proof.
  intros Hk. induction chars as [|c chars IH]; intros Hs Hse rs.
  - exists rs. split; [reflexivity|]. split; [apply incl_refl|auto].
  - destruct (Hs c (or_introl eq_refl)) as [v Hv].
    destruct (Hse c v (or_introl eq_refl) Hv) as [found Hfound].
    assert (Hs' : sampled cols rows_ chars) by (intros x Hx; apply Hs; now right).
    assert (Hse' : searchable cols rows_ chars)
      by (intros x w Hx Hw; apply (Hse x w); [now right|assumption]).
    cbn [match_characteristics]. rewrite Hv. cbn [rbind].
    unfold loc_contains. cbn [columns rows]. rewrite Hk, Hfound.
    cbn [rbind len rows].
    set (kept := filter _ rs).
    assert (Hincl : incl kept rs).
    { intros x Hx. unfold kept in Hx. apply filter_In in Hx. tauto. }
    destruct kept as [|r kept'] eqn:Hkept; cbn [List.length Nat.eqb negb].
    + apply IH; assumption.
    + destruct (IH Hs' Hse' (r :: kept')) as (rs' & H1 & H2 & H3). exists rs'.
      split; [exact H1|]. split.
      * eapply incl_tran; eassumption.
      * intros _. apply H3. discriminate.
Qed.

(** Lines 306-332 assign what the description says. *)
Lemma resolve_wbID_spec (huListOfWindBldgTypes : frame) (sbt : cell)
      (cols : list string) (rows_ : list cell) (char_desc : list cell) (i j k : nat) :
  index_of "sbtName" (columns huListOfWindBldgTypes) = Some i ->
  index_of "wbID" (columns huListOfWindBldgTypes) = Some j ->
  index_of "charDescription" (columns huListOfWindBldgTypes) = Some k ->
  NoDup char_desc ->
  sampled cols rows_ char_desc ->
  plain_sample cols rows_ char_desc ->
  resolve_wbID huListOfWindBldgTypes sbt cols rows_ char_desc =
  Ok (spec_vulnerability_type (profile_of cols rows_) char_desc
                              (candidates_of huListOfWindBldgTypes i j k sbt)).
Proof.
  intros Hi Hj Hk Hnd Hs Hpl. unfold resolve_wbID, loc_eq. rewrite Hi. cbn [rbind].
  rewrite shutter_rule_spec by assumption. cbn [rbind].
  set (chars := spec_exclusion (profile_of cols rows_) char_desc).
  assert (Hs' : sampled cols rows_ chars).
  { intros c Hc. apply Hs. eapply spec_exclusion_incl. exact Hc. }
  assert (Hpl' : plain_sample cols rows_ chars).
  { intros c v Hc Hv. apply (Hpl c v); [|exact Hv]. eapply spec_exclusion_incl. exact Hc. }
  destruct (match_characteristics_spec cols rows_ (columns huListOfWindBldgTypes)
              j k chars Hk Hs' Hpl'
              (filter (fun r => cell_eqb (nth i r NaN) sbt)
                      (rows huListOfWindBldgTypes)))
    as (rs' & H1 & H2).
  rewrite H1. cbn [rbind]. unfold column. cbn [columns rows]. rewrite Hj.
  cbn [rbind]. unfold spec_vulnerability_type, candidates_of. fold chars.
  fold (cand_of j k). rewrite <- H2.
  destruct rs' as [|r rs']; reflexivity.
Qed.

Lemma fold_narrow_nil (values : list string) : fold_left spec_narrow values [] = [].
Proof. induction values as [|v values IH]; [reflexivity|exact IH]. Qed.

(** Lines 306-332 with any patterns the search accepts: the id is read
    off the first of the rows the filters leave, which are rows of the
    subtype, and some are left when the subtype has any. *)
Lemma resolve_wbID_sub (huListOfWindBldgTypes : frame) (sbt : cell)
      (cols : list string) (rows_ : list cell) (char_desc : list cell) (i j k : nat) :
  index_of "sbtName" (columns huListOfWindBldgTypes) = Some i ->
  index_of "wbID" (columns huListOfWindBldgTypes) = Some j ->
  index_of "charDescription" (columns huListOfWindBldgTypes) = Some k ->
  NoDup char_desc ->
  sampled cols rows_ char_desc ->
  searchable cols rows_ char_desc ->
  exists rs',
    resolve_wbID huListOfWindBldgTypes sbt cols rows_ char_desc =
    Ok (first_wbID (map (fun r => nth j r NaN) rs')) /\
    incl (map (cand_of j k) rs') (candidates_of huListOfWindBldgTypes i j k sbt) /\
    (candidates_of huListOfWindBldgTypes i j k sbt <> [] -> rs' <> []).
Proof.
  intros Hi Hj Hk Hnd Hs Hse. unfold resolve_wbID, loc_eq. rewrite Hi. cbn [rbind].
  rewrite shutter_rule_spec by assumption. cbn [rbind].
  set (chars := spec_exclusion (profile_of cols rows_) char_desc).
  assert (Hs' : sampled cols rows_ chars).
  { intros c Hc. apply Hs. eapply spec_exclusion_incl. exact Hc. }
  assert (Hse' : searchable cols rows_ chars).
  { intros c v Hc Hv. apply (Hse c v); [|exact Hv]. eapply spec_exclusion_incl. exact Hc. }
  destruct (match_characteristics_sub cols rows_ (columns huListOfWindBldgTypes)
              k chars Hk Hs' Hse'
              (filter (fun r => cell_eqb (nth i r NaN) sbt)
                      (rows huListOfWindBldgTypes)))
    as (rs' & H1 & H2 & H3).
  exists rs'. rewrite H1. cbn [rbind]. unfold column. cbn [columns rows]. rewrite Hj.
  cbn [rbind]. split; [reflexivity|]. unfold candidates_of. fold (cand_of j k). split.
  - intros x Hx. apply in_map_iff in Hx. destruct Hx as (r & <- & Hr).
    apply in_map. now apply H2.
  - intros Hne. apply H3. intro Hnil. apply Hne. now rewrite Hnil.
Qed.


End ResolutionFacts.

(** ** Columns of a frame after an assignment *)

Section FrameFacts.

Import Py Frame.

Lemma index_of_lt (name : string) (cols : list string) (i : nat) :
  index_of name cols = Some i -> (i < List.length cols)%nat.
Proof.
  revert i. induction cols as [|c cols IH]; intros i H; cbn in H; [discriminate|].
  destruct (String.eqb c name).
  - injection H as <-. cbn. lia.
  - destruct (index_of name cols); [|discriminate]. injection H as <-.
    cbn. specialize (IH _ eq_refl). lia.
Qed.

Lemma index_of_app_old (name : string) (cols extra : list string) (i : nat) :
  index_of name cols = Some i -> index_of name (cols ++ extra) = Some i.
Proof.
  revert i. induction cols as [|c cols IH]; intros i H; cbn in *; [discriminate|].
  destruct (String.eqb c name); [assumption|].
  destruct (index_of name cols); [|discriminate]. now rewrite (IH _ eq_refl).
Qed.

Lemma index_of_app_new (name : string) (cols : list string) :
  index_of name cols = None ->
  index_of name (cols ++ [name]) = Some (List.length cols).
Proof.
  induction cols as [|c cols IH]; intro H; cbn in *.
  - now rewrite String.eqb_refl.
  - destruct (String.eqb c name); [discriminate|].
    destruct (index_of name cols); [discriminate|]. now rewrite IH.
Qed.

Lemma index_of_app_other (m name : string) (cols : list string) :
  m <> name -> index_of m cols = None -> index_of m (cols ++ [name]) = None.
Proof.
  intro Hne. induction cols as [|c cols IH]; intro H; cbn in *.
  - destruct (String.eqb_spec name m); [congruence|reflexivity].
  - destruct (String.eqb c m); [discriminate|].
    destruct (index_of m cols); [discriminate|]. now rewrite IH.
Qed.

Lemma index_of_inj (a b : string) (cols : list string) (i : nat) :
  index_of a cols = Some i -> index_of b cols = Some i -> b = a.
Proof.
  revert i. induction cols as [|c cols IH]; intros i Ha Hb; cbn in *; [discriminate|].
  destruct (String.eqb_spec c a) as [->|Hca].
  - injection Ha as <-. destruct (String.eqb_spec a b) as [->|Hab]; [reflexivity|].
    destruct (index_of b cols); discriminate.
  - destruct (index_of a cols) as [i'|]; [|discriminate]. injection Ha as <-.
    destruct (String.eqb_spec c b) as [->|Hcb]; [discriminate|].
    destruct (index_of b cols) as [j'|]; [|discriminate]. injection Hb as ->.
    now apply (IH i').
Qed.

Lemma length_fit (n : nat) (r : list cell) : List.length (fit n r) = n.
Proof.
  unfold fit. rewrite length_app, length_firstn, repeat_length. lia.
Qed.

Lemma nth_fit (n j : nat) (r : list cell) :
  (j < n)%nat -> nth j (fit n r) NaN = nth j r NaN.
Proof.
  intro H. unfold fit.
  destruct (Nat.lt_ge_cases j (List.length r)) as [Hj|Hj].
  - rewrite app_nth1 by (rewrite length_firstn; lia).
    rewrite nth_firstn. now replace (j <? n)%nat with true by (symmetry; now apply Nat.ltb_lt).
  - rewrite app_nth2 by (rewrite length_firstn; lia).
    rewrite nth_repeat. now rewrite nth_overflow by lia.
Qed.

Lemma nth_set_nth_same (i : nat) (a : cell) (r : list cell) :
  nth i (set_nth i a r) NaN = a.
Proof.
  unfold set_nth. rewrite app_nth2 by (rewrite length_fit; lia).
  rewrite length_fit, Nat.sub_diag. reflexivity.
Qed.

Lemma nth_set_nth_other (i j : nat) (a : cell) (r : list cell) :
  j <> i -> nth j (set_nth i a r) NaN = nth j r NaN.
Proof.
  intro Hne. unfold set_nth.
  destruct (Nat.lt_ge_cases j i) as [Hj|Hj].
  - rewrite app_nth1 by (rewrite length_fit; lia). now apply nth_fit.
  - rewrite app_nth2 by (rewrite length_fit; lia). rewrite length_fit.
    destruct (j - i)%nat as [|d] eqn:Hd; [lia|]. cbn [nth].
    rewrite nth_skipn. f_equal. lia.
Qed.

Lemma map_combine {A : Type} (g : list cell -> cell -> A)
      (rs : list (list cell)) (vs : list cell) (h : list cell -> A) :
  List.length vs = List.length rs ->
  (forall r v, g r v = h r) ->
  map (fun rv => g (fst rv) (snd rv)) (combine rs vs) = map h rs.
Proof.
  intros Hlen Hg. revert vs Hlen.
  induction rs as [|r rs IH]; intros [|v vs] Hlen; cbn in *; try discriminate;
    [reflexivity|].
  rewrite Hg. f_equal. apply IH. lia.
Qed.

Lemma map_combine_snd (g : list cell -> cell -> cell)
      (rs : list (list cell)) (vs : list cell) :
  List.length vs = List.length rs ->
  (forall r v, g r v = v) ->
  map (fun rv => g (fst rv) (snd rv)) (combine rs vs) = vs.
Proof.
  intros Hlen Hg. revert vs Hlen.
  induction rs as [|r rs IH]; intros [|v vs] Hlen; cbn in *; try discriminate;
    [reflexivity|].
  rewrite Hg. f_equal. apply IH. lia.
Qed.

(** The column just assigned holds the values assigned. *)
Lemma set_column_same (f : frame) (name : string) (vs : list cell) :
  List.length vs = List.length (rows f) ->
  exists i,
    index_of name (columns (set_column f name vs)) = Some i /\
    map (fun r => nth i r NaN) (rows (set_column f name vs)) = vs.
Proof.
  intro Hlen. unfold set_column.
  destruct (index_of name (columns f)) as [i|] eqn:Hi; cbn [columns rows].
  - exists i. split; [assumption|]. rewrite map_map.
    apply (map_combine_snd (fun r v => nth i (set_nth i v r) NaN)); auto.
    intros. apply nth_set_nth_same.
  - exists (List.length (columns f)). split; [now apply index_of_app_new|].
    rewrite map_map.
    apply (map_combine_snd
             (fun r v => nth (List.length (columns f))
                             (fit (List.length (columns f)) r ++ [v]) NaN)); auto.
    intros. rewrite app_nth2 by (rewrite length_fit; lia).
    now rewrite length_fit, Nat.sub_diag.
Qed.

(** The other columns are as before. *)
Lemma set_column_other (f : frame) (name m : string) (vs : list cell) :
  m <> name ->
  List.length vs = List.length (rows f) ->
  index_of m (columns (set_column f name vs)) = index_of m (columns f) /\
  forall j, index_of m (columns f) = Some j ->
            map (fun r => nth j r NaN) (rows (set_column f name vs)) =
            map (fun r => nth j r NaN) (rows f).
Proof.
  intros Hne Hlen. unfold set_column.
  destruct (index_of name (columns f)) as [i|] eqn:Hi; cbn [columns rows].
  - split; [reflexivity|]. intros j Hj. rewrite map_map.
    apply (map_combine (fun r v => nth j (set_nth i v r) NaN)); auto.
    intros. apply nth_set_nth_other. intros ->.
    apply Hne. eapply index_of_inj; eauto.
  - split.
    + destruct (index_of m (columns f)) as [j|] eqn:Hj.
      * now apply index_of_app_old.
      * now apply index_of_app_other.
    + intros j Hj. rewrite map_map.
      apply (map_combine (fun r v => nth j (fit (List.length (columns f)) r ++ [v]) NaN));
        auto.
      intros r v. pose proof (index_of_lt _ _ _ Hj).
      rewrite app_nth1 by (rewrite length_fit; lia). now apply nth_fit.
Qed.

End FrameFacts.

(** ** Sums by county *)

Section AggregateFacts.

Context {E : Env}.

Import Py Frame.
Local Open Scope result_scope.

Fixpoint qsum (l : list Q) : Q :=
  match l with
  | [] => 0
  | q :: l' => q + qsum l'
  end.

Lemma fold_left_Qplus (l : list Q) (a : Q) : fold_left Qplus l a == a + qsum l.
Proof.
  revert a. induction l as [|q l IH]; intro a; cbn.
  - ring.
  - rewrite IH. ring.
Qed.

Lemma sum_qsum (l : list Q) : Py.sum l == qsum l.
Proof. unfold Py.sum. rewrite fold_left_Qplus. ring. Qed.

Lemma round0_comp (p q : Q) : p == q -> round0 p = round0 q.
Proof.
  intro H. unfold round0. rewrite (Qfloor_comp _ _ H).
  assert (Hd : p - inject_Z (Qfloor q) == q - inject_Z (Qfloor q)) by (rewrite H; ring).
  rewrite (Qleb_comp _ _ Hd _ _ (Qeq_refl (1 # 2))).
  rewrite (Qleb_comp _ _ (Qeq_refl (1 # 2)) _ _ Hd).
  reflexivity.
Qed.

Lemma round0_whole (z : Z) : round0 (inject_Z z) = z.
Proof.
  unfold round0. rewrite Qfloor_Z.
  assert (Hd : inject_Z z - inject_Z z == 0) by ring.
  rewrite (Qleb_comp _ _ Hd _ _ (Qeq_refl (1 # 2))).
  rewrite (Qleb_comp _ _ (Qeq_refl (1 # 2)) _ _ Hd).
  reflexivity.
Qed.

Lemma sum_column_inv (l : list cell) (s : Q) :
  sum_column l = Ok s ->
  exists qs, rmap float_cell l = Ok qs /\ s = py_sum qs.
Proof.
  unfold sum_column. destruct (rmap float_cell l) as [qs|e]; cbn; [|discriminate].
  intro H. injection H as <-. now exists qs.
Qed.

Lemma rmap_float_cell_Float (qs : list Q) : rmap float_cell (map Float qs) = Ok qs.
Proof. induction qs as [|q qs IH]; [reflexivity|]. cbn. now rewrite IH. Qed.

Lemma sum_column_Float (qs : list Q) : sum_column (map Float qs) = Ok (py_sum qs).
Proof. unfold sum_column. now rewrite rmap_float_cell_Float. Qed.

Lemma rmap_ok_In {A B : Type} (f : A -> result B) (l : list A) (l' : list B) :
  rmap f l = Ok l' -> forall x, In x l -> exists y, f x = Ok y.
Proof.
  revert l'. induction l as [|a l IH]; intros l' H x Hx; [destruct Hx|].
  cbn [rmap] in H.
  destruct (f a) as [b|] eqn:Hb; cbn [rbind] in H; [|discriminate].
  destruct (rmap f l) as [bs|]; cbn [rbind] in H; [|discriminate].
  destruct Hx as [<-|Hx]; [now exists b|]. now apply (IH bs).
Qed.

(** *** The distinct codes *)

Definition all_Str (l : list cell) : Prop := forall c, In c l -> exists s, c = Str s.

Lemma cell_same_Str (a : cell) (s : string) : cell_same a (Str s) = cell_eqb a (Str s).
Proof. now destruct a. Qed.

Lemma unique_In (l : list cell) (x : cell) :
  all_Str l -> (In x (unique cell_same l) <-> In x l).
Proof.
  induction l as [|a l IH]; intro Hs; [reflexivity|].
  assert (Hs' : all_Str l) by (intros c Hc; apply Hs; now right).
  cbn [unique]. split.
  - intros [<-|H]; [now left|]. apply filter_In in H. right. now apply IH.
  - intros [<-|H]; [now left|].
    destruct (cell_same a x) eqn:Hax.
    + destruct (Hs' x H) as [t ->]. rewrite cell_same_Str in Hax.
      apply cell_eqb_Str in Hax. now left.
    + right. apply filter_In. split; [now apply IH|]. now rewrite Hax.
Qed.

Lemma unique_NoDup (l : list cell) : all_Str l -> NoDup (unique cell_same l).
Proof.
  induction l as [|a l IH]; intro Hs; [constructor|].
  assert (Hs' : all_Str l) by (intros c Hc; apply Hs; now right).
  cbn [unique]. constructor.
  - intro H. apply filter_In in H. destruct H as [_ H].
    destruct (Hs a (or_introl eq_refl)) as [t ->]. cbn in H.
    now rewrite String.eqb_refl in H.
  - apply NoDup_filter. now apply IH.
Qed.

Lemma unique_all_Str (l : list cell) : all_Str l -> all_Str (unique cell_same l).
Proof. intros Hs c Hc. apply Hs. now apply unique_In. Qed.

Lemma map_Str_py_str (l : list cell) :
  all_Str l -> map (fun c => Str (py_str c)) l = l.
Proof.
  induction l as [|a l IH]; intro Hs; [reflexivity|]. cbn.
  destruct (Hs a (or_introl eq_refl)) as [t ->]. cbn. f_equal.
  apply IH. intros c Hc. apply Hs. now right.
Qed.

(** *** The aggregation on the two lists it works on

    The county codes of the records and the losses of one kind, record by
    record. *)

(** The losses recorded with the code [k], in the order of the records. *)
Definition losses_of (codes : list cell) (losses : list Q) (k : cell) : list Q :=
  map snd (filter (fun kv => cell_eqb (fst kv) k) (combine codes losses)).

(** The subtotal of each distinct code, in the order of first appearance. *)
Definition subtotals (codes : list cell) (losses : list Q) : list Q :=
  map (fun k => py_sum (losses_of codes losses k)) (unique cell_same codes).

(** The reported total: the subtotals added up and the sum rounded. *)
Definition reported_total (codes : list cell) (losses : list Q) : Q :=
  inject_Z (round0 (py_sum (subtotals codes losses))).

(** No addition of the aggregation rounds: neither within a county nor
    over the subtotals. *)
Definition exact_sums (codes : list cell) (losses : list Q) : Prop :=
  (forall k, In k (unique cell_same codes) ->
             py_sum (losses_of codes losses k) == Py.sum (losses_of codes losses k)) /\
  py_sum (subtotals codes losses) == Py.sum (subtotals codes losses).

Lemma qsum_map_ext {A : Type} (f g : A -> Q) (l : list A) :
  (forall a, In a l -> f a == g a) -> qsum (map f l) == qsum (map g l).
Proof.
  induction l as [|a l IH]; intro H; [reflexivity|]. cbn [map qsum].
  rewrite (H a (or_introl eq_refl)), IH; [reflexivity|].
  intros b Hb. apply H. now right.
Qed.

Lemma qsum_filter_or {A : Type} (f : A -> Q) (p q : A -> bool) (l : list A) :
  (forall a, p a = true -> q a = false) ->
  qsum (map f (filter (fun a => p a || q a) l))
  == qsum (map f (filter p l)) + qsum (map f (filter q l)).
Proof.
  intro Hd. induction l as [|a l IH]; cbn [filter map qsum]; [ring|].
  destruct (p a) eqn:Hp; cbn [orb].
  - rewrite (Hd a Hp). cbn [map qsum]. rewrite IH. ring.
  - destruct (q a); cbn [map qsum]; rewrite IH; ring.
Qed.

Lemma filter_false {A : Type} (l : list A) : filter (fun _ => false) l = [].
Proof. induction l as [|a l IH]; [reflexivity|exact IH]. Qed.

Lemma map_snd_combine_eq {A B : Type} (l : list A) (l' : list B) :
  List.length l = List.length l' -> map snd (combine l l') = l'.
Proof.
  revert l'. induction l as [|a l IH]; intros [|b l'] H; try discriminate; [reflexivity|].
  cbn. f_equal. apply IH. now injection H.
Qed.

(** The exact sums of the losses of distinct codes add up to the exact sum
    of the losses that carry one of the codes. *)
Lemma records_partition (codes : list cell) (losses : list Q) (ks : list cell) :
  all_Str ks -> NoDup ks ->
  qsum (map (fun k => qsum (losses_of codes losses k)) ks)
  == qsum (map snd (filter (fun kv => cell_in (fst kv) ks) (combine codes losses))).
Proof.
  induction ks as [|k ks IH]; intros Hs Hnd.
  - cbn [map qsum cell_in existsb]. now rewrite filter_false.
  - inversion Hnd as [|? ? Hnotin Hnd']; subst.
    assert (Hs' : all_Str ks) by (intros c Hc; apply Hs; now right).
    cbn [map qsum]. rewrite (IH Hs' Hnd'). unfold losses_of, cell_in. cbn [existsb].
    rewrite (qsum_filter_or snd (fun kv => cell_eqb (fst kv) k)
                            (fun kv => existsb (cell_eqb (fst kv)) ks)).
    + reflexivity.
    + intros kv Hkv. destruct (Hs k (or_introl eq_refl)) as [t ->].
      apply cell_eqb_Str in Hkv. rewrite Hkv.
      destruct (existsb (cell_eqb (Str t)) ks) eqn:Hin; [|reflexivity].
      apply cell_in_Str in Hin. contradiction.
Qed.

(** When no addition rounds, the subtotals add up to the sum over all the
    records. *)
Lemma subtotals_exact (codes : list cell) (losses : list Q) :
  all_Str codes -> List.length codes = List.length losses ->
  exact_sums codes losses ->
  Py.sum (subtotals codes losses) == Py.sum losses.
Proof.
  intros Hs Hlen [Hk _]. rewrite !sum_qsum. unfold subtotals.
  rewrite (qsum_map_ext _ (fun k => qsum (losses_of codes losses k))).
  2:{ intros k Hin. rewrite (Hk k Hin). apply sum_qsum. }
  rewrite (records_partition codes losses _ (unique_all_Str _ Hs) (unique_NoDup _ Hs)).
  rewrite filter_all.
  - now rewrite map_snd_combine_eq.
  - intros [c q] Hin. apply in_combine_l in Hin. cbn [fst].
    destruct (Hs c Hin) as [t ->]. apply cell_in_Str. now apply unique_In.
Qed.

Lemma reported_total_exact (codes : list cell) (losses : list Q) :
  all_Str codes -> List.length codes = List.length losses ->
  exact_sums codes losses ->
  reported_total codes losses = inject_Z (round0 (Py.sum losses)).
Proof.
  intros Hs Hlen Hex. unfold reported_total. f_equal. apply round0_comp.
  rewrite (proj2 Hex). now apply subtotals_exact.
Qed.

(** *** Sums over groups *)

Section Groups.

Variables (R : Type) (key val : R -> cell).

Definition group (rs : list R) (k : cell) : list R :=
  filter (fun r => cell_eqb (key r) k) rs.

Definition values (rs : list R) : result (list Q) :=
  rmap float_cell (map val rs).

Lemma values_length (rs : list R) (vs : list Q) :
  values rs = Ok vs -> List.length vs = List.length rs.
Proof.
  unfold values. revert vs. induction rs as [|r rs IH]; intros vs H; cbn in H.
  - now injection H as <-.
  - destruct (float_cell (val r)) as [x|]; cbn [rbind] in H; [|discriminate].
    destruct (rmap float_cell (map val rs)) as [a|]; cbn [rbind] in H; [|discriminate].
    injection H as <-. cbn. f_equal. now apply IH.
Qed.

(** The values of a group are the values recorded with its key. *)
Lemma group_values (rs : list R) (vs : list Q) (k : cell) :
  values rs = Ok vs ->
  values (group rs k) = Ok (losses_of (map key rs) vs k).
Proof.
  unfold values, group, losses_of. revert vs.
  induction rs as [|r rs IH]; intros vs H; cbn [map rmap filter combine] in *.
  - now injection H as <-.
  - destruct (float_cell (val r)) as [x|] eqn:Hx; cbn [rbind] in H; [|discriminate].
    destruct (rmap float_cell (map val rs)) as [a|]; cbn [rbind] in H; [|discriminate].
    injection H as <-. cbn [combine filter fst].
    destruct (cell_eqb (key r) k); cbn [map rmap snd].
    + rewrite Hx. cbn [rbind]. now rewrite (IH a eq_refl).
    + now apply IH.
Qed.

(** Rows whose groups all have values have values. *)
Lemma values_cover (rs : list R) (ks : list cell) :
  (forall r, In r rs -> cell_in (key r) ks = true) ->
  (forall k, In k ks -> exists b, values (group rs k) = Ok b) ->
  exists vs, values rs = Ok vs.
Proof.
  unfold values, group. induction rs as [|r rs IH]; intros Hc Hg; [now exists []|].
  assert (Hx : exists x, float_cell (val r) = Ok x).
  { pose proof (Hc r (or_introl eq_refl)) as Hin. unfold cell_in in Hin.
    apply existsb_exists in Hin. destruct Hin as (k & Hk & Hrk).
    destruct (Hg k Hk) as [b Hb]. cbn [filter] in Hb. rewrite Hrk in Hb.
    cbn [map rmap] in Hb. destruct (float_cell (val r)) as [x|]; [now exists x|].
    discriminate. }
  destruct Hx as [x Hx].
  destruct IH as [vs Hvs].
  - intros r' Hr'. apply Hc. now right.
  - intros k Hk. destruct (Hg k Hk) as [b Hb]. cbn [filter] in Hb.
    destruct (cell_eqb (key r) k); [|now exists b].
    cbn [map rmap] in Hb. rewrite Hx in Hb. cbn [rbind] in Hb.
    destruct (rmap float_cell _) as [b'|]; [now exists b'|discriminate].
  - exists (x :: vs). cbn [map rmap]. rewrite Hx, Hvs. reflexivity.
Qed.

End Groups.

(** *** The county loop on a frame *)

Definition cell_at (i : nat) (r : list cell) : cell := nth i r NaN.

(** The row of a county in the county table. *)
Definition county_row (codes : list cell) (bl cl : list Q) (k : cell) : list cell :=
  [k; Float (py_sum (losses_of codes bl k)); Float (py_sum (losses_of codes cl k))].

Lemma county_losses_eq (df : frame) (iU iB iC : nat) (k : cell) :
  index_of "UcountyFIPS" (columns df) = Some iU ->
  index_of "Building_Loss" (columns df) = Some iB ->
  index_of "Contents_Loss" (columns df) = Some iC ->
  county_losses df k =
  let? sb := sum_column (map (cell_at iB) (group _ (cell_at iU) (rows df) k)) in
  let? sc := sum_column (map (cell_at iC) (group _ (cell_at iU) (rows df) k)) in
  Ok [k; Float sb; Float sc].
Proof.
  intros HU HB HC. unfold county_losses, loc_eq, column. rewrite HU. cbn [rbind columns rows].
  rewrite HB. cbn [rbind]. rewrite HC. reflexivity.
Qed.

Lemma county_losses_columns (df : frame) (k : cell) (row : list cell) :
  county_losses df k = Ok row ->
  exists iB iC,
    index_of "Building_Loss" (columns df) = Some iB /\
    index_of "Contents_Loss" (columns df) = Some iC.
Proof.
  unfold county_losses, loc_eq, column. intro H.
  destruct (index_of "UcountyFIPS" (columns df)); cbn [rbind columns] in H; [|discriminate].
  destruct (index_of "Building_Loss" (columns df)) as [iB|]; cbn [rbind] in H;
    [|discriminate].
  destruct (sum_column _); cbn [rbind] in H; [|discriminate].
  destruct (index_of "Contents_Loss" (columns df)) as [iC|]; cbn [rbind] in H;
    [|discriminate].
  now exists iB, iC.
Qed.

Lemma county_losses_groups (df : frame) (iU iB iC : nat) (k : cell) (row : list cell) :
  index_of "UcountyFIPS" (columns df) = Some iU ->
  index_of "Building_Loss" (columns df) = Some iB ->
  index_of "Contents_Loss" (columns df) = Some iC ->
  county_losses df k = Ok row ->
  (exists b, values _ (cell_at iB) (group _ (cell_at iU) (rows df) k) = Ok b) /\
  (exists c, values _ (cell_at iC) (group _ (cell_at iU) (rows df) k) = Ok c).
Proof.
  intros HU HB HC H. rewrite (county_losses_eq df iU iB iC k HU HB HC) in H.
  cbn zeta in H. unfold sum_column, values in *.
  destruct (rmap float_cell (map (cell_at iB) _)) as [b|]; cbn [rbind] in H; [|discriminate].
  destruct (rmap float_cell (map (cell_at iC) _)) as [c|]; cbn [rbind] in H; [|discriminate].
  split; eauto.
Qed.

Lemma county_losses_value (df : frame) (iU iB iC : nat) (bl cl : list Q) (k : cell) :
  index_of "UcountyFIPS" (columns df) = Some iU ->
  index_of "Building_Loss" (columns df) = Some iB ->
  index_of "Contents_Loss" (columns df) = Some iC ->
  values _ (cell_at iB) (rows df) = Ok bl ->
  values _ (cell_at iC) (rows df) = Ok cl ->
  county_losses df k = Ok (county_row (map (cell_at iU) (rows df)) bl cl k).
Proof.
  intros HU HB HC Hbl Hcl. rewrite (county_losses_eq df iU iB iC k HU HB HC).
  cbn zeta. unfold sum_column.
  pose proof (group_values _ (cell_at iU) (cell_at iB) (rows df) bl k Hbl) as Hb.
  pose proof (group_values _ (cell_at iU) (cell_at iC) (rows df) cl k Hcl) as Hc.
  unfold values in Hb, Hc. rewrite Hb, Hc. reflexivity.
Qed.

Lemma county_rows_value (df : frame) (iU iB iC : nat) (bl cl : list Q) (ks : list cell) :
  index_of "UcountyFIPS" (columns df) = Some iU ->
  index_of "Building_Loss" (columns df) = Some iB ->
  index_of "Contents_Loss" (columns df) = Some iC ->
  values _ (cell_at iB) (rows df) = Ok bl ->
  values _ (cell_at iC) (rows df) = Ok cl ->
  rmap (county_losses df) ks
  = Ok (map (county_row (map (cell_at iU) (rows df)) bl cl) ks).
Proof.
  intros HU HB HC Hbl Hcl. induction ks as [|k ks IH]; [reflexivity|].
  cbn [rmap map]. rewrite (county_losses_value df iU iB iC bl cl k HU HB HC Hbl Hcl).
  cbn [rbind]. now rewrite IH.
Qed.

Lemma county_codes_inv (df : frame) (name : string) (codes : list cell) :
  county_codes df name = Ok codes ->
  all_Str codes /\ List.length codes = List.length (rows df).
Proof.
  unfold county_codes, column. destruct (index_of name (columns df)); cbn; [|discriminate].
  intro H. injection H as <-. split.
  - intros c Hc. apply in_map_iff in Hc. destruct Hc as (x & <- & _). now eexists.
  - now rewrite !length_map.
Qed.

Lemma values_column (df : frame) (name : string) (i : nat) :
  index_of name (columns df) = Some i ->
  (let? cs := column df name in rmap float_cell cs) = values _ (cell_at i) (rows df).
Proof. intro H. unfold column, values. rewrite H. reflexivity. Qed.

Lemma county_table_columns (codes : list cell) (bl cl : list Q) (ks : list cell) :
  map (cell_at 1) (map (county_row codes bl cl) ks)
  = map Float (map (fun k => py_sum (losses_of codes bl k)) ks) /\
  map (cell_at 2) (map (county_row codes bl cl) ks)
  = map Float (map (fun k => py_sum (losses_of codes cl k)) ks).
Proof. rewrite !map_map. split; reflexivity. Qed.

(** Lines 669-688 on a loss table with a record, the county column and
    floats in the two loss columns: the county table and the totals. *)
Lemma scenario_totals_value (df : frame) (codes : list cell) (bl cl : list Q) :
  rows df <> [] ->
  county_codes df "countyFIPS" = Ok codes ->
  (let? cs := column df "Building_Loss" in rmap float_cell cs) = Ok bl ->
  (let? cs := column df "Contents_Loss" in rmap float_cell cs) = Ok cl ->
  scenario_totals df
  = Ok (mkFrame county_columns (map (county_row codes bl cl) (unique cell_same codes)),
        (reported_total codes bl, reported_total codes cl,
         reported_total codes bl + reported_total codes cl)).
Proof.
  intros Hne Hcodes Hbl Hcl. unfold scenario_totals. rewrite Hcodes. cbn [rbind].
  destruct (county_codes_inv _ _ _ Hcodes) as [HStr Hlen].
  rewrite (map_Str_py_str _ (unique_all_Str _ HStr)).
  set (df' := set_column df "UcountyFIPS" codes).
  destruct (set_column_same df "UcountyFIPS" codes Hlen) as (iU & HU & Hkeys).
  destruct (set_column_other df "UcountyFIPS" "Building_Loss" codes) as [HiB HvB];
    [discriminate|assumption|].
  destruct (set_column_other df "UcountyFIPS" "Contents_Loss" codes) as [HiC HvC];
    [discriminate|assumption|].
  fold df' in HU, Hkeys, HiB, HvB, HiC, HvC.
  destruct (index_of "Building_Loss" (columns df)) as [iB|] eqn:HB.
  2:{ unfold column in Hbl. rewrite HB in Hbl. discriminate. }
  destruct (index_of "Contents_Loss" (columns df)) as [iC|] eqn:HC.
  2:{ unfold column in Hcl. rewrite HC in Hcl. discriminate. }
  rewrite (values_column df _ iB HB) in Hbl. rewrite (values_column df _ iC HC) in Hcl.
  assert (Hbl' : values _ (cell_at iB) (rows df') = Ok bl).
  { unfold values, cell_at in *. now rewrite (HvB iB eq_refl). }
  assert (Hcl' : values _ (cell_at iC) (rows df') = Ok cl).
  { unfold values, cell_at in *. now rewrite (HvC iC eq_refl). }
  rewrite (county_rows_value df' iU iB iC bl cl _ HU HiB HiC Hbl' Hcl').
  change (map (cell_at iU) (rows df')) with (map (fun r => nth iU r NaN) (rows df')).
  rewrite Hkeys. cbn [rbind].
  destruct (map (county_row codes bl cl) (unique cell_same codes)) as [|row0 lc'] eqn:Hlc.
  { exfalso. destruct codes as [|c codes].
    - destruct (rows df); [congruence|discriminate].
    - discriminate. }
  cbn [labelled_frame rbind]. rewrite <- Hlc.
  assert (HcB : forall l, column (mkFrame county_columns l) "Building_Loss"
                          = Ok (map (cell_at 1) l)) by reflexivity.
  assert (HcC : forall l, column (mkFrame county_columns l) "Contents_Loss"
                          = Ok (map (cell_at 2) l)) by reflexivity.
  rewrite HcB, HcC. cbn [rbind].
  destruct (county_table_columns codes bl cl (unique cell_same codes)) as [-> ->].
  rewrite !sum_column_Float. cbn [rbind]. reflexivity.
Qed.

(** Lines 669-688 when they return: the loss table had the county column
    and floats in the two loss columns. *)
Lemma scenario_totals_inv (df county : frame) (tb tc ta : Q) :
  scenario_totals df = Ok (county, (tb, tc, ta)) ->
  exists codes bl cl,
    rows df <> [] /\
    county_codes df "countyFIPS" = Ok codes /\
    (let? cs := column df "Building_Loss" in rmap float_cell cs) = Ok bl /\
    (let? cs := column df "Contents_Loss" in rmap float_cell cs) = Ok cl.
Proof.
  unfold scenario_totals. intro H.
  destruct (county_codes df "countyFIPS") as [codes|] eqn:Hcodes; cbn [rbind] in H;
    [|discriminate].
  destruct (county_codes_inv _ _ _ Hcodes) as [HStr Hlen].
  rewrite (map_Str_py_str _ (unique_all_Str _ HStr)) in H.
  set (df' := set_column df "UcountyFIPS" codes) in *.
  destruct (rmap (county_losses df') (unique cell_same codes)) as [lc|] eqn:Hlc;
    cbn [rbind] in H; [|discriminate].
  destruct lc as [|row0 lc']; [discriminate H|]. clear H.
  destruct (set_column_same df "UcountyFIPS" codes Hlen) as (iU & HU & Hkeys).
  fold df' in HU, Hkeys.
  assert (Hrows : rows df <> []).
  { intro Hnil. rewrite Hnil in Hlen. destruct codes; [|discriminate Hlen].
    discriminate Hlc. }
  assert (Hcols : exists iB iC,
             index_of "Building_Loss" (columns df') = Some iB /\
             index_of "Contents_Loss" (columns df') = Some iC).
  { destruct (unique cell_same codes) as [|k ks]; [discriminate Hlc|].
    cbn [rmap] in Hlc.
    destruct (county_losses df' k) as [r|] eqn:Hk; cbn [rbind] in Hlc; [|discriminate].
    eapply county_losses_columns; eauto. }
  destruct Hcols as (iB & iC & HB & HC).
  assert (Hcover : forall r, In r (rows df') ->
                             cell_in (cell_at iU r) (unique cell_same codes) = true).
  { intros r Hr. assert (Hin : In (cell_at iU r) codes).
    { rewrite <- Hkeys. now apply in_map. }
    destruct (HStr _ Hin) as [t Ht]. rewrite Ht in *.
    apply cell_in_Str. now apply unique_In. }
  assert (Hgroups : forall k, In k (unique cell_same codes) ->
            (exists b, values _ (cell_at iB) (group _ (cell_at iU) (rows df') k) = Ok b) /\
            (exists c, values _ (cell_at iC) (group _ (cell_at iU) (rows df') k) = Ok c)).
  { intros k Hk. destruct (rmap_ok_In _ _ _ Hlc k Hk) as [row Hrow].
    exact (county_losses_groups df' iU iB iC k row HU HB HC Hrow). }
  destruct (values_cover _ (cell_at iU) (cell_at iB) (rows df') _ Hcover) as [bl Hbl].
  { intros k Hk. exact (proj1 (Hgroups k Hk)). }
  destruct (values_cover _ (cell_at iU) (cell_at iC) (rows df') _ Hcover) as [cl Hcl].
  { intros k Hk. exact (proj2 (Hgroups k Hk)). }
  destruct (set_column_other df "UcountyFIPS" "Building_Loss" codes) as [HiB HvB];
    [discriminate|assumption|].
  destruct (set_column_other df "UcountyFIPS" "Contents_Loss" codes) as [HiC HvC];
    [discriminate|assumption|].
  fold df' in HiB, HvB, HiC, HvC. rewrite HB in HiB. rewrite HC in HiC.
  symmetry in HiB, HiC.
  exists codes, bl, cl.
  split; [exact Hrows|]. split; [reflexivity|].
  split.
  - rewrite (values_column df _ iB HiB). unfold values.
    unfold cell_at. rewrite <- (HvB iB HiB). exact Hbl.
  - rewrite (values_column df _ iC HiC). unfold values.
    unfold cell_at. rewrite <- (HvC iC HiC). exact Hcl.
Qed.

(** The lengths of the three lists agree. *)
Lemma loss_lists_length (df : frame) (codes : list cell) (bl : list Q) (name : string) :
  county_codes df "countyFIPS" = Ok codes ->
  (let? cs := column df name in rmap float_cell cs) = Ok bl ->
  List.length codes = List.length bl.
Proof.
  intros Hcodes Hbl. destruct (county_codes_inv _ _ _ Hcodes) as [_ Hlen].
  destruct (index_of name (columns df)) as [i|] eqn:Hi.
  - rewrite (values_column df name i Hi) in Hbl.
    apply values_length in Hbl. congruence.
  - unfold column in Hbl. rewrite Hi in Hbl. discriminate.
Qed.

End AggregateFacts.

(** ** Skips *)

Section SkipFacts.

Context {E : Env}.

Import Py Frame.
Local Open Scope result_scope.
Local Open Scope py_scope.

(** *** Stage 3B *)

(** The number of buildings of the inventory that a scenario run passes
    over, counted as the specification asks. *)
Definition skipped_buildings (nsi_wrf huDamLossFunc : frame)
           (inventory : list (list cell)) : nat :=
  List.length (filter (fun row => match process_building nsi_wrf huDamLossFunc row with
                                  | Ok None => true
                                  | _ => false
                                  end) inventory).

(** No row in the joined table for the building: [continue]. *)
Lemma process_building_no_wind (nsi_wrf huDamLossFunc : frame) (row : list cell)
      (fdid cbfip c2 c1 : cell) (wbID terrain_ID : Z) (wind_df : frame) :
  iloc (dropna row) 1 = Ok fdid ->
  iloc (dropna row) 3 = Ok cbfip ->
  iloc (dropna row) (-2) = Ok c2 -> int_of_cell c2 = Ok wbID ->
  iloc (dropna row) (-1) = Ok c1 -> int_of_cell c1 = Ok terrain_ID ->
  loc_eq nsi_wrf "fd_id" fdid = Ok wind_df ->
  len wind_df = 0%nat ->
  process_building nsi_wrf huDamLossFunc row = Ok None.
Proof.
  intros H1 H2 H3 H4 H5 H6 H7 H8. unfold process_building.
  rewrite H1; cbn [rbind]; rewrite H2; cbn [rbind]; rewrite H3; cbn [rbind];
    rewrite H4; cbn [rbind]; rewrite H5; cbn [rbind]; rewrite H6; cbn [rbind];
    rewrite H7; cbn [rbind]. now rewrite H8.
Qed.

(** A curve missing for the building's type and terrain: [continue]. *)
Lemma process_building_no_curve (nsi_wrf huDamLossFunc : frame) (row : list cell)
      (fdid cbfip c2 c1 : cell) (wbID terrain_ID : Z) (wind_df : frame)
      (gusts : list cell) (wind_speed : cell) (bf cf : frame) :
  iloc (dropna row) 1 = Ok fdid ->
  iloc (dropna row) 3 = Ok cbfip ->
  iloc (dropna row) (-2) = Ok c2 -> int_of_cell c2 = Ok wbID ->
  iloc (dropna row) (-1) = Ok c1 -> int_of_cell c1 = Ok terrain_ID ->
  loc_eq nsi_wrf "fd_id" fdid = Ok wind_df ->
  column wind_df "Gust_Wind_Speed" = Ok gusts ->
  iloc gusts 0 = Ok wind_speed ->
  loss_func huDamLossFunc wbID terrain_ID BUILDING_DAMAGE_ID = Ok bf ->
  loss_func huDamLossFunc wbID terrain_ID CONTENTS_DAMAGE_ID = Ok cf ->
  len bf = 0%nat \/ len cf = 0%nat ->
  process_building nsi_wrf huDamLossFunc row = Ok None.
Proof.
  intros H1 H2 H3 H4 H5 H6 H7 H8 H9 H10 H11 H12. unfold process_building.
  rewrite H1; cbn [rbind]; rewrite H2; cbn [rbind]; rewrite H3; cbn [rbind];
    rewrite H4; cbn [rbind]; rewrite H5; cbn [rbind]; rewrite H6; cbn [rbind];
    rewrite H7; cbn [rbind].
  destruct (Nat.eqb (len wind_df) 0); [reflexivity|].
  rewrite H8; cbn [rbind]; rewrite H9; cbn [rbind]; rewrite H10; cbn [rbind];
    rewrite H11; cbn [rbind].
  destruct H12 as [-> | ->]; cbn; [reflexivity|].
  now rewrite orb_true_r.
Qed.

(** A building passed over changes neither the rows collected, nor the
    count, nor the world: the loop goes on as if it were not there. *)
Lemma loss_loop_skip (nsi_wrf huDamLossFunc : frame) (row : list cell)
      (rest : list (list cell)) (losses : list (list cell)) (n : nat) (w : world) :
  process_building nsi_wrf huDamLossFunc row = Ok None ->
  loss_loop nsi_wrf huDamLossFunc (row :: rest) losses n w =
  loss_loop nsi_wrf huDamLossFunc rest losses n w.
Proof. intro H. cbn [loss_loop]. unfold bind, lift. now rewrite H. Qed.

Lemma touches_calculate_building_losses (inv : frame) (paths : list (string * string))
      (hazus_dir output_dir : string) (force_rerun : bool) :
  touches (is_output output_dir paths)
          (calculate_building_losses inv paths hazus_dir output_dir force_rerun).
Proof.
  unfold calculate_building_losses.
  apply touches_bind; [apply touches_path_exists|intro ex].
  apply touches_if; [apply touches_raise|].
  apply touches_bind; [apply touches_logger|intro].
  apply touches_bind; [apply touches_read_csv|intro dmg].
  apply touches_calculate_fold.
Qed.

Lemma output_not_checkpoint (output_dir scenario inventory_dir : string) :
  scenario_output output_dir scenario <>
  path_join inventory_dir BUILDING_INVENTORY_CHECKPOINT.
Proof.
  unfold scenario_output. intro H.
  destruct (path_join_suffix (path_join output_dir scenario) BUILDING_LOSSES_PATTERN)
    as [p1 H1].
  destruct (path_join_suffix inventory_dir BUILDING_INVENTORY_CHECKPOINT) as [p2 H2].
  rewrite H1, H2 in H. apply (f_equal (rev_tail 10)) in H.
  rewrite !rev_tail_app in H by (cbn; lia).
  vm_compute in H. discriminate H.
Qed.

(** Stage 3B leaves the checkpoint file as it is. *)
Lemma checkpoint_untouched (inv : frame) (paths : list (string * string))
      (hazus_dir output_dir inventory_dir : string) (force_rerun : bool) (w : world) :
  fs (snd (calculate_building_losses inv paths hazus_dir output_dir force_rerun w))
     (path_join inventory_dir BUILDING_INVENTORY_CHECKPOINT)
  = fs w (path_join inventory_dir BUILDING_INVENTORY_CHECKPOINT).
Proof.
  destruct (touches_calculate_building_losses inv paths hazus_dir output_dir force_rerun
              w (path_join inventory_dir BUILDING_INVENTORY_CHECKPOINT))
    as [H|[(item & _ & H) _]]; [exact H|].
  exfalso. symmetry in H. revert H. apply output_not_checkpoint.
Qed.

(** *** Stage 3A *)

(** Two worlds with the same files and the same generator state; the logs
    may differ. *)
Definition same_state (w1 w2 : world) : Prop :=
  fs w1 = fs w2 /\ rng w1 = rng w2.

(** [steady m]: what [m] returns and the state it leaves do not depend on
    the log. *)
Definition steady {A : Type} (m : M A) : Prop :=
  forall w1 w2, same_state w1 w2 ->
                fst (m w1) = fst (m w2) /\ same_state (snd (m w1)) (snd (m w2)).

Lemma steady_ret {A : Type} (a : A) : steady (ret a).
Proof. intros w1 w2 H. now split. Qed.

Lemma steady_raise {A : Type} (e : exn) : steady (raise (A := A) e).
Proof. intros w1 w2 H. now split. Qed.

Lemma steady_lift {A : Type} (r : result A) : steady (lift r).
Proof. intros w1 w2 H. now split. Qed.

Lemma steady_logger (ev : event) : steady (logger ev).
Proof. intros w1 w2 [H1 H2]. unfold logger, same_state. cbn. now repeat split. Qed.

Lemma steady_seed_rng (seed : Z) : steady (seed_rng seed).
Proof. intros w1 w2 [H1 H2]. unfold seed_rng, same_state. cbn. now repeat split. Qed.

Lemma steady_draw_uniform : steady draw_uniform.
Proof.
  intros w1 w2 [H1 H2]. unfold draw_uniform, same_state. rewrite H2.
  destruct (random_sample (rng w2)). cbn. now repeat split.
Qed.

Lemma steady_bind {A B : Type} (m : M A) (k : A -> M B) :
  steady m -> (forall a, steady (k a)) -> steady (bind m k).
Proof.
  intros Hm Hk w1 w2 H. unfold bind. destruct (Hm w1 w2 H) as [Hr Hw].
  destruct (m w1) as [r1 w1'], (m w2) as [r2 w2']. cbn [fst snd] in *. subst r2.
  destruct r1 as [a|e]; [now apply Hk|now split].
Qed.

Lemma steady_foldM {A B : Type} (f : B -> A -> M B) (l : list A) :
  (forall b a, steady (f b a)) -> forall b, steady (foldM f l b).
Proof.
  intro Hf. induction l as [|a l IH]; intro b; cbn [foldM].
  - apply steady_ret.
  - apply steady_bind; auto.
Qed.

Lemma steady_mapM {A B : Type} (f : A -> M B) (l : list A) :
  (forall a, steady (f a)) -> steady (mapM f l).
Proof.
  intro Hf. induction l as [|a l IH]; cbn [mapM].
  - apply steady_ret.
  - apply steady_bind; auto. intro b. apply steady_bind; auto.
    intro bs. apply steady_ret.
Qed.

Ltac steady_tac :=
  repeat first
    [ apply steady_bind; [|intro]
    | apply steady_foldM; intros
    | apply steady_mapM; intros
    | apply steady_ret
    | apply steady_raise
    | apply steady_lift
    | apply steady_logger
    | apply steady_seed_rng
    | apply steady_draw_uniform
    | match goal with
      | |- steady (if ?b then _ else _) => destruct b
      | |- steady (match ?x with _ => _ end) => destruct x
      | |- steady (let (_, _) := ?x in _) => destruct x
      end ].

Lemma steady_np_random_choice (a : list cell) (p : list cell) :
  steady (np_random_choice a p).
Proof. unfold np_random_choice. steady_tac. Qed.

Lemma steady_characterize_occtype (seed : Z) (hz : hazus) (charTypes : list cell)
      (scheme : cell) (huOccMap df0 : frame) (st : acc) (occ : cell) :
  steady (characterize_occtype seed hz charTypes scheme huOccMap df0 st occ).
Proof.
  unfold characterize_occtype, characterize_bldgtype, characterize_subtype,
    assign_characteristic, apply_choice.
  steady_tac; apply steady_np_random_choice.
Qed.

(** Two computations that, from worlds in the same state, end in the same
    state, both raising the same exception or returning values related by
    [RV]. *)
Definition related {A B : Type} (RV : A -> B -> Prop) (m1 : M A) (m2 : M B) : Prop :=
  forall w1 w2,
    same_state w1 w2 ->
    match fst (m1 w1), fst (m2 w2) with
    | Ok a, Ok b => RV a b
    | Raise e1, Raise e2 => e1 = e2
    | _, _ => False
    end /\ same_state (snd (m1 w1)) (snd (m2 w2)).

Lemma related_ret {A B : Type} (RV : A -> B -> Prop) (a : A) (b : B) :
  RV a b -> related RV (ret a) (ret b).
Proof. intros H w1 w2 Hw. now split. Qed.

Lemma related_bind {A B C D : Type} (RV : A -> B -> Prop) (RW : C -> D -> Prop)
      (m1 : M A) (m2 : M B) (k1 : A -> M C) (k2 : B -> M D) :
  related RV m1 m2 ->
  (forall a b, RV a b -> related RW (k1 a) (k2 b)) ->
  related RW (bind m1 k1) (bind m2 k2).
Proof.
  intros Hm Hk w1 w2 Hw. unfold bind. specialize (Hm w1 w2 Hw).
  destruct (m1 w1) as [[a|e1] u1], (m2 w2) as [[b|e2] u2]; cbn [fst snd] in *;
    destruct Hm as [Hv Hs]; try contradiction.
  - now apply Hk.
  - now split.
Qed.

Lemma related_steady {A : Type} (m : M A) : steady m -> related eq m m.
Proof.
  intros H w1 w2 Hw. destruct (H w1 w2 Hw) as [Hv Hs]. split; [|exact Hs].
  rewrite Hv. now destruct (fst (m w2)).
Qed.

Lemma related_progress (n1 n2 t1 t2 : nat) :
  related (fun _ _ => True) (county_progress n1 t1) (county_progress n2 t2).
Proof.
  intros w1 w2 [Hf Hr]. unfold county_progress.
  destruct (Nat.eqb (n1 mod 10) 0), (Nat.eqb (n2 mod 10) 0);
    unfold logger, ret, same_state; cbn; now repeat split.
Qed.

Lemma steady_characterize_occtypes (seed : Z) (hz : hazus) (charTypes : list cell)
      (scheme : cell) (df0 : frame) (a : acc) :
  steady (characterize_occtypes seed hz charTypes scheme df0 a).
Proof.
  unfold characterize_occtypes.
  apply steady_bind; [apply steady_lift|intro].
  apply steady_bind; [apply steady_lift|intro].
  apply steady_foldM. intros. apply steady_characterize_occtype.
Qed.

(** The rows collected, whatever the county counter. *)
Definition same_rows (x y : acc * nat) : Prop := fst x = fst y.

Lemma characterize_county_rel (seed : Z) (hz : hazus) (charTypes : list cell)
      (nsi_cb : frame) (t1 t2 : nat) (s1 s2 : acc * nat) (cfip : string) :
  same_rows s1 s2 ->
  related same_rows
          (characterize_county seed hz charTypes nsi_cb t1 s1 cfip)
          (characterize_county seed hz charTypes nsi_cb t2 s2 cfip).
Proof.
  intro Hs. unfold characterize_county. red in Hs. rewrite Hs.
  eapply related_bind; [apply related_progress|intros _ _ _].
  eapply related_bind; [apply related_steady, steady_lift|intros df0 ? <-].
  destruct (county_scheme hz cfip) as [scheme|e].
  - eapply related_bind;
      [apply related_steady, steady_characterize_occtypes|intros a' ? <-].
    now apply related_ret.
  - eapply related_bind; [apply related_steady, steady_logger|intros ? ? _].
    now apply related_ret.
Qed.

Lemma county_fold_rel (seed : Z) (hz : hazus) (charTypes : list cell)
      (nsi_cb : frame) (t1 t2 : nat) (cfips : list string) :
  forall s1 s2,
    same_rows s1 s2 ->
    related same_rows
            (foldM (characterize_county seed hz charTypes nsi_cb t1) cfips s1)
            (foldM (characterize_county seed hz charTypes nsi_cb t2) cfips s2).
Proof.
  induction cfips as [|c cfips IH]; intros s1 s2 Hs; cbn [foldM].
  - now apply related_ret.
  - eapply related_bind; [now apply characterize_county_rel|].
    intros x y Hxy. now apply IH.
Qed.

(** A county without a scheme: a warning, the counter, nothing else. *)
Lemma characterize_county_skip (seed : Z) (hz : hazus) (charTypes : list cell)
      (nsi_cb : frame) (total : nat) (a : acc) (n : nat) (cfip : string)
      (w : world) (df0 : frame) (e : exn) :
  loc_eq nsi_cb "countyFIPS" (Str cfip) = Ok df0 ->
  county_scheme hz cfip = Raise e ->
  characterize_county seed hz charTypes nsi_cb total (a, n) cfip w =
  (Ok (a, S n),
   with_log w ((if Nat.eqb (S n mod 10) 0 then [CountyProgress (S n) total] else [])
               ++ [WarnNoScheme cfip])).
Proof.
  intros Hdf Hs. unfold characterize_county, county_progress. cbn [fst snd].
  rewrite Hs, Hdf.
  destruct (Nat.eqb (S n mod 10) 0); unfold bind, logger, ret, lift, with_log; cbn.
  - now rewrite <- app_assoc.
  - reflexivity.
Qed.

(** The rows of the other counties are what they are without the county
    that has no scheme. *)
Lemma county_fold_skip (seed : Z) (hz : hazus) (charTypes : list cell)
      (nsi_cb : frame) (t1 t2 : nat) (cfip : string) (after : list string)
      (df0 : frame) (e : exn) :
  loc_eq nsi_cb "countyFIPS" (Str cfip) = Ok df0 ->
  county_scheme hz cfip = Raise e ->
  forall before s1 s2,
    same_rows s1 s2 ->
    related same_rows
            (foldM (characterize_county seed hz charTypes nsi_cb t1)
                   (before ++ cfip :: after) s1)
            (foldM (characterize_county seed hz charTypes nsi_cb t2)
                   (before ++ after) s2).
Proof.
  intros Hdf Hs. induction before as [|b before IH]; intros s1 s2 H.
  - cbn [app foldM]. intros w1 w2 Hw. destruct s1 as [a n].
    rewrite (bind_run_ok _ _ _ _ _
               (characterize_county_skip seed hz charTypes nsi_cb t1 a n cfip w1 df0 e
                                         Hdf Hs)).
    pose proof (county_fold_rel seed hz charTypes nsi_cb t1 t2 after (a, S n) s2 H)
      as Hrel.
    unfold related in Hrel. apply Hrel. destruct Hw as [Hf Hr]. now split.
  - cbn [app foldM]. eapply related_bind; [now apply characterize_county_rel|].
    intros x y Hxy. now apply IH.
Qed.

(** An occupancy the scheme does not list: nothing happens, and nothing is
    logged. *)
Lemma characterize_occtype_skip (seed : Z) (hz : hazus) (charTypes : list cell)
      (scheme : cell) (huOccMap df0 : frame) (st : acc) (occ base : cell)
      (df1 huOcc : frame) (w : world) :
  loc_eq df0 "occtype" occ = Ok df1 ->
  base_occupancy occ = Ok base ->
  loc_eq huOccMap "Occupancy" base = Ok huOcc ->
  len huOcc = 0%nat ->
  characterize_occtype seed hz charTypes scheme huOccMap df0 st occ w = (Ok st, w).
Proof.
  intros H1 H2 H3 H4. unfold characterize_occtype, bind, lift, ret.
  now rewrite H1, H2, H3, H4.
Qed.

End SkipFacts.

(** ** Binary64 sums for the closed examples

    The rounding of a rational to the nearest binary64 number, a tie going
    to the even neighbour (overflow is left out), and the builtin [sum] as
    CPython runs it before 3.12: from the integer [0], one addition after
    the other. *)

Module Float64.

Definition pow2 (e : Z) : Q :=
  if (0 <=? e)%Z then inject_Z (2 ^ e) else 1 / inject_Z (2 ^ (- e)).

(** The exponent [e] of the last place of [a > 0]: the one with
    [2^52 <= a / 2^e < 2^53], or that of the subnormal numbers. *)
Definition ulp_exponent (a : Q) : Z :=
  let e0 := (Z.log2 (Qnum a) - Z.log2 (Zpos (Qden a)) - 52)%Z in
  let e1 := if Qle_bool (inject_Z (2 ^ 52)) (a / pow2 e0) then e0 else (e0 - 1)%Z in
  Z.max e1 (-1074).

Definition round (q : Q) : Q :=
  if Qeq_bool q 0 then 0
  else
    let a := Qabs q in
    let e := ulp_exponent a in
    let r := Qred (inject_Z (Py.round0 (a / pow2 e)) * pow2 e) in
    if Qle_bool 0 q then r else - r.

Definition add (x y : Q) : Q := round (x + y).

Definition sum (l : list Q) : Q := fold_left add l 0.

End Float64.

(** ** A small environment for the closed examples

    A generator that steps through sixteenths, and readers that know a few
    named contents. *)

Module Fixture.

Import Py Frame.

Definition damage_table : frame :=
  mkFrame ["wbID"; "TERRAINID"; "DamLossDescID"; "WS50"; "WS100"; "WS150"]%string
    [[Int 12; Int 3; Int 5; Float 0; Float (1 # 2); Float 1];
     [Int 12; Int 3; Int 6; Float 0; Float (1 # 4); Float (1 # 2)]].

Definition joined_table : frame :=
  mkFrame ["fd_id"; "Gust_Wind_Speed"]%string [[Int 7; Float 75]].

(** A building row whose sixteen present cells end with the structure
    value, the contents value, the wind building type and the terrain. *)
Definition building_7 : list cell :=
  [Int 0; Int 7; Str "a"; Int 220510001001; NaN; Str "RES1"; Str "W";
   Int 1; Int 2; Int 3; Int 4; Int 5; Float (1 # 8); Int 200000; Int 100000;
   Int 12; Int 3].

(** A building with no row in the joined table. *)
Definition building_8 : list cell :=
  [Int 0; Int 8; Str "a"; Int 220510001002; NaN; Str "RES1"; Str "W";
   Int 1; Int 2; Int 3; Int 4; Int 5; Float (1 # 8); Int 150000; Int 50000;
   Int 12; Int 3].

(** A building whose type 13 has no curve in the table. *)
Definition building_9 : list cell :=
  [Int 0; Int 7; Str "a"; Int 220510001003; NaN; Str "RES1"; Str "W";
   Int 1; Int 2; Int 3; Int 4; Int 5; Float (1 # 8); Int 150000; Int 50000;
   Int 13; Int 3].

Definition inventory_columns : list string :=
  ["c0"; "fd_id"; "c2"; "cbfips"; "c4"; "occtype"; "bldgtype"; "c7"; "c8"; "c9";
   "c10"; "c11"; "nsi_val.SURFACEROU"; "val_struct"; "val_cont"; "wbID";
   "terrainID"]%string.

(** A catalogue with one scheme, two subtypes of wood buildings and four
    characteristic types; subtype WSF2 has no wind building type. *)
Definition catalogue : hazus :=
  mkHazus
    (mkFrame ["CountyFIPS"; "huBldgSchemeName"]%string [[Int 22051; Str "LA1"]])
    (mkFrame ["huOccMapSchemeName"; "Occupancy"; "WSF1"; "WSF2"; "WMUH1"; "WMUH2";
              "WMUH3"]%string
       [[Str "LA1"; Str "RES1"; Int 100; Int 0; Int 0; Int 0; Int 0];
        [Str "LA1"; Str "RES3"; Int 0; Int 100; Int 0; Int 0; Int 0]])
    (mkFrame ["huBldgSchemeName"; "sbtName"; "BLDGCHARID"; "PercentDist"]%string
       [[Str "LA1"; Str "WSF1"; Int 1; Int 50];
        [Str "LA1"; Str "WSF1"; Int 2; Int 50];
        [Str "LA1"; Str "WSF1"; Int 3; Int 100];
        [Str "LA1"; Str "WSF1"; Int 4; Int 100];
        [Str "LA1"; Str "WSF1"; Int 5; Int 100];
        [Str "LA1"; Str "WSF2"; Int 1; Int 100]])
    (mkFrame ["CharType"; "BldgCharID"; "BldgChar"]%string
       [[Str "Shutters"; Int 1; Str "shtys"];
        [Str "Shutters"; Int 2; Str "shtno"];
        [Str "Roof Shape"; Int 3; Str "rsgab"];
        [Str "Garage, Houses with Shutters"; Int 4; Str "gdstd"];
        [Str "Garage, Houses w/out Shutters"; Int 5; Str "gdno2"]])
    (mkFrame ["sbtName"; "wbID"; "charDescription"]%string
       [[Str "WSF1"; Int 101; Str "rship shtys gdstd"];
        [Str "WSF1"; Int 102; Str "rsgab shtno gdno2"];
        [Str "WSF1"; Int 103; Str "rsgab shtys gdstd"];
        [Str "WSF1"; Int 104; Str "rsgab shtys gdno2"]]).

Definition charTypes : list cell :=
  [Str "Shutters"; Str "Roof Shape"; Str "Garage, Houses with Shutters";
   Str "Garage, Houses w/out Shutters"].

(** Seven buildings: four of occupancy RES1 in county 22051, one of RES3
    (subtype WSF2), one in county 22053, which has no scheme, and one of an
    occupancy the scheme does not list. *)
Definition nsi : frame :=
  mkFrame ["fd_id"; "cbfips"; "occtype"; "bldgtype"; "nsi_val.SURFACEROU"]%string
    [[Int 1; Int 220510001001; Str "RES1"; Str "W"; Float (1 # 8)];
     [Int 2; Int 220510001002; Str "RES1"; Str "W"; Float (1 # 2)];
     [Int 3; Int 220510001003; Str "RES1"; Str "W"; Float 2];
     [Int 4; Int 220510001004; Str "RES1"; Str "W"; Float (1 # 4)];
     [Int 5; Int 220510001005; Str "RES3"; Str "W"; Float (1 # 4)];
     [Int 6; Int 220530001001; Str "RES1"; Str "W"; Float (1 # 4)];
     [Int 7; Int 220510001006; Str "COM9"; Str "W"; Float (1 # 4)]].

Definition read_csv_fixture (bytes : string) : result frame :=
  if String.eqb bytes "damage" then Ok damage_table
  else if String.eqb bytes "joined" then Ok joined_table
  else if String.eqb bytes "inventory" then
    Ok (mkFrame inventory_columns [building_7; building_8])
  else if String.eqb bytes "csv" then Ok (mkFrame [] [])
  else Raise ParserError.

Definition read_excel_fixture (bytes sheet : string) : result frame :=
  if String.eqb bytes "mapping" then
    if String.eqb sheet HAZUS_SHEETS_county_mapping
    then Ok (huMappingSchemesByCountyFips catalogue)
    else if String.eqb sheet HAZUS_SHEETS_occ_mapping
    then Ok (huGbsOccMapping catalogue)
    else if String.eqb sheet HAZUS_SHEETS_bldg_mapping
    then Ok (huBldgMapping catalogue)
    else if String.eqb sheet HAZUS_SHEETS_bldg_char
    then Ok (huListofBldgChar catalogue)
    else if String.eqb sheet HAZUS_SHEETS_wind_types
    then Ok (huListOfWindBldgTypes catalogue)
    else Raise ValueError
  else Raise ParserError.

Fixpoint any_char (p : ascii -> bool) (s : string) : bool :=
  match s with
  | EmptyString => false
  | String c s' => p c || any_char p s'
  end.

(** The regular expressions of the examples that hold a special character:
    ["("] opens a group that is never closed and does not compile; ["."]
    is found in a string that has a character other than a newline. *)
Definition re_search_fixture (pat : string) : result (string -> bool) :=
  if String.eqb pat "(" then Raise ReError
  else if String.eqb pat "."
  then Ok (any_char (fun c => negb (Ascii.eqb c "010"%char)))
  else Raise OutsideModel.

(** The digits of [num/den] after the point, for a fraction that ends. *)
Fixpoint fraction_digits (fuel : nat) (num den : Z) : string :=
  match fuel with
  | O => EmptyString
  | S fuel' =>
      if (num =? 0)%Z then EmptyString
      else (DecimalString.NilZero.string_of_int (Z.to_int (10 * num / den))
            ++ fraction_digits fuel' ((10 * num) mod den)%Z den)%string
  end.

(** [str] of a float, for the floats of the examples: whole numbers and
    fractions with a small power of two below, which Python prints in
    full. *)
Definition float_repr_fixture (q : Q) : string :=
  let d := Zpos (Qden q) in
  let a := Z.abs (Qnum q) in
  ((if (Qnum q <? 0)%Z then "-" else EmptyString)
   ++ DecimalString.NilZero.string_of_int (Z.to_int (a / d)) ++ "."
   ++ (if (a mod d =? 0)%Z then "0" else fraction_digits 20 (a mod d)%Z d))%string.

#[local] Instance env : Env := {|
  rng_state := Z;
  np_random_seed := fun seed => seed;
  random_sample := fun s => (((5 * s + 3) mod 16)%Z # 16, ((5 * s + 3) mod 16)%Z);
  float_repr := float_repr_fixture;
  read_csv_bytes := read_csv_fixture;
  to_csv_bytes := fun _ => "csv"%string;
  read_excel_bytes := read_excel_fixture;
  re_search := re_search_fixture;
  float_sum := Float64.sum
|}.

(** No file, an empty log, the generator at 0. *)
Definition empty_world : world := mkWorld (fun _ => None) [] 0%Z.

(** A checkpoint, the damage table and a joined table on disk; the
    generator starts at [r]. *)
Definition disk (p : string) : option string :=
  if String.eqb p "out/nsi_wbId_sr.csv" then Some "inventory"%string
  else if String.eqb p "hazus/huDamLossFunc.csv" then Some "damage"%string
  else if String.eqb p "joined/ida_2021.csv" then Some "joined"%string
  else if String.eqb p "hazus/Mapping.xlsx" then Some "mapping"%string
  else None.

Definition disk_world (r : Z) : world := mkWorld disk [] r.

Definition inventory : frame :=
  mkFrame inventory_columns [building_7; building_8].

(** The inventory with its county column, as line 181 makes it. *)
Definition nsi_cb : frame :=
  match county_codes nsi "cbfips" with
  | Ok codes => set_column nsi "countyFIPS" codes
  | Raise _ => nsi
  end.

Definition scenarios : list (string * string) :=
  [("ida_2021", "joined/ida_2021.csv")]%string.

(** A loss table with two records in county 22051 and one in 22053. *)
Definition loss_table : frame :=
  mkFrame loss_columns
    [[Int 7; Int 220510001001; Int 12; Int 3; Float 75; Float (100001 # 2); Float 25000];
     [Int 8; Int 220510001002; Int 12; Int 3; Float 75; Float (1 # 2); Float (1 # 4)];
     [Int 9; Int 220530001001; Int 12; Int 3; Float 75; Float 3; Float (1 # 4)]].

(** A first run of stage 3B on the disk above. *)
Definition first_losses_run : result (list (string * string)) * world :=
  calculate_building_losses inventory scenarios "hazus" "res" false (disk_world 0).

End Fixture.

(** ** Claims on the loss calculator *)

Module FixtureValues.

Import Py Frame.

(** Building 7 of the fixture with every cell present: the cell that is
    missing there holds a 9 here. *)
Definition building_7_full : list cell :=
  [Int 0; Int 7; Str "a"; Int 220510001001; Int 9; Str "RES1"; Str "W";
   Int 1; Int 2; Int 3; Int 4; Int 5; Float (1 # 8); Int 200000; Int 100000;
   Int 12; Int 3].

End FixtureValues.

(** C1, at a building where the calculator does not do what the claim
    says.  The calculator does not read the structure and the contents
    value under their labels ([val_struct] and [val_cont] in
    [config.NSI_COLUMNS]): it takes the cells at positions 12 and 13 of the
    building's row once the missing cells are dropped (lines 494 and
    526-527).  A value of a row is found at the position that counts the
    present cells before it, so position 12 holds the structure value only
    in the rows with twelve present cells before it.  In the inventory of the fixture the two values follow the
    surface roughness.  Building 7 has one missing cell before them: the
    ratio 0.25 of the curve 50:0, 100:0.5, 150:1 at wind speed 75 is
    multiplied by its structure value 200000, the loss is 50000.  The same
    building with no missing cell has the same structure value 200000 and
    contents value 100000, and the calculator gives it the structural loss
    0.25 x 0.125, the ratio times the surface roughness, and the contents
    loss 0.125 x 200000, the contents ratio times the structure value. *)
Theorem C1_values_are_read_by_position :
  (forall pre post z,
      Py.iloc (Frame.dropna (pre ++ Py.Int z :: post))
              (Z.of_nat (List.length (Frame.dropna pre)))
      = Py.Ok (Py.Int z)) /\
  (forall pre post q,
      Py.iloc (Frame.dropna (pre ++ Py.Float q :: post))
              (Z.of_nat (List.length (Frame.dropna pre)))
      = Py.Ok (Py.Float q)) /\
  (Frame.row_get Fixture.inventory_columns "val_struct" Fixture.building_7
   = Py.Ok (Py.Int 200000) /\
   Frame.row_get Fixture.inventory_columns "val_cont" Fixture.building_7
   = Py.Ok (Py.Int 100000) /\
   exists ratio_str ratio_cont building_loss contents_loss,
     Interp.np_interp 75 [50; 100; 150] [0; 1 # 2; 1] = Py.Ok ratio_str /\
     ratio_str == 1 # 4 /\
     Interp.np_interp 75 [50; 100; 150] [0; 1 # 4; 1 # 2] = Py.Ok ratio_cont /\
     ratio_cont == 1 # 8 /\
     process_building Fixture.joined_table Fixture.damage_table Fixture.building_7
     = Py.Ok (Some [Py.Int 7; Py.Int 220510001001; Py.Int 12; Py.Int 3;
                    Py.Float 75; Py.Float building_loss; Py.Float contents_loss]) /\
     building_loss == ratio_str * 200000 /\ building_loss == 50000 /\
     contents_loss == ratio_cont * 100000) /\
  (Frame.row_get Fixture.inventory_columns "val_struct" FixtureValues.building_7_full
   = Py.Ok (Py.Int 200000) /\
   Frame.row_get Fixture.inventory_columns "val_cont" FixtureValues.building_7_full
   = Py.Ok (Py.Int 100000) /\
   Frame.row_get Fixture.inventory_columns "nsi_val.SURFACEROU"
                 FixtureValues.building_7_full
   = Py.Ok (Py.Float (1 # 8)) /\
   Py.iloc (Frame.dropna FixtureValues.building_7_full) 12 = Py.Ok (Py.Float (1 # 8)) /\
   Py.iloc (Frame.dropna FixtureValues.building_7_full) 13 = Py.Ok (Py.Int 200000) /\
   exists ratio_str ratio_cont building_loss contents_loss,
     Interp.np_interp 75 [50; 100; 150] [0; 1 # 2; 1] = Py.Ok ratio_str /\
     ratio_str == 1 # 4 /\
     Interp.np_interp 75 [50; 100; 150] [0; 1 # 4; 1 # 2] = Py.Ok ratio_cont /\
     ratio_cont == 1 # 8 /\
     process_building Fixture.joined_table Fixture.damage_table
                      FixtureValues.building_7_full
     = Py.Ok (Some [Py.Int 7; Py.Int 220510001001; Py.Int 12; Py.Int 3;
                    Py.Float 75; Py.Float building_loss; Py.Float contents_loss]) /\
     building_loss == ratio_str * (1 # 8) /\
     ~ building_loss == ratio_str * 200000 /\
     contents_loss == ratio_cont * 200000 /\
     ~ contents_loss == ratio_cont * 100000).
Proof.
  split; [intros; now apply dropna_position|].
  split; [intros; now apply dropna_position|].
  split.
  - split; [reflexivity|]. split; [reflexivity|].
    do 4 eexists. split; [vm_compute; reflexivity|]. split; [reflexivity|].
    split; [vm_compute; reflexivity|]. split; [reflexivity|].
    split; [vm_compute; reflexivity|].
    split; [reflexivity|]. split; reflexivity.
  - split; [reflexivity|]. split; [reflexivity|]. split; [reflexivity|].
    split; [reflexivity|]. split; [reflexivity|].
    do 4 eexists. split; [vm_compute; reflexivity|]. split; [reflexivity|].
    split; [vm_compute; reflexivity|]. split; [reflexivity|].
    split; [vm_compute; reflexivity|].
    split; [reflexivity|]. split; [discriminate|].
    split; [reflexivity|discriminate].
Qed.

(** C10. Every row the loss calculator appends comes from one building row
    of the inventory.  For that row: the wind building type and the terrain
    are the last two of its present cells, the wind speed is the first gust
    speed the joined table has for its identifier (the second of its present
    cells), the two curves are the rows of the damage table for that type
    and terrain, and the contents loss in the row appended is numpy's
    interpolation at that wind speed, over the breakpoints parsed from the
    column labels of the structural curve paired with the ratios of the
    contents curve, times the cell at position 13 of the present cells.
    Both curves are rows of the one damage table, so their wind-speed
    columns carry the same labels, and the breakpoints are those of the
    contents curve as well. *)
Theorem C10_contents_use_structural_breakpoints :
  forall nsi_wrf huDamLossFunc row r,
    process_building nsi_wrf huDamLossFunc row = Py.Ok (Some r) ->
    exists fdid type_cell terrain_cell wbID terrain_ID wind_df gusts wind_speed
           bf cf bcurve ccurve wind_speeds val_cont
           x ratios_cont ratio_cont v_cont,
      Py.iloc (Frame.dropna row) 1 = Py.Ok fdid /\
      Py.iloc (Frame.dropna row) (-2) = Py.Ok type_cell /\
      Py.int_of_cell type_cell = Py.Ok wbID /\
      Py.iloc (Frame.dropna row) (-1) = Py.Ok terrain_cell /\
      Py.int_of_cell terrain_cell = Py.Ok terrain_ID /\
      Frame.loc_eq nsi_wrf "fd_id" fdid = Py.Ok wind_df /\
      Frame.column wind_df "Gust_Wind_Speed" = Py.Ok gusts /\
      Py.iloc gusts 0 = Py.Ok wind_speed /\
      loss_func huDamLossFunc wbID terrain_ID BUILDING_DAMAGE_ID = Py.Ok bf /\
      Frame.drop_columns bf damage_keys = Py.Ok bcurve /\
      loss_func huDamLossFunc wbID terrain_ID CONTENTS_DAMAGE_ID = Py.Ok cf /\
      Frame.drop_columns cf damage_keys = Py.Ok ccurve /\
      wind_speeds_of (Frame.columns bcurve) = Py.Ok wind_speeds /\
      Py.iloc (Frame.dropna row) 13 = Py.Ok val_cont /\
      Py.float_of_cell wind_speed = Py.Ok x /\
      Py.rmap Py.float_of_cell (Frame.flatten ccurve) = Py.Ok ratios_cont /\
      Interp.np_interp x (map inject_Z wind_speeds) ratios_cont = Py.Ok ratio_cont /\
      Py.num_of_cell val_cont = Py.Ok v_cont /\
      nth 4 r Py.NA = wind_speed /\
      nth 6 r Py.NA = Py.Float (ratio_cont * v_cont) /\
      Frame.columns ccurve = Frame.columns bcurve /\
      wind_speeds_of (Frame.columns ccurve) = Py.Ok wind_speeds.
Proof.
  intros nsi dmg row r H.
  destruct (process_building_emit _ _ _ _ H)
    as (fdid & cbfip & c2 & c1 & wbID & terrain & wind_df & gusts & ws & bf & cf
        & bcurve & ccurve & vs & vc & wsp & bl & cl & H1 & H2 & H3 & H4 & H5 & H6
        & H7 & H8 & H9 & H10 & H11 & H12 & H13 & H14 & H15 & H16 & H17 & H18 & ->).
  destruct (interp_loss_product _ _ _ _ _ H18) as (x & fpc & rc & v2 & B1 & B2 & B3 & B4 & ->).
  assert (Hcols : Frame.columns ccurve = Frame.columns bcurve).
  { rewrite (drop_columns_columns _ _ _ H12), (drop_columns_columns _ _ _ H13).
    now rewrite (loss_func_columns _ _ _ _ _ H10), (loss_func_columns _ _ _ _ _ H11). }
  exists fdid, c2, c1, wbID, terrain, wind_df, gusts, ws, bf, cf, bcurve, ccurve, wsp, vc,
    x, fpc, rc, v2.
  repeat split; try assumption; try reflexivity. now rewrite Hcols.
Qed.

(** C10 on the fixture: building 7, type 12 on terrain 3, wind speed 75. *)
Lemma C10_witness :
  process_building Fixture.joined_table Fixture.damage_table Fixture.building_7
  = Py.Ok (Some [Py.Int 7; Py.Int 220510001001; Py.Int 12; Py.Int 3; Py.Float 75;
                 Py.Float (5000000 # 100); Py.Float (2500000 # 200)]) /\
  exists fdid type_cell terrain_cell wbID terrain_ID wind_df gusts wind_speed
         bf cf bcurve ccurve wind_speeds val_cont
         x ratios_cont ratio_cont v_cont,
    Py.iloc (Frame.dropna Fixture.building_7) 1 = Py.Ok fdid /\
    Py.iloc (Frame.dropna Fixture.building_7) (-2) = Py.Ok type_cell /\
    Py.int_of_cell type_cell = Py.Ok wbID /\
    Py.iloc (Frame.dropna Fixture.building_7) (-1) = Py.Ok terrain_cell /\
    Py.int_of_cell terrain_cell = Py.Ok terrain_ID /\
    Frame.loc_eq Fixture.joined_table "fd_id" fdid = Py.Ok wind_df /\
    Frame.column wind_df "Gust_Wind_Speed" = Py.Ok gusts /\
    Py.iloc gusts 0 = Py.Ok wind_speed /\
    loss_func Fixture.damage_table wbID terrain_ID BUILDING_DAMAGE_ID = Py.Ok bf /\
    Frame.drop_columns bf damage_keys = Py.Ok bcurve /\
    loss_func Fixture.damage_table wbID terrain_ID CONTENTS_DAMAGE_ID = Py.Ok cf /\
    Frame.drop_columns cf damage_keys = Py.Ok ccurve /\
    wind_speeds_of (Frame.columns bcurve) = Py.Ok wind_speeds /\
    Py.iloc (Frame.dropna Fixture.building_7) 13 = Py.Ok val_cont /\
    Py.float_of_cell wind_speed = Py.Ok x /\
    Py.rmap Py.float_of_cell (Frame.flatten ccurve) = Py.Ok ratios_cont /\
    Interp.np_interp x (map inject_Z wind_speeds) ratios_cont = Py.Ok ratio_cont /\
    Py.num_of_cell val_cont = Py.Ok v_cont /\
    nth 4 [Py.Int 7; Py.Int 220510001001; Py.Int 12; Py.Int 3; Py.Float 75;
           Py.Float (5000000 # 100); Py.Float (2500000 # 200)] Py.NA = wind_speed /\
    nth 6 [Py.Int 7; Py.Int 220510001001; Py.Int 12; Py.Int 3; Py.Float 75;
           Py.Float (5000000 # 100); Py.Float (2500000 # 200)] Py.NA
    = Py.Float (ratio_cont * v_cont) /\
    Frame.columns ccurve = Frame.columns bcurve /\
    wind_speeds_of (Frame.columns ccurve) = Py.Ok wind_speeds.
Proof.
  split; [vm_compute; reflexivity|].
  apply (C10_contents_use_structural_breakpoints
           Fixture.joined_table Fixture.damage_table Fixture.building_7).
  vm_compute. reflexivity.
Defined.
(** ** Claims on the terrain classifier *)

(** C4. The terrain classification is a total function of the surface
    roughness: every roughness value receives a class between 1 and 5, the
    class is 1 up to 0.03, 2 above 0.03 up to 0.15, 3 above 0.15 up to 0.35,
    4 above 0.35 up to 0.7 and 5 above 0.7, equal inputs receive equal
    classes, and the class never decreases when the roughness grows. *)
Theorem C4_terrain_class_thresholds_monotone :
  forall r : Q,
    (1 <= Terrain.terrain_ID r <= 5)%Z /\
    (r <= 3 # 100 -> Terrain.terrain_ID r = 1%Z) /\
    (3 # 100 < r /\ r <= 15 # 100 -> Terrain.terrain_ID r = 2%Z) /\
    (15 # 100 < r /\ r <= 35 # 100 -> Terrain.terrain_ID r = 3%Z) /\
    (35 # 100 < r /\ r <= 7 # 10 -> Terrain.terrain_ID r = 4%Z) /\
    (7 # 10 < r -> Terrain.terrain_ID r = 5%Z) /\
    (forall s : Q, r == s -> Terrain.terrain_ID r = Terrain.terrain_ID s) /\
    (forall s : Q, r <= s -> (Terrain.terrain_ID r <= Terrain.terrain_ID s)%Z).
Proof.
  intro r. split; [apply Terrain.terrain_ID_range|].
  split; [apply Terrain.terrain_ID_1|].
  split; [intros [H1 H2]; now apply Terrain.terrain_ID_2|].
  split; [intros [H1 H2]; now apply Terrain.terrain_ID_3|].
  split; [intros [H1 H2]; now apply Terrain.terrain_ID_4|].
  split; [apply Terrain.terrain_ID_5|].
  split; [apply Terrain.terrain_ID_compat|apply Terrain.terrain_ID_mono].
Qed.

(** ** Claims on the checkpoint and on repeated runs *)

Module FixtureCheckpoint.

(** The disk of the fixture with one more checkpoint, which pandas cannot
    read. *)
Definition corrupt_disk (p : string) : option string :=
  if String.eqb p "bad/nsi_wbId_sr.csv" then Some "garbage"%string else Fixture.disk p.

Definition corrupt_world : world := mkWorld (E := Fixture.env) corrupt_disk [] 0%Z.

(** Stage 3A on the seven buildings of the fixture: with no checkpoint in
    the directory, with the checkpoint of the fixture and the override, and
    with the checkpoint that cannot be read. *)
Definition run_missing : Py.result Frame.frame * world :=
  characterize_buildings (E := Fixture.env) (inr Fixture.nsi) "hazus" "fresh" false
                         (Fixture.disk_world 0).

Definition run_forced : Py.result Frame.frame * world :=
  characterize_buildings (E := Fixture.env) (inr Fixture.nsi) "hazus" "out" true
                         (Fixture.disk_world 0).

Definition run_corrupt : Py.result Frame.frame * world :=
  characterize_buildings (E := Fixture.env) (inr Fixture.nsi) "hazus" "bad" false
                         corrupt_world.

Definition run_cached : Py.result Frame.frame * world :=
  characterize_buildings (E := Fixture.env) (inr Fixture.nsi) "hazus" "out" false
                         (Fixture.disk_world 0).

End FixtureCheckpoint.

(** C5, at the invocations where the stage does not do what the claim
    says.  The checkpoint of the fixture, not overridden, is returned as
    read and the classification pass is not run: that part holds.  In the
    three other cases the pass is run and stops at line 182, where the
    comprehension binds [i] and reads [io], a name bound nowhere in the
    function (its twin at line 671 reads [str(io) for io in ...]): the
    stage raises NameError, nothing is written to the checkpoint path and
    nothing is returned.  This is so with no checkpoint in the directory
    and with the override set; with a checkpoint that cannot be read the
    warning is logged and the same NameError then ends the run. *)
Theorem C5_build_branch_raises :
  (fst FixtureCheckpoint.run_cached
   = Py.Ok (Frame.mkFrame Fixture.inventory_columns
                          [Fixture.building_7; Fixture.building_8]) /\
   log (snd FixtureCheckpoint.run_cached)
   = [LoadingCheckpoint "out/nsi_wbId_sr.csv";
      LoadedCheckpoint 2 Fixture.inventory_columns;
      UsingCachedCharacterization]) /\
  (fs (Fixture.disk_world 0) (Py.path_join "fresh" BUILDING_INVENTORY_CHECKPOINT) = None /\
   fst FixtureCheckpoint.run_missing = Py.Raise Py.NameError /\
   fs (snd FixtureCheckpoint.run_missing)
      (Py.path_join "fresh" BUILDING_INVENTORY_CHECKPOINT) = None /\
   log (snd FixtureCheckpoint.run_missing)
   = [RunningFullCharacterization; LoadedBuildings 7;
      LoadingMappingSchemes "hazus/Mapping.xlsx"; LoadedMappingTables;
      CharTypesCount 4]) /\
  (fst FixtureCheckpoint.run_forced = Py.Raise Py.NameError /\
   fs (snd FixtureCheckpoint.run_forced)
      (Py.path_join "out" BUILDING_INVENTORY_CHECKPOINT)
   = fs (Fixture.disk_world 0) (Py.path_join "out" BUILDING_INVENTORY_CHECKPOINT) /\
   log (snd FixtureCheckpoint.run_forced)
   = [RunningFullCharacterization; LoadedBuildings 7;
      LoadingMappingSchemes "hazus/Mapping.xlsx"; LoadedMappingTables;
      CharTypesCount 4]) /\
  (fs FixtureCheckpoint.corrupt_world (Py.path_join "bad" BUILDING_INVENTORY_CHECKPOINT)
   = Some "garbage"%string /\
   read_csv_bytes (Env := Fixture.env) "garbage" = Py.Raise Py.ParserError /\
   fst FixtureCheckpoint.run_corrupt = Py.Raise Py.NameError /\
   fs (snd FixtureCheckpoint.run_corrupt)
      (Py.path_join "bad" BUILDING_INVENTORY_CHECKPOINT) = Some "garbage"%string /\
   log (snd FixtureCheckpoint.run_corrupt)
   = [LoadingCheckpoint "bad/nsi_wbId_sr.csv"; WarnCheckpointError Py.ParserError;
      RunningFullCharacterization; LoadedBuildings 7;
      LoadingMappingSchemes "hazus/Mapping.xlsx"; LoadedMappingTables;
      CharTypesCount 4]).
Proof.
  repeat split; vm_compute; reflexivity.
Qed.
(** C7. A stage that has returned is not computed again by a second call
    without the override.  Stage 3A: the second call returns what is read
    from the checkpoint on disk, which is the frame the first call loaded,
    or the frame the pass built and saved as pandas reads it back; the
    files are left as they are and the log gains the three lines of the
    load.  With the stage's own pass the second call returns the very frame
    of the first.  Stage 3B: the second call returns the same dictionary,
    leaves the files as they are and logs one skip per scenario.  Stage 3C:
    the second call returns the same path and logs the skip. *)
Theorem C7_second_run_reuses_outputs :
  forall (E : Env),
    (forall path builder builder' force_rerun w w1 df,
        (forall d, exists d', read_csv_bytes (to_csv_bytes d) = Py.Ok d') ->
        load_or_build path builder force_rerun w = (Py.Ok df, w1) ->
        exists bytes df2,
          fs w1 path = Some bytes /\
          read_csv_bytes bytes = Py.Ok df2 /\
          (df2 = df \/ bytes = to_csv_bytes df) /\
          load_or_build path builder' false w1 =
          (Py.Ok df2, with_log w1 [LoadingCheckpoint path;
                                   LoadedCheckpoint (Frame.len df2) (Frame.columns df2);
                                   UsingCachedCharacterization])) /\
    (forall nsi_data hazus_dir output_dir force_rerun w w1 df,
        characterize_buildings nsi_data hazus_dir output_dir force_rerun w
        = (Py.Ok df, w1) ->
        characterize_buildings nsi_data hazus_dir output_dir false w1 =
        (Py.Ok df,
         with_log w1
           [LoadingCheckpoint (Py.path_join output_dir BUILDING_INVENTORY_CHECKPOINT);
            LoadedCheckpoint (Frame.len df) (Frame.columns df);
            UsingCachedCharacterization])) /\
    (forall inventory paths hazus_dir output_dir force_rerun w w1 d,
        calculate_building_losses inventory paths hazus_dir output_dir force_rerun w
        = (Py.Ok d, w1) ->
        calculate_building_losses inventory paths hazus_dir output_dir false w1 =
        (Py.Ok d,
         with_log w1
           (LoadingDamageFunctions (Py.path_join hazus_dir HAZUS_FILES_damage_functions)
            :: skip_log output_dir paths))) /\
    (forall paths output_dir force_rerun w w1 p,
        aggregate_county_losses paths output_dir force_rerun w = (Py.Ok p, w1) ->
        aggregate_county_losses paths output_dir false w1 =
        (Py.Ok p, with_log w1 [AggOutputExists p])).
Proof.
  intro E. repeat apply conj.
  - intros path builder builder' force w w1 df Hcodec H.
    destruct (load_or_build_returns _ _ _ _ _ _ H)
      as [(bytes & Hfs & Hread & Hsame & _)|[_ Hw]].
    + exists bytes, df. rewrite Hsame. repeat split; auto.
      apply load_or_build_cached with (bytes := bytes); auto. now rewrite Hsame.
    + destruct (Hcodec df) as [df2 Hread].
      exists (to_csv_bytes df), df2. repeat split; auto.
      now apply load_or_build_cached with (bytes := to_csv_bytes df).
  - intros nsi hz out force w w1 df H. unfold characterize_buildings in *.
    destruct (load_or_build_returns _ _ _ _ _ _ H)
      as [(bytes & Hfs & Hread & Hsame & _)|[(w0 & w0' & Hb) _]].
    + apply load_or_build_cached with (bytes := bytes); auto. now rewrite Hsame.
    + now apply build_inventory_never_returns in Hb.
  - intros. now apply calculate_second_run with (inv := inventory) (w := w)
                                               (force_rerun := force_rerun).
  - intros paths out force w w1 p H.
    now destruct (aggregate_second_run _ _ _ _ _ _ H).
Qed.

(** C7 on the fixture: stage 3B run twice on one scenario. *)
Lemma C7_witness :
  fst Fixture.first_losses_run = Py.Ok [("ida_2021", "res/ida_2021/Losses.csv")]%string /\
  calculate_building_losses (E := Fixture.env) Fixture.inventory Fixture.scenarios
                            "hazus" "res" false (snd Fixture.first_losses_run) =
  (Py.Ok [("ida_2021", "res/ida_2021/Losses.csv")]%string,
   with_log (snd Fixture.first_losses_run)
            (LoadingDamageFunctions (Py.path_join "hazus" HAZUS_FILES_damage_functions)
             :: skip_log "res" Fixture.scenarios)).
Proof.
  assert (H : fst Fixture.first_losses_run
              = Py.Ok [("ida_2021", "res/ida_2021/Losses.csv")]%string)
    by (vm_compute; reflexivity).
  split; [exact H|].
  apply (proj1 (proj2 (proj2 (C7_second_run_reuses_outputs Fixture.env)))
           Fixture.inventory Fixture.scenarios "hazus"%string "res"%string false
           (Fixture.disk_world 0)).
  rewrite <- H. apply surjective_pairing.
Defined.

(** ** Claims on reproducibility *)

(** C9. The characterization stage does not depend on the state numpy's
    generator is in when the stage starts: from the same files and the same
    log, two runs return the same result and leave the same files (the
    checkpoint included) and the same log.  The classification loop, which
    seeds the generator with the configured constant before it draws,
    returns the same rows and ends in the same world. *)
Theorem C9_characterization_reproducible :
  forall (E : Env),
    (forall nsi_data hazus_dir output_dir force_rerun w1 w2,
        fs w1 = fs w2 -> log w1 = log w2 ->
        fst (characterize_buildings nsi_data hazus_dir output_dir force_rerun w1) =
        fst (characterize_buildings nsi_data hazus_dir output_dir force_rerun w2) /\
        fs (snd (characterize_buildings nsi_data hazus_dir output_dir force_rerun w1)) =
        fs (snd (characterize_buildings nsi_data hazus_dir output_dir force_rerun w2)) /\
        log (snd (characterize_buildings nsi_data hazus_dir output_dir force_rerun w1)) =
        log (snd (characterize_buildings nsi_data hazus_dir output_dir force_rerun w2))) /\
    (forall hz charTypes nsi_cb cfips w1 w2,
        fs w1 = fs w2 -> log w1 = log w2 ->
        characterize_loop hz charTypes nsi_cb cfips w1 =
        characterize_loop hz charTypes nsi_cb cfips w2).
Proof.
  intro E. split.
  - intros nsi hz out force w1 w2 H1 H2.
    destruct (insensitive_load_or_build
                (Py.path_join out BUILDING_INVENTORY_CHECKPOINT)
                (build_inventory nsi hz) force
                (insensitive_build_inventory nsi hz) w1 w2 (conj H1 H2))
      as [Hr [Hf Hl]].
    now repeat split.
  - intros hz cts nsi cfips w1 w2 H1 H2.
    now apply characterize_loop_seeded.
Qed.

(** C9 on the fixture: the loop started with the generator in two
    different states. *)
Lemma C9_witness :
  characterize_loop (E := Fixture.env) Fixture.catalogue Fixture.charTypes
                    Fixture.nsi_cb ["22051"; "22053"]%string
                    (mkWorld (E := Fixture.env) (fun _ => None) [] 0%Z)
  = characterize_loop (E := Fixture.env) Fixture.catalogue Fixture.charTypes
                      Fixture.nsi_cb ["22051"; "22053"]%string
                      (mkWorld (E := Fixture.env) (fun _ => None) [] 9%Z).
Proof.
  apply (proj2 (C9_characterization_reproducible Fixture.env)); reflexivity.
Defined.

(** ** Claims on the vulnerability-type resolution *)

Module FixturePatterns.

Import Py Frame.





End FixturePatterns.



Module FixtureRows.

Import Py.

(** The columns of [df3] and the rows of buildings 1, 4 and 5 in the run of
    the fixture. *)
Definition df3_columns : list string :=
  ["fd_id"; "cbfips"; "occtype"; "bldgtype"; "nsi_val.SURFACEROU"; "countyFIPS";
   "sbtName"; "Shutters"; "Roof Shape"; "Garage, Houses with Shutters";
   "Garage, Houses w/out Shutters"]%string.

Definition row_1 : list cell :=
  [Int 1; Int 220510001001; Str "RES1"; Str "W"; Float (1 # 8); Str "22051";
   Str "WSF1"; Str "shtys"; Str "rsgab"; Str "gdstd"; Str "gdno2"].

Definition row_4 : list cell :=
  [Int 4; Int 220510001004; Str "RES1"; Str "W"; Float (1 # 4); Str "22051";
   Str "WSF1"; Str "shtno"; Str "rsgab"; Str "gdstd"; Str "gdno2"].


Lemma charTypes_NoDup : NoDup Fixture.charTypes.
Proof.
  unfold Fixture.charTypes.
  repeat (constructor; [cbn; intuition discriminate|]). constructor.
Qed.

Lemma row_1_sampled :
  sampled (E := Fixture.env) df3_columns row_1 Fixture.charTypes.
Proof.
  intros c Hc. unfold Fixture.charTypes in Hc. cbn in Hc.
  destruct Hc as [<-|[<-|[<-|[<-|[]]]]]; eexists; reflexivity.
Qed.

Lemma row_1_plain :
  plain_sample (E := Fixture.env) df3_columns row_1 Fixture.charTypes.
Proof.
  intros c v Hc Hv. unfold Fixture.charTypes in Hc. cbn in Hc.
  destruct Hc as [<-|[<-|[<-|[<-|[]]]]]; vm_compute in Hv; injection Hv as <-;
    reflexivity.
Qed.




End FixtureRows.






(** ** Claims on the aggregation *)

Module FixtureSums.

Import Py Frame.

(** Five records in two counties, with the structural losses 2.82, 0.89,
    0.55, 0.31 and 0.93 as binary64 numbers, the third and the fifth in the
    second county. *)
Definition five_losses : list Q :=
  map Float64.round [282 # 100; 89 # 100; 55 # 100; 31 # 100; 93 # 100].

Definition five_records : frame :=
  mkFrame loss_columns
    [[Int 1; Int 220510001001; Int 12; Int 3; Float 75; Float (nth 0 five_losses 0); Float 0];
     [Int 2; Int 220510001002; Int 12; Int 3; Float 75; Float (nth 1 five_losses 0); Float 0];
     [Int 3; Int 220530001001; Int 12; Int 3; Float 75; Float (nth 2 five_losses 0); Float 0];
     [Int 4; Int 220510001003; Int 12; Int 3; Float 75; Float (nth 3 five_losses 0); Float 0];
     [Int 5; Int 220530001002; Int 12; Int 3; Float 75; Float (nth 4 five_losses 0); Float 0]].

(** One record with a structural and a contents loss of 2.5. *)
Definition one_record : frame :=
  mkFrame loss_columns
    [[Int 1; Int 220510001001; Int 12; Int 3; Float 75; Float (5 # 2); Float (5 # 2)]].

End FixtureSums.

(** C6, against the claim as stated.  With binary64 additions from left to
    right, the five records of the fixture give the county subtotals 4.02
    and 1.48, whose sum 5.5 is reported as 6; the sum of the five losses
    is below 5.5, as a rational and as the float sum of the records in
    their order, and rounds to 5.  The record with two losses of 2.5 is
    reported with the totals 2 and 2 and the combined total 4, which is not
    the sum 5 of the two totals rounded. *)
Lemma C6_counterexample :
  (exists county,
      scenario_totals (E := Fixture.env) FixtureSums.five_records
      = Py.Ok (county, (inject_Z 6, inject_Z 0, inject_Z 6 + inject_Z 0)) /\
      Py.rbind (Frame.column county "Building_Loss") (Py.rmap Py.float_cell)
      = Py.Ok [Float64.round (402 # 100); Float64.round (148 # 100)]) /\
  Py.rbind (Frame.column FixtureSums.five_records "Building_Loss")
           (Py.rmap Py.float_cell)
  = Py.Ok FixtureSums.five_losses /\
  Float64.sum [Float64.round (402 # 100); Float64.round (148 # 100)] == 11 # 2 /\
  Py.sum FixtureSums.five_losses < 11 # 2 /\
  Py.round0 (Py.sum FixtureSums.five_losses) = 5%Z /\
  Py.round0 (Float64.sum FixtureSums.five_losses) = 5%Z /\
  (exists county,
      scenario_totals (E := Fixture.env) FixtureSums.one_record
      = Py.Ok (county, (inject_Z 2, inject_Z 2, inject_Z 2 + inject_Z 2))) /\
  Py.round0 ((5 # 2) + (5 # 2)) = 5%Z.
Proof.
  split.
  { eexists. split; vm_compute; reflexivity. }
  split; [vm_compute; reflexivity|].
  split; [vm_compute; reflexivity|].
  split; [vm_compute; reflexivity|].
  split; [vm_compute; reflexivity|].
  split; [vm_compute; reflexivity|].
  split; [eexists; vm_compute; reflexivity|].
  vm_compute. reflexivity.
Qed.

(** C6, amended.  When the aggregation produces totals for the loss records
    of a scenario, the records have a county code and a float for each of
    the two losses, and: the county table has one row per distinct
    five-character county code, in the order of first appearance, with the
    builtin sum of the structural losses of the county's records and that of
    their contents losses; the reported structural total is the builtin sum
    of the county subtotals, rounded to a whole number, and so is the
    reported contents total; the reported combined total is the sum of the
    two reported totals.  When no addition of floats rounds, the county
    subtotals add up to the sum of the losses of all the records, and the
    reported total is that sum rounded.  A loss table with at least one
    record, a county column and floats in the two loss columns does produce
    the totals. *)
Theorem C6_county_sums_and_totals :
  forall (E : Env) (df_indiv : Frame.frame),
    (forall county total_bldg total_cont total_all,
        scenario_totals df_indiv = Py.Ok (county, (total_bldg, total_cont, total_all)) ->
        exists codes bl cl,
          county_codes df_indiv "countyFIPS" = Py.Ok codes /\
          Py.rbind (Frame.column df_indiv "Building_Loss") (Py.rmap Py.float_cell)
          = Py.Ok bl /\
          Py.rbind (Frame.column df_indiv "Contents_Loss") (Py.rmap Py.float_cell)
          = Py.Ok cl /\
          county = Frame.mkFrame county_columns
                     (map (fun k => [k; Py.Float (py_sum (losses_of codes bl k));
                                     Py.Float (py_sum (losses_of codes cl k))])
                          (Py.unique Py.cell_same codes)) /\
          total_bldg = inject_Z (Py.round0 (py_sum (subtotals codes bl))) /\
          total_cont = inject_Z (Py.round0 (py_sum (subtotals codes cl))) /\
          total_all = total_bldg + total_cont /\
          (exact_sums codes bl ->
           Py.sum (subtotals codes bl) == Py.sum bl /\
           total_bldg = inject_Z (Py.round0 (Py.sum bl))) /\
          (exact_sums codes cl ->
           Py.sum (subtotals codes cl) == Py.sum cl /\
           total_cont = inject_Z (Py.round0 (Py.sum cl)))) /\
    (forall codes bl cl,
        Frame.rows df_indiv <> [] ->
        county_codes df_indiv "countyFIPS" = Py.Ok codes ->
        Py.rbind (Frame.column df_indiv "Building_Loss") (Py.rmap Py.float_cell)
        = Py.Ok bl ->
        Py.rbind (Frame.column df_indiv "Contents_Loss") (Py.rmap Py.float_cell)
        = Py.Ok cl ->
        exists county total_bldg total_cont total_all,
          scenario_totals df_indiv = Py.Ok (county, (total_bldg, total_cont, total_all))).
Proof.
  intros E df. split.
  - intros county tb tc ta H.
    destruct (scenario_totals_inv df county tb tc ta H)
      as (codes & bl & cl & Hne & Hcodes & Hbl & Hcl).
    rewrite (scenario_totals_value df codes bl cl Hne Hcodes Hbl Hcl) in H.
    injection H as <- <- <- <-.
    destruct (county_codes_inv _ _ _ Hcodes) as [HStr _].
    pose proof (loss_lists_length df codes bl _ Hcodes Hbl) as Hlb.
    pose proof (loss_lists_length df codes cl _ Hcodes Hcl) as Hlc.
    exists codes, bl, cl.
    split; [exact Hcodes|]. split; [exact Hbl|]. split; [exact Hcl|].
    split; [reflexivity|]. split; [reflexivity|]. split; [reflexivity|].
    split; [reflexivity|]. split.
    + intro Hex. split.
      * now apply subtotals_exact.
      * now apply reported_total_exact.
    + intro Hex. split.
      * now apply subtotals_exact.
      * now apply reported_total_exact.
  - intros codes bl cl Hne H1 H2 H3.
    rewrite (scenario_totals_value df codes bl cl Hne H1 H2 H3). now do 4 eexists.
Qed.

(** C6 amended, on the fixture: three records in two counties, whose losses
    add up without rounding. *)
Lemma C6_witness :
  exists county codes bl,
    scenario_totals (E := Fixture.env) Fixture.loss_table
    = Py.Ok (county, (inject_Z 50004, inject_Z 25000, inject_Z 50004 + inject_Z 25000)) /\
    county_codes (E := Fixture.env) Fixture.loss_table "countyFIPS" = Py.Ok codes /\
    Py.rbind (Frame.column Fixture.loss_table "Building_Loss") (Py.rmap Py.float_cell)
    = Py.Ok bl /\
    exact_sums (E := Fixture.env) codes bl /\
    Py.sum (subtotals (E := Fixture.env) codes bl) == Py.sum bl /\
    inject_Z 50004 = inject_Z (Py.round0 (Py.sum bl)).
Proof.
  assert (H : exists county,
             scenario_totals (E := Fixture.env) Fixture.loss_table
             = Py.Ok (county, (inject_Z 50004, inject_Z 25000,
                               inject_Z 50004 + inject_Z 25000)))
    by (eexists; vm_compute; reflexivity).
  destruct H as [county H].
  destruct (proj1 (C6_county_sums_and_totals Fixture.env Fixture.loss_table) _ _ _ _ H)
    as (codes & bl & cl & H1 & H2 & H3 & H4 & H5 & H6 & H7 & H8 & H9).
  assert (Hex : exact_sums (E := Fixture.env) codes bl).
  { vm_compute in H1. injection H1 as <-. vm_compute in H2. injection H2 as <-.
    split.
    - intros k Hk. vm_compute in Hk.
      destruct Hk as [<-|[<-|[]]]; vm_compute; reflexivity.
    - vm_compute. reflexivity. }
  exists county, codes, bl.
  split; [exact H|]. split; [exact H1|]. split; [exact H2|]. split; [exact Hex|].
  exact (H8 Hex).
Defined.

(** The combined total adds the two rounded totals; rounding the sum of the
    unrounded ones can give another amount. *)
Remark rounded_parts_versus_rounded_sum :
  (Py.round0 (1 # 2) + Py.round0 (1 # 2))%Z <> Py.round0 ((1 # 2) + (1 # 2)).
Proof. vm_compute. discriminate. Qed.

(** ** Claims on the skips *)

Module FixtureRuns.

Import Py Frame.

(** Two inventories: building 7 alone, and building 7 with building 8,
    which has no wind speed in the joined table. *)
Definition inventory_a : frame := mkFrame Fixture.inventory_columns [Fixture.building_7].

Definition inventory_b : frame :=
  mkFrame Fixture.inventory_columns [Fixture.building_7; Fixture.building_8].

Definition run (inventory : frame) : result (list (string * string)) * world :=
  calculate_building_losses (E := Fixture.env) inventory Fixture.scenarios
                            "hazus" "res" false (Fixture.disk_world 0).

End FixtureRuns.

(** C8, against the claim as stated.  Stage 3B is run on the same disk with
    two inventories; the second has one building more, which is passed over
    for want of a wind speed.  The two runs return the same dictionary and
    leave the same world, log and files included: nothing the run reports
    tells one skip from none, so the skip is neither counted nor
    surfaced. *)
Lemma C8_counterexample :
  skipped_buildings Fixture.joined_table Fixture.damage_table
                    (Frame.rows FixtureRuns.inventory_a) = 0%nat /\
  skipped_buildings Fixture.joined_table Fixture.damage_table
                    (Frame.rows FixtureRuns.inventory_b) = 1%nat /\
  FixtureRuns.run FixtureRuns.inventory_a = FixtureRuns.run FixtureRuns.inventory_b /\
  ~ (exists count : Py.result (list (string * string)) * world -> nat,
        count (FixtureRuns.run FixtureRuns.inventory_a) = 0%nat /\
        count (FixtureRuns.run FixtureRuns.inventory_b) = 1%nat).
Proof.
  assert (Hrun : FixtureRuns.run FixtureRuns.inventory_a
                 = FixtureRuns.run FixtureRuns.inventory_b)
    by reflexivity.
  split; [vm_compute; reflexivity|].
  split; [vm_compute; reflexivity|].
  split; [exact Hrun|].
  intros (count & Ha & Hb). rewrite Hrun in Ha. congruence.
Qed.

(** C8, amended.  Each skip ends its loop iteration without raising and
    without adding a row.  Stage 3B: a building with no row in the joined
    table, or with a structural or contents curve missing, is passed over;
    the loop then continues from the same rows, count and world, and the
    rows appended for the other buildings are those of the inventory
    without it; the stage leaves the checkpoint file as it is.  Stage 3A: a
    county with no scheme leaves the rows as they are and logs one warning
    that names it, and the rows, files and generator after the county loop
    are those of the loop without that county; an occupancy the scheme does
    not list leaves the rows and the world, log included, as they are. *)
Theorem C8_skips_continue_without_count :
  forall (E : Env),
    (forall nsi_wrf huDamLossFunc row fdid cbfip c2 c1 wbID terrain_ID wind_df,
        Py.iloc (Frame.dropna row) 1 = Py.Ok fdid ->
        Py.iloc (Frame.dropna row) 3 = Py.Ok cbfip ->
        Py.iloc (Frame.dropna row) (-2) = Py.Ok c2 -> Py.int_of_cell c2 = Py.Ok wbID ->
        Py.iloc (Frame.dropna row) (-1) = Py.Ok c1 ->
        Py.int_of_cell c1 = Py.Ok terrain_ID ->
        Frame.loc_eq nsi_wrf "fd_id" fdid = Py.Ok wind_df ->
        Frame.len wind_df = 0%nat ->
        process_building nsi_wrf huDamLossFunc row = Py.Ok None) /\
    (forall nsi_wrf huDamLossFunc row fdid cbfip c2 c1 wbID terrain_ID wind_df
            gusts wind_speed bf cf,
        Py.iloc (Frame.dropna row) 1 = Py.Ok fdid ->
        Py.iloc (Frame.dropna row) 3 = Py.Ok cbfip ->
        Py.iloc (Frame.dropna row) (-2) = Py.Ok c2 -> Py.int_of_cell c2 = Py.Ok wbID ->
        Py.iloc (Frame.dropna row) (-1) = Py.Ok c1 ->
        Py.int_of_cell c1 = Py.Ok terrain_ID ->
        Frame.loc_eq nsi_wrf "fd_id" fdid = Py.Ok wind_df ->
        Frame.column wind_df "Gust_Wind_Speed" = Py.Ok gusts ->
        Py.iloc gusts 0 = Py.Ok wind_speed ->
        loss_func huDamLossFunc wbID terrain_ID BUILDING_DAMAGE_ID = Py.Ok bf ->
        loss_func huDamLossFunc wbID terrain_ID CONTENTS_DAMAGE_ID = Py.Ok cf ->
        Frame.len bf = 0%nat \/ Frame.len cf = 0%nat ->
        process_building nsi_wrf huDamLossFunc row = Py.Ok None) /\
    (forall nsi_wrf huDamLossFunc row,
        process_building nsi_wrf huDamLossFunc row = Py.Ok None ->
        (forall rest losses n w,
            loss_loop nsi_wrf huDamLossFunc (row :: rest) losses n w =
            loss_loop nsi_wrf huDamLossFunc rest losses n w) /\
        (forall before after,
            emitted nsi_wrf huDamLossFunc (before ++ row :: after) =
            emitted nsi_wrf huDamLossFunc (before ++ after))) /\
    (forall inventory paths hazus_dir output_dir inventory_dir force_rerun w,
        fs (snd (calculate_building_losses inventory paths hazus_dir output_dir
                                           force_rerun w))
           (Py.path_join inventory_dir BUILDING_INVENTORY_CHECKPOINT)
        = fs w (Py.path_join inventory_dir BUILDING_INVENTORY_CHECKPOINT)) /\
    (forall seed hz charTypes nsi_cb cfip df0 e,
        Frame.loc_eq nsi_cb "countyFIPS" (Py.Str cfip) = Py.Ok df0 ->
        county_scheme hz cfip = Py.Raise e ->
        (forall total a n w,
            characterize_county seed hz charTypes nsi_cb total (a, n) cfip w =
            (Py.Ok (a, S n),
             with_log w ((if Nat.eqb (S n mod 10) 0
                          then [CountyProgress (S n) total] else [])
                         ++ [WarnNoScheme cfip]))) /\
        (forall t1 t2 before after st w,
            match fst (foldM (characterize_county seed hz charTypes nsi_cb t1)
                             (before ++ cfip :: after) st w),
                  fst (foldM (characterize_county seed hz charTypes nsi_cb t2)
                             (before ++ after) st w) with
            | Py.Ok x, Py.Ok y => fst x = fst y
            | Py.Raise e1, Py.Raise e2 => e1 = e2
            | _, _ => False
            end /\
            fs (snd (foldM (characterize_county seed hz charTypes nsi_cb t1)
                           (before ++ cfip :: after) st w)) =
            fs (snd (foldM (characterize_county seed hz charTypes nsi_cb t2)
                           (before ++ after) st w)) /\
            rng (snd (foldM (characterize_county seed hz charTypes nsi_cb t1)
                            (before ++ cfip :: after) st w)) =
            rng (snd (foldM (characterize_county seed hz charTypes nsi_cb t2)
                            (before ++ after) st w)))) /\
    (forall seed hz charTypes scheme huOccMap df0 st occ base df1 huOcc w,
        Frame.loc_eq df0 "occtype" occ = Py.Ok df1 ->
        base_occupancy occ = Py.Ok base ->
        Frame.loc_eq huOccMap "Occupancy" base = Py.Ok huOcc ->
        Frame.len huOcc = 0%nat ->
        characterize_occtype seed hz charTypes scheme huOccMap df0 st occ w
        = (Py.Ok st, w)).
Proof.
  intro E. repeat apply conj.
  - intros. eapply process_building_no_wind; eauto.
  - intros. eapply process_building_no_curve; eauto.
  - intros nsi dmg row H. split.
    + intros. now apply loss_loop_skip.
    + intros. now apply emitted_skip.
  - intros. apply checkpoint_untouched.
  - intros seed hz cts nsi cfip df0 e Hdf Hs. split.
    + intros. now apply characterize_county_skip with (df0 := df0) (e := e).
    + intros t1 t2 before after st w.
      pose proof (county_fold_skip seed hz cts nsi t1 t2 cfip after df0 e Hdf Hs
                    before st st eq_refl w w (conj eq_refl eq_refl)) as [Hv [Hf Hr]].
      repeat split; assumption.
  - intros. eapply characterize_occtype_skip; eauto.
Qed.

(** C8 amended, on the fixture: building 8 has no wind speed, and county
    22053 has no scheme. *)
Lemma C8_witness :
  process_building Fixture.joined_table Fixture.damage_table Fixture.building_8
  = Py.Ok None /\
  characterize_county (E := Fixture.env) RANDOM_SEED Fixture.catalogue
                      Fixture.charTypes Fixture.nsi_cb 2 (([], None), 1%nat) "22053"
                      Fixture.empty_world
  = (Py.Ok (([], None), 2%nat),
     with_log Fixture.empty_world ([] ++ [WarnNoScheme "22053"])).
Proof.
  split.
  - apply (proj1 (C8_skips_continue_without_count Fixture.env)
             Fixture.joined_table Fixture.damage_table Fixture.building_8
             (Py.Int 8) (Py.Int 220510001002) (Py.Int 12) (Py.Int 3) 12%Z 3%Z
             (Frame.mkFrame ["fd_id"; "Gust_Wind_Speed"]%string []));
      reflexivity.
  - apply (proj1 (proj1 (proj2 (proj2 (proj2 (proj2
             (C8_skips_continue_without_count Fixture.env)))))
             RANDOM_SEED Fixture.catalogue Fixture.charTypes Fixture.nsi_cb
             "22053"%string
             (Frame.mkFrame (Frame.columns Fixture.nsi_cb)
                [[Py.Int 6; Py.Int 220530001001; Py.Str "RES1"; Py.Str "W";
                  Py.Float (1 # 4); Py.Str "22053"]])
             Py.IndexError eq_refl eq_refl) 2%nat ([], None) 1%nat Fixture.empty_world).
Defined.

(** * The pipeline around the engine

    [src/modules/netcdf_processor.py] ([process_ncar_netcdf]),
    [src/modules/spatial_join.py] ([join_buildings_wind]) and
    [src/main_pipeline.py] ([validate_inputs], [run_pipeline]), with the
    constants of [src/config.py] they use.  What netCDF4 and geopandas
    compute enters as parameters: the reader of a NetCDF file, and the
    operations on GeoDataFrames of the class [Geo].  [setup_logging] and
    [main] configure the logging handlers, read the clock and parse the
    command line, and are left out; so is where the handlers send the log
    records, which are kept apart from the files. *)

(** ** config.py *)

Definition GUST_FACTOR_NCAR : Q := 128 # 100.
Definition MS_TO_MPH : Q := 223694 # 100000.
Definition LONGITUDE_ADJUSTMENT : Z := -360.
Definition SCENARIOS : list string := ["ida_1971"; "ida_2021"; "ida_2071"]%string.
Definition NETCDF_FILES : list string :=
  ["ida_1971.nc"; "ida_2021.nc"; "ida_2071.nc"]%string.
Definition HAZUS_FILES : list (string * string) :=
  [("mapping", HAZUS_FILES_mapping);
   ("damage_functions", HAZUS_FILES_damage_functions)]%string.
Definition NETCDF_VARIABLES : list (string * string) :=
  [("wind", "swath_wind"); ("longitude", "lon_2d"); ("latitude", "lat_2d")]%string.

(** ** Strings and dictionaries *)

Module PyStr.

Import Py.

(** [s.rfind(c)] for one character: the index of the last occurrence, or
    -1. *)
Fixpoint rfind_from (c : ascii) (s : string) (i : Z) (found : Z) : Z :=
  match s with
  | EmptyString => found
  | String d s' => rfind_from c s' (i + 1) (if Ascii.eqb c d then i else found)
  end.

Definition rfind (c : ascii) (s : string) : Z := rfind_from c s 0 (-1).

(** The characters of [s] from index [i] up to [j] are all dots. *)
Fixpoint all_dots (s : string) (i j : nat) : bool :=
  match j with
  | O => true
  | S j' =>
      match i, s with
      | O, String d s' => Ascii.eqb d "." && all_dots s' O j'
      | S i', String _ s' => all_dots s' i' j'
      | _, EmptyString => true
      end
  end.

(** [os.path.splitext(p)[0]] on POSIX: the extension starts at the last dot
    of the last component, unless only dots come before it there. *)
Definition splitext_root (p : string) : string :=
  let sepIndex := rfind "/" p in
  let dotIndex := rfind "." p in
  if (sepIndex <? dotIndex)%Z then
    if all_dots p (Z.to_nat (sepIndex + 1)) (Z.to_nat dotIndex)
    then p
    else take (Z.to_nat dotIndex) p
  else p.

(** [s.split(c)] for a one-character separator. *)
Fixpoint split (c : ascii) (s : string) : list string :=
  match s with
  | EmptyString => [EmptyString]
  | String d s' =>
      if Ascii.eqb d c then EmptyString :: split c s'
      else match split c s' with
           | [] => [String d EmptyString]
           | h :: t => String d h :: t
           end
  end.

(** White space, for the characters of ASCII: tab to carriage return, the
    four separators, the blank. *)
Definition is_space (c : ascii) : bool :=
  let n := nat_of_ascii c in
  ((9 <=? n) && (n <=? 13) || (28 <=? n) && (n <=? 32))%nat.

Fixpoint lstrip (s : string) : string :=
  match s with
  | String c s' => if is_space c then lstrip s' else s
  | EmptyString => EmptyString
  end.

Fixpoint rstrip (s : string) : string :=
  match s with
  | EmptyString => EmptyString
  | String c s' =>
      match rstrip s' with
      | EmptyString => if is_space c then EmptyString else String c EmptyString
      | r => String c r
      end
  end.

(** [s.strip()]. *)
Definition strip (s : string) : string := rstrip (lstrip s).

(** The digits of a decimal literal, with single underscores between
    them. *)
Fixpoint literal (acc : Z) (after_digit : bool) (s : string) : option Z :=
  match s with
  | EmptyString => if after_digit then Some acc else None
  | String c s' =>
      if Ascii.eqb c "_" then
        if after_digit then literal acc false s' else None
      else match digit_of c with
           | Some d => literal (10 * acc + d) true s'
           | None => None
           end
  end.

(** [int(s)] on a string of ASCII characters: white space around, an
    optional sign, decimal digits that single underscores may separate;
    anything else raises ValueError. *)
Definition int (s : string) : result Z :=
  let body sgn t :=
    match literal 0 false t with
    | Some z => Ok (sgn * z)%Z
    | None => Raise ValueError
    end in
  match strip s with
  | String "-"%char t => body (-1)%Z t
  | String "+"%char t => body 1%Z t
  | t => body 1%Z t
  end.

End PyStr.

(** ** NetCDF data *)

(** A variable of a NetCDF file: its shape and its values in row-major
    order, as [flatten] lists them; [None] is a masked or missing value.
    The three variables the processor reads are numeric. *)
Record nc_variable : Type := mkVariable {
  shape : list nat;
  data : list (option Q)
}.

Definition nc_dataset : Type := list (string * nc_variable).

(** ** Log records of the two modules *)

Inductive input : Type := NcarDir | NsiFile | HazusDir | InventoryFile.

(** What [validate_inputs] appends to [errors]. *)
Inductive problem : Type :=
| NcarDirNotFound (dir : string)
| NetcdfNotFound (path : string)
| NsiNotFound (path : string)
| HazusDirNotFound (dir : string)
| HazusFileNotFound (file_type path : string)
| InventoryNotFound (path : string).

(** What lines 180-183 of [spatial_join.py] log of the [distance] column:
    its mean, median and maximum, and the count of the distances above
    1000. *)
Record statistics : Type := mkStatistics {
  mean_distance : Py.cell;
  median_distance : Py.cell;
  max_distance : Py.cell;
  far : nat
}.

(** The logger calls that carry data or mark a branch, for the loggers of
    [netcdf_processor], of [spatial_join] and of [main_pipeline]. *)
Inductive record : Type :=
| NcChecking (dir : string)
| NcFile (file : string) (found : bool)
| NcMissingFiles (files : list string)
| NcOutputExists (scenario path : string)
| NcProcessing (scenario file : string)
| NcMissingVariables (file : string) (vars : list string)
| NcShapes (wind lon lat : list nat)
| NcStatistics (n : nat) (max_gust lon_min lon_max lat_min lat_max : option Q)
| NcSaving (path : string)
| NcDone (scenario : string)
| NcError (file : string) (e : Py.exn)
| NcComplete (n : nat)
| JoinNsiMissing (path : string)
| JoinLoadingNsi (path : string)
| JoinNsiLoaded (n : nat)
| JoinNsiProjected
| JoinNsiError (e : Py.exn)
| JoinScenario (scenario : string)
| JoinOutputExists (path : string)
| JoinWindMissing (path : string)
| JoinLoadingWind (path : string)
| JoinWindLoaded (n : nat)
| JoinWindProjected
| JoinStatistics (n : nat) (distances : statistics)
| JoinMissingWind (n : nat)
| JoinSaving (path : string)
| JoinDone (scenario : string)
| JoinError (scenario : string) (e : Py.exn)
| JoinComplete (n : nat)
| Checking (what : input) (path : string)
| Checked (what : input) (found : bool)
| CheckedFile (name : string) (found : bool)
| ValidationFailed (n : nat)
| ValidationError (i : nat) (p : problem)
| ValidationSuccessful
| RunningSteps (selected : bool) (steps : list Z)
| StepSkipped (step : Z)
| FoundCsv (path : string)
| MissingCsv (path : string)
| UsingProvidedInventory (path : string).

Section Pipeline.

Context {E : Env}.

Import Py Frame.
Local Open Scope result_scope.

(** The world of a pipeline run: the world of the engine (its files, the
    records of the logger of [building_losses], the generator) and the
    records of the other loggers, in the order they were made. *)
Record pworld : Type := mkPworld {
  engine : world;
  records : list record
}.

Definition P (A : Type) : Type := pworld -> result A * pworld.

Definition pret {A : Type} (a : A) : P A := fun pw => (Ok a, pw).

Definition pbind {A B : Type} (m : P A) (k : A -> P B) : P B :=
  fun pw => match m pw with
            | (Ok a, pw') => k a pw'
            | (Raise e, pw') => (Raise e, pw')
            end.

Definition praise {A : Type} (e : exn) : P A := fun pw => (Raise e, pw).

(** [try: m except Exception as e: h e]. *)
Definition pcatch {A : Type} (m : P A) (h : exn -> P A) : P A :=
  fun pw => match m pw with
            | (Ok a, pw') => (Ok a, pw')
            | (Raise e, pw') => h e pw'
            end.

Definition plift {A : Type} (r : result A) : P A := fun pw => (r, pw).

(** A computation of the engine, run on the engine's world. *)
Definition run_engine {A : Type} (m : M A) : P A :=
  fun pw => let (r, w') := m (engine pw) in (r, mkPworld w' (records pw)).

Definition plogger (r : record) : P unit :=
  fun pw => (Ok tt, mkPworld (engine pw) (records pw ++ [r])).

Definition exists_path (p : string) : P bool := run_engine (path_exists p).

End Pipeline.

Declare Scope pipe_scope.
Delimit Scope pipe_scope with pipe.
Notation "x <- m ;; k" := (pbind m (fun x => k))
  (at level 61, m at next level, right associativity) : pipe_scope.
Notation "m ;;; k" := (pbind m (fun _ => k))
  (at level 61, right associativity) : pipe_scope.

Section Netcdf.

Context {E : Env}.

(** [netCDF4.Dataset(path, 'r')] on the contents of a file. *)
Variable nc_open_bytes : string -> Py.result nc_dataset.

Import Py Frame.
Local Open Scope result_scope.
Local Open Scope pipe_scope.

Fixpoint pfoldM {A B : Type} (f : B -> A -> P B) (l : list A) (b : B) : P B :=
  match l with
  | [] => pret b
  | a :: l' => b' <- f b a ;; pfoldM f l' b'
  end.

Definition nonempty {A : Type} (l : list A) : bool :=
  match l with [] => false | _ => true end.

(** [netCDF4.Dataset(netcdf_path, 'r')]. *)
Definition nc_open (path : string) : P nc_dataset :=
  fun pw => match fs (engine pw) path with
            | Some bytes => (nc_open_bytes bytes, pw)
            | None => (Raise FileNotFoundError, pw)
            end.

Fixpoint nc_lookup (key : string) (nc : nc_dataset) : option nc_variable :=
  match nc with
  | [] => None
  | (k, v) :: nc' => if String.eqb k key then Some v else nc_lookup key nc'
  end.

(** [nc[key][:]]. *)
Definition nc_get (key : string) (nc : nc_dataset) : result nc_variable :=
  match nc_lookup key nc with
  | Some v => Ok v
  | None => Raise IndexError
  end.

Definition cell_of (o : option Q) : cell :=
  match o with
  | Some q => Float q
  | None => NaN
  end.

(** Arithmetic on an array with a scalar: a masked value stays masked. *)
Definition times (k : Q) (o : option Q) : option Q := option_map (fun q => q * k) o.
Definition plus (k : Q) (o : option Q) : option Q := option_map (fun q => q + k) o.

(** [Series.max()] and [Series.min()]: missing values are skipped, and a
    column without values gives NaN. *)
Definition present (l : list (option Q)) : list Q :=
  flat_map (fun o => match o with Some q => [q] | None => [] end) l.

Definition col_max (l : list (option Q)) : option Q :=
  match present l with
  | [] => None
  | q :: qs => Some (fold_left (fun a b => if Qle_bool a b then b else a) qs q)
  end.

Definition col_min (l : list (option Q)) : option Q :=
  match present l with
  | [] => None
  | q :: qs => Some (fold_left (fun a b => if Qle_bool b a then b else a) qs q)
  end.

Fixpoint zip4 (a b c d : list (option Q)) : list (list cell) :=
  match a, b, c, d with
  | x :: a', y :: b', z :: c', t :: d' =>
      [cell_of x; cell_of y; cell_of z; cell_of t] :: zip4 a' b' c' d'
  | _, _, _, _ => []
  end.

Definition WIND_COLUMNS : list string :=
  ["Longitude"; "Latitude"; "Wind_Speed"; "Gust_Wind_Speed"]%string.

(** Lines 163-184: the table made of the three flattened arrays.
    [pd.DataFrame] of a dictionary of arrays raises ValueError when their
    lengths differ. *)
Definition wind_table (swath_wind lon_2d lat_2d : nc_variable) : result frame :=
  let longitude := data lon_2d in
  let latitude := data lat_2d in
  let wind_speed := data swath_wind in
  let gust_wind_speed := map (times MS_TO_MPH) (map (times GUST_FACTOR_NCAR) wind_speed) in
  let longitude_adjusted := map (plus (inject_Z LONGITUDE_ADJUSTMENT)) longitude in
  if Nat.eqb (List.length longitude_adjusted) (List.length latitude)
     && Nat.eqb (List.length latitude) (List.length wind_speed)
  then Ok (mkFrame WIND_COLUMNS
             (zip4 longitude_adjusted latitude wind_speed gust_wind_speed))
  else Raise ValueError.

(** The body of the [try] for one NetCDF file (lines 130-198). *)
Definition process_file_body (ncar_dir netcdf_file scenario output_csv : string)
  : P unit :=
  let netcdf_path := path_join ncar_dir netcdf_file in
  nc <- nc_open netcdf_path ;;
  let missing_vars :=
    filter (fun var_key => match nc_lookup var_key nc with
                           | Some _ => false
                           | None => true
                           end) (map snd NETCDF_VARIABLES) in
  if nonempty missing_vars then
    plogger (NcMissingVariables netcdf_file missing_vars) ;;; praise KeyError
  else
    swath_wind <- plift (nc_get "swath_wind" nc) ;;
    lon_2d <- plift (nc_get "lon_2d" nc) ;;
    lat_2d <- plift (nc_get "lat_2d" nc) ;;
    plogger (NcShapes (shape swath_wind) (shape lon_2d) (shape lat_2d)) ;;;
    df <- plift (wind_table swath_wind lon_2d lat_2d) ;;
    plogger (NcStatistics (len df)
               (col_max (map (times MS_TO_MPH)
                             (map (times GUST_FACTOR_NCAR) (data swath_wind))))
               (col_min (map (plus (inject_Z LONGITUDE_ADJUSTMENT)) (data lon_2d)))
               (col_max (map (plus (inject_Z LONGITUDE_ADJUSTMENT)) (data lon_2d)))
               (col_min (data lat_2d)) (col_max (data lat_2d))) ;;;
    plogger (NcSaving output_csv) ;;;
    run_engine (to_csv df output_csv) ;;;
    plogger (NcDone scenario).

Definition wind_output (output_dir scenario : string) : string :=
  path_join output_dir (scenario ++ ".csv").

(** One pass of the loop over the NetCDF files (lines 113-202). *)
Definition process_file (ncar_dir output_dir : string) (force_rerun : bool)
           (output_files : list (string * string)) (netcdf_file : string)
  : P (list (string * string)) :=
  let scenario := PyStr.splitext_root netcdf_file in
  let output_csv := wind_output output_dir scenario in
  ex <- exists_path output_csv ;;
  if ex && negb force_rerun then
    plogger (NcOutputExists scenario output_csv) ;;;
    pret (dict_set scenario output_csv output_files)
  else
    plogger (NcProcessing scenario netcdf_file) ;;;
    pcatch (process_file_body ncar_dir netcdf_file scenario output_csv)
           (fun e => plogger (NcError netcdf_file e) ;;; praise e) ;;;
    pret (dict_set scenario output_csv output_files).

(** Lines 96-103: the files that are not there. *)
Definition check_netcdf (ncar_dir : string) (missing_files : list string)
           (netcdf_file : string) : P (list string) :=
  ex <- exists_path (path_join ncar_dir netcdf_file) ;;
  if negb ex then
    plogger (NcFile netcdf_file false) ;;; pret (missing_files ++ [netcdf_file])
  else
    plogger (NcFile netcdf_file true) ;;; pret missing_files.

Definition process_ncar_netcdf (ncar_dir output_dir : string) (force_rerun : bool)
  : P (list (string * string)) :=
  plogger (NcChecking ncar_dir) ;;;
  missing_files <- pfoldM (check_netcdf ncar_dir) NETCDF_FILES [] ;;
  if nonempty missing_files then
    plogger (NcMissingFiles missing_files) ;;; praise FileNotFoundError
  else
    output_files <- pfoldM (process_file ncar_dir output_dir force_rerun)
                           NETCDF_FILES [] ;;
    plogger (NcComplete (List.length output_files)) ;;;
    pret output_files.

End Netcdf.

(** ** spatial_join.py *)

(** What geopandas computes for [join_buildings_wind].  Each operation may
    raise. *)
Class Geo : Type := {
  geodataframe : Type;
  (** [gpd.read_file] on the contents of a file. *)
  gpd_read_file_bytes : string -> Py.result geodataframe;
  (** [len(gdf)]. *)
  geo_len : geodataframe -> nat;
  (** [gdf.to_crs(config.PROJECTED_CRS)]. *)
  to_crs : geodataframe -> Py.result geodataframe;
  (** Lines 153-158: the points of the [Longitude] and [Latitude] columns,
      the GeoDataFrame over them, and its CRS. *)
  wind_geodataframe : Frame.frame -> Py.result geodataframe;
  (** [gpd.sjoin_nearest(left, right, how='left', distance_col='distance')]. *)
  sjoin_nearest : geodataframe -> geodataframe -> Py.result geodataframe;
  (** Lines 180-183. *)
  distance_statistics : geodataframe -> Py.result statistics;
  (** [gdf['Gust_Wind_Speed'].isna().sum()]. *)
  count_missing_wind : geodataframe -> Py.result nat;
  (** [gdf.to_csv(path, index=False)], as the contents written. *)
  geo_to_csv_bytes : geodataframe -> string
}.

Section SpatialJoin.

Context {E : Env} {G : Geo}.

Import Py Frame.
Local Open Scope result_scope.
Local Open Scope pipe_scope.

(** [gpd.read_file(path)]; it is called on a path that was just seen to
    exist. *)
Definition gpd_read_file (path : string) : P geodataframe :=
  fun pw => match fs (engine pw) path with
            | Some bytes => (gpd_read_file_bytes bytes, pw)
            | None => (Raise FileNotFoundError, pw)
            end.

(** Lines 106-119: the inventory of the NSI, projected. *)
Definition load_nsi (nsi_path : string) : P geodataframe :=
  pcatch (nsi <- gpd_read_file nsi_path ;;
          plogger (JoinNsiLoaded (geo_len nsi)) ;;;
          nsi_projected <- plift (to_crs nsi) ;;
          plogger JoinNsiProjected ;;;
          pret nsi_projected)
         (fun e => plogger (JoinNsiError e) ;;; praise e).

Definition joined_output (joined_output_dir scenario : string) : string :=
  path_join (path_join joined_output_dir scenario) (scenario ++ ".csv").

(** The body of the [try] for one scenario (lines 141-195). *)
Definition join_scenario_body (nsi_projected : geodataframe)
           (scenario wind_csv output_csv : string) : P unit :=
  ex <- exists_path wind_csv ;;
  if negb ex then
    plogger (JoinWindMissing wind_csv) ;;; praise FileNotFoundError
  else
    plogger (JoinLoadingWind wind_csv) ;;;
    wind_df <- run_engine (pd_read_csv wind_csv) ;;
    plogger (JoinWindLoaded (len wind_df)) ;;;
    wind_gdf <- plift (wind_geodataframe wind_df) ;;
    wind_gdf_projected <- plift (to_crs wind_gdf) ;;
    plogger JoinWindProjected ;;;
    joined_gdf <- plift (sjoin_nearest nsi_projected wind_gdf_projected) ;;
    distances <- plift (distance_statistics joined_gdf) ;;
    plogger (JoinStatistics (geo_len joined_gdf) distances) ;;;
    missing_wind <- plift (count_missing_wind joined_gdf) ;;
    (if (0 <? missing_wind)%nat then plogger (JoinMissingWind missing_wind)
     else pret tt) ;;;
    plogger (JoinSaving output_csv) ;;;
    run_engine (write_file output_csv (geo_to_csv_bytes joined_gdf)) ;;;
    plogger (JoinDone scenario).

(** One pass of the loop over the scenarios (lines 124-199). *)
Definition join_scenario (nsi_projected : geodataframe) (output_dir : string)
           (force_rerun : bool) (joined_files : list (string * string))
           (item : string * string) : P (list (string * string)) :=
  let scenario := fst item in
  let wind_csv := snd item in
  plogger (JoinScenario scenario) ;;;
  let output_csv := joined_output output_dir scenario in
  ex <- exists_path output_csv ;;
  if ex && negb force_rerun then
    plogger (JoinOutputExists output_csv) ;;;
    pret (dict_set scenario output_csv joined_files)
  else
    pcatch (join_scenario_body nsi_projected scenario wind_csv output_csv)
           (fun e => plogger (JoinError scenario e) ;;; praise e) ;;;
    pret (dict_set scenario output_csv joined_files).

Definition join_buildings_wind (nsi_path : string)
           (wind_csv_paths : list (string * string)) (output_dir : string)
           (force_rerun : bool) : P (list (string * string)) :=
  ex <- exists_path nsi_path ;;
  if negb ex then
    plogger (JoinNsiMissing nsi_path) ;;; praise FileNotFoundError
  else
    plogger (JoinLoadingNsi nsi_path) ;;;
    nsi_projected <- load_nsi nsi_path ;;
    joined_files <- pfoldM (join_scenario nsi_projected output_dir force_rerun)
                           wind_csv_paths [] ;;
    plogger (JoinComplete (List.length joined_files)) ;;;
    pret joined_files.

End SpatialJoin.

Section Main.

Context {E : Env} {G : Geo}.

Variable nc_open_bytes : string -> Py.result nc_dataset.

Import Py Frame.
Local Open Scope result_scope.
Local Open Scope pipe_scope.

(** The parsed command line.  An optional argument that is absent is
    [None]; as a condition, [None] and the empty string are false. *)
Record args : Type := mkArgs {
  ncar_dir : string;
  nsi_path : string;
  hazus_dir : string;
  output_dir : string;
  building_inventory : option string;
  steps : option string;
  force_rerun : bool
}.

(** One existence check of [validate_inputs] on a file inside a directory
    (lines 111-117 and 135-141). *)
Definition check_file (label : string) (path : string) (p : problem)
           (errors : list problem) : P (list problem) :=
  ex <- exists_path path ;;
  if negb ex then plogger (CheckedFile label false) ;;; pret (errors ++ [p])
  else plogger (CheckedFile label true) ;;; pret errors.

Definition report_error (i : nat) (error : problem) : P nat :=
  plogger (ValidationError i error) ;;; pret (S i).

(** Lines 103-117: the NCAR directory and the NetCDF files in it. *)
Definition check_ncar (a : args) (errors : list problem) : P (list problem) :=
  plogger (Checking NcarDir (ncar_dir a)) ;;;
  ex <- exists_path (ncar_dir a) ;;
  if negb ex then
    plogger (Checked NcarDir false) ;;;
    pret (errors ++ [NcarDirNotFound (ncar_dir a)])
  else
    plogger (Checked NcarDir true) ;;;
    pfoldM (fun errors nc_file =>
              check_file nc_file (path_join (ncar_dir a) nc_file)
                         (NetcdfNotFound (path_join (ncar_dir a) nc_file)) errors)
           NETCDF_FILES errors.

(** Lines 119-125: the building inventory of the NSI. *)
Definition check_nsi (a : args) (errors : list problem) : P (list problem) :=
  plogger (Checking NsiFile (nsi_path a)) ;;;
  ex <- exists_path (nsi_path a) ;;
  if negb ex then
    plogger (Checked NsiFile false) ;;; pret (errors ++ [NsiNotFound (nsi_path a)])
  else plogger (Checked NsiFile true) ;;; pret errors.

(** Lines 127-141: the Hazus directory and its files. *)
Definition check_hazus (a : args) (errors : list problem) : P (list problem) :=
  plogger (Checking HazusDir (hazus_dir a)) ;;;
  ex <- exists_path (hazus_dir a) ;;
  if negb ex then
    plogger (Checked HazusDir false) ;;;
    pret (errors ++ [HazusDirNotFound (hazus_dir a)])
  else
    plogger (Checked HazusDir true) ;;;
    pfoldM (fun errors (item : string * string) =>
              check_file (snd item) (path_join (hazus_dir a) (snd item))
                         (HazusFileNotFound (fst item)
                                            (path_join (hazus_dir a) (snd item)))
                         errors)
           HAZUS_FILES errors.

(** Lines 143-150: the checkpoint given on the command line, if any. *)
Definition check_inventory (a : args) (errors : list problem) : P (list problem) :=
  match building_inventory a with
  | Some (String c p as path) =>
      plogger (Checking InventoryFile path) ;;;
      ex <- exists_path path ;;
      if negb ex then
        plogger (Checked InventoryFile false) ;;;
        pret (errors ++ [InventoryNotFound path])
      else plogger (Checked InventoryFile true) ;;; pret errors
  | _ => pret errors
  end.

Definition validate_inputs (a : args) : P unit :=
  errors <- check_ncar a [] ;;
  errors <- check_nsi a errors ;;
  errors <- check_hazus a errors ;;
  errors <- check_inventory a errors ;;
  if nonempty errors then
    plogger (ValidationFailed (List.length errors)) ;;;
    pfoldM report_error errors 1%nat ;;;
    praise FileNotFoundError
  else plogger ValidationSuccessful.

(** What [run_pipeline] collects in [outputs]. *)
Record outputs : Type := mkOutputs {
  wind_csvs : list (string * string);
  joined_csvs : list (string * string);
  inventory : option frame;
  loss_csvs : option (list (string * string));
  total_loss_csv : option string
}.

(** [[int(s.strip()) for s in args.steps.split(',')]]. *)
Definition parse_steps (s : string) : result (list Z) :=
  rmap (fun x => PyStr.int (PyStr.strip x)) (PyStr.split "," s).

Definition selected (step : Z) (steps_to_run : list Z) : bool :=
  existsb (Z.eqb step) steps_to_run.

(** Lines 211-218 and 238-245: the outputs of a step that is not run must
    be there. *)
Definition find_existing (path_of : string -> string)
           (d : list (string * string)) (scenario : string)
  : P (list (string * string)) :=
  let csv_path := path_of scenario in
  ex <- exists_path csv_path ;;
  if ex then plogger (FoundCsv csv_path) ;;; pret (dict_set scenario csv_path d)
  else plogger (MissingCsv csv_path) ;;; praise FileNotFoundError.

Definition inventory_output_dir (a : args) : string :=
  path_join (output_dir a) "building_inventory".

Definition results_output_dir (a : args) : string :=
  path_join (output_dir a) "results".

(** Step 3A (lines 256-273): the inventory given on the command line, or
    the characterization of the buildings of the first joined file. *)
Definition load_inventory (a : args) (joined : list (string * string)) : P frame :=
  match building_inventory a with
  | Some (String c p as path) =>
      plogger (UsingProvidedInventory path) ;;;
      run_engine (pd_read_csv path)
  | _ =>
      first <- plift (match joined with
                      | [] => Raise IndexError
                      | item :: _ => Ok item
                      end) ;;
      nsi_data <- run_engine (pd_read_csv (snd first)) ;;
      run_engine (characterize_buildings (inr nsi_data) (hazus_dir a)
                                         (inventory_output_dir a) (force_rerun a))
  end.

(** Step 3 (lines 249-293). *)
Definition run_step3 (a : args) (joined : list (string * string))
  : P (frame * list (string * string) * string) :=
  building_inventory <- load_inventory a joined ;;
  loss_csv_paths <-
    run_engine (calculate_building_losses building_inventory joined (hazus_dir a)
                                          (results_output_dir a) (force_rerun a)) ;;
  total <- run_engine (aggregate_county_losses loss_csv_paths (results_output_dir a)
                                               (force_rerun a)) ;;
  pret (building_inventory, loss_csv_paths, total).

(** Lines 185-191: the steps to run. *)
Definition choose_steps (a : args) : P (list Z) :=
  match steps a with
  | Some (String c s' as s) =>
      steps_to_run <- plift (parse_steps s) ;;
      plogger (RunningSteps true steps_to_run) ;;; pret steps_to_run
  | _ =>
      plogger (RunningSteps false [1; 2; 3]%Z) ;;; pret [1; 2; 3]%Z
  end.

Definition wind_output_dir (a : args) : string :=
  path_join (output_dir a) "processed_wind".

Definition joined_output_dir (a : args) : string :=
  path_join (output_dir a) "joined_data".

(** Step 1 (lines 196-219). *)
Definition run_step1 (a : args) (steps_to_run : list Z) : P (list (string * string)) :=
  if selected 1 steps_to_run then
    process_ncar_netcdf nc_open_bytes (ncar_dir a) (wind_output_dir a) (force_rerun a)
  else
    plogger (StepSkipped 1) ;;;
    pfoldM (find_existing (wind_output (wind_output_dir a))) SCENARIOS [].

(** Step 2 (lines 222-246). *)
Definition run_step2 (a : args) (steps_to_run : list Z)
           (wind_csv_paths : list (string * string)) : P (list (string * string)) :=
  if selected 2 steps_to_run then
    join_buildings_wind (nsi_path a) wind_csv_paths (joined_output_dir a) (force_rerun a)
  else
    plogger (StepSkipped 2) ;;;
    pfoldM (find_existing (joined_output (joined_output_dir a))) SCENARIOS [].

Definition run_pipeline (a : args) : P outputs :=
  steps_to_run <- choose_steps a ;;
  wind_csv_paths <- run_step1 a steps_to_run ;;
  joined_csv_paths <- run_step2 a steps_to_run wind_csv_paths ;;
  if selected 3 steps_to_run then
    r <- run_step3 a joined_csv_paths ;;
    let '(building_inventory, loss_csv_paths, total) := r in
    pret (mkOutputs wind_csv_paths joined_csv_paths (Some building_inventory)
                    (Some loss_csv_paths) (Some total))
  else
    pret (mkOutputs wind_csv_paths joined_csv_paths None None None).

End Main.

(** * Further facts about the engine *)

(** * Further properties of the engine *)

(** ** The interpolation as a piecewise-linear function *)

Module Piecewise.

Import Py.
















End Piecewise.

(** ** The loss calculator *)

Section LossMore.

Context {E : Env}.

Import Py Frame.
Local Open Scope result_scope.
Local Open Scope py_scope.


(** A building row is passed over, or a row is appended for it. *)
Definition processed (nsi_wrf huDamLossFunc : frame) (row : list cell) : bool :=
  match process_building nsi_wrf huDamLossFunc row with
  | Ok (Some _) => true
  | _ => false
  end.

Lemma emitted_rows (nsi_wrf huDamLossFunc : frame) (inventory : list (list cell)) :
  forall l,
    emitted nsi_wrf huDamLossFunc inventory = Ok l ->
    Forall2 (fun row r => process_building nsi_wrf huDamLossFunc row = Ok (Some r))
            (filter (processed nsi_wrf huDamLossFunc) inventory) l /\
    (List.length l + skipped_buildings nsi_wrf huDamLossFunc inventory
     = List.length inventory)%nat.
Proof.
  unfold skipped_buildings.
  induction inventory as [|row rest IH]; intros l H.
  - injection H as <-. split; [constructor|reflexivity].
  - cbn [emitted] in H. unfold processed at 1. cbn [filter List.length].
    destruct (process_building nsi_wrf huDamLossFunc row) as [[r|]|e] eqn:Hp;
      cbn [rbind] in H; [| |discriminate];
      destruct (emitted nsi_wrf huDamLossFunc rest) as [l'|] eqn:He;
      cbn [rbind] in H; try discriminate; injection H as <-;
      destruct (IH _ eq_refl) as [IH1 IH2].
    + cbv beta iota. split; [now constructor|cbn [List.length]; lia].
    + cbv beta iota. split; [assumption|cbn [List.length]; lia].
Qed.

Lemma loss_loop_emitted (nsi_wrf huDamLossFunc : frame) (inventory : list (list cell))
      (w w' : world) (losses : list (list cell)) (n : nat) :
  loss_loop nsi_wrf huDamLossFunc inventory [] 0 w = (Ok (losses, n), w') ->
  emitted nsi_wrf huDamLossFunc inventory = Ok losses /\ n = List.length losses.
Proof.
  intro H. pose proof (loss_loop_value nsi_wrf huDamLossFunc inventory [] 0%nat w) as Hv.
  rewrite H in Hv. cbn [fst] in Hv.
  destruct (emitted nsi_wrf huDamLossFunc inventory) as [l|e]; cbn in Hv; [|discriminate].
  injection Hv as -> ->. now split.
Qed.

Lemma loss_loop_files (nsi_wrf huDamLossFunc : frame) (inventory : list (list cell))
      (losses : list (list cell)) (n : nat) (w : world) (p : string) :
  fs (snd (loss_loop nsi_wrf huDamLossFunc inventory losses n w)) p = fs w p.
Proof.
  destruct (touches_loss_loop (fun _ => False) nsi_wrf huDamLossFunc inventory
              losses n w p) as [H|[[] _]].
  exact H.
Qed.

(** When every building is passed over the loop leaves the world as it is. *)
Lemma loss_loop_nothing (nsi_wrf huDamLossFunc : frame) (inventory : list (list cell)) :
  forall losses n w,
    emitted nsi_wrf huDamLossFunc inventory = Ok [] ->
    loss_loop nsi_wrf huDamLossFunc inventory losses n w = (Ok (losses, n), w).
Proof.
  induction inventory as [|row rest IH]; intros losses n w H; [reflexivity|].
  cbn [emitted] in H. cbn [loss_loop]. unfold bind at 1, lift.
  destruct (process_building nsi_wrf huDamLossFunc row) as [[r|]|e];
    cbn [rbind] in H; [| |discriminate];
    destruct (emitted nsi_wrf huDamLossFunc rest) as [l'|]; cbn [rbind] in H;
    try discriminate.
  now apply IH.
Qed.

Lemma dropna_idem (r : list cell) : dropna (dropna r) = dropna r.
Proof.
  unfold dropna. induction r as [|c r IH]; [reflexivity|]. cbn [filter].
  destruct (negb (isna c)) eqn:Hc; [|exact IH]. cbn [filter]. now rewrite Hc, IH.
Qed.

Lemma dropna_app (r1 r2 : list cell) : dropna (r1 ++ r2) = dropna r1 ++ dropna r2.
Proof. apply filter_app. Qed.

Lemma iloc_nth_error {A : Type} (l : list A) (i : nat) :
  iloc l (Z.of_nat i) = match nth_error l i with
                        | Some a => Ok a
                        | None => Raise IndexError
                        end.
Proof.
  assert (Hi : (Z.of_nat i <? 0)%Z = false) by (apply Z.ltb_ge; lia).
  unfold iloc. cbv zeta. rewrite Hi. cbv iota. rewrite Hi. cbn [orb].
  rewrite Nat2Z.id.
  destruct (Z.leb_spec (Z.of_nat (List.length l)) (Z.of_nat i)) as [H|H].
  - replace (nth_error l i) with (@None A); [reflexivity|].
    symmetry. apply nth_error_None. lia.
  - reflexivity.
Qed.

Lemma dict_set_In (k v : string) (d : list (string * string)) : In (k, v) (dict_set k v d).
Proof.
  induction d as [|[k' v'] d IH]; cbn; [now left|].
  destruct (String.eqb_spec k' k) as [-> | Hne]; [now left|now right].
Qed.

Lemma dict_set_keeps (k v k' v' : string) (d : list (string * string)) :
  In (k, v) d -> k' <> k \/ v' = v -> In (k, v) (dict_set k' v' d).
Proof.
  induction d as [|[k0 v0] d IH]; intros Hin Hc; [destruct Hin|]. cbn.
  destruct (String.eqb_spec k0 k') as [-> | Hne].
  - destruct Hin as [Heq|Hin]; [|now right].
    injection Heq as -> ->. destruct Hc as [Hc | ->]; [congruence|now left].
  - destruct Hin as [Heq|Hin]; [now left|right; now apply IH].
Qed.

Lemma expected_files_In (output_dir : string) (paths : list (string * string)) :
  forall d,
    (forall item, In item paths ->
                  In (fst item, scenario_output output_dir (fst item))
                     (expected_files output_dir paths d)) /\
    (forall k, In (k, scenario_output output_dir k) d ->
               In (k, scenario_output output_dir k) (expected_files output_dir paths d)).
Proof.
  unfold expected_files.
  induction paths as [|item rest IH]; intro d; cbn [fold_left].
  - split; [intros ? []|auto].
  - destruct (IH (dict_set (fst item) (scenario_output output_dir (fst item)) d))
      as [IH1 IH2].
    split.
    + intros it [<-|Hin]; [|now apply IH1]. apply IH2, dict_set_In.
    + intros k Hk. apply IH2. apply dict_set_keeps; [assumption|].
      destruct (String.eqb_spec (fst item) k) as [-> | Hne]; [now right|now left].
Qed.

End LossMore.

(** ** The aggregation *)

Section AggregateMore.

Context {E : Env}.

Import Py Frame.
Local Open Scope result_scope.
Local Open Scope py_scope.

Ltac bind_inv H :=
  repeat match type of H with
         | bind ?m ?k ?w = (Ok _, _) =>
             let a := fresh "a" in
             let w1 := fresh "w" in
             let Hm := fresh "Hm" in
             apply bind_ok_inv in H; destruct H as (a & w1 & Hm & H)
         end.

Lemma touches_aggregate_scenario (total_losses : list (list cell))
      (item : string * string) :
  touches (fun _ => False) (aggregate_scenario total_losses item).
Proof.
  unfold aggregate_scenario. destruct item as [scenario losses_csv].
  apply touches_bind; [apply touches_logger|intro].
  apply touches_bind; [apply touches_path_exists|intro ex].
  apply touches_if; [touches_tac|].
  apply touches_bind; [apply touches_logger|intro].
  apply touches_bind; [apply touches_read_csv|intro df].
  apply touches_bind; [apply touches_logger|intro].
  apply touches_bind; [apply touches_lift|intro codes].
  apply touches_bind; [apply touches_logger|intro].
  apply touches_bind; [apply touches_lift|intros [c [[tb tc] ta]]].
  touches_tac.
Qed.

Lemma touches_aggregate_fold (paths : list (string * string)) :
  forall total_losses,
    touches (fun _ => False) (foldM aggregate_scenario paths total_losses).
Proof.
  apply touches_foldM. intros. apply touches_aggregate_scenario.
Qed.

Lemma log_rows_ok (rs : list (list cell)) :
  forall w, fst (foldM (fun (_ : unit) row => log_summary_row row) rs tt w) = Ok tt.
Proof.
  induction rs as [|r rs IH]; intro w; [reflexivity|].
  cbn [foldM]. unfold bind at 1, log_summary_row, logger. apply IH.
Qed.

(** The three totals of a scenario: two whole numbers and their sum. *)
Lemma scenario_totals_whole (df county : frame) (tb tc ta : Q) :
  scenario_totals df = Ok (county, (tb, tc, ta)) ->
  exists zb zc : Z, tb = inject_Z zb /\ tc = inject_Z zc /\ ta = tb + tc.
Proof.
  unfold scenario_totals. intro H.
  repeat match type of H with
         | rbind ?r _ = _ =>
             let x := fresh "x" in
             destruct r as [x|]; cbn [rbind] in H; [|discriminate H]
         end.
  cbv zeta in H. injection H as _ <- <- <-. eauto.
Qed.

(** The row a scenario adds to the summary. *)
Definition summary_row (item : string * string) (row : list cell) : Prop :=
  exists zb zc : Z,
    row = [Str (fst item); Float (inject_Z zb); Float (inject_Z zc);
           Float (inject_Z zb + inject_Z zc)].

Lemma aggregate_scenario_row (total_losses total' : list (list cell))
      (item : string * string) (w w' : world) :
  aggregate_scenario total_losses item w = (Ok total', w') ->
  exists row, total' = total_losses ++ [row] /\ summary_row item row.
Proof.
  unfold aggregate_scenario. destruct item as [scenario losses_csv]. intro H.
  apply bind_ok_inv in H. destruct H as ([] & w1 & H1 & H).
  apply bind_ok_inv in H. destruct H as (ex & w2 & H2 & H).
  destruct (negb ex).
  { unfold bind, logger, raise in H. discriminate. }
  bind_inv H.
  match goal with
  | Ht : lift (scenario_totals _) _ = (Ok ?t, _) |- _ =>
      destruct t as [c [[tb tc] ta]]; unfold lift in Ht; injection Ht as Ht _;
      destruct (scenario_totals_whole _ _ _ _ _ Ht) as (zb & zc & -> & -> & ->)
  end.
  bind_inv H. unfold ret in H. injection H as <- _.
  eexists. split; [reflexivity|]. now exists zb, zc.
Qed.

Lemma aggregate_fold_rows (paths : list (string * string)) :
  forall total_losses total' w w',
    foldM aggregate_scenario paths total_losses w = (Ok total', w') ->
    exists rows_, total' = total_losses ++ rows_ /\ Forall2 summary_row paths rows_.
Proof.
  induction paths as [|item rest IH]; intros tl tl' w w' H; cbn [foldM] in H.
  - unfold ret in H. injection H as <- _. exists []. split; [now rewrite app_nil_r|constructor].
  - apply bind_ok_inv in H. destruct H as (t1 & w1 & H1 & H).
    destruct (aggregate_scenario_row _ _ _ _ _ H1) as (row & -> & Hrow).
    destruct (IH _ _ _ _ H) as (rs & -> & Hrs).
    exists (row :: rs). split; [now rewrite <- app_assoc|now constructor].
Qed.

Lemma bind_raise_inv {A B : Type} (m : M A) (k : A -> M B) (w w' : world) (e : exn) :
  bind m k w = (Raise e, w') ->
  m w = (Raise e, w') \/ exists a w1, m w = (Ok a, w1) /\ k a w1 = (Raise e, w').
Proof.
  unfold bind. destruct (m w) as [[a|e0] w1]; intro H.
  - right. now exists a, w1.
  - left. now injection H as -> ->.
Qed.

(** A run of stage 3C that raises has changed no file. *)
Lemma aggregate_raise_files (paths : list (string * string)) (output_dir : string)
      (force_rerun : bool) (w w' : world) (e : exn) :
  aggregate_county_losses paths output_dir force_rerun w = (Raise e, w') ->
  forall p, fs w' p = fs w p.
Proof.
  unfold aggregate_county_losses. intros H p.
  apply bind_raise_inv in H. destruct H as [H|(ex & w1 & H1 & H)].
  { unfold path_exists in H. discriminate. }
  unfold path_exists in H1. injection H1 as _ <-.
  destruct (ex && negb force_rerun).
  { unfold bind, logger, ret in H. discriminate. }
  pose proof (touches_aggregate_fold paths [] w p) as Ht.
  apply bind_raise_inv in H. destruct H as [H|(tl & w2 & H2 & H)].
  { rewrite H in Ht. cbn [snd] in Ht. now destruct Ht as [Ht|[[] _]]. }
  rewrite H2 in Ht. cbn [snd] in Ht. destruct Ht as [Ht|[[] _]].
  apply bind_raise_inv in H. destruct H as [H|(df & w3 & H3 & H)].
  { unfold lift in H. injection H as _ <-. exact Ht. }
  exfalso.
  apply bind_raise_inv in H. destruct H as [H|([] & w4 & H4 & H)].
  { unfold logger in H. discriminate. }
  apply bind_raise_inv in H. destruct H as [H|([] & w5 & H5 & H)].
  { unfold to_csv, write_file in H. discriminate. }
  apply bind_raise_inv in H. destruct H as [H|([] & w6 & H6 & H)].
  { pose proof (log_rows_ok (rows df) w5) as Hl. rewrite H in Hl. discriminate. }
  unfold ret in H. discriminate.
Qed.

(** Stage 3C writes its summary and nothing else. *)
Lemma touches_aggregate (paths : list (string * string)) (output_dir : string)
      (force_rerun : bool) :
  touches (eq (path_join output_dir TOTAL_LOSS_OUTPUT))
          (aggregate_county_losses paths output_dir force_rerun).
Proof.
  unfold aggregate_county_losses.
  apply touches_bind; [apply touches_path_exists|intro ex].
  apply touches_if; [touches_tac|].
  apply touches_bind.
  { eapply touches_weaken; [|apply touches_aggregate_fold]. intros p []. }
  intro tl. apply touches_bind; [apply touches_lift|intro df].
  apply touches_bind; [apply touches_logger|intro].
  apply touches_bind; [now apply touches_to_csv|intro].
  apply touches_bind; [apply touches_log_rows|intro]. apply touches_ret.
Qed.

Lemma total_not_checkpoint (output_dir inventory_dir : string) :
  path_join output_dir TOTAL_LOSS_OUTPUT <>
  path_join inventory_dir BUILDING_INVENTORY_CHECKPOINT.
Proof.
  intro H.
  destruct (path_join_suffix output_dir TOTAL_LOSS_OUTPUT) as [p1 H1].
  destruct (path_join_suffix inventory_dir BUILDING_INVENTORY_CHECKPOINT) as [p2 H2].
  rewrite H1, H2 in H. apply (f_equal (rev_tail 13)) in H.
  rewrite !rev_tail_app in H by (cbn; lia).
  vm_compute in H. discriminate H.
Qed.

End AggregateMore.

(** ** The characterization stage *)

Section CharacterizeMore.

Context {E : Env}.

Import Py Frame.
Local Open Scope result_scope.
Local Open Scope py_scope.

Lemma touches_np_random_choice (P : string -> Prop) (a p : list cell) :
  touches P (np_random_choice a p).
Proof. unfold np_random_choice. touches_tac. Qed.

Lemma touches_characterize_occtype (P : string -> Prop) (seed : Z) (hz : hazus)
      (charTypes : list cell) (scheme : cell) (huOccMap df0 : frame) (st : acc)
      (occ : cell) :
  touches P (characterize_occtype seed hz charTypes scheme huOccMap df0 st occ).
Proof.
  unfold characterize_occtype, characterize_bldgtype, characterize_subtype,
    assign_characteristic, apply_choice.
  touches_tac; apply touches_np_random_choice.
Qed.

Lemma touches_characterize_loop (P : string -> Prop) (hz : hazus)
      (charTypes : list cell) (nsi_cb : frame) (cfips : list string) :
  touches P (characterize_loop hz charTypes nsi_cb cfips).
Proof.
  unfold characterize_loop.
  apply touches_bind; [apply touches_seed_rng|intro].
  apply touches_bind; [apply touches_logger|intro].
  apply touches_bind; [|intro; touches_tac].
  apply touches_foldM. intros [st n] cfip. unfold characterize_county.
  apply touches_bind; [unfold county_progress; touches_tac|intro].
  apply touches_bind; [apply touches_lift|intro df0].
  destruct (county_scheme hz cfip); [|touches_tac].
  apply touches_bind; [|intro; apply touches_ret].
  unfold characterize_occtypes.
  apply touches_bind; [apply touches_lift|intro].
  apply touches_bind; [apply touches_lift|intro].
  apply touches_foldM. intros. apply touches_characterize_occtype.
Qed.

(** The classification pass writes no file. *)
Lemma touches_build_inventory (P : string -> Prop) (nsi_data : string + frame)
      (hazus_dir : string) :
  touches P (build_inventory nsi_data hazus_dir).
Proof.
  unfold build_inventory.
  apply touches_bind; [apply touches_logger|intro].
  apply touches_bind; [destruct nsi_data; touches_tac|intro nsi_cb].
  apply touches_bind; [apply touches_logger|intro].
  apply touches_bind; [apply touches_path_exists|intro ex].
  apply touches_if; [apply touches_raise|].
  apply touches_bind; [apply touches_logger|intro].
  apply touches_bind; [unfold read_hazus; touches_tac|intro hz].
  apply touches_bind; [apply touches_lift|intro cts].
  apply touches_bind; [apply touches_logger|intro].
  apply touches_bind; [apply touches_lift|intro codes].
  apply touches_bind; [apply touches_lift|intro cfips].
  apply touches_bind; [apply touches_logger|intro].
  apply touches_bind; [apply touches_characterize_loop|intro r].
  touches_tac.
Qed.

(** A run of the stage that does not load the checkpoint raises, and leaves
    every file as it was. *)
Lemma build_and_save_inventory (checkpoint_path : string) (nsi_data : string + frame)
      (hazus_dir : string) (w : world) :
  (exists e, fst (build_and_save checkpoint_path (build_inventory nsi_data hazus_dir) w)
             = Raise e) /\
  forall p, fs (snd (build_and_save checkpoint_path
                       (build_inventory nsi_data hazus_dir) w)) p = fs w p.
Proof.
  destruct (build_inventory nsi_data hazus_dir w) as [[df|e] w1] eqn:Hb.
  - exfalso. exact (build_inventory_never_returns _ _ _ _ _ Hb).
  - rewrite (build_and_save_raise _ _ _ _ _ Hb). cbn [fst snd].
    split; [now exists e|]. intro p.
    destruct (touches_build_inventory (fun _ => False) nsi_data hazus_dir w p)
      as [H|[[] _]].
    now rewrite Hb in H.
Qed.

End CharacterizeMore.

(** ** The sampler *)

Section ChoiceMore.

Context {E : Env}.

Import Py Frame.
Local Open Scope result_scope.
Local Open Scope py_scope.

Lemma cumsum_ge (ps : list Q) :
  forall acc, Forall (fun q => 0 <= q) ps -> Forall (fun c => acc <= c) (cumsum acc ps).
Proof.
  induction ps as [|q ps IH]; intros acc H; [constructor|].
  inversion H as [|? ? Hq Hps]; subst. cbn [cumsum]. constructor; [lra|].
  eapply Forall_impl; [|apply (IH (acc + q) Hps)]. cbn. intros; lra.
Qed.

Lemma last_cumsum (ps : list Q) :
  forall acc, last (cumsum acc ps) acc = fold_left Qplus ps acc.
Proof.
  induction ps as [|q ps IH]; intro acc; [reflexivity|].
  cbn [cumsum fold_left]. rewrite <- IH.
  destruct (cumsum (acc + q) ps) eqn:Ec; [reflexivity|].
  change (last ((acc + q) :: q0 :: l) acc) with (last (q0 :: l) acc).
  clear. revert q0. induction l as [|c l IHl]; intro q0; [reflexivity|].
  change (last (q0 :: c :: l) acc) with (last (c :: l) acc).
  change (last (q0 :: c :: l) (acc + q)) with (last (c :: l) (acc + q)).
  apply IHl.
Qed.

Lemma filter_none {A : Type} (f : A -> bool) (l : list A) :
  Forall (fun a => f a = false) l -> filter f l = [].
Proof.
  induction l as [|a l IH]; intro H; [reflexivity|].
  inversion H as [|? ? Ha Hl]; subst. cbn. now rewrite Ha, IH.
Qed.

(** [searchsorted] on the right side of cumulative sums: the index found
    is that of an entry with positive weight. *)
Lemma searchsorted_positive (ps : list Q) :
  forall acc t,
    Forall (fun q => 0 <= q) ps ->
    acc <= t -> t < fold_left Qplus ps acc ->
    exists q,
      nth_error ps (List.length (filter (fun c => Qle_bool c t) (cumsum acc ps)))
      = Some q /\ 0 < q.
Proof.
  induction ps as [|q ps IH]; intros acc t Hall Hlo Hhi.
  - cbn in Hhi. lra.
  - inversion Hall as [|? ? Hq Hps]; subst. cbn [cumsum filter].
    destruct (Terrain.Qle_bool_spec (acc + q) t) as [Hle|Hgt].
    + cbn [List.length nth_error]. apply IH; auto.
    + rewrite filter_none.
      * cbn. exists q. split; [reflexivity|lra].
      * eapply Forall_impl; [|apply (cumsum_ge ps (acc + q) Hps)].
        cbn. intros c Hc. apply Terrain.Qle_bool_false. lra.
Qed.

Lemma Qle_bool_div (c total u : Q) :
  0 < total -> Qle_bool (c / total) u = Qle_bool c (u * total).
Proof.
  intro Ht.
  destruct (Terrain.Qle_bool_spec c (u * total)) as [H|H].
  - apply Terrain.Qle_bool_true. now apply Qle_shift_div_r.
  - apply Terrain.Qle_bool_false. now apply Qlt_shift_div_l.
Qed.

Lemma rmap_nth_error {A B : Type} (f : A -> result B) (l : list A) :
  forall l' i b,
    rmap f l = Ok l' -> nth_error l' i = Some b ->
    exists a, nth_error l i = Some a /\ f a = Ok b.
Proof.
  induction l as [|a l IH]; intros l' i b H Hi.
  - injection H as <-. destruct i; discriminate.
  - cbn [rmap] in H. destruct (f a) as [b0|] eqn:Hf; cbn [rbind] in H; [|discriminate].
    destruct (rmap f l) as [bs|]; cbn [rbind] in H; [|discriminate].
    injection H as <-. destruct i as [|i].
    + injection Hi as <-. exists a. now split.
    + cbn in Hi. destruct (IH _ _ _ eq_refl Hi) as (a' & H1 & H2).
      exists a'. now split.
Qed.

Lemma all_some_nth_error (l : list (option Q)) :
  forall qs i q,
    all_some l = Some qs -> nth_error qs i = Some q -> nth_error l i = Some (Some q).
Proof.
  induction l as [|[x|] l IH]; intros qs i q H Hi; cbn in H.
  - injection H as <-. destruct i; discriminate.
  - destruct (all_some l) as [qs'|]; [|discriminate]. injection H as <-.
    destruct i as [|i]; [now injection Hi as <-|]. cbn in *. eapply IH; eauto.
  - discriminate.
Qed.

Lemma existsb_false_Forall {A : Type} (f : A -> bool) (l : list A) :
  existsb f l = false -> Forall (fun a => f a = false) l.
Proof.
  induction l as [|a l IH]; intro H; [constructor|].
  cbn in H. apply orb_false_iff in H. destruct H. constructor; auto.
Qed.

(** What [np.random.choice] returns, for a generator whose draws lie in
    [0, 1): an entry of [a] whose probability is positive. *)
Lemma np_random_choice_positive (a p : list cell) (w w' : world) (c : cell) :
  (forall s, 0 <= fst (random_sample s) /\ fst (random_sample s) < 1) ->
  np_random_choice a p w = (Ok c, w') ->
  (exists i pi q,
      nth_error a i = Some c /\ nth_error p i = Some pi /\
      double_of_cell pi = Ok (Some q) /\ 0 < q) /\
  w' = mkWorld (fs w) (log w) (snd (random_sample (rng w))).
Proof.
  intros Hu H. unfold np_random_choice in H.
  destruct (Nat.eqb (List.length a) 0); [discriminate|].
  apply bind_ok_inv in H. destruct H as (dl & w1 & H1 & H).
  unfold lift in H1. injection H1 as Hdl <-.
  destruct (negb (Nat.eqb (List.length dl) (List.length a))); [discriminate|].
  destruct (all_some dl) as [ps|] eqn:Hps; [|discriminate].
  destruct (existsb (fun q => Interp.Qlt_bool q 0) ps) eqn:Hneg; [discriminate|].
  destruct (Interp.Qlt_bool_spec choice_atol (Qabs (Py.sum ps - 1))) as [Hs|Hs];
    [discriminate|].
  apply bind_ok_inv in H. destruct H as (u & w2 & H2 & H).
  unfold draw_uniform in H2. specialize (Hu (rng w)).
  destruct (random_sample (rng w)) as [u0 r0]. injection H2 as <- <-.
  cbn [fst] in Hu. destruct Hu as [Hu0 Hu1].
  unfold lift in H. injection H as H <-. split; [|reflexivity].
  assert (Hnn : Forall (fun q => 0 <= q) ps).
  { apply existsb_false_Forall in Hneg. eapply Forall_impl; [|exact Hneg].
    cbn. intros q Hq. destruct (Interp.Qlt_bool_spec q 0); [discriminate|assumption]. }
  rewrite (last_cumsum ps 0) in H.
  set (total := fold_left Qplus ps 0) in *.
  assert (Htot : 0 < total).
  { change (Py.sum ps) with total in Hs. unfold choice_atol in Hs.
    apply Qabs_Qle_condition in Hs. destruct Hs as [Hs _].
    assert (Hq : -(1 # 67108864) + 1 <= total) by lra.
    eapply Qlt_le_trans; [|exact Hq]. reflexivity. }
  rewrite (filter_ext _ (fun c => Qle_bool c (u0 * total))) in H
    by (intro x; now apply Qle_bool_div).
  destruct (searchsorted_positive ps 0 (u0 * total) Hnn) as (q & Hq & Hpos).
  { apply Qmult_le_0_compat; lra. }
  { fold total. setoid_replace total with (1 * total) at 2 by ring.
    apply Qmult_lt_compat_r; assumption. }
  set (idx := List.length (filter (fun c => Qle_bool c (u0 * total)) (cumsum 0 ps))) in *.
  rewrite iloc_nth_error in H.
  destruct (nth_error a idx) as [c'|] eqn:Ha; [|discriminate]. injection H as <-.
  pose proof (all_some_nth_error _ _ _ _ Hps Hq) as Hd.
  destruct (rmap_nth_error _ _ _ _ _ Hdl Hd) as (pi & Hpi & Hdc).
  exists idx, pi, q. repeat split; assumption.
Qed.

End ChoiceMore.

(** ** Draws that depend on the generator alone *)

Section DrawsMore.

Context {E : Env}.

Import Py Frame.
Local Open Scope result_scope.
Local Open Scope py_scope.

(** A computation that reads nothing of the world but the generator, and
    changes nothing else. *)
Definition state_only {A : Type} (m : M A) : Prop :=
  forall r, exists v r',
    forall w, rng w = r -> m w = (v, mkWorld (fs w) (log w) r').

Lemma state_only_choice (a p : list cell) : state_only (np_random_choice a p).
Proof.
  intro r. unfold np_random_choice.
  destruct (Nat.eqb (List.length a) 0).
  { exists (Raise ValueError), r. intros [f l r0] <-. reflexivity. }
  unfold bind at 1, lift.
  destruct (rmap double_of_cell p) as [dl|e].
  2:{ exists (Raise e), r. intros [f l r0] <-. reflexivity. }
  destruct (negb (Nat.eqb (List.length dl) (List.length a))).
  { exists (Raise ValueError), r. intros [f l r0] <-. reflexivity. }
  destruct (all_some dl) as [ps|].
  2:{ exists (Raise ValueError), r. intros [f l r0] <-. reflexivity. }
  destruct (existsb (fun q => Interp.Qlt_bool q 0) ps).
  { exists (Raise ValueError), r. intros [f l r0] <-. reflexivity. }
  destruct (Interp.Qlt_bool choice_atol (Qabs (Py.sum ps - 1))).
  { exists (Raise ValueError), r. intros [f l r0] <-. reflexivity. }
  unfold bind, draw_uniform.
  destruct (random_sample r) as [u r'] eqn:Hr.
  eexists. exists r'. intros [f l r0] Hw. cbn [rng] in Hw. subst r0.
  cbn [rng fs log]. rewrite Hr. reflexivity.
Qed.

(** One draw per row from the same generator state: the draws of the
    shorter column are the first draws of the longer one. *)
Lemma mapM_prefix {A B C : Type} (m : M B) (l : list A) :
  state_only m ->
  forall (l' : list C) w w' vs vs' w1 w1',
    rng w = rng w' ->
    (List.length l <= List.length l')%nat ->
    mapM (fun _ => m) l w = (Ok vs, w1) ->
    mapM (fun _ => m) l' w' = (Ok vs', w1') ->
    vs = firstn (List.length l) vs'.
Proof.
  intro Hm. induction l as [|x l IH]; intros l' w w' vs vs' w1 w1' Hr Hlen H H'.
  - cbn in H. unfold ret in H. now injection H as <- _.
  - destruct l' as [|x' l']; [cbn in Hlen; lia|].
    cbn [mapM] in H, H'.
    apply bind_ok_inv in H. destruct H as (b & w2 & H2 & H).
    apply bind_ok_inv in H. destruct H as (bs & w3 & H3 & H).
    apply bind_ok_inv in H'. destruct H' as (b' & w2' & H2' & H').
    apply bind_ok_inv in H'. destruct H' as (bs' & w3' & H3' & H').
    unfold ret in H, H'. injection H as <- _. injection H' as <- _.
    destruct (Hm (rng w)) as (v & r' & Hv).
    rewrite (Hv w eq_refl) in H2. rewrite (Hv w' (eq_sym Hr)) in H2'.
    injection H2 as -> <-. injection H2' as <- <-.
    cbn [List.length firstn]. f_equal.
    apply (IH l' (mkWorld (fs w) (log w) r') (mkWorld (fs w') (log w') r')
              bs bs' w3 w3');
      [reflexivity|cbn in Hlen; lia|exact H3|exact H3'].
Qed.

End DrawsMore.

(** ** The resolution of the vulnerability type *)

Section ResolutionMore.

Context {E : Env}.

Import Py Frame.

Lemma spec_narrow_sub (cands : list candidate) (value : string) :
  incl (spec_narrow cands value) cands /\
  (cands <> [] -> spec_narrow cands value <> []).
Proof.
  unfold spec_narrow. destruct (filter (describes value) cands) as [|c kept] eqn:Hf.
  - split; [apply incl_refl|auto].
  - split; [|discriminate]. rewrite <- Hf. intros x Hx. apply filter_In in Hx. tauto.
Qed.

Lemma fold_narrow_sub (values : list string) :
  forall cands,
    incl (fold_left spec_narrow values cands) cands /\
    (cands <> [] -> fold_left spec_narrow values cands <> []).
Proof.
  induction values as [|v values IH]; intro cands; cbn [fold_left].
  - split; [apply incl_refl|auto].
  - destruct (spec_narrow_sub cands v) as [H1 H2].
    destruct (IH (spec_narrow cands v)) as [H3 H4]. split.
    + eapply incl_tran; eauto.
    + auto.
Qed.

End ResolutionMore.

(** ** Strings *)

Section StringMore.

Import Py.

Lemma contains_hyphen_cons (c : ascii) (s : string) :
  contains "-" (String c s) = if Ascii.eqb "-" c then true else contains "-" s.
Proof.
  cbn [contains String.prefix]. destruct (Ascii.ascii_dec "-" c) as [<- | Hne].
  - rewrite Ascii.eqb_refl. now destruct s.
  - replace (Ascii.eqb "-" c) with false by (symmetry; now apply Ascii.eqb_neq).
    reflexivity.
Qed.

Lemma find_char_bounds (c : ascii) (s : string) :
  (-1 <= find_char c s < Z.of_nat (String.length s))%Z \/
  (find_char c s = -1)%Z.
Proof.
  induction s as [|d s IH]; [now right|]. cbn [find_char String.length].
  destruct (Ascii.eqb c d); [left; lia|].
  destruct (Z.ltb_spec (find_char c s) 0) as [H|H]; [now right|left; lia].
Qed.

(** The part of [s] before its first hyphen holds no hyphen. *)
Lemma take_find_hyphen (s : string) :
  contains "-" s = true ->
  (0 <= find_char "-" s)%Z /\
  contains "-" (take (Z.to_nat (find_char "-" s)) s) = false /\
  String.prefix (take (Z.to_nat (find_char "-" s)) s) s = true.
Proof.
  induction s as [|c s IH]; intro H; [discriminate|].
  rewrite contains_hyphen_cons in H. cbn [find_char].
  destruct (Ascii.eqb "-" c) eqn:Hc.
  - cbn. repeat split; try lia; try reflexivity; now destruct s.
  - destruct (IH H) as (H0 & H1 & H2).
    destruct (Z.ltb_spec (find_char "-" s) 0) as [Hneg|Hpos]; [lia|].
    replace (Z.to_nat (find_char "-" s + 1)) with (S (Z.to_nat (find_char "-" s)))
      by lia.
    cbn [take]. rewrite contains_hyphen_cons, Hc. repeat split; [lia|exact H1|].
    cbn [String.prefix]. destruct (Ascii.ascii_dec c c); [exact H2|congruence].
Qed.

Lemma prefix_refl (s : string) : String.prefix s s = true.
Proof.
  induction s as [|c s IH]; [reflexivity|]. cbn.
  destruct (Ascii.ascii_dec c c); [exact IH|congruence].
Qed.

End StringMore.

(** * Facts about the pipeline *)

(** ** Facts about the pipeline *)

Section PipeFacts.

Context {E : Env}.

Import Py Frame.
Local Open Scope result_scope.
Local Open Scope pipe_scope.

Lemma pbind_ok_inv {A B : Type} (m : P A) (k : A -> P B) (pw pw' : pworld) (b : B) :
  pbind m k pw = (Ok b, pw') ->
  exists a pw1, m pw = (Ok a, pw1) /\ k a pw1 = (Ok b, pw').
Proof.
  unfold pbind. destruct (m pw) as [[a|e] pw1]; intro H; [|discriminate].
  now exists a, pw1.
Qed.

Lemma pbind_run_ok {A B : Type} (m : P A) (k : A -> P B) (pw pw1 : pworld) (a : A) :
  m pw = (Ok a, pw1) -> pbind m k pw = k a pw1.
Proof. intro H. unfold pbind. now rewrite H. Qed.

Lemma pbind_run_raise {A B : Type} (m : P A) (k : A -> P B) (pw pw1 : pworld) (e : exn) :
  m pw = (Raise e, pw1) -> pbind m k pw = (Raise e, pw1).
Proof. intro H. unfold pbind. now rewrite H. Qed.

(** [writes Q m]: running [m] leaves every file as it was, except that a
    path in [Q] may have been written, and then it exists. *)
Definition writes (Q : string -> Prop) {A : Type} (m : P A) : Prop :=
  forall pw p,
    fs (engine (snd (m pw))) p = fs (engine pw) p \/
    (Q p /\ fs (engine (snd (m pw))) p <> None).

Lemma writes_weaken (Q R : string -> Prop) {A : Type} (m : P A) :
  (forall p, Q p -> R p) -> writes Q m -> writes R m.
Proof.
  intros HQR H pw p. destruct (H pw p) as [H1|[H1 H2]]; [now left|right; auto].
Qed.

Lemma writes_pret (Q : string -> Prop) {A : Type} (a : A) : writes Q (pret a).
Proof. intros pw p. now left. Qed.

Lemma writes_praise (Q : string -> Prop) {A : Type} (e : exn) :
  writes Q (praise (A := A) e).
Proof. intros pw p. now left. Qed.

Lemma writes_plift (Q : string -> Prop) {A : Type} (r : result A) : writes Q (plift r).
Proof. intros pw p. now left. Qed.

Lemma writes_plogger (Q : string -> Prop) (r : record) : writes Q (plogger r).
Proof. intros pw p. now left. Qed.

Lemma writes_run_engine (Q : string -> Prop) {A : Type} (m : M A) :
  touches Q m -> writes Q (run_engine m).
Proof.
  intros H pw p. unfold run_engine. specialize (H (engine pw) p).
  destruct (m (engine pw)) as [r w']. exact H.
Qed.

Lemma writes_exists_path (Q : string -> Prop) (q : string) : writes Q (exists_path q).
Proof. apply writes_run_engine, touches_path_exists. Qed.

Lemma writes_pbind (Q : string -> Prop) {A B : Type} (m : P A) (k : A -> P B) :
  writes Q m -> (forall a, writes Q (k a)) -> writes Q (pbind m k).
Proof.
  intros Hm Hk pw p. unfold pbind. specialize (Hm pw p).
  destruct (m pw) as [[a|e] pw1]; cbn [snd] in *.
  - destruct (Hk a pw1 p) as [H|[H1 H2]].
    + rewrite H. exact Hm.
    + right. now split.
  - exact Hm.
Qed.

Lemma writes_pcatch (Q : string -> Prop) {A : Type} (m : P A) (h : exn -> P A) :
  writes Q m -> (forall e, writes Q (h e)) -> writes Q (pcatch m h).
Proof.
  intros Hm Hh pw p. unfold pcatch. specialize (Hm pw p).
  destruct (m pw) as [[a|e] pw1]; cbn [snd] in *.
  - exact Hm.
  - destruct (Hh e pw1 p) as [H|[H1 H2]].
    + rewrite H. exact Hm.
    + right. now split.
Qed.

Lemma writes_pfoldM (Q : string -> Prop) {A B : Type} (f : B -> A -> P B) (l : list A) :
  (forall b a, writes Q (f b a)) -> forall b, writes Q (pfoldM f l b).
Proof.
  intro Hf. induction l as [|a l IH]; intro b; cbn [pfoldM].
  - apply writes_pret.
  - apply writes_pbind; auto.
Qed.

Lemma writes_if (Q : string -> Prop) {A : Type} (b : bool) (m1 m2 : P A) :
  writes Q m1 -> writes Q m2 -> writes Q (if b then m1 else m2).
Proof. now destruct b. Qed.

Lemma writes_kept (Q : string -> Prop) {A : Type} (m : P A) (pw : pworld) (p : string) :
  writes Q m -> fs (engine pw) p <> None -> fs (engine (snd (m pw))) p <> None.
Proof.
  intros H Hp. destruct (H pw p) as [H1|[_ H1]]; [now rewrite H1|assumption].
Qed.

(** [reads m]: [m] leaves the world of the engine as it is. *)
Definition reads {A : Type} (m : P A) : Prop :=
  forall pw, engine (snd (m pw)) = engine pw.

Lemma reads_pret {A : Type} (a : A) : reads (pret a).
Proof. intro pw. reflexivity. Qed.

Lemma reads_praise {A : Type} (e : exn) : reads (praise (A := A) e).
Proof. intro pw. reflexivity. Qed.

Lemma reads_plift {A : Type} (r : result A) : reads (plift r).
Proof. intro pw. reflexivity. Qed.

Lemma reads_plogger (r : record) : reads (plogger r).
Proof. intro pw. reflexivity. Qed.

Lemma reads_exists_path (q : string) : reads (exists_path q).
Proof. intro pw. reflexivity. Qed.

Lemma reads_pbind {A B : Type} (m : P A) (k : A -> P B) :
  reads m -> (forall a, reads (k a)) -> reads (pbind m k).
Proof.
  intros Hm Hk pw. unfold pbind. specialize (Hm pw).
  destruct (m pw) as [[a|e] pw1]; cbn [snd] in *.
  - now rewrite Hk.
  - exact Hm.
Qed.

Lemma reads_pfoldM {A B : Type} (f : B -> A -> P B) (l : list A) :
  (forall b a, reads (f b a)) -> forall b, reads (pfoldM f l b).
Proof.
  intro Hf. induction l as [|a l IH]; intro b; cbn [pfoldM].
  - apply reads_pret.
  - apply reads_pbind; auto.
Qed.

Lemma reads_if {A : Type} (b : bool) (m1 m2 : P A) :
  reads m1 -> reads m2 -> reads (if b then m1 else m2).
Proof. now destruct b. Qed.

End PipeFacts.

Create HintDb writes.

#[global] Hint Resolve writes_pret writes_praise writes_plift writes_plogger
  writes_exists_path : writes.

Ltac writes_tac :=
  repeat first
    [ apply writes_pbind; [|intro]
    | apply writes_pcatch; [|intro]
    | apply writes_pfoldM; intros
    | apply writes_if
    | solve [auto with writes]
    | match goal with
      | |- writes _ (match ?x with _ => _ end) => destruct x
      | |- writes _ (let (_, _) := ?x in _) => destruct x
      end ].

Ltac reads_tac :=
  repeat first
    [ apply reads_pbind; [|intro]
    | apply reads_pfoldM; intros
    | apply reads_pret
    | apply reads_praise
    | apply reads_plift
    | apply reads_plogger
    | apply reads_exists_path
    | match goal with
      | |- reads (if ?b then _ else _) => destruct b
      | |- reads (match ?x with _ => _ end) => destruct x
      | |- reads (let (_, _) := ?x in _) => destruct x
      end ].

Section ValidateFacts.

Context {E : Env}.

Import Py Frame.
Local Open Scope result_scope.
Local Open Scope pipe_scope.

Lemma reads_validate_inputs (a : args) : reads (validate_inputs a).
Proof.
  unfold validate_inputs, check_ncar, check_nsi, check_hazus, check_inventory,
    check_file, report_error.
  reads_tac.
Qed.

(** A block of checks: it returns the errors it was given followed by its
    own, and it adds none exactly when every path of [paths] exists. *)
Definition checks (paths : list string) (errors : list problem)
           (m : P (list problem)) : Prop :=
  forall pw, exists new,
    fst (m pw) = Ok (errors ++ new) /\
    engine (snd (m pw)) = engine pw /\
    (new = [] <-> forall p, In p paths -> fs (engine pw) p <> None).

Lemma checks_pret (errors : list problem) : checks [] errors (pret errors).
Proof.
  intro pw. exists []. rewrite app_nil_r. split; [reflexivity|].
  split; [reflexivity|]. split; [intros _ ? []|reflexivity].
Qed.

Lemma checks_check_file (label path : string) (p : problem) (errors : list problem) :
  checks [path] errors (check_file label path p errors).
Proof.
  intro pw. unfold check_file, pbind, exists_path, run_engine, path_exists, plogger, pret.
  destruct pw as [w rs]. cbn [engine records].
  destruct (fs w path) eqn:Hp; cbn [negb fst snd engine].
  - exists []. rewrite app_nil_r. split; [reflexivity|]. split; [reflexivity|].
    split; [|reflexivity]. intros _ q [<- | []]. congruence.
  - exists [p]. split; [reflexivity|]. split; [reflexivity|].
    split; [discriminate|].
    intro H. exfalso. apply (H path); [now left|assumption].
Qed.

Lemma checks_pbind (paths1 paths2 : list string) (errors : list problem)
      (m : P (list problem)) (k : list problem -> P (list problem)) :
  checks paths1 errors m ->
  (forall errors', checks paths2 errors' (k errors')) ->
  checks (paths1 ++ paths2) errors (pbind m k).
Proof.
  intros Hm Hk pw. unfold pbind.
  destruct (Hm pw) as (new1 & H1 & H2 & H3).
  destruct (m pw) as [[e1|x] pw1]; cbn [fst snd] in *; [|discriminate].
  injection H1 as ->.
  destruct (Hk (errors ++ new1) pw1) as (new2 & K1 & K2 & K3).
  exists (new1 ++ new2). rewrite app_assoc. repeat split.
  - exact K1.
  - now rewrite K2.
  - intros Hn q Hq. apply app_eq_nil in Hn. destruct Hn as [-> ->].
    apply in_app_or in Hq. destruct Hq as [Hq|Hq].
    + now apply (proj1 H3 eq_refl).
    + rewrite <- H2. now apply (proj1 K3 eq_refl).
  - intro H. assert (new1 = []) as ->.
    { apply H3. intros q Hq. apply H. apply in_or_app. now left. }
    assert (new2 = []) as ->; [|reflexivity].
    apply K3. intros q Hq. rewrite H2. apply H. apply in_or_app. now right.
Qed.

Lemma checks_logged (paths : list string) (errors : list problem) (r : record)
      (m : P (list problem)) :
  checks paths errors m -> checks paths errors (plogger r ;;; m).
Proof.
  intros Hm pw. unfold pbind, plogger.
  destruct (Hm (mkPworld (engine pw) (records pw ++ [r]))) as (new & H1 & H2 & H3).
  exists new. split; [exact H1|]. split; [exact H2|exact H3].
Qed.

Lemma checks_files {A : Type} (path_of : A -> string) (label : A -> string)
      (prob : A -> problem) (l : list A) :
  forall errors,
    checks (map path_of l) errors
           (pfoldM (fun errors x => check_file (label x) (path_of x) (prob x) errors)
                   l errors).
Proof.
  induction l as [|x l IH]; intro errors; cbn [pfoldM map].
  - apply checks_pret.
  - change (path_of x :: map path_of l) with ([path_of x] ++ map path_of l).
    apply checks_pbind; [apply checks_check_file|apply IH].
Qed.

(** A directory and the files looked for inside it: the files are checked
    only when the directory is there. *)
Lemma checks_directory (what : input) (dir : string) (p : problem)
      (paths : list string) (errors : list problem) (m : P (list problem)) :
  checks paths errors m ->
  checks (dir :: paths) errors
         (ex <- exists_path dir ;;
          if negb ex then plogger (Checked what false) ;;; pret (errors ++ [p])
          else plogger (Checked what true) ;;; m).
Proof.
  intros Hm [w rs].
  match goal with
  | |- exists new, fst (?run _) = _ /\ _ =>
      assert (Hrun : run (mkPworld w rs) =
                     match fs w dir with
                     | Some _ => (plogger (Checked what true) ;;; m) (mkPworld w rs)
                     | None => (plogger (Checked what false) ;;; pret (errors ++ [p]))
                                 (mkPworld w rs)
                     end)
  end.
  { unfold pbind at 1, exists_path, run_engine, path_exists. cbn [engine records].
    destruct (fs w dir); reflexivity. }
  rewrite Hrun. clear Hrun. cbn [engine].
  destruct (fs w dir) eqn:Hd.
  - destruct (checks_logged _ _ (Checked what true) _ Hm (mkPworld w rs))
      as (new & H1 & H2 & H3).
    exists new. split; [exact H1|]. split; [exact H2|]. split.
    + intros Hn q [<- | Hq]; [cbn; congruence|now apply (proj1 H3 Hn)].
    + intro H. apply H3. intros q Hq. apply H. now right.
  - exists [p]. split; [reflexivity|]. split; [reflexivity|].
    split; [discriminate|].
    intro H. exfalso. apply (H dir); [now left|assumption].
Qed.

(** The paths [validate_inputs] looks for. *)
Definition required_inputs (a : args) : list string :=
  (ncar_dir a :: map (path_join (ncar_dir a)) NETCDF_FILES)
  ++ [nsi_path a]
  ++ (hazus_dir a :: map (fun item => path_join (hazus_dir a) (snd item)) HAZUS_FILES)
  ++ match building_inventory a with
     | Some (String c p as path) => [path]
     | _ => []
     end.

Lemma checks_ncar (a : args) (errors : list problem) :
  checks (ncar_dir a :: map (path_join (ncar_dir a)) NETCDF_FILES) errors
         (check_ncar a errors).
Proof.
  unfold check_ncar. apply checks_logged. apply checks_directory.
  apply (checks_files (path_join (ncar_dir a)) (fun f => f)
           (fun f => NetcdfNotFound (path_join (ncar_dir a) f))).
Qed.

Lemma checks_nsi (a : args) (errors : list problem) :
  checks [nsi_path a] errors (check_nsi a errors).
Proof.
  unfold check_nsi. apply checks_logged.
  apply (checks_directory NsiFile (nsi_path a) (NsiNotFound (nsi_path a)) []).
  apply checks_pret.
Qed.

Lemma checks_hazus (a : args) (errors : list problem) :
  checks (hazus_dir a
          :: map (fun item => path_join (hazus_dir a) (snd item)) HAZUS_FILES)
         errors (check_hazus a errors).
Proof.
  unfold check_hazus. apply checks_logged. apply checks_directory.
  apply (checks_files (fun item : string * string => path_join (hazus_dir a) (snd item))
           (fun item => snd item)
           (fun item => HazusFileNotFound (fst item)
                                          (path_join (hazus_dir a) (snd item)))).
Qed.

Lemma checks_inventory (a : args) (errors : list problem) :
  checks match building_inventory a with
         | Some (String c p as path) => [path]
         | _ => []
         end errors (check_inventory a errors).
Proof.
  unfold check_inventory. destruct (building_inventory a) as [[|c p]|];
    try apply checks_pret.
  apply checks_logged.
  apply (checks_directory InventoryFile (String c p) (InventoryNotFound (String c p)) []).
  apply checks_pret.
Qed.

Lemma report_errors_ok (errors : list problem) :
  forall i pw, exists n, fst (pfoldM report_error errors i pw) = Ok n.
Proof.
  induction errors as [|e errors IH]; intros i pw; cbn [pfoldM].
  - now exists i.
  - unfold pbind at 1, report_error at 1, pbind, plogger, pret. apply IH.
Qed.

(** [validate_inputs] returns exactly when every path it looks for is
    there, and raises FileNotFoundError otherwise. *)
Lemma validate_inputs_result (a : args) (pw : pworld) :
  ((forall p, In p (required_inputs a) -> fs (engine pw) p <> None) ->
   fst (validate_inputs a pw) = Ok tt) /\
  (~ (forall p, In p (required_inputs a) -> fs (engine pw) p <> None) ->
   fst (validate_inputs a pw) = Raise FileNotFoundError).
Proof.
  pose proof (checks_pbind _ _ [] _ _ (checks_ncar a [])
                (fun e1 => checks_pbind _ _ e1 _ _ (checks_nsi a e1)
                   (fun e2 => checks_pbind _ _ e2 _ _ (checks_hazus a e2)
                      (fun e3 => checks_inventory a e3)))) as Hc.
  destruct (Hc pw) as (new & H1 & H2 & H3). cbn [app] in H1.
  assert (Hrun : validate_inputs a pw =
                 pbind (pbind (check_ncar a [])
                          (fun e1 => pbind (check_nsi a e1)
                             (fun e2 => pbind (check_hazus a e2)
                                (fun e3 => check_inventory a e3))))
                       (fun errors =>
                          if nonempty errors then
                            plogger (ValidationFailed (List.length errors)) ;;;
                            pfoldM report_error errors 1%nat ;;;
                            praise FileNotFoundError
                          else plogger ValidationSuccessful) pw).
  { unfold validate_inputs, pbind.
    destruct (check_ncar a [] pw) as [[e1|x1] pw1]; [|reflexivity].
    destruct (check_nsi a e1 pw1) as [[e2|x2] pw2]; [|reflexivity].
    destruct (check_hazus a e2 pw2) as [[e3|x3] pw3]; [|reflexivity].
    destruct (check_inventory a e3 pw3) as [[e4|x4] pw4]; reflexivity. }
  rewrite Hrun.
  match type of H1 with
  | fst (?m pw) = _ => destruct (m pw) as [[errs|x] pw'] eqn:Hm
  end; cbn [fst] in H1; [|discriminate].
  injection H1 as ->. rewrite (pbind_run_ok _ _ _ _ _ Hm).
  assert (Hreq : (forall p, In p (required_inputs a) -> fs (engine pw) p <> None) <->
                 new = []).
  { symmetry. exact H3. }
  split.
  - intro Hall. apply Hreq in Hall. subst new. reflexivity.
  - intro Hnot. destruct new as [|e new]; [exfalso; apply Hnot, Hreq; reflexivity|].
    cbn [nonempty]. unfold pbind at 1, plogger at 1. unfold pbind at 1.
    destruct (report_errors_ok (e :: new) 1%nat
                (mkPworld (engine pw')
                   (records pw' ++ [ValidationFailed (List.length (e :: new))])))
      as [n Hn].
    match type of Hn with
    | fst ?t = _ => destruct t as [[n'|x] w']
    end; [reflexivity|discriminate Hn].
Qed.

End ValidateFacts.

Section RunFacts.

Context {E : Env} {G : Geo}.

Variable nc_open_bytes : string -> Py.result nc_dataset.

Import Py Frame.
Local Open Scope result_scope.
Local Open Scope pipe_scope.

(** The steps the command line asks for. *)
Definition steps_of (a : args) : result (list Z) :=
  match steps a with
  | Some (String c s' as s) => parse_steps s
  | _ => Ok [1; 2; 3]%Z
  end.

Lemma reads_choose_steps (a : args) : reads (choose_steps a).
Proof. unfold choose_steps. reads_tac. Qed.

Lemma choose_steps_value (a : args) (pw : pworld) :
  fst (choose_steps a pw) = steps_of a.
Proof.
  unfold choose_steps, steps_of. destruct (steps a) as [[|c s]|]; try reflexivity.
  unfold pbind, plift. now destruct (parse_steps (String c s)).
Qed.

Lemma reads_find_existing (path_of : string -> string) (scenarios : list string) :
  forall d, reads (pfoldM (find_existing path_of) scenarios d).
Proof. apply reads_pfoldM. intros. unfold find_existing. reads_tac. Qed.

(** The dictionary of the outputs found in place. *)
Definition found_files (path_of : string -> string) (scenarios : list string)
           (d : list (string * string)) : list (string * string) :=
  fold_left (fun d scenario => dict_set scenario (path_of scenario) d) scenarios d.

Lemma find_existing_found (path_of : string -> string) (scenarios : list string) :
  forall d pw,
    (forall s, In s scenarios -> fs (engine pw) (path_of s) <> None) ->
    fst (pfoldM (find_existing path_of) scenarios d pw)
    = Ok (found_files path_of scenarios d).
Proof.
  induction scenarios as [|s l IH]; intros d pw H; [reflexivity|].
  cbn [pfoldM found_files fold_left]. unfold pbind at 1.
  unfold find_existing at 1. unfold pbind at 1, exists_path, run_engine, path_exists.
  destruct pw as [w rs]. cbn [engine records] in *.
  destruct (fs w (path_of s)) eqn:Hs.
  - unfold pbind, plogger, pret. cbn [engine records]. apply IH. exact (fun s0 H0 => H s0 (or_intror H0)).
  - exfalso. apply (H s); [now left|assumption].
Qed.

Lemma find_existing_missing (path_of : string -> string) (scenarios : list string) :
  forall d pw s,
    In s scenarios -> fs (engine pw) (path_of s) = None ->
    fst (pfoldM (find_existing path_of) scenarios d pw) = Raise FileNotFoundError.
Proof.
  induction scenarios as [|s0 l IH]; intros d pw s Hin Hs; [destruct Hin|].
  cbn [pfoldM]. unfold pbind at 1.
  unfold find_existing at 1. unfold pbind at 1, exists_path, run_engine, path_exists.
  destruct pw as [w rs]. cbn [engine records] in *.
  destruct (fs w (path_of s0)) eqn:Hs0.
  - unfold pbind, plogger, pret. cbn [engine records].
    destruct Hin as [-> | Hin]; [congruence|]. eapply IH; eauto.
  - reflexivity.
Qed.

Lemma reads_skipped_step1 (a : args) (l : list Z) :
  selected 1 l = false -> reads (run_step1 nc_open_bytes a l).
Proof.
  intro H. unfold run_step1. rewrite H.
  apply reads_pbind; [apply reads_plogger|intro; apply reads_find_existing].
Qed.

Lemma reads_skipped_step2 (a : args) (l : list Z) (wind : list (string * string)) :
  selected 2 l = false -> reads (run_step2 a l wind).
Proof.
  intro H. unfold run_step2. rewrite H.
  apply reads_pbind; [apply reads_plogger|intro; apply reads_find_existing].
Qed.

Lemma skipped_step1_value (a : args) (l : list Z) (pw : pworld) :
  selected 1 l = false ->
  ((forall s, In s SCENARIOS ->
              fs (engine pw) (wind_output (wind_output_dir a) s) <> None) ->
   fst (run_step1 nc_open_bytes a l pw)
   = Ok (found_files (wind_output (wind_output_dir a)) SCENARIOS [])) /\
  (forall s, In s SCENARIOS ->
             fs (engine pw) (wind_output (wind_output_dir a) s) = None ->
             fst (run_step1 nc_open_bytes a l pw) = Raise FileNotFoundError).
Proof.
  intro H. unfold run_step1. rewrite H. unfold pbind at 1, plogger at 1.
  unfold pbind at 1, plogger at 1. split.
  - intro Hall. now apply find_existing_found.
  - intros s Hin Hs. eapply find_existing_missing; eauto.
Qed.

Lemma skipped_step2_value (a : args) (l : list Z) (wind : list (string * string))
      (pw : pworld) :
  selected 2 l = false ->
  ((forall s, In s SCENARIOS ->
              fs (engine pw) (joined_output (joined_output_dir a) s) <> None) ->
   fst (run_step2 a l wind pw)
   = Ok (found_files (joined_output (joined_output_dir a)) SCENARIOS [])) /\
  (forall s, In s SCENARIOS ->
             fs (engine pw) (joined_output (joined_output_dir a) s) = None ->
             fst (run_step2 a l wind pw) = Raise FileNotFoundError).
Proof.
  intro H. unfold run_step2. rewrite H. unfold pbind at 1, plogger at 1.
  unfold pbind at 1, plogger at 1. split.
  - intro Hall. now apply find_existing_found.
  - intros s Hin Hs. eapply find_existing_missing; eauto.
Qed.

End RunFacts.

Section NetcdfFacts.

Context {E : Env}.

Variable nc_open_bytes : string -> Py.result nc_dataset.

Import Py Frame.
Local Open Scope result_scope.
Local Open Scope pipe_scope.

Lemma reads_check_netcdf (ncar_dir : string) (files : list string) :
  forall missing, reads (pfoldM (check_netcdf ncar_dir) files missing).
Proof. apply reads_pfoldM. intros. unfold check_netcdf. reads_tac. Qed.

(** The files of [files] that are not in the directory. *)
Definition missing_in (w : world) (ncar_dir : string) (files : list string) : list string :=
  filter (fun f => match fs w (path_join ncar_dir f) with
                   | Some _ => false
                   | None => true
                   end) files.

Lemma check_netcdf_value (ncar_dir : string) (files : list string) :
  forall missing pw,
    fst (pfoldM (check_netcdf ncar_dir) files missing pw)
    = Ok (missing ++ missing_in (engine pw) ncar_dir files).
Proof.
  induction files as [|f files IH]; intros missing pw.
  - cbn. now rewrite app_nil_r.
  - cbn [pfoldM missing_in filter]. unfold pbind at 1, check_netcdf at 1.
    unfold pbind at 1, exists_path, run_engine, path_exists.
    destruct pw as [w rs]. cbn [engine records].
    destruct (fs w (path_join ncar_dir f)); cbn [negb];
      unfold pbind at 1, plogger at 1, pret; rewrite IH; cbn [engine].
    + reflexivity.
    + unfold missing_in. now rewrite <- app_assoc.
Qed.

Lemma writes_process_file_body (ncar_dir netcdf_file scenario output_csv : string) :
  writes (eq output_csv)
         (process_file_body nc_open_bytes ncar_dir netcdf_file scenario output_csv).
Proof.
  unfold process_file_body.
  apply writes_pbind.
  { intros pw p. unfold nc_open. destruct (fs (engine pw) _); now left. }
  intro nc. apply writes_if; [writes_tac|].
  apply writes_pbind; [apply writes_plift|intro].
  apply writes_pbind; [apply writes_plift|intro].
  apply writes_pbind; [apply writes_plift|intro].
  apply writes_pbind; [apply writes_plogger|intro].
  apply writes_pbind; [apply writes_plift|intro df].
  apply writes_pbind; [apply writes_plogger|intro].
  apply writes_pbind; [apply writes_plogger|intro].
  apply writes_pbind; [|intro; apply writes_plogger].
  apply writes_run_engine. now apply touches_to_csv.
Qed.

Lemma writes_process_file (ncar_dir output_dir : string) (force_rerun : bool)
      (d : list (string * string)) (netcdf_file : string) :
  writes (eq (wind_output output_dir (PyStr.splitext_root netcdf_file)))
         (process_file nc_open_bytes ncar_dir output_dir force_rerun d netcdf_file).
Proof.
  unfold process_file.
  apply writes_pbind; [apply writes_exists_path|intro ex].
  apply writes_if; [writes_tac|].
  apply writes_pbind; [apply writes_plogger|intro].
  apply writes_pbind; [|intro; apply writes_pret].
  apply writes_pcatch; [apply writes_process_file_body|intro; writes_tac].
Qed.

(** The outputs of the processor for a list of NetCDF files. *)
Definition is_wind_output (output_dir : string) (files : list string) (p : string) : Prop :=
  exists f, In f files /\ p = wind_output output_dir (PyStr.splitext_root f).

Lemma writes_process_files (ncar_dir output_dir : string) (force_rerun : bool)
      (files : list string) :
  forall d,
    writes (is_wind_output output_dir files)
           (pfoldM (process_file nc_open_bytes ncar_dir output_dir force_rerun) files d).
Proof.
  induction files as [|f files IH]; intro d; cbn [pfoldM].
  - apply writes_pret.
  - apply writes_pbind.
    + eapply writes_weaken; [|apply writes_process_file].
      intros p <-. exists f. split; [now left|reflexivity].
    + intro d'. eapply writes_weaken; [|apply IH].
      intros p (f' & Hin & ->). exists f'. split; [now right|reflexivity].
Qed.

Lemma writes_process_ncar_netcdf (ncar_dir output_dir : string) (force_rerun : bool) :
  writes (is_wind_output output_dir NETCDF_FILES)
         (process_ncar_netcdf nc_open_bytes ncar_dir output_dir force_rerun).
Proof.
  unfold process_ncar_netcdf.
  apply writes_pbind; [apply writes_plogger|intro].
  apply writes_pbind.
  { apply writes_pfoldM. intros. unfold check_netcdf. writes_tac. }
  intro missing. apply writes_if; [writes_tac|].
  apply writes_pbind; [apply writes_process_files|intro]. writes_tac.
Qed.

Lemma process_file_body_writes (ncar_dir netcdf_file scenario output_csv : string)
      (pw pw' : pworld) (u : unit) :
  process_file_body nc_open_bytes ncar_dir netcdf_file scenario output_csv pw
  = (Ok u, pw') ->
  fs (engine pw') output_csv <> None.
Proof.
  unfold process_file_body. intro H.
  apply pbind_ok_inv in H. destruct H as (nc & pw1 & H1 & H).
  destruct (nonempty _).
  { unfold pbind, plogger, praise in H. discriminate. }
  repeat match type of H with
         | pbind ?m ?k ?w = (Ok _, _) =>
             let a := fresh "a" in
             let w1 := fresh "pw" in
             let Hm := fresh "Hm" in
             apply pbind_ok_inv in H; destruct H as (a & w1 & Hm & H)
         end.
  unfold plogger in H. injection H as _ <-. cbn [engine].
  match goal with
  | Hw : run_engine (to_csv _ _) _ = (Ok _, _) |- _ =>
      unfold run_engine, to_csv, write_file in Hw; injection Hw as _ <-
  end.
  cbn. rewrite String.eqb_refl. discriminate.
Qed.

Lemma process_file_ok (ncar_dir output_dir : string) (force_rerun : bool)
      (d d' : list (string * string)) (f : string) (pw pw' : pworld) :
  process_file nc_open_bytes ncar_dir output_dir force_rerun d f pw = (Ok d', pw') ->
  d' = dict_set (PyStr.splitext_root f)
                (wind_output output_dir (PyStr.splitext_root f)) d /\
  fs (engine pw') (wind_output output_dir (PyStr.splitext_root f)) <> None.
Proof.
  unfold process_file. intro H.
  set (scenario := PyStr.splitext_root f) in *.
  set (out := wind_output output_dir scenario) in *.
  apply pbind_ok_inv in H. destruct H as (ex & pw1 & H1 & H).
  unfold exists_path, run_engine, path_exists in H1. injection H1 as <- <-.
  destruct pw as [w rs]. cbn [engine records] in H.
  destruct (fs w out) as [bytes|] eqn:Hfs; cbn [andb] in H.
  - destruct force_rerun; cbn [negb] in H.
    + apply pbind_ok_inv in H. destruct H as ([] & pw2 & H2 & H).
      apply pbind_ok_inv in H. destruct H as ([] & pw3 & H3 & H).
      unfold pret in H. injection H as <- <-. split; [reflexivity|].
      unfold pcatch in H3.
      destruct (process_file_body _ _ _ _ _ _) as [[u|e] pw4] eqn:Hb.
      * assert (pw4 = pw3) by congruence. subst pw4.
        eapply process_file_body_writes; eauto.
      * unfold pbind, plogger, praise in H3. discriminate.
    + apply pbind_ok_inv in H. destruct H as ([] & pw2 & H2 & H).
      unfold pret in H. injection H as <- <-. unfold plogger in H2.
      injection H2 as <-. cbn. rewrite Hfs. split; [reflexivity|discriminate].
  - apply pbind_ok_inv in H. destruct H as ([] & pw2 & H2 & H).
    apply pbind_ok_inv in H. destruct H as ([] & pw3 & H3 & H).
    unfold pret in H. injection H as <- <-. split; [reflexivity|].
    unfold pcatch in H3.
    destruct (process_file_body _ _ _ _ _ _) as [[u|e] pw4] eqn:Hb.
    * assert (pw4 = pw3) by congruence. subst pw4.
      eapply process_file_body_writes; eauto.
    * unfold pbind, plogger, praise in H3. discriminate.
Qed.

(** The dictionary a complete run of the processor returns. *)
Definition wind_files (output_dir : string) (files : list string)
           (d : list (string * string)) : list (string * string) :=
  fold_left (fun d f => dict_set (PyStr.splitext_root f)
                                 (wind_output output_dir (PyStr.splitext_root f)) d)
            files d.

Lemma process_files_ok (ncar_dir output_dir : string) (force_rerun : bool)
      (files : list string) :
  forall d d' pw pw',
    pfoldM (process_file nc_open_bytes ncar_dir output_dir force_rerun) files d pw
    = (Ok d', pw') ->
    d' = wind_files output_dir files d /\
    forall f, In f files ->
              fs (engine pw') (wind_output output_dir (PyStr.splitext_root f)) <> None.
Proof.
  induction files as [|f files IH]; intros d d' pw pw' H; cbn [pfoldM] in H.
  - unfold pret in H. injection H as <- <-. split; [reflexivity|intros ? []].
  - apply pbind_ok_inv in H. destruct H as (d1 & pw1 & H1 & H).
    destruct (process_file_ok _ _ _ _ _ _ _ _ H1) as [-> Hex].
    destruct (IH _ _ _ _ H) as [-> Hrest]. split; [reflexivity|].
    intros f' [<- | Hin]; [|now apply Hrest].
    pose proof (writes_kept _ _ pw1 (wind_output output_dir (PyStr.splitext_root f))
                  (writes_process_files ncar_dir output_dir force_rerun files
                     (dict_set (PyStr.splitext_root f)
                               (wind_output output_dir (PyStr.splitext_root f)) d))
                  Hex) as Hk.
    now rewrite H in Hk.
Qed.

(** A run that finds every output in place returns the dictionary and
    leaves the world of the engine as it is. *)
Lemma process_files_skip (ncar_dir output_dir : string) (files : list string) :
  forall d pw,
    (forall f, In f files ->
               fs (engine pw) (wind_output output_dir (PyStr.splitext_root f)) <> None) ->
    fst (pfoldM (process_file nc_open_bytes ncar_dir output_dir false) files d pw)
    = Ok (wind_files output_dir files d) /\
    engine (snd (pfoldM (process_file nc_open_bytes ncar_dir output_dir false) files d pw))
    = engine pw.
Proof.
  induction files as [|f files IH]; intros d pw Hall; cbn [pfoldM].
  - now split.
  - assert (Hstep : exists rs,
               process_file nc_open_bytes ncar_dir output_dir false d f pw =
               (Ok (dict_set (PyStr.splitext_root f)
                             (wind_output output_dir (PyStr.splitext_root f)) d),
                mkPworld (engine pw) rs)).
    { unfold process_file, pbind, exists_path, run_engine, path_exists, plogger, pret.
      destruct pw as [w rs]. cbn [engine records] in *.
      specialize (Hall f (or_introl eq_refl)).
      destruct (fs w (wind_output output_dir (PyStr.splitext_root f))); [|congruence].
      cbn. eexists. reflexivity. }
    destruct Hstep as [rs Hstep]. rewrite (pbind_run_ok _ _ _ _ _ Hstep).
    apply (IH _ (mkPworld (engine pw) rs)).
    intros f' Hin. cbn [engine]. apply Hall. now right.
Qed.

End NetcdfFacts.

Section JoinFacts.

Context {E : Env} {G : Geo}.

Import Py Frame.
Local Open Scope pipe_scope.

Lemma touches_write_file (p bytes : string) : touches (eq p) (write_file p bytes).
Proof.
  intros w q. unfold write_file. cbn [snd fs].
  destruct (String.eqb q p) eqn:Hq; [|now left].
  apply String.eqb_eq in Hq. subst q. right. split; [reflexivity|discriminate].
Qed.

Lemma reads_load_nsi (nsi_path : string) : reads (load_nsi nsi_path).
Proof.
  intro pw. unfold load_nsi, pcatch, pbind, gpd_read_file, plogger, plift, pret, praise.
  destruct (fs (engine pw) nsi_path) as [bytes|]; [|reflexivity].
  destruct (gpd_read_file_bytes bytes) as [nsi|e]; [|reflexivity].
  cbn [engine]. destruct (to_crs nsi); reflexivity.
Qed.

(** The projected inventory, when the file is there and geopandas reads
    it. *)
Lemma load_nsi_value (nsi_path : string) (pw : pworld) :
  fst (load_nsi nsi_path pw)
  = match fs (engine pw) nsi_path with
    | Some bytes =>
        match gpd_read_file_bytes bytes with
        | Ok nsi => to_crs nsi
        | Raise e => Raise e
        end
    | None => Raise FileNotFoundError
    end.
Proof.
  unfold load_nsi, pcatch, pbind, gpd_read_file, plogger, plift, pret, praise.
  destruct (fs (engine pw) nsi_path) as [bytes|]; [|reflexivity].
  destruct (gpd_read_file_bytes bytes) as [nsi|e]; [|reflexivity].
  cbn [engine]. destruct (to_crs nsi); reflexivity.
Qed.

Lemma writes_join_scenario_body (nsi_projected : geodataframe)
      (scenario wind_csv output_csv : string) :
  writes (eq output_csv)
         (join_scenario_body nsi_projected scenario wind_csv output_csv).
Proof.
  unfold join_scenario_body.
  apply writes_pbind; [apply writes_exists_path|intro ex].
  apply writes_if; [writes_tac|].
  apply writes_pbind; [apply writes_plogger|intro].
  apply writes_pbind; [apply writes_run_engine, touches_read_csv|intro wind_df].
  apply writes_pbind; [apply writes_plogger|intro].
  apply writes_pbind; [apply writes_plift|intro].
  apply writes_pbind; [apply writes_plift|intro].
  apply writes_pbind; [apply writes_plogger|intro].
  apply writes_pbind; [apply writes_plift|intro joined].
  apply writes_pbind; [apply writes_plift|intro].
  apply writes_pbind; [apply writes_plogger|intro].
  apply writes_pbind; [apply writes_plift|intro missing].
  apply writes_pbind; [apply writes_if; auto with writes|intro].
  apply writes_pbind; [apply writes_plogger|intro].
  apply writes_pbind; [|intro; apply writes_plogger].
  apply writes_run_engine. apply touches_write_file.
Qed.

Lemma writes_join_scenario (nsi_projected : geodataframe) (output_dir : string)
      (force_rerun : bool) (d : list (string * string)) (item : string * string) :
  writes (eq (joined_output output_dir (fst item)))
         (join_scenario nsi_projected output_dir force_rerun d item).
Proof.
  unfold join_scenario.
  apply writes_pbind; [apply writes_plogger|intro].
  apply writes_pbind; [apply writes_exists_path|intro ex].
  apply writes_if; [writes_tac|].
  apply writes_pbind; [|intro; apply writes_pret].
  apply writes_pcatch; [apply writes_join_scenario_body|intro; writes_tac].
Qed.

(** The outputs of the join for a dictionary of wind files. *)
Definition is_joined_output (output_dir : string) (wind : list (string * string))
           (p : string) : Prop :=
  exists item, In item wind /\ p = joined_output output_dir (fst item).

Lemma writes_join_scenarios (nsi_projected : geodataframe) (output_dir : string)
      (force_rerun : bool) (wind : list (string * string)) :
  forall d,
    writes (is_joined_output output_dir wind)
           (pfoldM (join_scenario nsi_projected output_dir force_rerun) wind d).
Proof.
  induction wind as [|item wind IH]; intro d; cbn [pfoldM].
  - apply writes_pret.
  - apply writes_pbind.
    + eapply writes_weaken; [|apply writes_join_scenario].
      intros p <-. exists item. split; [now left|reflexivity].
    + intro d'. eapply writes_weaken; [|apply IH].
      intros p (item' & Hin & ->). exists item'. split; [now right|reflexivity].
Qed.

Lemma writes_load_nsi (Q : string -> Prop) (nsi_path : string) :
  writes Q (load_nsi nsi_path).
Proof. intros pw p. left. now rewrite reads_load_nsi. Qed.

Lemma writes_join_buildings_wind (nsi_path : string) (wind : list (string * string))
      (output_dir : string) (force_rerun : bool) :
  writes (is_joined_output output_dir wind)
         (join_buildings_wind nsi_path wind output_dir force_rerun).
Proof.
  unfold join_buildings_wind.
  apply writes_pbind; [apply writes_exists_path|intro ex].
  apply writes_if; [writes_tac|].
  apply writes_pbind; [apply writes_plogger|intro].
  apply writes_pbind; [apply writes_load_nsi|intro nsi].
  apply writes_pbind; [apply writes_join_scenarios|intro]. writes_tac.
Qed.

Lemma join_scenario_body_writes (nsi_projected : geodataframe)
      (scenario wind_csv output_csv : string) (pw pw' : pworld) (u : unit) :
  join_scenario_body nsi_projected scenario wind_csv output_csv pw = (Ok u, pw') ->
  fs (engine pw') output_csv <> None.
Proof.
  unfold join_scenario_body. intro H.
  apply pbind_ok_inv in H. destruct H as (ex & pw1 & H1 & H).
  destruct (negb ex).
  { unfold pbind, plogger, praise in H. discriminate. }
  repeat match type of H with
         | pbind ?m ?k ?w = (Ok _, _) =>
             let a := fresh "a" in
             let w1 := fresh "pw" in
             let Hm := fresh "Hm" in
             apply pbind_ok_inv in H; destruct H as (a & w1 & Hm & H)
         end.
  unfold plogger in H. injection H as _ <-. cbn [engine].
  match goal with
  | Hw : run_engine (write_file _ _) _ = (Ok _, _) |- _ =>
      unfold run_engine, write_file in Hw; injection Hw as _ <-
  end.
  cbn. rewrite String.eqb_refl. discriminate.
Qed.

Lemma join_scenario_ok (nsi_projected : geodataframe) (output_dir : string)
      (force_rerun : bool) (d d' : list (string * string)) (item : string * string)
      (pw pw' : pworld) :
  join_scenario nsi_projected output_dir force_rerun d item pw = (Ok d', pw') ->
  d' = dict_set (fst item) (joined_output output_dir (fst item)) d /\
  fs (engine pw') (joined_output output_dir (fst item)) <> None.
Proof.
  unfold join_scenario. intro H.
  set (out := joined_output output_dir (fst item)) in *.
  apply pbind_ok_inv in H. destruct H as ([] & pw0 & H0 & H).
  unfold plogger in H0. injection H0 as <-.
  apply pbind_ok_inv in H. destruct H as (ex & pw1 & H1 & H).
  unfold exists_path, run_engine, path_exists in H1. cbn [engine records] in H1.
  injection H1 as <- <-.
  destruct (fs (engine pw) out) as [bytes|] eqn:Hfs; cbn [andb] in H.
  - destruct force_rerun; cbn [negb] in H.
    + apply pbind_ok_inv in H. destruct H as ([] & pw3 & H3 & H).
      unfold pret in H. injection H as <- <-. split; [reflexivity|].
      unfold pcatch in H3.
      destruct (join_scenario_body _ _ _ _ _) as [[u|e] pw4] eqn:Hb.
      * assert (pw4 = pw3) by congruence. subst pw4.
        eapply join_scenario_body_writes; eauto.
      * unfold pbind, plogger, praise in H3. discriminate.
    + apply pbind_ok_inv in H. destruct H as ([] & pw2 & H2 & H).
      unfold pret in H. injection H as <- <-. unfold plogger in H2.
      injection H2 as <-. cbn. rewrite Hfs. split; [reflexivity|discriminate].
  - apply pbind_ok_inv in H. destruct H as ([] & pw3 & H3 & H).
    unfold pret in H. injection H as <- <-. split; [reflexivity|].
    unfold pcatch in H3.
    destruct (join_scenario_body _ _ _ _ _) as [[u|e] pw4] eqn:Hb.
    * assert (pw4 = pw3) by congruence. subst pw4.
      eapply join_scenario_body_writes; eauto.
    * unfold pbind, plogger, praise in H3. discriminate.
Qed.

(** The dictionary a complete join returns. *)
Definition joined_files (output_dir : string) (wind : list (string * string))
           (d : list (string * string)) : list (string * string) :=
  fold_left (fun d (item : string * string) =>
               dict_set (fst item) (joined_output output_dir (fst item)) d)
            wind d.

Lemma join_scenarios_ok (nsi_projected : geodataframe) (output_dir : string)
      (force_rerun : bool) (wind : list (string * string)) :
  forall d d' pw pw',
    pfoldM (join_scenario nsi_projected output_dir force_rerun) wind d pw
    = (Ok d', pw') ->
    d' = joined_files output_dir wind d /\
    forall item, In item wind ->
                 fs (engine pw') (joined_output output_dir (fst item)) <> None.
Proof.
  induction wind as [|item wind IH]; intros d d' pw pw' H; cbn [pfoldM] in H.
  - unfold pret in H. injection H as <- <-. split; [reflexivity|intros ? []].
  - apply pbind_ok_inv in H. destruct H as (d1 & pw1 & H1 & H).
    destruct (join_scenario_ok _ _ _ _ _ _ _ _ H1) as [-> Hex].
    destruct (IH _ _ _ _ H) as [-> Hrest]. split; [reflexivity|].
    intros item' [<- | Hin]; [|now apply Hrest].
    pose proof (writes_kept _ _ pw1 (joined_output output_dir (fst item))
                  (writes_join_scenarios nsi_projected output_dir force_rerun wind
                     (dict_set (fst item) (joined_output output_dir (fst item)) d))
                  Hex) as Hk.
    now rewrite H in Hk.
Qed.

(** A join that finds every output in place returns the dictionary and
    leaves the world of the engine as it is. *)
Lemma join_scenarios_skip (nsi_projected : geodataframe) (output_dir : string)
      (wind : list (string * string)) :
  forall d pw,
    (forall item, In item wind ->
                  fs (engine pw) (joined_output output_dir (fst item)) <> None) ->
    fst (pfoldM (join_scenario nsi_projected output_dir false) wind d pw)
    = Ok (joined_files output_dir wind d) /\
    engine (snd (pfoldM (join_scenario nsi_projected output_dir false) wind d pw))
    = engine pw.
Proof.
  induction wind as [|item wind IH]; intros d pw Hall; cbn [pfoldM].
  - now split.
  - assert (Hstep : exists rs,
               join_scenario nsi_projected output_dir false d item pw =
               (Ok (dict_set (fst item) (joined_output output_dir (fst item)) d),
                mkPworld (engine pw) rs)).
    { unfold join_scenario, pbind, exists_path, run_engine, path_exists, plogger, pret.
      destruct pw as [w rs]. cbn [engine records] in *.
      specialize (Hall item (or_introl eq_refl)).
      destruct (fs w (joined_output output_dir (fst item))); [|congruence].
      cbn. eexists. reflexivity. }
    destruct Hstep as [rs Hstep]. rewrite (pbind_run_ok _ _ _ _ _ Hstep).
    apply (IH _ (mkPworld (engine pw) rs)).
    intros item' Hin. cbn [engine]. apply Hall. now right.
Qed.

(** The run of the join, after its check of the NSI file and the load. *)
Lemma join_buildings_wind_run (nsi_path : string) (wind : list (string * string))
      (output_dir : string) (force_rerun : bool) (pw : pworld) :
  exists pw1,
    engine pw1 = engine pw /\
    join_buildings_wind nsi_path wind output_dir force_rerun pw
    = match fs (engine pw) nsi_path with
      | None => (Raise FileNotFoundError, pw1)
      | Some bytes =>
          match match gpd_read_file_bytes bytes with
                | Ok nsi => to_crs nsi
                | Raise e => Raise e
                end with
          | Raise e => (Raise e, pw1)
          | Ok nsi_projected =>
              (pbind (pfoldM (join_scenario nsi_projected output_dir force_rerun) wind [])
                     (fun joined_files =>
                        pbind (plogger (JoinComplete (List.length joined_files)))
                              (fun _ => pret joined_files))) pw1
          end
      end.
Proof.
  unfold join_buildings_wind.
  unfold pbind at 1, exists_path, run_engine, path_exists. cbn [engine records].
  destruct (fs (engine pw) nsi_path) as [bytes|] eqn:Hfs; cbn [negb].
  - unfold pbind at 1, plogger at 1.
    set (pw0 := mkPworld (engine pw) (records pw ++ [JoinLoadingNsi nsi_path])).
    pose proof (load_nsi_value nsi_path pw0) as Hv.
    pose proof (reads_load_nsi nsi_path pw0) as Hr.
    change (engine pw0) with (engine pw) in Hv, Hr. rewrite Hfs in Hv.
    destruct (load_nsi nsi_path pw0) as [r pw1] eqn:Hload. cbn [fst snd] in Hv, Hr.
    exists pw1. split; [exact Hr|].
    subst r.
    destruct (match gpd_read_file_bytes bytes with
              | Ok nsi => to_crs nsi
              | Raise e => Raise e
              end) as [nsi|e].
    + now rewrite (pbind_run_ok _ _ _ _ _ Hload).
    + now rewrite (pbind_run_raise _ _ _ _ _ Hload).
  - eexists. split; [|unfold pbind, plogger, praise; reflexivity]. reflexivity.
Qed.

End JoinFacts.

Section PipelineFacts.

Context {E : Env} {G : Geo}.
Variable nc_open_bytes : string -> Py.result nc_dataset.

Import Py Frame.

Lemma choose_steps_run (a : args) (pw : pworld) :
  exists pw1,
    choose_steps a pw = (steps_of a, pw1) /\ engine pw1 = engine pw.
Proof.
  pose proof (choose_steps_value a pw) as Hv.
  pose proof (reads_choose_steps a pw) as Hr.
  destruct (choose_steps a pw) as [r pw1]. cbn [fst snd] in Hv, Hr.
  exists pw1. split; [now rewrite Hv|exact Hr].
Qed.

(** A run whose first two steps are skipped and find their files reaches
    step 3 in the world of the engine it started from. *)
Lemma run_pipeline_step3 (a : args) (pw : pworld) (l : list Z) :
  steps_of a = Ok l ->
  selected 1 l = false -> selected 2 l = false -> selected 3 l = true ->
  (forall s, In s SCENARIOS ->
             fs (engine pw) (wind_output (wind_output_dir a) s) <> None) ->
  (forall s, In s SCENARIOS ->
             fs (engine pw) (joined_output (joined_output_dir a) s) <> None) ->
  exists pw2,
    engine pw2 = engine pw /\
    run_pipeline nc_open_bytes a pw
    = (r <- run_step3 a (found_files (joined_output (joined_output_dir a)) SCENARIOS []) ;;
       let '(building_inventory, loss_csv_paths, total) := r in
       pret (mkOutputs (found_files (wind_output (wind_output_dir a)) SCENARIOS [])
                       (found_files (joined_output (joined_output_dir a)) SCENARIOS [])
                       (Some building_inventory) (Some loss_csv_paths) (Some total)))%pipe
        pw2.
Proof.
  intros Hl H1 H2 H3 Hw Hj.
  destruct (choose_steps_run a pw) as (pw0 & Hc & He0). rewrite Hl in Hc.
  unfold run_pipeline. rewrite (pbind_run_ok _ _ _ _ _ Hc).
  pose proof (skipped_step1_value nc_open_bytes a l pw0 H1) as [Hv1 _].
  pose proof (reads_skipped_step1 nc_open_bytes a l H1 pw0) as Hr1.
  rewrite He0 in Hv1. specialize (Hv1 Hw).
  destruct (run_step1 nc_open_bytes a l pw0) as [r1 pw1] eqn:Hs1.
  cbn [fst snd] in Hv1, Hr1. subst r1.
  rewrite (pbind_run_ok _ _ _ _ _ Hs1).
  pose proof (skipped_step2_value a l
                (found_files (wind_output (wind_output_dir a)) SCENARIOS []) pw1 H2)
    as [Hv2 _].
  pose proof (reads_skipped_step2 a l
                (found_files (wind_output (wind_output_dir a)) SCENARIOS []) H2 pw1)
    as Hr2.
  rewrite Hr1, He0 in Hv2. specialize (Hv2 Hj).
  destruct (run_step2 a l _ pw1) as [r2 pw2] eqn:Hs2.
  cbn [fst snd] in Hv2, Hr2. subst r2.
  rewrite (pbind_run_ok _ _ _ _ _ Hs2). rewrite H3.
  exists pw2. split; [now rewrite Hr2, Hr1, He0|reflexivity].
Qed.

(** A run that skips step 1 without the wind file of a scenario, or steps 1
    and 2 without the joined file of a scenario, stops there. *)
Lemma skipped_steps_raise (a : args) (pw : pworld) (l : list Z) (s : string) :
  steps_of a = Ok l ->
  In s SCENARIOS ->
  selected 1 l = false ->
  (fs (engine pw) (wind_output (wind_output_dir a) s) = None \/
   (selected 2 l = false /\
    fs (engine pw) (joined_output (joined_output_dir a) s) = None)) ->
  fst (run_pipeline nc_open_bytes a pw) = Raise FileNotFoundError /\
  engine (snd (run_pipeline nc_open_bytes a pw)) = engine pw.
Proof.
  intros Hl Hs H1 Hmiss.
  set (nc := nc_open_bytes).
  destruct (choose_steps_run a pw) as (pw0 & Hc & He0). rewrite Hl in Hc.
  unfold run_pipeline. rewrite (pbind_run_ok _ _ _ _ _ Hc).
  pose proof (skipped_step1_value nc a l pw0 H1) as [Hv1 Hn1].
  pose proof (reads_skipped_step1 nc a l H1 pw0) as Hr1.
  rewrite He0 in Hv1, Hn1.
  assert (Hraise1 : forall s', In s' SCENARIOS ->
                      fs (engine pw) (wind_output (wind_output_dir a) s') = None ->
                      fst (pbind (run_step1 nc a l)
                             (fun wind_csv_paths =>
                                pbind (run_step2 a l wind_csv_paths)
                                  (fun joined_csv_paths =>
                                     if selected 3 l
                                     then pbind (run_step3 a joined_csv_paths)
                                            (fun r => let '(building_inventory,
                                                            loss_csv_paths, total) := r in
                                                      pret (mkOutputs wind_csv_paths
                                                              joined_csv_paths
                                                              (Some building_inventory)
                                                              (Some loss_csv_paths)
                                                              (Some total)))
                                     else pret (mkOutputs wind_csv_paths joined_csv_paths
                                                          None None None))) pw0)
                      = Raise FileNotFoundError /\
                      engine (snd (pbind (run_step1 nc a l)
                             (fun wind_csv_paths =>
                                pbind (run_step2 a l wind_csv_paths)
                                  (fun joined_csv_paths =>
                                     if selected 3 l
                                     then pbind (run_step3 a joined_csv_paths)
                                            (fun r => let '(building_inventory,
                                                            loss_csv_paths, total) := r in
                                                      pret (mkOutputs wind_csv_paths
                                                              joined_csv_paths
                                                              (Some building_inventory)
                                                              (Some loss_csv_paths)
                                                              (Some total)))
                                     else pret (mkOutputs wind_csv_paths joined_csv_paths
                                                          None None None))) pw0))
                      = engine pw).
  { intros s' Hs' Hnone. specialize (Hn1 s' Hs' Hnone).
    destruct (run_step1 nc a l pw0) as [r1 pw1] eqn:Hs1. cbn [fst snd] in Hn1, Hr1.
    subst r1. rewrite (pbind_run_raise _ _ _ _ _ Hs1). cbn [fst snd].
    split; [reflexivity|now rewrite Hr1]. }
  destruct Hmiss as [Hw|[H2 Hj]]; [now apply (Hraise1 s)|].
  destruct (forallb (fun s' => match fs (engine pw) (wind_output (wind_output_dir a) s')
                               with Some _ => true | None => false end) SCENARIOS)
    eqn:Hall.
  - assert (Hw : forall s', In s' SCENARIOS ->
                   fs (engine pw) (wind_output (wind_output_dir a) s') <> None).
    { intros s' Hs'. rewrite forallb_forall in Hall. specialize (Hall s' Hs').
      destruct (fs (engine pw) (wind_output (wind_output_dir a) s'));
        [discriminate|discriminate Hall]. }
    specialize (Hv1 Hw).
    destruct (run_step1 nc a l pw0) as [r1 pw1] eqn:Hs1. cbn [fst snd] in Hv1, Hr1.
    subst r1. rewrite (pbind_run_ok _ _ _ _ _ Hs1).
    pose proof (skipped_step2_value a l
                  (found_files (wind_output (wind_output_dir a)) SCENARIOS []) pw1 H2)
      as [_ Hn2].
    pose proof (reads_skipped_step2 a l
                  (found_files (wind_output (wind_output_dir a)) SCENARIOS []) H2 pw1)
      as Hr2.
    rewrite Hr1, He0 in Hn2. specialize (Hn2 s Hs Hj).
    destruct (run_step2 a l _ pw1) as [r2 pw2] eqn:Hs2. cbn [fst snd] in Hn2, Hr2.
    subst r2. rewrite (pbind_run_raise _ _ _ _ _ Hs2). cbn [fst snd].
    split; [reflexivity|now rewrite Hr2, Hr1, He0].
  - assert (Hex : exists s', In s' SCENARIOS /\
                    fs (engine pw) (wind_output (wind_output_dir a) s') = None).
    { clear - Hall. induction SCENARIOS as [|x xs IH]; [discriminate Hall|].
      cbn [forallb] in Hall.
      destruct (fs (engine pw) (wind_output (wind_output_dir a) x)) eqn:Hx.
      - cbn [andb] in Hall. destruct (IH Hall) as (s' & Hin & Hn).
        exists s'. split; [now right|exact Hn].
      - exists x. split; [now left|exact Hx]. }
    destruct Hex as (s' & Hs' & Hn). now apply (Hraise1 s').
Qed.

End PipelineFacts.

Section Step3Facts.

Context {E : Env} {G : Geo}.
Variable nc_open_bytes : string -> Py.result nc_dataset.

Import Py Frame.

Definition checkpoint_of (a : args) : string :=
  path_join (inventory_output_dir a) BUILDING_INVENTORY_CHECKPOINT.

(** The files of a scenario list are all there, or one is not. *)
Lemma present_or_missing (w : world) (path_of : string -> string) (l : list string) :
  (forall s, In s l -> fs w (path_of s) <> None) \/
  (exists s, In s l /\ fs w (path_of s) = None).
Proof.
  induction l as [|x xs IH].
  - left. intros s [].
  - destruct (fs w (path_of x)) eqn:Hx.
    + destruct IH as [IH|(y & Hy & Hn)].
      * left. intros y [<-|Hy]; [congruence|now apply IH].
      * right. exists y. split; [now right|exact Hn].
    + right. exists x. split; [now left|exact Hx].
Qed.

(** Stages 3B and 3C write their own outputs only. *)
Lemma writes_losses_and_total (a : args) (inv : frame) (joined : list (string * string)) :
  writes (fun p => p <> checkpoint_of a)
         (pbind (run_engine (calculate_building_losses inv joined (hazus_dir a)
                               (results_output_dir a) (force_rerun a)))
                (fun loss_csv_paths =>
                   pbind (run_engine (aggregate_county_losses loss_csv_paths
                                        (results_output_dir a) (force_rerun a)))
                         (fun total => pret (inv, loss_csv_paths, total)))).
Proof.
  apply writes_pbind.
  - apply writes_run_engine.
    eapply touches_weaken; [|apply touches_calculate_building_losses].
    intros p (item & _ & ->). apply output_not_checkpoint.
  - intro paths. apply writes_pbind; [|intro; apply writes_pret].
    apply writes_run_engine.
    eapply touches_weaken; [|apply touches_aggregate].
    intros p <-. apply total_not_checkpoint.
Qed.

Lemma writes_unchanged (Q : string -> Prop) {A : Type} (m : P A) (pw : pworld)
      (p : string) :
  writes Q m -> ~ Q p -> fs (engine (snd (m pw))) p = fs (engine pw) p.
Proof.
  intros H Hn. destruct (H pw p) as [H1|[H1 _]]; [exact H1|contradiction].
Qed.

(** Step 3 with an inventory given on the command line. *)
Lemma run_step3_given (a : args) (joined : list (string * string)) (pw : pworld)
      (path : string) :
  building_inventory a = Some path -> path <> EmptyString ->
  fs (engine (snd (run_step3 a joined pw))) (checkpoint_of a)
  = fs (engine pw) (checkpoint_of a) /\
  forall r, fst (run_step3 a joined pw) = Ok r ->
            exists bytes, fs (engine pw) path = Some bytes /\
                          read_csv_bytes bytes = Ok (fst (fst r)).
Proof.
  intros Hb Hp. unfold run_step3, load_inventory. rewrite Hb.
  destruct path as [|c p]; [congruence|].
  split.
  - apply (writes_unchanged (fun p => p <> checkpoint_of a)); [|intro H; now apply H].
    apply writes_pbind.
    + apply writes_pbind; [apply writes_plogger|intro].
      apply writes_run_engine. apply touches_read_csv.
    + intro inv. apply writes_losses_and_total.
  - intros r Hr. unfold pbind at 1 2 in Hr. unfold plogger at 1 in Hr.
    unfold run_engine at 1 in Hr. unfold pd_read_csv in Hr. cbn [engine records] in Hr.
    destruct (fs (engine pw) (String c p)) as [bytes|] eqn:Hf; [|discriminate Hr].
    exists bytes. split; [reflexivity|].
    destruct (read_csv_bytes bytes) as [inv|e] eqn:Hread; [|discriminate Hr].
    match type of Hr with
    | fst (pbind ?m ?k ?w) = _ =>
        unfold pbind at 1 in Hr; destruct (m w) as [[paths|e] pw1]; [|discriminate Hr]
    end.
    match type of Hr with
    | fst (pbind ?m ?k ?w) = _ =>
        unfold pbind at 1 in Hr; destruct (m w) as [[total|e] pw2]; [|discriminate Hr]
    end.
    cbn in Hr. injection Hr as <-. reflexivity.
Qed.

(** Step 3 without an inventory on the command line, when the checkpoint is
    not there or is overridden: the characterization runs, and raises. *)
Lemma run_step3_fresh (a : args) (joined : list (string * string)) (pw : pworld) :
  match building_inventory a with
  | Some (String _ _) => False
  | _ => True
  end ->
  force_rerun a = true \/ fs (engine pw) (checkpoint_of a) = None ->
  (exists e, fst (run_step3 a joined pw) = Raise e) /\
  forall p, fs (engine (snd (run_step3 a joined pw))) p = fs (engine pw) p.
Proof.
  intros Hb Hc. unfold run_step3.
  assert (Hload : (exists e, fst (load_inventory a joined pw) = Raise e) /\
                  forall p, fs (engine (snd (load_inventory a joined pw))) p
                            = fs (engine pw) p).
  { unfold load_inventory.
    destruct (building_inventory a) as [[|c p]|]; try contradiction.
    all: destruct joined as [|first rest];
      [split; [now exists IndexError|reflexivity]|].
    all: cbv [pbind plift run_engine pd_read_csv]; cbn [engine records];
      destruct (fs (engine pw) (snd first)) as [bytes|];
      [|split; [now exists FileNotFoundError|reflexivity]];
      destruct (read_csv_bytes bytes) as [nsi|e];
      [|split; [now exists e|reflexivity]];
      cbn [engine records];
      unfold characterize_buildings;
      rewrite load_or_build_fresh
        by (destruct Hc as [Hc|Hc]; [now right|left; exact Hc]);
      destruct (build_and_save_inventory
                  (path_join (inventory_output_dir a) BUILDING_INVENTORY_CHECKPOINT)
                  (inr nsi) (hazus_dir a) (engine pw)) as [[e He] Hfs];
      destruct (build_and_save _ _ (engine pw)) as [r w1]; cbn [fst snd engine] in *;
      subst r; split; [now exists e|exact Hfs]. }
  destruct Hload as [[e He] Hfs].
  destruct (load_inventory a joined pw) as [r pw1] eqn:Hrun. cbn [fst snd] in *.
  subst r. rewrite (pbind_run_raise _ _ _ _ _ Hrun). cbn [fst snd].
  split; [now exists e|exact Hfs].
Qed.

(** A run whose step 3 raises in every world raises. *)
Lemma run_pipeline_raises (a : args) (pw : pworld) (l : list Z) :
  steps_of a = Ok l -> selected 3 l = true ->
  (forall joined pw2, exists e, fst (run_step3 a joined pw2) = Raise e) ->
  exists e, fst (run_pipeline nc_open_bytes a pw) = Raise e.
Proof.
  intros Hl H3 Hraise.
  destruct (choose_steps_run a pw) as (pw0 & Hc & _). rewrite Hl in Hc.
  unfold run_pipeline. rewrite (pbind_run_ok _ _ _ _ _ Hc).
  unfold pbind at 1.
  destruct (run_step1 nc_open_bytes a l pw0) as [[wind|e] pw1]; [|now exists e].
  unfold pbind at 1.
  destruct (run_step2 a l wind pw1) as [[joined|e] pw2];
    [|now exists e].
  rewrite H3. unfold pbind at 1.
  destruct (Hraise joined pw2) as [e He].
  destruct (run_step3 a joined pw2) as [r pw3]. cbn [fst] in He. subst r.
  now exists e.
Qed.

End Step3Facts.

Section ProcessorFacts.

Context {E : Env}.
Variable nc_open_bytes : string -> Py.result nc_dataset.

Import Py Frame.

(** The run of the processor, after its check of the input files. *)
Lemma process_ncar_netcdf_run (ncar_dir output_dir : string) (force_rerun : bool)
      (pw : pworld) :
  exists pw1,
    engine pw1 = engine pw /\
    process_ncar_netcdf nc_open_bytes ncar_dir output_dir force_rerun pw
    = if nonempty (missing_in (engine pw) ncar_dir NETCDF_FILES)
      then (Raise FileNotFoundError,
            mkPworld (engine pw1)
                     (records pw1
                      ++ [NcMissingFiles (missing_in (engine pw) ncar_dir NETCDF_FILES)]))
      else (pbind (pfoldM (process_file nc_open_bytes ncar_dir output_dir force_rerun)
                          NETCDF_FILES [])
                  (fun output_files =>
                     pbind (plogger (NcComplete (List.length output_files)))
                           (fun _ => pret output_files))) pw1.
Proof.
  unfold process_ncar_netcdf. unfold pbind at 1, plogger at 1.
  set (pw0 := mkPworld (engine pw) (records pw ++ [NcChecking ncar_dir])).
  pose proof (check_netcdf_value ncar_dir NETCDF_FILES [] pw0) as Hv.
  pose proof (reads_check_netcdf ncar_dir NETCDF_FILES [] pw0) as Hr.
  destruct (pfoldM (check_netcdf ncar_dir) NETCDF_FILES [] pw0) as [r pw1] eqn:Hrun.
  cbn [fst snd app] in Hv, Hr. subst r. exists pw1.
  split; [exact Hr|].
  rewrite (pbind_run_ok _ _ _ _ _ Hrun).
  change (engine pw0) with (engine pw).
  destruct (nonempty (missing_in (engine pw) ncar_dir NETCDF_FILES)); reflexivity.
Qed.

Lemma missing_in_nil (w : world) (ncar_dir : string) (files : list string) :
  missing_in w ncar_dir files = [] <->
  forall f, In f files -> fs w (path_join ncar_dir f) <> None.
Proof.
  unfold missing_in. induction files as [|x xs IH]; cbn [filter].
  - split; [intros _ f []|reflexivity].
  - destruct (fs w (path_join ncar_dir x)) eqn:Hx.
    + rewrite IH. split.
      * intros H f [<-|Hf]; [congruence|now apply H].
      * intros H f Hf. apply H. now right.
    + split; [discriminate|]. intro H. exfalso. apply (H x); [now left|exact Hx].
Qed.

Lemma nonempty_false {A : Type} (l : list A) : nonempty l = false <-> l = [].
Proof. destruct l; split; intro H; try reflexivity; discriminate H. Qed.

Lemma splitext_netcdf (v : string -> string) :
  fold_left (fun d f => dict_set (PyStr.splitext_root f) (v (PyStr.splitext_root f)) d)
            NETCDF_FILES []
  = map (fun s => (s, v s)) SCENARIOS.
Proof. vm_compute. reflexivity. Qed.

Lemma netcdf_scenarios : map PyStr.splitext_root NETCDF_FILES = SCENARIOS.
Proof. vm_compute. reflexivity. Qed.

Lemma wind_output_of_scenario (output_dir s : string) :
  In s SCENARIOS ->
  exists f, In f NETCDF_FILES /\ s = PyStr.splitext_root f.
Proof.
  rewrite <- netcdf_scenarios. rewrite in_map_iff.
  intros (f & <- & Hf). now exists f.
Qed.

End ProcessorFacts.

Section GridFacts.

Context {E : Env}.
Variable nc_open_bytes : string -> Py.result nc_dataset.

Import Py Frame.

Lemma zip4_length (a b c d : list (option Q)) :
  List.length a = List.length b -> List.length b = List.length c ->
  List.length c = List.length d ->
  List.length (zip4 a b c d) = List.length a.
Proof.
  revert b c d. induction a as [|x a IH]; intros [|y b] [|z c] [|t d] H1 H2 H3;
    cbn in *; try reflexivity; try discriminate.
  f_equal. apply IH; congruence.
Qed.

Lemma zip4_nth_error (a b c d : list (option Q)) (i : nat) (x y z t : option Q) :
  nth_error a i = Some x -> nth_error b i = Some y ->
  nth_error c i = Some z -> nth_error d i = Some t ->
  nth_error (zip4 a b c d) i = Some [cell_of x; cell_of y; cell_of z; cell_of t].
Proof.
  revert b c d i. induction a as [|x' a IH]; intros [|y' b] [|z' c] [|t' d] [|i];
    cbn; try discriminate.
  - now intros [= ->] [= ->] [= ->] [= ->].
  - apply IH.
Qed.

(** Two paths that end differently are different. *)
Lemma suffix_differs (a1 b1 a2 b2 : string) (n : nat) :
  (n <= String.length b1)%nat -> (n <= String.length b2)%nat ->
  rev_tail n b1 <> rev_tail n b2 ->
  path_join a1 b1 <> path_join a2 b2.
Proof.
  intros H1 H2 Hne H.
  destruct (path_join_suffix a1 b1) as [p1 Hp1].
  destruct (path_join_suffix a2 b2) as [p2 Hp2].
  rewrite Hp1, Hp2 in H. apply (f_equal (rev_tail n)) in H.
  rewrite !rev_tail_app in H by assumption. contradiction.
Qed.

(** The outputs of two NetCDF files are two paths, and none is a NetCDF
    file of the input directory. *)
Lemma wind_outputs_differ (output_dir x f : string) :
  In x NETCDF_FILES -> In f NETCDF_FILES -> x <> f ->
  wind_output output_dir (PyStr.splitext_root x)
  <> wind_output output_dir (PyStr.splitext_root f).
Proof.
  intros Hx Hf Hne. unfold wind_output.
  cbn [NETCDF_FILES In] in Hx, Hf.
  destruct Hx as [<-|[<-|[<-|[]]]]; destruct Hf as [<-|[<-|[<-|[]]]];
    try congruence;
    (apply (suffix_differs _ _ _ _ 12);
     [vm_compute; lia|vm_compute; lia|intro H; vm_compute in H; discriminate H]).
Qed.

Lemma wind_output_not_input (output_dir ncar_dir x f : string) :
  In x NETCDF_FILES -> In f NETCDF_FILES ->
  wind_output output_dir (PyStr.splitext_root x) <> path_join ncar_dir f.
Proof.
  intros Hx Hf. unfold wind_output.
  cbn [NETCDF_FILES In] in Hx, Hf.
  destruct Hx as [<-|[<-|[<-|[]]]]; destruct Hf as [<-|[<-|[<-|[]]]];
    (apply (suffix_differs _ _ _ _ 1);
     [vm_compute; lia|vm_compute; lia|intro H; vm_compute in H; discriminate H]).
Qed.

(** One pass of the loop on a file that lacks a variable. *)
Lemma process_file_missing_variable (ncar_dir output_dir : string) (force_rerun : bool)
      (d : list (string * string)) (f : string) (pw : pworld) (bytes : string)
      (nc : nc_dataset) :
  fs (engine pw) (path_join ncar_dir f) = Some bytes ->
  nc_open_bytes bytes = Ok nc ->
  (exists v, In v (map snd NETCDF_VARIABLES) /\ nc_lookup v nc = None) ->
  force_rerun = true \/
  fs (engine pw) (wind_output output_dir (PyStr.splitext_root f)) = None ->
  fst (process_file nc_open_bytes ncar_dir output_dir force_rerun d f pw)
  = Raise KeyError /\
  engine (snd (process_file nc_open_bytes ncar_dir output_dir force_rerun d f pw))
  = engine pw.
Proof.
  intros Hfs Hnc (v & Hv & Hnone) Hforce.
  assert (Hcond : (match fs (engine pw)
                           (wind_output output_dir (PyStr.splitext_root f)) with
                   | Some _ => true
                   | None => false
                   end && negb force_rerun) = false).
  { destruct Hforce as [-> | ->]; [apply andb_false_r|reflexivity]. }
  assert (Hmiss : nonempty (filter (fun var_key => match nc_lookup var_key nc with
                                                   | Some _ => false
                                                   | None => true
                                                   end) (map snd NETCDF_VARIABLES))
                  = true).
  { assert (Hin : In v (filter (fun var_key => match nc_lookup var_key nc with
                                                | Some _ => false
                                                | None => true
                                                end) (map snd NETCDF_VARIABLES))).
    { apply filter_In. split; [exact Hv|now rewrite Hnone]. }
    destruct (filter _ _); [destruct Hin|reflexivity]. }
  unfold process_file.
  cbv [pbind exists_path run_engine path_exists plogger pcatch process_file_body
       nc_open praise pret].
  cbn [engine records fst snd]. rewrite Hcond. cbn [engine records fst snd].
  rewrite Hfs, Hnc. rewrite Hmiss.
  cbn [engine records fst snd]. split; reflexivity.
Qed.

(** The loop over the files, when one of them lacks a variable. *)
Lemma process_files_missing_variable (ncar_dir output_dir : string)
      (force_rerun : bool) (files : list string) :
  forall (d : list (string * string)) (pw : pworld) (f bytes : string)
         (nc : nc_dataset),
    NoDup files -> (forall x, In x files -> In x NETCDF_FILES) ->
    In f files ->
    fs (engine pw) (path_join ncar_dir f) = Some bytes ->
    nc_open_bytes bytes = Ok nc ->
    (exists v, In v (map snd NETCDF_VARIABLES) /\ nc_lookup v nc = None) ->
    force_rerun = true \/
    fs (engine pw) (wind_output output_dir (PyStr.splitext_root f)) = None ->
    (exists e,
        fst (pfoldM (process_file nc_open_bytes ncar_dir output_dir force_rerun)
                    files d pw) = Raise e) /\
    fs (engine (snd (pfoldM (process_file nc_open_bytes ncar_dir output_dir force_rerun)
                            files d pw)))
       (wind_output output_dir (PyStr.splitext_root f))
    = fs (engine pw) (wind_output output_dir (PyStr.splitext_root f)).
Proof.
  induction files as [|x xs IH]; intros d pw f bytes nc Hnd Hsub Hf Hfs Hnc Hv Hforce.
  - destruct Hf.
  - cbn [pfoldM].
    destruct (string_dec x f) as [->|Hne].
    + destruct (process_file_missing_variable ncar_dir output_dir force_rerun d f pw
                  bytes nc Hfs Hnc Hv Hforce) as [Hr He].
      destruct (process_file nc_open_bytes ncar_dir output_dir force_rerun d f pw)
        as [r pw1] eqn:Hrun.
      cbn [fst snd] in Hr, He. subst r.
      rewrite (pbind_run_raise _ _ _ _ _ Hrun). cbn [fst snd].
      split; [now exists KeyError|now rewrite He].
    + destruct Hf as [Hf|Hf]; [contradiction|].
      assert (Hx : In x NETCDF_FILES) by (apply Hsub; now left).
      assert (Hf' : In f NETCDF_FILES) by (apply Hsub; now right).
      pose proof (writes_process_file nc_open_bytes ncar_dir output_dir force_rerun
                    d x) as Hw.
      assert (Hout : fs (engine (snd (process_file nc_open_bytes ncar_dir output_dir
                                                   force_rerun d x pw)))
                        (wind_output output_dir (PyStr.splitext_root f))
                     = fs (engine pw) (wind_output output_dir (PyStr.splitext_root f))).
      { apply (writes_unchanged _ _ _ _ Hw). intro H. symmetry in H. revert H.
        apply not_eq_sym. now apply wind_outputs_differ. }
      assert (Hin : fs (engine (snd (process_file nc_open_bytes ncar_dir output_dir
                                                  force_rerun d x pw)))
                       (path_join ncar_dir f)
                    = fs (engine pw) (path_join ncar_dir f)).
      { apply (writes_unchanged _ _ _ _ Hw). now apply wind_output_not_input. }
      destruct (process_file nc_open_bytes ncar_dir output_dir force_rerun d x pw)
        as [[d1|e] pw1] eqn:Hrun; cbn [fst snd] in Hout, Hin.
      * rewrite (pbind_run_ok _ _ _ _ _ Hrun).
        destruct (IH d1 pw1 f bytes nc) as [Hraise Hkeep].
        -- now inversion Hnd.
        -- intros y Hy. apply Hsub. now right.
        -- exact Hf.
        -- now rewrite Hin.
        -- exact Hnc.
        -- exact Hv.
        -- destruct Hforce as [Hforce|Hforce]; [now left|right; now rewrite Hout].
        -- split; [exact Hraise|now rewrite Hkeep].
      * rewrite (pbind_run_raise _ _ _ _ _ Hrun). cbn [fst snd].
        split; [now exists e|exact Hout].
Qed.

(** What the body of the [try] wrote when it returns. *)
Lemma process_file_body_table (ncar_dir netcdf_file scenario output_csv : string)
      (pw : pworld) :
  fst (process_file_body nc_open_bytes ncar_dir netcdf_file scenario output_csv pw)
  = Ok tt ->
  exists bytes nc swath_wind lon_2d lat_2d df,
    fs (engine pw) (path_join ncar_dir netcdf_file) = Some bytes /\
    nc_open_bytes bytes = Ok nc /\
    nc_lookup "swath_wind" nc = Some swath_wind /\
    nc_lookup "lon_2d" nc = Some lon_2d /\
    nc_lookup "lat_2d" nc = Some lat_2d /\
    wind_table swath_wind lon_2d lat_2d = Ok df /\
    fs (engine (snd (process_file_body nc_open_bytes ncar_dir netcdf_file scenario
                                       output_csv pw))) output_csv
    = Some (to_csv_bytes df).
Proof.
  unfold process_file_body.
  cbv [pbind nc_open plift plogger praise run_engine to_csv write_file nc_get].
  cbn [engine records fst snd].
  destruct (fs (engine pw) (path_join ncar_dir netcdf_file)) as [bytes|] eqn:Hfs;
    [|discriminate].
  destruct (nc_open_bytes bytes) as [nc|e] eqn:Hnc; [|discriminate].
  destruct (nonempty _); [discriminate|].
  destruct (nc_lookup "swath_wind" nc) as [sw|] eqn:Hsw; [|discriminate].
  destruct (nc_lookup "lon_2d" nc) as [lon|] eqn:Hlon; [|discriminate].
  destruct (nc_lookup "lat_2d" nc) as [lat|] eqn:Hlat; [|discriminate].
  cbn [engine records fst snd].
  destruct (wind_table sw lon lat) as [df|e] eqn:Hdf; [|discriminate].
  cbn [engine records fst snd fs]. intros _.
  exists bytes, nc, sw, lon, lat, df. rewrite String.eqb_refl. now repeat split.
Qed.

Lemma wind_table_rows (swath_wind lon_2d lat_2d : nc_variable) (df : frame) :
  wind_table swath_wind lon_2d lat_2d = Ok df ->
  columns df = WIND_COLUMNS /\
  List.length (data lon_2d) = List.length (data swath_wind) /\
  List.length (data lat_2d) = List.length (data swath_wind) /\
  List.length (rows df) = List.length (data swath_wind) /\
  forall i x y w,
    nth_error (data lon_2d) i = Some x ->
    nth_error (data lat_2d) i = Some y ->
    nth_error (data swath_wind) i = Some w ->
    nth_error (rows df) i
    = Some [match x with
            | Some q => Float (q + inject_Z LONGITUDE_ADJUSTMENT)
            | None => NaN
            end;
            match y with Some q => Float q | None => NaN end;
            match w with Some q => Float q | None => NaN end;
            match w with
            | Some q => Float (q * GUST_FACTOR_NCAR * MS_TO_MPH)
            | None => NaN
            end].
Proof.
  unfold wind_table. rewrite !length_map.
  destruct (Nat.eqb (List.length (data lon_2d)) (List.length (data lat_2d))) eqn:H1;
    [|discriminate].
  destruct (Nat.eqb (List.length (data lat_2d)) (List.length (data swath_wind))) eqn:H2;
    [|discriminate].
  apply Nat.eqb_eq in H1, H2. cbn [andb]. intros [= <-]. cbn [columns rows].
  split; [reflexivity|]. split; [congruence|]. split; [exact H2|]. split.
  - rewrite zip4_length; rewrite ?length_map; congruence.
  - intros i x y w Hx Hy Hw.
    rewrite (zip4_nth_error _ _ _ _ i (plus (inject_Z LONGITUDE_ADJUSTMENT) x) y w
               (times MS_TO_MPH (times GUST_FACTOR_NCAR w))).
    + destruct x, y, w; reflexivity.
    + now rewrite nth_error_map, Hx.
    + exact Hy.
    + exact Hw.
    + now rewrite !nth_error_map, Hw.
Qed.

End GridFacts.

Section OutputFacts.

Context {E : Env} {G : Geo}.
Variable nc_open_bytes : string -> Py.result nc_dataset.

Import Py Frame.

(** A dictionary filled key by key, for keys that are all different. *)
Lemma dict_set_fresh (k v : string) (d : list (string * string)) :
  ~ In k (map fst d) -> dict_set k v d = d ++ [(k, v)].
Proof.
  induction d as [|[k' v'] d IH]; intro Hk; cbn; [reflexivity|].
  destruct (String.eqb k' k) eqn:Hkk.
  - apply String.eqb_eq in Hkk. exfalso. apply Hk. now left.
  - rewrite IH; [reflexivity|]. intro H. apply Hk. now right.
Qed.

Lemma fold_dict_set_fresh (v : string -> string) (l : list (string * string)) :
  forall d,
    NoDup (map fst d ++ map fst l) ->
    fold_left (fun d (item : string * string) => dict_set (fst item) (v (fst item)) d)
              l d
    = d ++ map (fun item => (fst item, v (fst item))) l.
Proof.
  induction l as [|item l IH]; intros d Hnd; cbn [fold_left map].
  - now rewrite app_nil_r.
  - rewrite dict_set_fresh.
    + rewrite IH.
      * now rewrite <- app_assoc.
      * rewrite map_app. cbn [map fst]. now rewrite <- app_assoc.
    + cbn [map] in Hnd. apply NoDup_remove_2 in Hnd.
      intro H. apply Hnd. apply in_or_app. now left.
Qed.

(** Stage 3A changes no file: the classification pass never reaches the
    save. *)
Lemma touches_characterize_buildings (P : string -> Prop) (nsi_data : string + frame)
      (hazus_dir output_dir : string) (force_rerun : bool) :
  touches P (characterize_buildings nsi_data hazus_dir output_dir force_rerun).
Proof.
  unfold characterize_buildings, load_or_build.
  apply touches_bind; [apply touches_path_exists|intro ex].
  apply touches_bind.
  - apply touches_if; [|apply touches_ret].
    apply touches_bind; [apply touches_logger|intro].
    apply touches_catch.
    + apply touches_bind; [apply touches_read_csv|intro].
      apply touches_bind; [apply touches_logger|intro].
      apply touches_bind; [apply touches_logger|intro]. apply touches_ret.
    + intro e. apply touches_bind; [apply touches_logger|intro]. apply touches_ret.
  - intros [df|]; [apply touches_ret|].
    intros w p. left. apply build_and_save_inventory.
Qed.

(** The paths a run of the pipeline may write. *)
Definition is_pipeline_output (a : args) (p : string) : Prop :=
  (exists s, In s SCENARIOS /\ p = wind_output (wind_output_dir a) s) \/
  (exists s, p = joined_output (joined_output_dir a) s) \/
  (exists s, p = scenario_output (results_output_dir a) s) \/
  p = path_join (results_output_dir a) TOTAL_LOSS_OUTPUT.

Lemma writes_run_step1 (a : args) (l : list Z) :
  writes (is_pipeline_output a) (run_step1 nc_open_bytes a l).
Proof.
  unfold run_step1. apply writes_if.
  - eapply writes_weaken; [|apply writes_process_ncar_netcdf].
    intros p (f & Hf & ->). left. exists (PyStr.splitext_root f).
    split; [|reflexivity]. rewrite <- netcdf_scenarios. now apply in_map.
  - apply writes_pbind; [apply writes_plogger|intro].
    apply writes_pfoldM. intros d s. unfold find_existing. writes_tac.
Qed.

Lemma writes_run_step2 (a : args) (l : list Z) (wind : list (string * string)) :
  writes (is_pipeline_output a) (run_step2 a l wind).
Proof.
  unfold run_step2. apply writes_if.
  - eapply writes_weaken; [|apply writes_join_buildings_wind].
    intros p (item & _ & ->). right. left. now exists (fst item).
  - apply writes_pbind; [apply writes_plogger|intro].
    apply writes_pfoldM. intros d s. unfold find_existing. writes_tac.
Qed.

Lemma writes_run_step3 (a : args) (joined : list (string * string)) :
  writes (is_pipeline_output a) (run_step3 a joined).
Proof.
  unfold run_step3.
  apply writes_pbind.
  - unfold load_inventory.
    destruct (building_inventory a) as [[|c p]|].
    2: { apply writes_pbind; [apply writes_plogger|intro].
         apply writes_run_engine, touches_read_csv. }
    all: apply writes_pbind; [apply writes_plift|intro first];
      (apply writes_pbind; [apply writes_run_engine, touches_read_csv|intro nsi]);
      apply writes_run_engine, touches_characterize_buildings.
  - intro inv. apply writes_pbind.
    + apply writes_run_engine.
      eapply touches_weaken; [|apply touches_calculate_building_losses].
      intros p (item & _ & ->). right. right. left. now exists (fst item).
    + intro paths. apply writes_pbind; [|intro; apply writes_pret].
      apply writes_run_engine.
      eapply touches_weaken; [|apply touches_aggregate].
      intros p <-. right. right. now right.
Qed.

Lemma writes_run_pipeline (a : args) :
  writes (is_pipeline_output a) (run_pipeline nc_open_bytes a).
Proof.
  unfold run_pipeline.
  apply writes_pbind.
  { intros pw p. left. now rewrite reads_choose_steps. }
  intro l. apply writes_pbind; [apply writes_run_step1|intro wind].
  apply writes_pbind; [apply writes_run_step2|intro joined].
  apply writes_if; [|apply writes_pret].
  apply writes_pbind; [apply writes_run_step3|intros [[inv paths] total]].
  apply writes_pret.
Qed.

End OutputFacts.

(** * Fixtures of the further properties *)

Module FixtureSummary.

Import Py Frame.

(** An environment whose reader also knows the loss table of the fixture,
    and a disk that holds it for one scenario. *)
Definition read_csv_losses (bytes : string) : result frame :=
  if String.eqb bytes "losses" then Ok Fixture.loss_table
  else Fixture.read_csv_fixture bytes.

#[local] Instance env : Env := {|
  rng_state := Z;
  np_random_seed := fun seed => seed;
  random_sample := fun s => (((5 * s + 3) mod 16)%Z # 16, ((5 * s + 3) mod 16)%Z);
  float_repr := Fixture.float_repr_fixture;
  read_csv_bytes := read_csv_losses;
  to_csv_bytes := fun _ => "csv"%string;
  read_excel_bytes := Fixture.read_excel_fixture;
  re_search := Fixture.re_search_fixture;
  float_sum := Float64.sum
|}.

Definition disk (p : string) : option string :=
  if String.eqb p "res/ida_2021/Losses.csv" then Some "losses"%string else None.

Definition world0 : world := mkWorld disk [] 0%Z.

Definition paths : list (string * string) :=
  [("ida_2021", "res/ida_2021/Losses.csv")]%string.

Definition run : result string * world :=
  aggregate_county_losses paths "res" false world0.

End FixtureSummary.

Module FixturePipeline.

Import Py Frame.

(** A disk with the wind and joined files of the three scenarios and the
    Hazus files, but no NetCDF file and no checkpoint. *)
Definition disk (p : string) : option string :=
  if String.eqb p "out/processed_wind/ida_1971.csv" then Some "csv"%string
  else if String.eqb p "out/processed_wind/ida_2021.csv" then Some "csv"%string
  else if String.eqb p "out/processed_wind/ida_2071.csv" then Some "csv"%string
  else if String.eqb p "out/joined_data/ida_1971/ida_1971.csv" then Some "joined"%string
  else if String.eqb p "out/joined_data/ida_2021/ida_2021.csv" then Some "joined"%string
  else if String.eqb p "out/joined_data/ida_2071/ida_2071.csv" then Some "joined"%string
  else if String.eqb p "hazus" then Some EmptyString
  else if String.eqb p "hazus/huDamLossFunc.csv" then Some "damage"%string
  else if String.eqb p "hazus/Mapping.xlsx" then Some "mapping"%string
  else if String.eqb p "nsi.gpkg" then Some "gpkg"%string
  else if String.eqb p "given/nsi_wbId_sr.csv" then Some "inventory"%string
  else None.

Definition world0 : pworld (E := Fixture.env) :=
  mkPworld (mkWorld (E := Fixture.env) disk [] 0%Z) [].

(** The same disk without the joined file of the 1971 scenario. *)
Definition world1 : pworld (E := Fixture.env) :=
  mkPworld (mkWorld (E := Fixture.env)
              (fun p => if String.eqb p "out/joined_data/ida_1971/ida_1971.csv"
                        then None else disk p) [] 0%Z) [].

Definition arguments (building_inventory steps : option string) : args :=
  mkArgs "ncar" "nsi.gpkg" "hazus" "out" building_inventory steps false.

(** A reader of NetCDF contents that knows one small grid. *)
Definition grid : nc_dataset :=
  [("swath_wind", mkVariable [1; 2]%nat [Some 10; None]);
   ("lon_2d", mkVariable [1; 2]%nat [Some 270; Some (541 # 2)]);
   ("lat_2d", mkVariable [1; 2]%nat [Some 29; Some 30])]%string.

Definition nc_open_fixture (bytes : string) : result nc_dataset :=
  if String.eqb bytes "grid" then Ok grid
  else if String.eqb bytes "nowind" then Ok (tl grid)
  else Ok [].

(** A geopandas for small examples: a GeoDataFrame is a table, the
    projections change nothing, and the join keeps the buildings as they
    are. *)
#[local] Instance geo : Geo := {|
  geodataframe := frame;
  gpd_read_file_bytes := fun bytes =>
    if String.eqb bytes "gpkg" then Ok (mkFrame ["fd_id"%string] [[Int 1]; [Int 2]])
    else Raise ValueError;
  geo_len := len;
  to_crs := fun gdf => Ok gdf;
  wind_geodataframe := fun df => Ok df;
  sjoin_nearest := fun left right => Ok left;
  distance_statistics := fun _ => Ok (mkStatistics (Float 0) (Float 0) (Float 0) 0);
  count_missing_wind := fun _ => Ok 0%nat;
  geo_to_csv_bytes := fun _ => "joined"%string
|}.

End FixturePipeline.

Module FixtureNetcdf.

Import Py Frame.

(** A NCAR directory with the three files, each holding the small grid. *)
Definition disk_grid (p : string) : option string :=
  if String.eqb p "ncar/ida_1971.nc" then Some "grid"%string
  else if String.eqb p "ncar/ida_2021.nc" then Some "grid"%string
  else if String.eqb p "ncar/ida_2071.nc" then Some "grid"%string
  else None.

Definition world_grid : pworld (E := Fixture.env) :=
  mkPworld (mkWorld (E := Fixture.env) disk_grid [] 0%Z) [].

(** The same directory, where the file of 2021 has no wind variable. *)
Definition disk_nowind (p : string) : option string :=
  if String.eqb p "ncar/ida_2021.nc" then Some "nowind"%string else disk_grid p.

Definition world_nowind : pworld (E := Fixture.env) :=
  mkPworld (mkWorld (E := Fixture.env) disk_nowind [] 0%Z) [].

End FixtureNetcdf.

(** * Further properties of the engine *)

(** ** Properties of the loss calculator *)





(** X3. The rows of a scenario follow the inventory.  When the building
    loop ends, the rows it collected are, one for one and in the order of
    the inventory, the rows of the buildings it did not pass over; the
    count it kept is the number of rows; rows and buildings passed over add
    up to the inventory; and no file has been changed. *)
Theorem loss_rows_follow_inventory :
  forall (E : Env) nsi_wrf huDamLossFunc inventory w losses n w',
    loss_loop nsi_wrf huDamLossFunc inventory [] 0 w = (Py.Ok (losses, n), w') ->
    Forall2 (fun row r => process_building nsi_wrf huDamLossFunc row = Py.Ok (Some r))
            (filter (processed nsi_wrf huDamLossFunc) inventory) losses /\
    n = List.length losses /\
    (List.length losses + skipped_buildings nsi_wrf huDamLossFunc inventory
     = List.length inventory)%nat /\
    (forall p, fs w' p = fs w p).
Proof.
  intros E nsi dmg inv w losses n w' H.
  destruct (loss_loop_emitted _ _ _ _ _ _ _ H) as [He Hn].
  destruct (emitted_rows _ _ _ _ He) as [H1 H2].
  repeat split; auto.
  intro p. pose proof (loss_loop_files nsi dmg inv [] 0%nat w p) as Hf.
  now rewrite H in Hf.
Qed.

(** X3 on the fixture: building 7 gives a row, building 8 is passed over. *)
Lemma loss_rows_follow_inventory_witness :
  Forall2 (fun row r => process_building Fixture.joined_table Fixture.damage_table row
                        = Py.Ok (Some r))
          (filter (processed Fixture.joined_table Fixture.damage_table)
                  [Fixture.building_7; Fixture.building_8])
          [[Py.Int 7; Py.Int 220510001001; Py.Int 12; Py.Int 3; Py.Float 75;
            Py.Float (5000000 # 100); Py.Float (2500000 # 200)]] /\
  1%nat = List.length
            [[Py.Int 7; Py.Int 220510001001; Py.Int 12; Py.Int 3; Py.Float 75;
              Py.Float (5000000 # 100); Py.Float (2500000 # 200)]] /\
  (List.length
     [[Py.Int 7; Py.Int 220510001001; Py.Int 12; Py.Int 3; Py.Float 75;
       Py.Float (5000000 # 100); Py.Float (2500000 # 200)]]
   + skipped_buildings Fixture.joined_table Fixture.damage_table
                       [Fixture.building_7; Fixture.building_8]
   = List.length [Fixture.building_7; Fixture.building_8])%nat /\
  (forall p,
      fs (snd (loss_loop (E := Fixture.env) Fixture.joined_table Fixture.damage_table
                         [Fixture.building_7; Fixture.building_8] [] 0
                         Fixture.empty_world)) p
      = fs Fixture.empty_world p).
Proof.
  apply (loss_rows_follow_inventory Fixture.env Fixture.joined_table
           Fixture.damage_table [Fixture.building_7; Fixture.building_8]
           Fixture.empty_world).
  assert (H : fst (loss_loop (E := Fixture.env) Fixture.joined_table
                             Fixture.damage_table
                             [Fixture.building_7; Fixture.building_8] [] 0
                             Fixture.empty_world)
              = Py.Ok ([[Py.Int 7; Py.Int 220510001001; Py.Int 12; Py.Int 3;
                         Py.Float 75; Py.Float (5000000 # 100);
                         Py.Float (2500000 # 200)]], 1%nat))
    by (vm_compute; reflexivity).
  rewrite <- H. apply surjective_pairing.
Defined.

(** X4. The fields of a building are read by position among the cells that
    are present.  A row is processed as the row without its missing cells
    is; so with one cell missing, every field read at or after its position
    comes from the cell one place further in the row. *)
Theorem missing_cells_shift_the_fields :
  forall nsi_wrf huDamLossFunc,
    (forall row,
        process_building nsi_wrf huDamLossFunc row =
        process_building nsi_wrf huDamLossFunc (Frame.dropna row)) /\
    (forall before missing after i,
        Py.isna missing = true ->
        Frame.dropna before = before -> Frame.dropna after = after ->
        (List.length before <= i)%nat ->
        Py.iloc (Frame.dropna (before ++ missing :: after)) (Z.of_nat i) =
        Py.iloc (before ++ missing :: after) (Z.of_nat (S i))) /\
    (forall before missing after i,
        Py.isna missing = true ->
        Frame.dropna before = before ->
        (i < List.length before)%nat ->
        Py.iloc (Frame.dropna (before ++ missing :: after)) (Z.of_nat i) =
        Py.iloc (before ++ missing :: after) (Z.of_nat i)).
Proof.
  intros nsi dmg. repeat split.
  - intro row. unfold process_building. now rewrite dropna_idem.
  - intros before m after i Hm Hb Ha Hi.
    rewrite dropna_app. change (m :: after) with ([m] ++ after).
    rewrite dropna_app, Hb, Ha.
    replace (Frame.dropna [m]) with (@nil Py.cell)
      by (unfold Frame.dropna; cbn; now rewrite Hm).
    cbn [app]. rewrite !iloc_nth_error.
    rewrite !nth_error_app2 by lia.
    replace (S i - List.length before)%nat with (S (i - List.length before)) by lia.
    reflexivity.
  - intros before m after i Hm Hb Hi.
    rewrite dropna_app, Hb. rewrite !iloc_nth_error.
    now rewrite !nth_error_app1 by lia.
Qed.

(** X4 on the fixture: building 7 has its fifth cell missing, and the
    structure value read at position 12 is the cell at position 13. *)
Lemma missing_cells_shift_the_fields_witness :
  Py.iloc (Frame.dropna ([Py.Int 0; Py.Int 7; Py.Str "a"; Py.Int 220510001001]
                         ++ Py.NaN
                         :: [Py.Str "RES1"; Py.Str "W"; Py.Int 1; Py.Int 2; Py.Int 3;
                             Py.Int 4; Py.Int 5; Py.Float (1 # 8); Py.Int 200000;
                             Py.Int 100000; Py.Int 12; Py.Int 3])) (Z.of_nat 12) =
  Py.iloc ([Py.Int 0; Py.Int 7; Py.Str "a"; Py.Int 220510001001]
           ++ Py.NaN
           :: [Py.Str "RES1"; Py.Str "W"; Py.Int 1; Py.Int 2; Py.Int 3;
               Py.Int 4; Py.Int 5; Py.Float (1 # 8); Py.Int 200000;
               Py.Int 100000; Py.Int 12; Py.Int 3]) (Z.of_nat 13).
Proof.
  apply (proj1 (proj2 (missing_cells_shift_the_fields Fixture.joined_table
                         Fixture.damage_table))).
  - reflexivity.
  - reflexivity.
  - reflexivity.
  - cbn. lia.
Defined.

(** X5. A scenario that gives no row fails.  When the output of a scenario
    has to be computed, the joined table is read, and every building of the
    inventory is passed over (an empty inventory included), the scenario
    raises ValueError at the assignment of the column labels; the error is
    logged, and no file is written. *)
Theorem scenario_without_rows_fails :
  forall (E : Env) building_inventory huDamLossFunc output_dir force_rerun loss_files
         scenario joined_csv w bytes nsi_wrf,
    fs w (scenario_output output_dir scenario) = None \/ force_rerun = true ->
    fs w joined_csv = Some bytes ->
    read_csv_bytes bytes = Py.Ok nsi_wrf ->
    emitted nsi_wrf huDamLossFunc (Frame.rows building_inventory) = Py.Ok [] ->
    calculate_scenario building_inventory huDamLossFunc output_dir force_rerun
                       loss_files (scenario, joined_csv) w =
    (Py.Raise Py.ValueError,
     with_log w [CalculatingScenario scenario;
                 LoadedJoined (Frame.len nsi_wrf);
                 ProcessedTotal 0;
                 ErrorCalculating scenario Py.ValueError]).
Proof.
  intros E inv dmg out force d scenario joined w bytes nsi Hout Hj Hread Hem.
  unfold calculate_scenario.
  unfold bind at 1, logger at 1. unfold bind at 1, path_exists. cbn [fs].
  assert (Hc : (match fs w (scenario_output out scenario) with
                | Some _ => true
                | None => false
                end && negb force) = false).
  { destruct Hout as [-> | ->]; [reflexivity|apply andb_false_r]. }
  rewrite Hc. unfold bind at 1, catch, calculate_scenario_body.
  unfold bind at 1, pd_read_csv. cbn [fs]. rewrite Hj, Hread.
  unfold bind at 1, logger at 1. unfold bind at 1.
  rewrite (loss_loop_nothing nsi dmg (Frame.rows inv) [] 0%nat _ Hem).
  cbn [snd fst]. unfold bind at 1, logger at 1. unfold bind at 1, lift.
  cbn [losses_frame]. unfold bind at 1, logger at 1, raise.
  unfold with_log. cbn [fs log rng]. now rewrite <- !app_assoc.
Qed.

(** X5 on the fixture: an inventory that holds building 8 alone. *)
Lemma scenario_without_rows_fails_witness :
  calculate_scenario (E := Fixture.env)
    (Frame.mkFrame Fixture.inventory_columns [Fixture.building_8])
    Fixture.damage_table "res" false [] ("ida_2021", "joined/ida_2021.csv")%string
    (Fixture.disk_world 0) =
  (Py.Raise Py.ValueError,
   with_log (Fixture.disk_world 0)
            [CalculatingScenario "ida_2021";
             LoadedJoined (Frame.len Fixture.joined_table);
             ProcessedTotal 0;
             ErrorCalculating "ida_2021" Py.ValueError]).
Proof.
  apply (scenario_without_rows_fails Fixture.env
           (Frame.mkFrame Fixture.inventory_columns [Fixture.building_8])
           Fixture.damage_table "res"%string false []
           "ida_2021"%string "joined/ida_2021.csv"%string
           (Fixture.disk_world 0) "joined"%string Fixture.joined_table).
  - left. reflexivity.
  - reflexivity.
  - reflexivity.
  - vm_compute. reflexivity.
Defined.

(** X6. What a run of stage 3B yields.  Without the damage-function file
    the stage raises FileNotFoundError and leaves the world as it is,
    whatever outputs are already there.  When the stage returns, the
    dictionary is the one built from the scenario names, every scenario is
    mapped to its output path [output_dir/scenario/Losses.csv], every such
    file exists, and every path that is not such an output holds what it
    held before. *)
Theorem losses_stage_outcome :
  forall (E : Env) building_inventory joined_data_paths hazus_dir output_dir
         force_rerun w,
    (fs w (Py.path_join hazus_dir HAZUS_FILES_damage_functions) = None ->
     calculate_building_losses building_inventory joined_data_paths hazus_dir
                               output_dir force_rerun w
     = (Py.Raise Py.FileNotFoundError, w)) /\
    (forall loss_files w1,
        calculate_building_losses building_inventory joined_data_paths hazus_dir
                                  output_dir force_rerun w = (Py.Ok loss_files, w1) ->
        loss_files = expected_files output_dir joined_data_paths [] /\
        (forall item, In item joined_data_paths ->
                      In (fst item, scenario_output output_dir (fst item)) loss_files /\
                      fs w1 (scenario_output output_dir (fst item)) <> None) /\
        (forall p, ~ is_output output_dir joined_data_paths p -> fs w1 p = fs w p)).
Proof.
  intros E inv paths hz out force w. split.
  - intro Hfs. unfold calculate_building_losses, bind, path_exists. now rewrite Hfs.
  - intros d w1 H.
    assert (Hd : d = expected_files out paths [] /\
                 forall item, In item paths ->
                              fs w1 (scenario_output out (fst item)) <> None).
    { unfold calculate_building_losses in H.
      apply bind_ok_inv in H. destruct H as (ex & w2 & H2 & H).
      destruct (negb ex); [discriminate|].
      apply bind_ok_inv in H. destruct H as ([] & w3 & H3 & H).
      apply bind_ok_inv in H. destruct H as (dmg & w4 & H4 & H).
      exact (calculate_fold_ok _ _ _ _ _ _ _ _ _ H). }
    destruct Hd as [-> Hex]. split; [reflexivity|]. split.
    + intros item Hin. split; [|now apply Hex].
      now apply (proj1 (expected_files_In out paths [])).
    + intros p Hp.
      destruct (touches_calculate_building_losses inv paths hz out force w p)
        as [Hk|[Ho _]]; [|contradiction].
      now rewrite H in Hk.
Qed.

(** X6 on the fixture: one scenario, computed from the disk. *)
Lemma losses_stage_outcome_witness :
  fst Fixture.first_losses_run
  = Py.Ok (expected_files "res" Fixture.scenarios []) /\
  (forall item, In item Fixture.scenarios ->
                In (fst item, scenario_output "res" (fst item))
                   (expected_files "res" Fixture.scenarios []) /\
                fs (snd Fixture.first_losses_run) (scenario_output "res" (fst item))
                <> None) /\
  (forall p, ~ is_output "res" Fixture.scenarios p ->
             fs (snd Fixture.first_losses_run) p = fs (Fixture.disk_world 0) p).
Proof.
  assert (H : fst Fixture.first_losses_run
              = Py.Ok (expected_files "res" Fixture.scenarios []))
    by (vm_compute; reflexivity).
  split; [exact H|].
  assert (Hrun : calculate_building_losses (E := Fixture.env) Fixture.inventory
                   Fixture.scenarios "hazus" "res" false (Fixture.disk_world 0)
                 = (Py.Ok (expected_files "res" Fixture.scenarios []),
                    snd Fixture.first_losses_run)).
  { rewrite <- H. apply surjective_pairing. }
  destruct (proj2 (losses_stage_outcome Fixture.env Fixture.inventory
                     Fixture.scenarios "hazus"%string "res"%string false
                     (Fixture.disk_world 0)) _ _ Hrun) as (_ & H2 & H3).
  split; assumption.
Defined.

(** ** Properties of the aggregation *)

(** X7. A failed aggregation writes nothing.  Whenever stage 3C raises, no
    file has been changed: the summary is written in one piece or not at
    all.  With no scenario to aggregate the stage raises ValueError at the
    assignment of the column labels; with the loss file of the first
    scenario missing it raises FileNotFoundError after logging the error. *)
Theorem aggregation_failures_write_nothing :
  forall (E : Env) loss_data_paths output_dir force_rerun w,
    (forall e,
        fst (aggregate_county_losses loss_data_paths output_dir force_rerun w)
        = Py.Raise e ->
        forall p,
          fs (snd (aggregate_county_losses loss_data_paths output_dir force_rerun w)) p
          = fs w p) /\
    (fs w (Py.path_join output_dir TOTAL_LOSS_OUTPUT) = None \/ force_rerun = true ->
     aggregate_county_losses [] output_dir force_rerun w = (Py.Raise Py.ValueError, w)) /\
    (forall scenario losses_csv rest,
        fs w (Py.path_join output_dir TOTAL_LOSS_OUTPUT) = None \/ force_rerun = true ->
        fs w losses_csv = None ->
        aggregate_county_losses ((scenario, losses_csv) :: rest) output_dir force_rerun w
        = (Py.Raise Py.FileNotFoundError,
           with_log w [AggregatingScenario scenario; ErrorLossFileNotFound losses_csv])).
Proof.
  intros E paths out force w.
  assert (Hcond : fs w (Py.path_join out TOTAL_LOSS_OUTPUT) = None \/ force = true ->
                  (match fs w (Py.path_join out TOTAL_LOSS_OUTPUT) with
                   | Some _ => true
                   | None => false
                   end && negb force) = false).
  { intros [-> | ->]; [reflexivity|apply andb_false_r]. }
  repeat split.
  - intros e He p.
    destruct (aggregate_county_losses paths out force w) as [r w1] eqn:Hrun.
    cbn [fst] in He. subst r. cbn [snd].
    exact (aggregate_raise_files _ _ _ _ _ _ Hrun p).
  - intro Hc. unfold aggregate_county_losses. unfold bind at 1, path_exists.
    now rewrite (Hcond Hc).
  - intros scenario csv rest Hc Hcsv.
    unfold aggregate_county_losses. unfold bind at 1, path_exists.
    rewrite (Hcond Hc). unfold bind at 1. cbn [foldM]. unfold bind at 1.
    unfold aggregate_scenario. unfold bind at 1, logger at 1.
    unfold bind at 1, path_exists. cbn [fs]. rewrite Hcsv. cbn [negb].
    unfold bind, logger, raise, with_log. cbn. now rewrite <- app_assoc.
Qed.

(** X7 on the fixture: a scenario whose loss file is not on the disk. *)
Lemma aggregation_failures_write_nothing_witness :
  aggregate_county_losses (E := Fixture.env)
    [("ida_2021", "res/ida_2021/Losses.csv")]%string "res" false (Fixture.disk_world 0)
  = (Py.Raise Py.FileNotFoundError,
     with_log (Fixture.disk_world 0)
              [AggregatingScenario "ida_2021";
               ErrorLossFileNotFound "res/ida_2021/Losses.csv"]).
Proof.
  apply (proj2 (proj2 (aggregation_failures_write_nothing Fixture.env []
                         "res"%string false (Fixture.disk_world 0)))).
  - left. reflexivity.
  - reflexivity.
Defined.

(** X8. The summary that stage 3C writes.  When the summary has to be
    computed and the stage returns, it returns the path
    [output_dir/TotalLoss.csv]; the file holds the table with the columns
    Year, Building, Contents and Total and one row per scenario, in the
    order of the dictionary: the scenario name, two whole amounts and their
    sum; there was at least one scenario; and no other file has changed. *)
Theorem summary_table_written :
  forall (E : Env) loss_data_paths output_dir force_rerun w p w1,
    fs w (Py.path_join output_dir TOTAL_LOSS_OUTPUT) = None \/ force_rerun = true ->
    aggregate_county_losses loss_data_paths output_dir force_rerun w = (Py.Ok p, w1) ->
    p = Py.path_join output_dir TOTAL_LOSS_OUTPUT /\
    loss_data_paths <> [] /\
    (exists total_losses,
        Forall2 summary_row loss_data_paths total_losses /\
        fs w1 p = Some (to_csv_bytes (Frame.mkFrame summary_columns total_losses))) /\
    (forall q, q <> p -> fs w1 q = fs w q).
Proof.
  intros E paths out force w p w1 Hc H.
  unfold aggregate_county_losses in H.
  set (out_csv := Py.path_join out TOTAL_LOSS_OUTPUT) in *.
  apply bind_ok_inv in H. destruct H as (ex & w2 & H2 & H).
  unfold path_exists in H2. injection H2 as <- <-.
  assert (Hcond : (match fs w out_csv with Some _ => true | None => false end
                   && negb force) = false).
  { destruct Hc as [-> | ->]; [reflexivity|apply andb_false_r]. }
  rewrite Hcond in H.
  apply bind_ok_inv in H. destruct H as (tl & w3 & H3 & H).
  apply bind_ok_inv in H. destruct H as (df & w4 & H4 & H).
  apply bind_ok_inv in H. destruct H as ([] & w5 & H5 & H).
  apply bind_ok_inv in H. destruct H as ([] & w6 & H6 & H).
  apply bind_ok_inv in H. destruct H as ([] & w7 & H7 & H).
  unfold ret in H. injection H as <- <-.
  unfold lift in H4. injection H4 as H4 <-.
  unfold logger in H5. injection H5 as <-.
  unfold to_csv, write_file in H6. injection H6 as <-. cbn [fs log rng] in H7.
  destruct (aggregate_fold_rows _ _ _ _ _ H3) as (rs & Hrs & HF). cbn [app] in Hrs.
  subst tl.
  assert (Hfiles : forall q, fs w7 q = if String.eqb q out_csv
                                       then Some (to_csv_bytes df) else fs w q).
  { intro q.
    match type of H7 with
    | foldM _ _ _ ?w0 = _ =>
        pose proof (touches_log_rows (fun _ => False) (Frame.rows df) w0 q) as Ht
    end.
    rewrite H7 in Ht. cbn [snd fs] in Ht. destruct Ht as [Ht|[[] _]].
    rewrite Ht. destruct (String.eqb q out_csv); [reflexivity|].
    pose proof (touches_aggregate_fold paths [] w q) as Ht3.
    rewrite H3 in Ht3. cbn [snd] in Ht3. now destruct Ht3 as [Ht3|[[] _]]. }
  split; [reflexivity|].
  assert (Hne : rs <> []) by (intros ->; discriminate H4).
  split.
  { intros ->. inversion HF. congruence. }
  split.
  - exists rs. split; [exact HF|].
    rewrite Hfiles, String.eqb_refl. f_equal. f_equal.
    destruct rs; [congruence|]. cbn in H4. now injection H4 as <-.
  - intros q Hq. rewrite Hfiles.
    destruct (String.eqb_spec q out_csv); [contradiction|reflexivity].
Qed.


(** X8 on the fixture: one scenario with three records. *)
Lemma summary_table_written_witness :
  fst FixtureSummary.run = Py.Ok "res/TotalLoss.csv"%string /\
  "res/TotalLoss.csv"%string = Py.path_join "res" TOTAL_LOSS_OUTPUT /\
  FixtureSummary.paths <> [] /\
  (exists total_losses,
      Forall2 summary_row FixtureSummary.paths total_losses /\
      fs (snd FixtureSummary.run) "res/TotalLoss.csv"
      = Some (@to_csv_bytes FixtureSummary.env
                (Frame.mkFrame summary_columns total_losses))) /\
  (forall q, q <> "res/TotalLoss.csv"%string ->
             fs (snd FixtureSummary.run) q = fs FixtureSummary.world0 q).
Proof.
  assert (H : fst FixtureSummary.run = Py.Ok "res/TotalLoss.csv"%string)
    by (vm_compute; reflexivity).
  split; [exact H|].
  apply (summary_table_written FixtureSummary.env FixtureSummary.paths "res"%string
           false FixtureSummary.world0).
  - left. reflexivity.
  - rewrite <- H. apply surjective_pairing.
Defined.

(** ** Properties of the characterization stage *)

(** X9. Stage 3A returns an inventory only from a checkpoint.  If the stage
    returns a frame, the override was off, the checkpoint file was there,
    the frame is the one read from it, and no file has changed.  When the
    checkpoint is absent, overridden or unreadable, the classification pass
    runs and the stage raises (the pass stops at line 182, or at line 358
    on an inventory without buildings), leaving every file as it was: no
    checkpoint is ever written. *)
Theorem characterization_needs_a_checkpoint :
  forall (E : Env) nsi_data hazus_dir output_dir force_rerun w,
    (forall df w1,
        characterize_buildings nsi_data hazus_dir output_dir force_rerun w
        = (Py.Ok df, w1) ->
        force_rerun = false /\
        exists bytes,
          fs w (Py.path_join output_dir BUILDING_INVENTORY_CHECKPOINT) = Some bytes /\
          read_csv_bytes bytes = Py.Ok df /\
          fs w1 = fs w) /\
    (fs w (Py.path_join output_dir BUILDING_INVENTORY_CHECKPOINT) = None \/
     force_rerun = true \/
     (exists bytes e,
         fs w (Py.path_join output_dir BUILDING_INVENTORY_CHECKPOINT) = Some bytes /\
         read_csv_bytes bytes = Py.Raise e) ->
     (exists e,
         fst (characterize_buildings nsi_data hazus_dir output_dir force_rerun w)
         = Py.Raise e) /\
     (forall p,
         fs (snd (characterize_buildings nsi_data hazus_dir output_dir force_rerun w)) p
         = fs w p)).
Proof.
  intros E nsi hz out force w. unfold characterize_buildings.
  set (path := Py.path_join out BUILDING_INVENTORY_CHECKPOINT).
  assert (Hfresh : fs w path = None \/ force = true ->
                   (exists e, fst (load_or_build path (build_inventory nsi hz) force w)
                              = Py.Raise e) /\
                   (forall p, fs (snd (load_or_build path (build_inventory nsi hz)
                                                     force w)) p = fs w p)).
  { intro Hc. rewrite (load_or_build_fresh _ _ _ _ Hc).
    apply build_and_save_inventory. }
  split.
  - intros df w1 H.
    destruct force.
    { destruct (Hfresh (or_intror eq_refl)) as [[e He] _].
      rewrite H in He. discriminate. }
    split; [reflexivity|].
    destruct (load_or_build_returns _ _ _ _ _ _ H)
      as [(bytes & Hfs & Hread & Hsame & _)|[(w0 & w0' & Hb) _]].
    + now exists bytes.
    + exfalso. exact (build_inventory_never_returns _ _ _ _ _ Hb).
  - intros [Hc|[Hc|(bytes & e & Hfs & Hread)]].
    + apply Hfresh. now left.
    + apply Hfresh. now right.
    + destruct force; [apply Hfresh; now right|].
      rewrite (load_or_build_corrupt _ _ _ _ _ Hfs Hread).
      apply (build_and_save_inventory path nsi hz
               (with_log w [LoadingCheckpoint path; WarnCheckpointError e])).
Qed.

(** X9 on the fixture: a run on an output directory without checkpoint. *)
Lemma characterization_needs_a_checkpoint_witness :
  (exists e,
      fst (characterize_buildings (E := Fixture.env) (inr Fixture.nsi) "hazus" "fresh"
                                  false (Fixture.disk_world 0))
      = Py.Raise e) /\
  (forall p,
      fs (snd (characterize_buildings (E := Fixture.env) (inr Fixture.nsi) "hazus"
                                      "fresh" false (Fixture.disk_world 0))) p
      = fs (Fixture.disk_world 0) p).
Proof.
  apply (proj2 (characterization_needs_a_checkpoint Fixture.env (inr Fixture.nsi)
                  "hazus"%string "fresh"%string false (Fixture.disk_world 0))).
  left. reflexivity.
Defined.

(** X10. The sampler never picks an entry of probability zero.  For a
    generator whose draws lie in [0, 1), a call of [np.random.choice] that
    returns has returned an entry of [a] whose probability is positive; it
    has consumed one draw and changed nothing else. *)
Theorem sampled_entry_has_positive_probability :
  forall (E : Env) (a p : list Py.cell) (w w' : world) (c : Py.cell),
    (forall s, 0 <= fst (random_sample s) /\ fst (random_sample s) < 1) ->
    np_random_choice a p w = (Py.Ok c, w') ->
    (exists i pi q,
        nth_error a i = Some c /\ nth_error p i = Some pi /\
        double_of_cell pi = Py.Ok (Some q) /\ 0 < q) /\
    w' = mkWorld (fs w) (log w) (snd (random_sample (rng w))).
Proof.
  intros E a p w w' c Hu H.
  destruct (np_random_choice_positive a p w w' c Hu H) as [H1 H2].
  split; [exact H1|exact H2].
Qed.

(** X10 on the fixture: subtype WSF1 has probability 0 and WSF2 is drawn. *)
Lemma sampled_entry_has_positive_probability_witness :
  (exists i pi q,
      nth_error [Py.Str "WSF1"; Py.Str "WSF2"] i = Some (Py.Str "WSF2") /\
      nth_error [Py.Float 0; Py.Float 1] i = Some pi /\
      double_of_cell pi = Py.Ok (Some q) /\ 0 < q) /\
  mkWorld (E := Fixture.env) (fun _ => None) [] 3%Z =
  mkWorld (fs Fixture.empty_world) (log Fixture.empty_world)
          (snd (random_sample (rng Fixture.empty_world))).
Proof.
  apply (sampled_entry_has_positive_probability Fixture.env
           [Py.Str "WSF1"; Py.Str "WSF2"] [Py.Float 0; Py.Float 1]
           Fixture.empty_world).
  - intro s. change (fst (random_sample s)) with (((5 * s + 3) mod 16)%Z # 16).
    unfold Qle, Qlt. cbn [Qnum Qden].
    pose proof (Z.mod_pos_bound (5 * s + 3) 16 eq_refl). lia.
  - reflexivity.
Defined.

(** X11. The draws of a sampled column depend on the row position alone.
    Because the generator is reseeded before every column is sampled, two
    columns sampled with the same options and probabilities agree row by
    row: the column of the shorter frame is the beginning of the column of
    the longer one, whatever the frames hold and whatever was drawn
    before. *)
Theorem sampled_columns_share_draws :
  forall (E : Env) seed (df df' : Frame.frame) (a p : list Py.cell)
         (w w' : world) vs vs' w1 w1',
    (Frame.len df <= Frame.len df')%nat ->
    bind (seed_rng seed) (fun _ => apply_choice df a p) w = (Py.Ok vs, w1) ->
    bind (seed_rng seed) (fun _ => apply_choice df' a p) w' = (Py.Ok vs', w1') ->
    vs = firstn (Frame.len df) vs'.
Proof.
  intros E seed df df' a p w w' vs vs' w1 w1' Hlen H H'.
  unfold bind, seed_rng, apply_choice in H, H'.
  eapply (mapM_prefix (np_random_choice a p) (Frame.rows df)
            (state_only_choice a p) (Frame.rows df')); [|exact Hlen|exact H|exact H'].
  reflexivity.
Qed.

(** X11 on the fixture: a frame of one row and a frame of two. *)
Lemma sampled_columns_share_draws_witness :
  [Py.Str "shtys"] = firstn (Frame.len (Frame.mkFrame [] [[]]))
                            [Py.Str "shtys"; Py.Str "shtys"].
Proof.
  apply (sampled_columns_share_draws Fixture.env RANDOM_SEED
           (Frame.mkFrame [] [[]]) (Frame.mkFrame [] [[]; []])
           [Py.Str "shtys"; Py.Str "shtno"] [Py.Float (1 # 2); Py.Float (1 # 2)]
           Fixture.empty_world (Fixture.disk_world 5)
           [Py.Str "shtys"] [Py.Str "shtys"; Py.Str "shtys"]
           (mkWorld (E := Fixture.env) (fun _ => None) [] 0%Z)
           (mkWorld (E := Fixture.env) Fixture.disk [] 3%Z)).
  - cbn. lia.
  - reflexivity.
  - reflexivity.
Defined.

(** X12. The building types share out the subtype columns.  The slices that
    the five building types W, M, C, S and H select follow one another and
    make up the whole list of subtype columns, in its order; every other
    building type selects nothing (its buildings are passed over), except
    [pd.NA], on which the comparison raises TypeError. *)
Theorem subtype_columns_are_shared_out :
  forall Occschemes : list string,
    (exists w m c s h,
        subtype_names (Py.Str "W") Occschemes = Py.Ok (Some w) /\
        subtype_names (Py.Str "M") Occschemes = Py.Ok (Some m) /\
        subtype_names (Py.Str "C") Occschemes = Py.Ok (Some c) /\
        subtype_names (Py.Str "S") Occschemes = Py.Ok (Some s) /\
        subtype_names (Py.Str "H") Occschemes = Py.Ok (Some h) /\
        Occschemes = w ++ m ++ c ++ s ++ h /\
        (List.length w <= 5)%nat /\ (List.length m <= 14)%nat /\
        (List.length c <= 6)%nat /\ (List.length s <= 9)%nat) /\
    (forall bldgType,
        bldgType <> Py.NA ->
        Py.cell_eqb bldgType (Py.Str "W") = false ->
        Py.cell_eqb bldgType (Py.Str "M") = false ->
        Py.cell_eqb bldgType (Py.Str "C") = false ->
        Py.cell_eqb bldgType (Py.Str "S") = false ->
        Py.cell_eqb bldgType (Py.Str "H") = false ->
        subtype_names bldgType Occschemes = Py.Ok None) /\
    subtype_names Py.NA Occschemes = Py.Raise Py.TypeError.
Proof.
  intro l. repeat split.
  - exists (firstn 5 l), (firstn 14 (skipn 5 l)), (firstn 6 (skipn 19 l)),
      (firstn 9 (skipn 25 l)), (skipn 34 l).
    repeat split; try reflexivity; try apply firstn_le_length.
    rewrite <- (firstn_skipn 5 l) at 1. f_equal.
    rewrite <- (firstn_skipn 14 (skipn 5 l)) at 1. f_equal.
    rewrite skipn_skipn. cbn [Nat.add].
    rewrite <- (firstn_skipn 6 (skipn 19 l)) at 1. f_equal.
    rewrite skipn_skipn. cbn [Nat.add].
    rewrite <- (firstn_skipn 9 (skipn 25 l)) at 1. f_equal.
    now rewrite skipn_skipn.
  - intros b Hna HW HM HC HS HH. unfold subtype_names.
    rewrite HW, HM, HC, HS, HH. destruct b; congruence.
Qed.

(** X12 on a building type the code does not know. *)
Lemma subtype_columns_are_shared_out_witness :
  subtype_names (Py.Str "X") ["WSF1"; "WSF2"]%string = Py.Ok None.
Proof.
  apply (proj1 (proj2 (subtype_columns_are_shared_out ["WSF1"; "WSF2"]%string)));
    [discriminate|reflexivity..].
Defined.

(** X13. The occupancy code is cut at its first hyphen.  For every string
    the base occupancy is computed; it is a beginning of the code, it holds
    no hyphen, it is the code itself when the code holds none, and cutting
    it again changes nothing.  A value that is not a string raises
    TypeError. *)
Theorem occupancy_is_cut_at_the_first_hyphen :
  (forall s : string,
      exists t,
        base_occupancy (Py.Str s) = Py.Ok (Py.Str t) /\
        String.prefix t s = true /\
        Py.contains "-" t = false /\
        (Py.contains "-" s = false -> t = s) /\
        base_occupancy (Py.Str t) = Py.Ok (Py.Str t)) /\
  (forall occ, (forall s, occ <> Py.Str s) ->
               base_occupancy occ = Py.Raise Py.TypeError).
Proof.
  split.
  - intro s. unfold base_occupancy at 1.
    destruct (Py.contains "-" s) eqn:Hc.
    + destruct (take_find_hyphen s Hc) as (H0 & H1 & H2).
      unfold Py.take_z.
      destruct (Z.ltb_spec (Py.find_char "-" s) 0) as [Hneg|_]; [lia|].
      eexists. split; [reflexivity|]. repeat split; auto.
      * intro. discriminate.
      * unfold base_occupancy. now rewrite H1.
    + exists s. split; [reflexivity|]. repeat split; auto.
      * apply prefix_refl.
      * unfold base_occupancy. now rewrite Hc.
  - intros occ H. destruct occ; try reflexivity. exfalso. now apply (H s).
Qed.

(** X13 on a missing occupancy. *)
Lemma occupancy_is_cut_at_the_first_hyphen_witness :
  base_occupancy Py.NaN = Py.Raise Py.TypeError.
Proof.
  apply (proj2 occupancy_is_cut_at_the_first_hyphen). discriminate.
Defined.

(** X14. The id assigned to a building is an id of its subtype.  Under the
    conditions of the resolution (catalogue columns present, applicable
    characteristic types distinct and sampled, each sampled value a regular
    expression that compiles), the resolution returns an id: the missing
    value exactly when the catalogue lists no wind building type for the
    sampled subtype, and otherwise the id of one of the types listed for
    that subtype: the filters never empty a candidate set and never bring
    in a type of another subtype. *)
Theorem assigned_id_belongs_to_the_subtype :
  forall (E : Env) huListOfWindBldgTypes sbt cols rows_ char_desc i j k,
    Frame.index_of "sbtName" (Frame.columns huListOfWindBldgTypes) = Some i ->
    Frame.index_of "wbID" (Frame.columns huListOfWindBldgTypes) = Some j ->
    Frame.index_of "charDescription" (Frame.columns huListOfWindBldgTypes) = Some k ->
    NoDup char_desc ->
    sampled cols rows_ char_desc ->
    searchable cols rows_ char_desc ->
    exists id,
      resolve_wbID huListOfWindBldgTypes sbt cols rows_ char_desc = Py.Ok id /\
      ((candidates_of huListOfWindBldgTypes i j k sbt = [] /\ id = Py.NA) \/
       (exists c, In c (candidates_of huListOfWindBldgTypes i j k sbt) /\
                  id = cand_id c)).
Proof.
  intros E wt sbt cols rows_ char_desc i j k Hi Hj Hk Hnd Hs Hse.
  destruct (resolve_wbID_sub wt sbt cols rows_ char_desc i j k Hi Hj Hk Hnd Hs Hse)
    as (rs' & Hr & Hincl & Hne).
  eexists. split; [exact Hr|].
  destruct (candidates_of wt i j k sbt) as [|c0 cands'] eqn:Ec.
  - left. split; [reflexivity|].
    destruct rs' as [|r rs']; [reflexivity|].
    exfalso. apply (Hincl (cand_of j k r)). now left.
  - right. destruct rs' as [|r rs'].
    + exfalso. now apply Hne.
    + exists (cand_of j k r). split; [|reflexivity]. apply Hincl. now left.
Qed.

(** X14 on the fixture: building 1 of subtype WSF1. *)
Lemma assigned_id_belongs_to_the_subtype_witness :
  exists id,
    resolve_wbID (E := Fixture.env) (huListOfWindBldgTypes Fixture.catalogue)
                 (Py.Str "WSF1") FixtureRows.df3_columns FixtureRows.row_1
                 Fixture.charTypes = Py.Ok id /\
    ((candidates_of (huListOfWindBldgTypes Fixture.catalogue) 0 1 2 (Py.Str "WSF1") = []
      /\ id = Py.NA) \/
     (exists c,
         In c (candidates_of (huListOfWindBldgTypes Fixture.catalogue) 0 1 2
                             (Py.Str "WSF1")) /\
         id = cand_id c)).
Proof.
  apply (assigned_id_belongs_to_the_subtype Fixture.env).
  - reflexivity.
  - reflexivity.
  - reflexivity.
  - exact FixtureRows.charTypes_NoDup.
  - exact FixtureRows.row_1_sampled.
  - apply plain_searchable. exact FixtureRows.row_1_plain.
Defined.

(** * Properties of the pipeline *)

(** ** Properties of the input validation *)

(** X15. The validation accepts exactly the complete inputs.
    [validate_inputs] returns when every path it looks for is there (the
    NCAR directory and the three NetCDF files, the NSI file, the Hazus
    directory and its two files, and the inventory when one is given), and
    raises FileNotFoundError when one is missing; either way it changes
    nothing in the world of the engine. *)
Theorem validation_accepts_exactly_complete_inputs :
  forall (E : Env) (a : args) (pw : pworld),
    (fst (validate_inputs a pw) = Py.Ok tt <->
     forall p, In p (required_inputs a) -> fs (engine pw) p <> None) /\
    (fst (validate_inputs a pw) <> Py.Ok tt ->
     fst (validate_inputs a pw) = Py.Raise Py.FileNotFoundError) /\
    engine (snd (validate_inputs a pw)) = engine pw.
Proof.
  intros E a pw. destruct (validate_inputs_result a pw) as [Hok Hbad].
  assert (Hdec : (forall p, In p (required_inputs a) -> fs (engine pw) p <> None) \/
                 ~ (forall p, In p (required_inputs a) -> fs (engine pw) p <> None)).
  { destruct (forallb (fun p => match fs (engine pw) p with
                                | Some _ => true
                                | None => false
                                end) (required_inputs a)) eqn:Hf.
    - left. intros p Hp. rewrite forallb_forall in Hf. specialize (Hf p Hp).
      destruct (fs (engine pw) p); [discriminate|discriminate Hf].
    - right. intro H. assert (Ht : forallb (fun p => match fs (engine pw) p with
                                                    | Some _ => true
                                                    | None => false
                                                    end) (required_inputs a) = true).
      { apply forallb_forall. intros p Hp. specialize (H p Hp).
        destruct (fs (engine pw) p); [reflexivity|congruence]. }
      congruence. }
  split; [|split].
  - split; [|exact Hok].
    intro H. destruct Hdec as [Hd|Hd]; [exact Hd|].
    rewrite (Hbad Hd) in H. discriminate.
  - intro H. destruct Hdec as [Hd|Hd]; [now rewrite (Hok Hd) in H|now apply Hbad].
  - apply reads_validate_inputs.
Qed.

(** One case of X15: nothing of the NCAR directory is on the disk. *)
Lemma validation_accepts_exactly_complete_inputs_witness :
  fst (validate_inputs (FixturePipeline.arguments None None) FixturePipeline.world0)
  = Py.Raise Py.FileNotFoundError.
Proof.
  apply (validation_accepts_exactly_complete_inputs Fixture.env).
  intro H. vm_compute in H. discriminate H.
Defined.

(** ** Properties of the run *)

(** X16. A skipped step needs the files it would have written.  When the
    step list leaves out step 1 and the wind CSV of some scenario is not in
    the processed-wind directory, or leaves out steps 1 and 2 and the joined
    CSV of some scenario is not in its directory, [run_pipeline] raises
    FileNotFoundError, and it has changed nothing in the world of the
    engine. *)
Theorem skipped_steps_need_their_outputs :
  forall (E : Env) (G : Geo) nc_open_bytes (a : args) (pw : pworld)
         (l : list Z) (s : string),
    steps_of a = Py.Ok l ->
    In s SCENARIOS ->
    selected 1 l = false ->
    (fs (engine pw) (wind_output (wind_output_dir a) s) = None \/
     (selected 2 l = false /\
      fs (engine pw) (joined_output (joined_output_dir a) s) = None)) ->
    fst (run_pipeline nc_open_bytes a pw)
    = Py.Raise Py.FileNotFoundError /\
    engine (snd (run_pipeline nc_open_bytes a pw)) = engine pw.
Proof.
  intros E G nc a pw l s. apply skipped_steps_raise.
Qed.

(** One case of X16: step 3 alone, on a disk without the joined file of the
    1971 scenario. *)
Lemma skipped_steps_need_their_outputs_witness :
  fst (run_pipeline (G := FixturePipeline.geo) FixturePipeline.nc_open_fixture
         (FixturePipeline.arguments None (Some "3"%string)) FixturePipeline.world1)
  = Py.Raise Py.FileNotFoundError /\
  engine (snd (run_pipeline (G := FixturePipeline.geo) FixturePipeline.nc_open_fixture
                 (FixturePipeline.arguments None (Some "3"%string))
                 FixturePipeline.world1))
  = engine FixturePipeline.world1.
Proof.
  apply (skipped_steps_need_their_outputs Fixture.env FixturePipeline.geo
           FixturePipeline.nc_open_fixture (FixturePipeline.arguments None (Some "3"%string))
           FixturePipeline.world1 [3%Z] "ida_1971"%string).
  - reflexivity.
  - now left.
  - reflexivity.
  - right. split; reflexivity.
Defined.

(** X17. An inventory given on the command line replaces the
    characterization.  In a run of step 3 alone with [--building-inventory],
    the checkpoint file of the output directory is left as it was, whether
    the run returns or raises; and when the run returns, the inventory among
    its outputs is the table read from the given file. *)
Theorem provided_inventory_replaces_characterization :
  forall (E : Env) (G : Geo) nc_open_bytes (a : args) (pw : pworld)
         (l : list Z) (path : string),
    steps_of a = Py.Ok l ->
    selected 1 l = false -> selected 2 l = false -> selected 3 l = true ->
    building_inventory a = Some path -> path <> EmptyString ->
    fs (engine (snd (run_pipeline nc_open_bytes a pw)))
       (Py.path_join (inventory_output_dir a) BUILDING_INVENTORY_CHECKPOINT)
    = fs (engine pw)
         (Py.path_join (inventory_output_dir a) BUILDING_INVENTORY_CHECKPOINT) /\
    forall out,
      fst (run_pipeline nc_open_bytes a pw) = Py.Ok out ->
      exists bytes df,
        fs (engine pw) path = Some bytes /\
        read_csv_bytes bytes = Py.Ok df /\
        inventory out = Some df.
Proof.
  intros E G nc a pw l path Hl H1 H2 H3 Hb Hp.
  destruct (present_or_missing (engine pw) (wind_output (wind_output_dir a)) SCENARIOS)
    as [Hw|(s & Hs & Hn)].
  2: { destruct (skipped_steps_raise nc a pw l s Hl Hs H1 (or_introl Hn))
         as [Hr He].
       rewrite Hr, He. split; [reflexivity|discriminate]. }
  destruct (present_or_missing (engine pw) (joined_output (joined_output_dir a))
              SCENARIOS) as [Hj|(s & Hs & Hn)].
  2: { destruct (skipped_steps_raise nc a pw l s Hl Hs H1
                   (or_intror (conj H2 Hn))) as [Hr He].
       rewrite Hr, He. split; [reflexivity|discriminate]. }
  destruct (run_pipeline_step3 nc a pw l Hl H1 H2 H3 Hw Hj) as (pw2 & He & Hrun).
  rewrite Hrun.
  destruct (run_step3_given a (found_files (joined_output (joined_output_dir a))
                                           SCENARIOS []) pw2 path Hb Hp)
    as [Hck Hinv].
  rewrite He in Hck, Hinv.
  destruct (run_step3 a _ pw2) as [[[[inv paths] total]|e] pw3] eqn:H3run.
  - rewrite (pbind_run_ok _ _ _ _ _ H3run). cbn [fst snd pret] in *.
    split; [exact Hck|].
    intros out Hout. injection Hout as <-.
    destruct (Hinv _ eq_refl) as (bytes & Hf & Hread).
    exists bytes, inv. cbn [fst] in Hread. now repeat split.
  - rewrite (pbind_run_raise _ _ _ _ _ H3run). cbn [fst snd] in *.
    split; [exact Hck|discriminate].
Qed.

(** One case of X17: step 3 alone with the inventory of [given/]. *)
Lemma provided_inventory_replaces_characterization_witness :
  fs (engine (snd (run_pipeline (G := FixturePipeline.geo) FixturePipeline.nc_open_fixture
                     (FixturePipeline.arguments (Some "given/nsi_wbId_sr.csv"%string)
                                                (Some "3"%string))
                     FixturePipeline.world0)))
     "out/building_inventory/nsi_wbId_sr.csv"%string
  = None.
Proof.
  destruct (provided_inventory_replaces_characterization
              Fixture.env FixturePipeline.geo FixturePipeline.nc_open_fixture
              (FixturePipeline.arguments (Some "given/nsi_wbId_sr.csv"%string)
                                         (Some "3"%string))
              FixturePipeline.world0 [3%Z] "given/nsi_wbId_sr.csv"%string)
    as [H _].
  - reflexivity.
  - reflexivity.
  - reflexivity.
  - reflexivity.
  - reflexivity.
  - discriminate.
  - exact H.
Defined.

(** X18. The pipeline cannot make the inventory itself.  When step 3 runs
    without an inventory on the command line, and [--force-rerun] is set or
    (steps 1 and 2 being skipped) no checkpoint is in the output directory,
    [run_pipeline] raises; and whenever steps 1 and 2 are skipped it leaves
    every file as it was. *)
Theorem pipeline_cannot_build_the_inventory :
  forall (E : Env) (G : Geo) nc_open_bytes (a : args) (pw : pworld)
         (l : list Z),
    steps_of a = Py.Ok l ->
    selected 3 l = true ->
    building_inventory a = None \/ building_inventory a = Some EmptyString ->
    force_rerun a = true \/
    (selected 1 l = false /\ selected 2 l = false /\
     fs (engine pw)
        (Py.path_join (inventory_output_dir a) BUILDING_INVENTORY_CHECKPOINT) = None) ->
    (exists e,
        fst (run_pipeline nc_open_bytes a pw) = Py.Raise e) /\
    (selected 1 l = false -> selected 2 l = false ->
     forall p,
       fs (engine (snd (run_pipeline nc_open_bytes a pw))) p
       = fs (engine pw) p).
Proof.
  intros E G nc a pw l Hl H3 Hb Hc.
  assert (Hb' : match building_inventory a with
                | Some (String _ _) => False
                | _ => True
                end).
  { destruct Hb as [-> | ->]; exact I. }
  assert (Hskip : selected 1 l = false -> selected 2 l = false ->
                  (exists e, fst (run_pipeline nc a pw) = Py.Raise e) /\
                  forall p, fs (engine (snd (run_pipeline nc a pw))) p
                            = fs (engine pw) p).
  { intros H1 H2.
    destruct (present_or_missing (engine pw) (wind_output (wind_output_dir a))
                SCENARIOS) as [Hw|(s & Hs & Hn)].
    2: { destruct (skipped_steps_raise nc a pw l s Hl Hs H1 (or_introl Hn))
           as [Hr He].
         rewrite Hr, He. split; [now eexists|reflexivity]. }
    destruct (present_or_missing (engine pw) (joined_output (joined_output_dir a))
                SCENARIOS) as [Hj|(s & Hs & Hn)].
    2: { destruct (skipped_steps_raise nc a pw l s Hl Hs H1
                     (or_intror (conj H2 Hn))) as [Hr He].
         rewrite Hr, He. split; [now eexists|reflexivity]. }
    destruct (run_pipeline_step3 nc a pw l Hl H1 H2 H3 Hw Hj)
      as (pw2 & He & Hrun).
    rewrite Hrun.
    assert (Hc2 : force_rerun a = true \/ fs (engine pw2) (checkpoint_of a) = None).
    { destruct Hc as [Hc|(_ & _ & Hc)]; [now left|right; now rewrite He]. }
    destruct (run_step3_fresh a (found_files (joined_output (joined_output_dir a))
                                             SCENARIOS []) pw2 Hb' Hc2)
      as [[e Hraise] Hfs].
    destruct (run_step3 a _ pw2) as [r pw3] eqn:H3run. cbn [fst snd] in Hraise, Hfs.
    subst r. rewrite (pbind_run_raise _ _ _ _ _ H3run). cbn [fst snd].
    split; [now exists e|]. intro p. now rewrite Hfs, He. }
  split; [|intros H1 H2; now apply Hskip].
  destruct Hc as [Hf|(H1 & H2 & Hn)]; [|now apply Hskip].
  apply (run_pipeline_raises nc a pw l Hl H3).
  intros joined pw2. apply (run_step3_fresh a joined pw2 Hb'). now left.
Qed.

(** One case of X18: step 3 alone on a disk that has the joined files and
    no checkpoint. *)
Lemma pipeline_cannot_build_the_inventory_witness :
  exists e,
    fst (run_pipeline (G := FixturePipeline.geo) FixturePipeline.nc_open_fixture
           (FixturePipeline.arguments None (Some "3"%string)) FixturePipeline.world0)
    = Py.Raise e.
Proof.
  apply (pipeline_cannot_build_the_inventory
           Fixture.env FixturePipeline.geo FixturePipeline.nc_open_fixture
           (FixturePipeline.arguments None (Some "3"%string))
           FixturePipeline.world0 [3%Z]).
  - reflexivity.
  - reflexivity.
  - now left.
  - right. repeat split; reflexivity.
Defined.

(** ** Properties of the NetCDF processor *)

(** X19. The processor checks its inputs before it writes.  When one of the
    three NetCDF files is not in the NCAR directory, [process_ncar_netcdf]
    raises FileNotFoundError, whatever [force_rerun] is and whichever
    outputs exist; it has changed nothing in the world of the engine, and
    its last log record names all the files that are missing. *)
Theorem missing_netcdf_file_stops_the_processor :
  forall (E : Env) nc_open_bytes (ncar_dir output_dir : string) (force_rerun : bool)
         (pw : pworld) (f : string),
    In f NETCDF_FILES ->
    fs (engine pw) (Py.path_join ncar_dir f) = None ->
    fst (process_ncar_netcdf nc_open_bytes ncar_dir output_dir force_rerun pw)
    = Py.Raise Py.FileNotFoundError /\
    engine (snd (process_ncar_netcdf nc_open_bytes ncar_dir output_dir force_rerun pw))
    = engine pw /\
    exists older,
      records (snd (process_ncar_netcdf nc_open_bytes ncar_dir output_dir
                                        force_rerun pw))
      = older ++ [NcMissingFiles
                    (filter (fun f => match fs (engine pw) (Py.path_join ncar_dir f) with
                                      | Some _ => false
                                      | None => true
                                      end) NETCDF_FILES)].
Proof.
  intros E nc dir out force pw f Hf Hnone.
  destruct (process_ncar_netcdf_run nc dir out force pw) as (pw1 & He & Hrun).
  rewrite Hrun.
  destruct (nonempty (missing_in (engine pw) dir NETCDF_FILES)) eqn:Hne.
  - cbn [fst snd engine records]. repeat split; [exact He|].
    exists (records pw1). reflexivity.
  - exfalso. apply nonempty_false in Hne.
    apply (proj1 (missing_in_nil _ _ _) Hne f Hf Hnone).
Qed.

(** One case of X19: a disk without NetCDF files. *)
Lemma missing_netcdf_file_stops_the_processor_witness :
  fst (process_ncar_netcdf FixturePipeline.nc_open_fixture "ncar" "out/processed_wind"
                           true FixturePipeline.world0)
  = Py.Raise Py.FileNotFoundError.
Proof.
  apply (missing_netcdf_file_stops_the_processor
           Fixture.env FixturePipeline.nc_open_fixture "ncar"%string
           "out/processed_wind"%string true FixturePipeline.world0
           "ida_2021.nc"%string).
  - right. now left.
  - reflexivity.
Defined.

(** X20. What a run of the processor leaves, and what the next run does.
    When [process_ncar_netcdf] returns, its result maps each of the three
    scenarios to [<scenario>.csv] in the output directory, these three files
    exist, and no other path has changed.  A second call without
    [force_rerun] then returns the same result and changes nothing in the
    world of the engine: every scenario is skipped. *)
Theorem processor_outputs_and_rerun :
  forall (E : Env) nc_open_bytes (ncar_dir output_dir : string) (force_rerun : bool)
         (pw : pworld) (d : list (string * string)),
    fst (process_ncar_netcdf nc_open_bytes ncar_dir output_dir force_rerun pw)
    = Py.Ok d ->
    d = map (fun s => (s, wind_output output_dir s)) SCENARIOS /\
    (forall s, In s SCENARIOS ->
               fs (engine (snd (process_ncar_netcdf nc_open_bytes ncar_dir output_dir
                                                    force_rerun pw)))
                  (wind_output output_dir s) <> None) /\
    (forall p,
        (forall s, In s SCENARIOS -> p <> wind_output output_dir s) ->
        fs (engine (snd (process_ncar_netcdf nc_open_bytes ncar_dir output_dir
                                             force_rerun pw))) p
        = fs (engine pw) p) /\
    fst (process_ncar_netcdf nc_open_bytes ncar_dir output_dir false
           (snd (process_ncar_netcdf nc_open_bytes ncar_dir output_dir force_rerun pw)))
    = Py.Ok d /\
    engine (snd (process_ncar_netcdf nc_open_bytes ncar_dir output_dir false
                   (snd (process_ncar_netcdf nc_open_bytes ncar_dir output_dir
                                             force_rerun pw))))
    = engine (snd (process_ncar_netcdf nc_open_bytes ncar_dir output_dir force_rerun pw)).
Proof.
  intros E nc dir out force pw d Hok.
  pose proof (writes_process_ncar_netcdf nc dir out force) as Hwrites.
  destruct (process_ncar_netcdf_run nc dir out force pw) as (pw1 & He & Hrun).
  destruct (nonempty (missing_in (engine pw) dir NETCDF_FILES)) eqn:Hne.
  { rewrite Hrun in Hok. discriminate Hok. }
  apply nonempty_false in Hne.
  pose proof (proj1 (missing_in_nil _ _ _) Hne) as Hin.
  set (pw' := snd (process_ncar_netcdf nc dir out force pw)) in *.
  assert (Hfold : exists pw2,
             pfoldM (process_file nc dir out force) NETCDF_FILES [] pw1 = (Py.Ok d, pw2) /\
             engine pw' = engine pw2).
  { subst pw'. rewrite Hrun in Hok |- *. unfold pbind at 1 in Hok. unfold pbind at 1.
    destruct (pfoldM (process_file nc dir out force) NETCDF_FILES [] pw1)
      as [[d'|e] pw2]; [|discriminate Hok].
    cbn in Hok. injection Hok as ->. exists pw2. split; reflexivity. }
  destruct Hfold as (pw2 & Hfold & He2).
  destruct (process_files_ok nc dir out force NETCDF_FILES [] d pw1 pw2 Hfold)
    as [Hd Hfiles].
  assert (Hd' : d = map (fun s => (s, wind_output out s)) SCENARIOS).
  { rewrite Hd. unfold wind_files. apply (splitext_netcdf (wind_output out)). }
  assert (Hthere : forall s, In s SCENARIOS ->
                             fs (engine pw') (wind_output out s) <> None).
  { intros s Hs. destruct (wind_output_of_scenario out s Hs) as (f & Hf & ->).
    rewrite He2. now apply Hfiles. }
  split; [exact Hd'|]. split; [exact Hthere|]. split.
  { intros p Hp. destruct (Hwrites pw p) as [H|[(f & Hf & ->) _]]; [exact H|].
    exfalso. apply (Hp (PyStr.splitext_root f)); [|reflexivity].
    rewrite <- netcdf_scenarios. now apply in_map. }
  destruct (process_ncar_netcdf_run nc dir out false pw') as (pw3 & He3 & Hrun3).
  assert (Hne3 : nonempty (missing_in (engine pw') dir NETCDF_FILES) = false).
  { apply nonempty_false. apply missing_in_nil. intros f Hf.
    apply (writes_kept _ _ pw _ Hwrites). now apply Hin. }
  rewrite Hne3 in Hrun3. rewrite Hrun3.
  destruct (process_files_skip nc dir out NETCDF_FILES [] pw3) as [Hv Hr].
  { intros f Hf. rewrite He3. apply Hthere. rewrite <- netcdf_scenarios.
    now apply in_map. }
  unfold pbind at 1 3.
  destruct (pfoldM (process_file nc dir out false) NETCDF_FILES [] pw3) as [r pw4].
  cbn [fst snd] in Hv, Hr. subst r. cbn [fst snd plogger pret pbind engine].
  split; [now rewrite <- Hd|]. now rewrite Hr.
Qed.

(** One case of X20: the three files are processed, then skipped. *)
Lemma processor_outputs_and_rerun_witness :
  fst (process_ncar_netcdf FixturePipeline.nc_open_fixture "ncar" "out/processed_wind"
         false
         (snd (process_ncar_netcdf FixturePipeline.nc_open_fixture "ncar"
                 "out/processed_wind" true FixtureNetcdf.world_grid)))
  = Py.Ok [("ida_1971", "out/processed_wind/ida_1971.csv");
           ("ida_2021", "out/processed_wind/ida_2021.csv");
           ("ida_2071", "out/processed_wind/ida_2071.csv")]%string.
Proof.
  apply (processor_outputs_and_rerun
           Fixture.env FixturePipeline.nc_open_fixture "ncar"%string
           "out/processed_wind"%string true FixtureNetcdf.world_grid).
  vm_compute. reflexivity.
Defined.

(** X21. What the CSV of a scenario holds.  When the body of the [try]
    returns, the NetCDF file was there and has the three variables, their
    flattened arrays have one length, and the file written is the CSV of a
    table with the columns [Longitude], [Latitude], [Wind_Speed] and
    [Gust_Wind_Speed] and one row for each grid point, in the order of the
    arrays: the longitude minus 360, the latitude, the wind speed, and the
    wind speed times 1.28 times 2.23694; a masked value gives NaN. *)
Theorem wind_csv_holds_the_grid :
  forall (E : Env) nc_open_bytes (ncar_dir netcdf_file scenario output_csv : string)
         (pw : pworld),
    fst (process_file_body nc_open_bytes ncar_dir netcdf_file scenario output_csv pw)
    = Py.Ok tt ->
    exists bytes nc swath_wind lon_2d lat_2d df,
      fs (engine pw) (Py.path_join ncar_dir netcdf_file) = Some bytes /\
      nc_open_bytes bytes = Py.Ok nc /\
      nc_lookup "swath_wind" nc = Some swath_wind /\
      nc_lookup "lon_2d" nc = Some lon_2d /\
      nc_lookup "lat_2d" nc = Some lat_2d /\
      fs (engine (snd (process_file_body nc_open_bytes ncar_dir netcdf_file scenario
                                         output_csv pw))) output_csv
      = Some (to_csv_bytes df) /\
      Frame.columns df
      = ["Longitude"; "Latitude"; "Wind_Speed"; "Gust_Wind_Speed"]%string /\
      List.length (data lon_2d) = List.length (data swath_wind) /\
      List.length (data lat_2d) = List.length (data swath_wind) /\
      List.length (Frame.rows df) = List.length (data swath_wind) /\
      forall i x y w,
        nth_error (data lon_2d) i = Some x ->
        nth_error (data lat_2d) i = Some y ->
        nth_error (data swath_wind) i = Some w ->
        nth_error (Frame.rows df) i
        = Some [match x with
                | Some q => Py.Float (q + inject_Z LONGITUDE_ADJUSTMENT)
                | None => Py.NaN
                end;
                match y with Some q => Py.Float q | None => Py.NaN end;
                match w with Some q => Py.Float q | None => Py.NaN end;
                match w with
                | Some q => Py.Float (q * GUST_FACTOR_NCAR * MS_TO_MPH)
                | None => Py.NaN
                end].
Proof.
  intros E nc_open dir f scenario out pw Hok.
  destruct (process_file_body_table nc_open dir f scenario out pw Hok)
    as (bytes & nc & sw & lon & lat & df & Hfs & Hnc & Hsw & Hlon & Hlat & Hdf & Hout).
  destruct (wind_table_rows sw lon lat df Hdf) as (Hc & Hl1 & Hl2 & Hl3 & Hrows).
  exists bytes, nc, sw, lon, lat, df. repeat split; assumption.
Qed.

(** One case of X21: the small grid, whose second wind value is masked. *)
Lemma wind_csv_holds_the_grid_witness :
  exists bytes nc swath_wind lon_2d lat_2d df,
    fs (engine FixtureNetcdf.world_grid) "ncar/ida_1971.nc"%string = Some bytes /\
    FixturePipeline.nc_open_fixture bytes = Py.Ok nc /\
    nc_lookup "swath_wind" nc = Some swath_wind /\
    nc_lookup "lon_2d" nc = Some lon_2d /\
    nc_lookup "lat_2d" nc = Some lat_2d /\
    fs (engine (snd (process_file_body FixturePipeline.nc_open_fixture "ncar"
                       "ida_1971.nc" "ida_1971" "out/processed_wind/ida_1971.csv"
                       FixtureNetcdf.world_grid))) "out/processed_wind/ida_1971.csv"%string
    = Some (to_csv_bytes (Env := Fixture.env) df) /\
    Frame.columns df
    = ["Longitude"; "Latitude"; "Wind_Speed"; "Gust_Wind_Speed"]%string /\
    List.length (data lon_2d) = List.length (data swath_wind) /\
    List.length (data lat_2d) = List.length (data swath_wind) /\
    List.length (Frame.rows df) = List.length (data swath_wind) /\
    forall i x y w,
      nth_error (data lon_2d) i = Some x ->
      nth_error (data lat_2d) i = Some y ->
      nth_error (data swath_wind) i = Some w ->
      nth_error (Frame.rows df) i
      = Some [match x with
              | Some q => Py.Float (q + inject_Z LONGITUDE_ADJUSTMENT)
              | None => Py.NaN
              end;
              match y with Some q => Py.Float q | None => Py.NaN end;
              match w with Some q => Py.Float q | None => Py.NaN end;
              match w with
              | Some q => Py.Float (q * GUST_FACTOR_NCAR * MS_TO_MPH)
              | None => Py.NaN
              end].
Proof.
  apply (wind_csv_holds_the_grid
           Fixture.env FixturePipeline.nc_open_fixture "ncar"%string
           "ida_1971.nc"%string "ida_1971"%string
           "out/processed_wind/ida_1971.csv"%string FixtureNetcdf.world_grid).
  vm_compute. reflexivity.
Defined.

(** X22. A NetCDF file without one of its variables stops the processor.
    When the file of some scenario lacks [swath_wind], [lon_2d] or [lat_2d],
    and that scenario is not skipped ([force_rerun] is set or its CSV is not
    there), [process_ncar_netcdf] raises, and the CSV of that scenario is
    left as it was. *)
Theorem missing_variable_stops_the_processor :
  forall (E : Env) nc_open_bytes (ncar_dir output_dir : string) (force_rerun : bool)
         (pw : pworld) (f bytes : string) (nc : nc_dataset) (v : string),
    In f NETCDF_FILES ->
    fs (engine pw) (Py.path_join ncar_dir f) = Some bytes ->
    nc_open_bytes bytes = Py.Ok nc ->
    In v ["swath_wind"; "lon_2d"; "lat_2d"]%string ->
    nc_lookup v nc = None ->
    force_rerun = true \/
    fs (engine pw) (wind_output output_dir (PyStr.splitext_root f)) = None ->
    (exists e,
        fst (process_ncar_netcdf nc_open_bytes ncar_dir output_dir force_rerun pw)
        = Py.Raise e) /\
    fs (engine (snd (process_ncar_netcdf nc_open_bytes ncar_dir output_dir
                                         force_rerun pw)))
       (wind_output output_dir (PyStr.splitext_root f))
    = fs (engine pw) (wind_output output_dir (PyStr.splitext_root f)).
Proof.
  intros E nc_open dir out force pw f bytes nc v Hf Hfs Hnc Hv Hnone Hforce.
  destruct (process_ncar_netcdf_run nc_open dir out force pw) as (pw1 & He & Hrun).
  rewrite Hrun.
  destruct (nonempty (missing_in (engine pw) dir NETCDF_FILES)).
  { cbn [fst snd engine]. split; [now eexists|now rewrite He]. }
  destruct (process_files_missing_variable nc_open dir out force NETCDF_FILES []
              pw1 f bytes nc) as [[e Hraise] Hkeep].
  - repeat constructor; cbn; intuition discriminate.
  - auto.
  - exact Hf.
  - now rewrite He.
  - exact Hnc.
  - exists v. split; [exact Hv|exact Hnone].
  - destruct Hforce as [Hforce|Hforce]; [now left|right; now rewrite He].
  - destruct (pfoldM (process_file nc_open dir out force) NETCDF_FILES [] pw1)
      as [r pw2] eqn:Hfold.
    cbn [fst snd] in Hraise, Hkeep. subst r.
    rewrite (pbind_run_raise _ _ _ _ _ Hfold). cbn [fst snd].
    split; [now exists e|now rewrite Hkeep, He].
Qed.

(** One case of X22: the file of 2021 has no wind variable. *)
Lemma missing_variable_stops_the_processor_witness :
  (exists e,
      fst (process_ncar_netcdf FixturePipeline.nc_open_fixture "ncar"
             "out/processed_wind" true FixtureNetcdf.world_nowind)
      = Py.Raise e) /\
  fs (engine (snd (process_ncar_netcdf FixturePipeline.nc_open_fixture "ncar"
                     "out/processed_wind" true FixtureNetcdf.world_nowind)))
     "out/processed_wind/ida_2021.csv"%string
  = None.
Proof.
  apply (missing_variable_stops_the_processor
           Fixture.env FixturePipeline.nc_open_fixture "ncar"%string
           "out/processed_wind"%string true FixtureNetcdf.world_nowind
           "ida_2021.nc"%string "nowind"%string (tl FixturePipeline.grid)
           "swath_wind"%string).
  - right. now left.
  - reflexivity.
  - reflexivity.
  - now left.
  - reflexivity.
  - now left.
Defined.

(** ** Properties of the spatial join *)

(** X23. The join writes nothing before the inventory of the NSI is loaded.
    When the NSI file is not there, [join_buildings_wind] raises
    FileNotFoundError; when geopandas cannot read or project it, the join
    raises that exception.  In both cases nothing has changed in the world
    of the engine, whatever the scenarios and [force_rerun] are. *)
Theorem join_needs_the_inventory :
  forall (E : Env) (G : Geo) (nsi_path : string) (wind_csv_paths : list (string * string))
         (output_dir : string) (force_rerun : bool) (pw : pworld),
    (fs (engine pw) nsi_path = None ->
     fst (join_buildings_wind nsi_path wind_csv_paths output_dir force_rerun pw)
     = Py.Raise Py.FileNotFoundError /\
     engine (snd (join_buildings_wind nsi_path wind_csv_paths output_dir force_rerun pw))
     = engine pw) /\
    (forall bytes e,
        fs (engine pw) nsi_path = Some bytes ->
        gpd_read_file_bytes bytes = Py.Raise e \/
        (exists nsi, gpd_read_file_bytes bytes = Py.Ok nsi /\ to_crs nsi = Py.Raise e) ->
        fst (join_buildings_wind nsi_path wind_csv_paths output_dir force_rerun pw)
        = Py.Raise e /\
        engine (snd (join_buildings_wind nsi_path wind_csv_paths output_dir
                                         force_rerun pw))
        = engine pw).
Proof.
  intros E G nsi wind out force pw.
  destruct (join_buildings_wind_run nsi wind out force pw) as (pw1 & He & Hrun).
  rewrite Hrun. split.
  - intros ->. now split.
  - intros bytes e -> [-> | (g & -> & ->)]; now split.
Qed.

(** One case of X23: a join on a disk without the NSI file. *)
Lemma join_needs_the_inventory_witness :
  fst (join_buildings_wind (G := FixturePipeline.geo) "missing.gpkg"
         [("ida_1971", "out/processed_wind/ida_1971.csv")]%string
         "out/joined_data" true FixturePipeline.world0)
  = Py.Raise Py.FileNotFoundError.
Proof.
  apply (join_needs_the_inventory
           Fixture.env FixturePipeline.geo "missing.gpkg"%string
           [("ida_1971", "out/processed_wind/ida_1971.csv")]%string
           "out/joined_data"%string true FixturePipeline.world0).
  reflexivity.
Defined.

(** X24. What a run of the join leaves, and what the next run does.  When
    [join_buildings_wind] returns, its result maps each scenario of
    [wind_csv_paths] to [<scenario>/<scenario>.csv] in the output directory,
    these files exist, and no other path has changed.  If the NSI file is
    not one of these paths, a second call without [force_rerun] returns the
    same result and changes nothing in the world of the engine. *)
Theorem join_outputs_and_rerun :
  forall (E : Env) (G : Geo) (nsi_path : string) (wind_csv_paths : list (string * string))
         (output_dir : string) (force_rerun : bool) (pw : pworld)
         (d : list (string * string)),
    NoDup (map fst wind_csv_paths) ->
    fst (join_buildings_wind nsi_path wind_csv_paths output_dir force_rerun pw)
    = Py.Ok d ->
    d = map (fun item => (fst item, joined_output output_dir (fst item))) wind_csv_paths /\
    (forall item,
        In item wind_csv_paths ->
        fs (engine (snd (join_buildings_wind nsi_path wind_csv_paths output_dir
                                             force_rerun pw)))
           (joined_output output_dir (fst item)) <> None) /\
    (forall p,
        (forall item, In item wind_csv_paths ->
                      p <> joined_output output_dir (fst item)) ->
        fs (engine (snd (join_buildings_wind nsi_path wind_csv_paths output_dir
                                             force_rerun pw))) p
        = fs (engine pw) p) /\
    ((forall item, In item wind_csv_paths ->
                   nsi_path <> joined_output output_dir (fst item)) ->
     fst (join_buildings_wind nsi_path wind_csv_paths output_dir false
            (snd (join_buildings_wind nsi_path wind_csv_paths output_dir
                                      force_rerun pw)))
     = Py.Ok d /\
     engine (snd (join_buildings_wind nsi_path wind_csv_paths output_dir false
                    (snd (join_buildings_wind nsi_path wind_csv_paths output_dir
                                              force_rerun pw))))
     = engine (snd (join_buildings_wind nsi_path wind_csv_paths output_dir
                                        force_rerun pw))).
Proof.
  intros E G nsi wind out force pw d Hnd Hok.
  pose proof (writes_join_buildings_wind nsi wind out force) as Hwrites.
  destruct (join_buildings_wind_run nsi wind out force pw) as (pw1 & He & Hrun).
  set (pw' := snd (join_buildings_wind nsi wind out force pw)) in *.
  destruct (fs (engine pw) nsi) as [bytes|] eqn:Hfs.
  2: { rewrite Hrun in Hok. discriminate Hok. }
  destruct (match gpd_read_file_bytes bytes with
            | Py.Ok g => to_crs g
            | Py.Raise e => Py.Raise e
            end) as [proj|e] eqn:Hload.
  2: { rewrite Hrun in Hok. discriminate Hok. }
  assert (Hfold : exists pw2,
             pfoldM (join_scenario proj out force) wind [] pw1 = (Py.Ok d, pw2) /\
             engine pw' = engine pw2).
  { subst pw'. rewrite Hrun in Hok |- *. unfold pbind at 1 in Hok. unfold pbind at 1.
    destruct (pfoldM (join_scenario proj out force) wind [] pw1)
      as [[d'|e] pw2]; [|discriminate Hok].
    cbn in Hok. injection Hok as ->. exists pw2. split; reflexivity. }
  destruct Hfold as (pw2 & Hfold & He2).
  destruct (join_scenarios_ok proj out force wind [] d pw1 pw2 Hfold) as [Hd Hfiles].
  assert (Hd' : d = map (fun item => (fst item, joined_output out (fst item))) wind).
  { rewrite Hd. unfold joined_files.
    now rewrite (fold_dict_set_fresh (joined_output out) wind []). }
  split; [exact Hd'|]. split.
  { intros item Hin. rewrite He2. now apply Hfiles. }
  split.
  { intros p Hp. destruct (Hwrites pw p) as [H|[(item & Hin & ->) _]]; [exact H|].
    exfalso. now apply (Hp item Hin). }
  intro Hnsi.
  destruct (join_buildings_wind_run nsi wind out false pw') as (pw3 & He3 & Hrun3).
  assert (Hfs' : fs (engine pw') nsi = Some bytes).
  { rewrite <- Hfs. apply (writes_unchanged _ _ pw _ Hwrites).
    intros (item & Hin & Heq). now apply (Hnsi item Hin). }
  rewrite Hfs', Hload in Hrun3. rewrite Hrun3.
  destruct (join_scenarios_skip proj out wind [] pw3) as [Hv Hr].
  { intros item Hin. rewrite He3, He2. now apply Hfiles. }
  unfold pbind at 1 3.
  destruct (pfoldM (join_scenario proj out false) wind [] pw3) as [r pw4].
  cbn [fst snd] in Hv, Hr. subst r. cbn [fst snd plogger pret pbind engine].
  split; [now rewrite <- Hd|]. now rewrite Hr.
Qed.

(** One case of X24: the join of one scenario, then the same call again. *)
Lemma join_outputs_and_rerun_witness :
  fst (join_buildings_wind (G := FixturePipeline.geo) "nsi.gpkg"
         [("ida_2021", "out/processed_wind/ida_2021.csv")]%string "joined" false
         (snd (join_buildings_wind (G := FixturePipeline.geo) "nsi.gpkg"
                 [("ida_2021", "out/processed_wind/ida_2021.csv")]%string "joined" true
                 FixturePipeline.world0)))
  = Py.Ok [("ida_2021", "joined/ida_2021/ida_2021.csv")]%string.
Proof.
  apply (join_outputs_and_rerun
           Fixture.env FixturePipeline.geo "nsi.gpkg"%string
           [("ida_2021", "out/processed_wind/ida_2021.csv")]%string
           "joined"%string true FixturePipeline.world0
           [("ida_2021", "joined/ida_2021/ida_2021.csv")]%string).
  - repeat constructor. intros [].
  - vm_compute. reflexivity.
  - intros item [<-|[]]. vm_compute. discriminate.
Defined.

(** ** What a run may change *)

(** X25. The pipeline changes only its own outputs.  Whatever a run of
    [run_pipeline] does, and whether it returns or raises, a path keeps its
    contents unless it is the wind CSV of a scenario, a joined CSV, the
    [Losses.csv] of a scenario or [TotalLoss.csv], each in its place under
    the output directory; and no file that existed is removed. *)
Theorem pipeline_changes_only_its_outputs :
  forall (E : Env) (G : Geo) nc_open_bytes (a : args) (pw : pworld) (p : string),
    fs (engine (snd (run_pipeline nc_open_bytes a pw))) p = fs (engine pw) p \/
    (((exists s, In s SCENARIOS /\
                 p = Py.path_join (Py.path_join (output_dir a) "processed_wind")
                                  (s ++ ".csv")) \/
      (exists s, p = Py.path_join (Py.path_join (Py.path_join (output_dir a) "joined_data")
                                                s)
                                  (s ++ ".csv")) \/
      (exists s, p = Py.path_join (Py.path_join (Py.path_join (output_dir a) "results") s)
                                  "Losses.csv") \/
      p = Py.path_join (Py.path_join (output_dir a) "results") "TotalLoss.csv") /\
     fs (engine (snd (run_pipeline nc_open_bytes a pw))) p <> None).
Proof.
  intros E G nc a pw p.
  exact (writes_run_pipeline nc a pw p).
Qed.
